(* ===== verification/_CoqProject ===== *)
-Q . S2P
Prelude.v
Hex.v
Base64.v
Hash.v
Sha256.v
Hmac.v
Signature.v
Url.v
Gin.v
Chain.v
Utf8.v
Json.v
Decode.v
Callback.v
Order.v
Server.v
Concurrent.v
Wire.v
Gateway.v
