(* ===== verification/Prelude.v ===== *)
(** * Verification of the Razorpay payment-gateway backend (src/main.go)

    The program is one Go file: an HTTP server with two handlers behind a
    CORS middleware.  [main] loads the environment file, builds the router
    and listens on port 8080.  [createRazorpayOrder] asks the payment
    gateway for an order and reshapes its answer; [PaymentGatewayCallback]
    reads a form-encoded body, extracts three fields and checks an
    HMAC-SHA256 signature with [verifyRazorpaySignature].  No state
    survives a request; what is hard is the order of the checks, the exact
    bytes that are signed and compared, and the behaviour of the library
    calls the handlers rely on.  The development therefore models the
    program statement by statement, and under it the parts of the Go
    standard library and of gin that decide what the program does.

    ** Files, in the order of their dependencies

    - [Prelude] (this file): the libraries every file loads, Go's machine
      integers ([u8], [u32], [i8]: values as [Z] with the wrap-around
      written out), the conversion between Go strings and byte slices, the
      control-flow monad [Go.M] in which handlers are written (state
      passing, early [return], [panic], [defer], calls), its laws, the hint
      databases and the tactics of the development.
    - [Hex]: [encoding/hex] ([hex.Encode], [hex.EncodeToString],
      [hex.Decode]); the encoding is injective, lower-case, and decoding
      inverts it.
    - [Base64]: [encoding/base64] ([base64.Encode], [EncodeToString] of
      the standard encoding with padding), with the decoder of RFC 4648 as
      reference: decoding inverts encoding.
    - [Hash]: the interface [hash.Hash] of Go as a type class, and the laws
      [hash.HashLaws] a client may rely on (the hash of a stream depends on
      the bytes written, not on how they were split into writes).
    - [Sha256]: [crypto/sha256] as Go implements it: the [digest] with its
      64-byte buffer and byte count, [Write] in its three stages, the block
      function on 32-bit words, padding and [Sum].  It refines the
      reference [absorb]/[Sum256_ref] that hashes the whole message at
      once, keeps the invariant [valid], and is an instance of the
      interface with its laws.  Test vectors evaluate by [vm_compute].
    - [Hmac]: [crypto/subtle] ([ConstantTimeCompare], with the count of
      iterations it runs) and [crypto/hmac] (the object [New]/[Write]/[Sum]
      over any instance of the interface, [Equal]), proved equal to the
      definition of RFC 2104 from the laws of the interface alone.
    - [Signature]: [verifyRazorpaySignature] (src/main.go:139-144).  The
      theorems say what it decides (it accepts exactly the computed
      signature), that the computed signature is the RFC 2104 HMAC-SHA256 in
      64 lower-case hexadecimal characters, that any flipped bit is
      rejected, what the comparison costs, and what the signed message does
      and does not determine.
    - [Url]: [net/url]'s [ParseQuery] with unescaping and its errors, and
      [QueryEscape] with the form encoding as reference: every key of a
      parsed form has a value (so [v[0]] is in range), parsing inverts
      encoding, and parsing two queries joined by [&] is parsing the second
      in the form of the first: the first value of a key stays the first.
    - [Gin]: what the program uses of gin, [os], [io] and [fmt]: JSON
      values as trees, the response writer, the context with its index in
      the handler chain, the process (environment, standard output,
      requests sent to the gateway), [c.JSON], [c.AbortWithStatus],
      [c.Next] as the loop gin writes ([gin.Next_loop], with fuel) and
      unrolled along the chain ([gin.run_handlers]), [gin.Logger] with the
      line it prints, [gin.Recovery], [gin.Default], [Use], [POST], routing,
      the redirection of a path that differs from a route by its trailing
      slash ([gin.redirectTrailingSlash], with [http.Redirect]) and the
      404 of the engine.
    - [Chain]: the loop of [c.Next] comes to its end.  For a chain of at
      most 63 handlers that behave ([chain.Behaved]: a handler calls
      [c.Next()] with the index it was entered with and leaves the index
      where it was or where [c.Next()] or [c.Abort()] left it), the loop
      with any fuel above the length of the chain equals the unrolled
      chain, and [c.index] stays below 127.
    - [Utf8]: [unicode/utf8]: [utf8.DecodeRune] and [utf8.EncodeRune] with
      their tables and bit operations, and the well-formed byte sequences
      of the Unicode standard ([utf8.sequence]): decoding yields the error
      of one byte or the scalar value of the well-formed sequence at the
      head of the input, and encoding writes that sequence back.
    - [Json]: [encoding/json]: [json.appendString] with its loop over two
      indices (with fuel), proved equal to the reference [json.quote];
      [json.Marshal] on the trees of [Gin]; the decoder [json.unquote] of
      a quoted string.  Decoding what was encoded gives, for every string,
      the string with the bytes that are not UTF-8 replaced by U+FFFD
      ([json.coerce]); that is the string itself exactly when it is valid
      UTF-8 ([json.valid]).
    - [Decode]: the side of the client: a reader of JSON documents after
      RFC 8259 for the values of the model ([decode.document]).  What
      [json.encode] writes is read back with its strings in their valid
      form, which is the document itself exactly when its strings are
      valid UTF-8; the fuel of the reader is enough on every input.
    - [Callback]: the [Payment] struct and [PaymentGatewayCallback]
      (src/main.go:78-137), written in the monad as the source is, and its
      specification [callback_flow]: the decision [callback_outcome] on the
      body and the secret, the answer of each outcome, the state left.  The
      refinement theorem says the handler is that function; the other
      theorems read off the answer on every path, errors included, what
      the handler does besides answering, and that fields which follow the
      three expected ones do not change the verdict
      ([callback_extra_fields]).
    - [Order]: the gateway as the class [razorpay.Gateway] (what
      [Order.Create] answers to a client and a payload) and
      [createRazorpayOrder] (src/main.go:52-76), with its specification
      [order_flow] and the theorems on both outcomes of the gateway call.
    - [Server]: [corsMiddleware] and [main] (src/main.go:19-50): [main]
      with the three ways it ends (the environment file cannot be loaded,
      the server cannot listen, the server serves) and the exit status of
      each, the router it builds, the specification [serve_spec] of what
      the router does with any request, the refinement theorem, the properties of every
      response (CORS headers, independence from earlier requests), and the
      relation [served] of a process serving a sequence of requests with
      its invariants, proved by induction on the relation; that every
      chain of the router terminates, that every request is answered, and
      that a handler that panics is answered 500.  A [POST] to the path
      of a route followed by a slash is answered by the engine with a
      redirection, before any middleware: [serve_redirect] shows that this
      one response carries no CORS header and leaves no line of the logger.
    - [Concurrent]: the server of [net/http] that [router.Run] starts,
      with a goroutine for each request: a step of the server accepts a
      request or lets one goroutine print a line or send a request
      ([http.step]), a schedule is a list of steps ([http.run]).  The
      model is written for any handler that is reentrant
      ([http.Reentrant]), which the engine of the program is.  For every
      schedule, the environment stays, the gateway is called once for
      each order, and standard output is a merge of the lines of the
      requests, each in its order ([serve_concurrently]); serving one
      after the other is one of the schedules ([serve_in_sequence]); no
      goroutine is blocked and each returns after as many steps as it has
      lines and requests to write.
    - [Wire]: the responses as they leave the server: the status with the
      body as bytes ([resp_bytes]) for every answer of the two handlers,
      and the document a client reads from that body ([read_body]): the
      answer of the handler, unchanged exactly when the identifiers of the
      payment, or the message or the order of the gateway and the
      configured key, are valid UTF-8.  [serve_wire] puts the router, the
      handlers, the encoder and the reader together: for every request,
      the content type and the body the client receives, and whether it
      reads a document from it.

    - [Gateway]: the request of [createRazorpayOrder] on its way to the
      gateway: the header [Authorization] that [SetBasicAuth] writes from
      the key and the secret of the environment, the payload as JSON, and
      what a server reads back from both ([order_on_the_wire]).

    ** Conventions

    - A Go [string] is a Rocq [string] (a sequence of 8-bit characters); a
      [[]byte] is a [list byte]; [[]byte(s)] is [bytes_of_string s].
    - A [uint8] or [uint32] is a [Z] in range; every operation that can
      overflow is followed by its wrap ([u8.wrap], [u32.wrap]).  The byte
      count of SHA-256 is a [uint64] and wraps the same way.
    - A Go function with side effects is a [Go.M S A]: a function from the
      state [S] to one of [Continue a s] (fell through with value [a]),
      [Return s] (executed a [return]) or [Panic msg s] (a run-time panic).
      A handler is a [gin.M unit]; a middleware is a function of the
      computation [c.Next()] stands for.
    - Each handler has a lemma [<handler>_run] (on every state it is the
      specification) from which the theorems about it are derived, and the
      theorem [<handler>_refines], which states the same with the
      equivalence of computations.
    ** Loops, fuel and bounds

    - The loops over bytes (hexadecimal encoding, the comparison of
      [crypto/subtle], unescaping) are structural [Fixpoint]s, and the
      block loop of SHA-256 recurses on the number of whole blocks:
      termination is by construction.
    - Three recursions are not structural, and are written
      with fuel.  Out of fuel they stop with a result of their own (a panic
      [out of fuel], [None]), and the theorems say that this result never
      shows: enough fuel is given, and more fuel changes nothing.
      - [gin.Next_loop], the loop of [c.Next]: a middleware that calls
        [c.Next()] enters the loop again on the same context.  The engine
        gives [length handlers + 1] units; [chain.chain_loop_run] shows
        that from index [i] the loop needs [length handlers - i + 1] tests
        on any path of calls, because every turn and every nested call
        starts by an increment of [c.index] and the loop stops at the
        length of the chain.
      - [json.appendString_loop], the loop that quotes a string, advances
        by the size of a rune (1 to 4 bytes); [json.appendString] gives
        [length src + 1] units and [json.json_loop_run] shows that
        [length src - i + 1] are enough from index [i].
      - [decode.value], the reader of a value, calls itself on the values
        of an object; [decode.document] gives the length of the input, and
        [decode.decode_value_fuel] shows that the result is the same with
        any fuel from there on, because every value takes a byte.
    - [c.index] is an [int8]; its increment wraps ([i8.incr]).  gin
      refuses chains of 63 handlers or more, [c.Abort()] sets the index to
      63, and for such chains the index ends between the length of the
      chain and 126 ([chain.chain_unrolled_index]): no overflow.  The
      chains of the program have 3 and 4 handlers.
    - A number of a JSON document is an integer written in decimal, which
      is what Go writes for an [int] and for a [float64] of integral value
      up to [2^53] in magnitude.  The numbers of the gateway's order are
      [float64]: beyond [2^53] Go writes the shortest digits that denote
      the same [float64], not the digits of the integer, and from [1e21]
      on an exponent; such numbers are outside the model.

    ** What is not modelled

    - The network: sockets, connections, the parsing of requests and the
      writing of responses by [net/http], time-outs and keep-alive.  A
      request is a method, a path and a body.  Of the server, the
      goroutines and the order of their steps are modelled ([Concurrent]);
      a step is a whole line printed or a whole request sent, which is
      how [fmt.Println] and the logger write, and the order between a
      line and a request of the same goroutine is left open.
    - Of [encoding/json]: arrays, booleans and floats that are not
      integers.  An object is the list of its members in the order of
      the output: the fields of a struct as declared, the keys of a map
      sorted ([gin.H], by a merge sort on the order of the bytes; Go
      sorts with another algorithm, and a sorted list of distinct keys
      is unique).  The decoder of Go ([Unmarshal]) is not modelled: the
      reader of [Decode] follows the grammar of RFC 8259, and takes from
      the package the decoding of a quoted string ([json.unquote]).
    - The gateway itself: its answer is a function of the client and the
      payload ([razorpay.Gateway]), and every theorem about the order
      handler holds for any such function.  Of the request [razorpay-go]
      sends, the header [Authorization] and the body are modelled
      ([Gateway]); the URL, the other headers, the transport and the
      decoding of the response are not.
    - Reading and parsing the environment file: [godotenv.Load] is given
      the variables of the file, or the fact that loading failed.
    - Of the line [gin.Logger] prints per request, the time stamp, the
      latency and the client address; what [gin.Recovery] writes to
      standard error; what gin prints in debug mode, which is its mode
      unless [GIN_MODE] says otherwise (warnings and the table of routes
      at start-up, a line for each redirection): standard output in the
      model is that of release mode.
    - The radix tree of gin's router and path parameters: a route is
      found by equality of method and path, and the recommendation to
      redirect ([gin.tsr]) is the documented one, that the path with its
      last slash added or removed is a route of the method, which is what
      the tree answers for the two fixed paths of the program.  Requests
      carry no header and no query string, so the prefix
      [X-Forwarded-Prefix] adds to a redirection is absent and [Location]
      is the path of the route.
    - [url.ParseQuery] is the one of Go 1.17 and later, where a semicolon in
      the body is an error.
*)

From Stdlib Require Export ZArith Lia List String Ascii.
From Stdlib Require Export Strings.Byte.
From stdpp Require Export prelude strings gmap.

#[global] Open Scope Z_scope.

(** The hint databases of the development: [gobase] holds range and length
    facts ([auto with gobase]), the rewrite database [gosimpl] the equations
    that normalise byte, word and string expressions. *)
Create HintDb gobase discriminated.
Create Rewrite HintDb gosimpl.

(** ** Bounds of bitwise operations *)

Lemma Z_bits_bound n a : 0 <= n -> 0 <= a -> (forall i, n <= i -> Z.testbit a i = false) -> a < 2 ^ n.
Proof.
  intros Hn Ha Hbits. destruct (decide (a = 0)) as [->|Hne]; [by apply Z.pow_pos_nonneg|].
  apply Z.log2_lt_pow2; [lia|].
  destruct (Z.lt_ge_cases (Z.log2 a) n) as [|Hge]; [done|].
  specialize (Hbits _ Hge). rewrite Z.bit_log2 in Hbits by lia. done.
Qed.

Lemma Z_bound_bits n a i : 0 <= a < 2 ^ n -> n <= i -> Z.testbit a i = false.
Proof.
  intros [Ha Hlt] Hi. destruct (decide (a = 0)) as [->|Hne]; [apply Z.bits_0|].
  apply Z.bits_above_log2; [done|].
  assert (0 <= n) by (destruct (Z.lt_ge_cases n 0); [rewrite Z.pow_neg_r in Hlt by done; lia|done]).
  apply Z.log2_lt_pow2 in Hlt; lia.
Qed.

Lemma Z_lxor_bound n a b : 0 <= n -> 0 <= a < 2 ^ n -> 0 <= b < 2 ^ n -> 0 <= Z.lxor a b < 2 ^ n.
Proof.
  intros Hn Ha Hb. split; [apply Z.lxor_nonneg; lia|].
  apply Z_bits_bound; [done|apply Z.lxor_nonneg; lia|].
  intros i Hi. by rewrite Z.lxor_spec, (Z_bound_bits n a), (Z_bound_bits n b).
Qed.

Lemma Z_lor_bound n a b : 0 <= n -> 0 <= a < 2 ^ n -> 0 <= b < 2 ^ n -> 0 <= Z.lor a b < 2 ^ n.
Proof.
  intros Hn Ha Hb. split; [apply Z.lor_nonneg; lia|].
  apply Z_bits_bound; [done|apply Z.lor_nonneg; lia|].
  intros i Hi. by rewrite Z.lor_spec, (Z_bound_bits n a), (Z_bound_bits n b).
Qed.

Lemma Z_land_bound n a b : 0 <= n -> 0 <= a < 2 ^ n -> 0 <= b -> 0 <= Z.land a b < 2 ^ n.
Proof.
  intros Hn Ha Hb. split; [apply Z.land_nonneg; lia|].
  apply Z_bits_bound; [done|apply Z.land_nonneg; lia|].
  intros i Hi. by rewrite Z.land_spec, (Z_bound_bits n a).
Qed.

(** A disjunction of two numbers that share no bit is their sum, and a
    conjunction with a mask of low bits is a remainder. *)
Lemma Z_lor_disjoint a b n :
  0 <= n -> 0 <= b < 2 ^ n -> a mod 2 ^ n = 0 -> Z.lor a b = a + b.
Proof.
  intros Hn Hb Ha. symmetry. apply Z.add_nocarry_lor, Z.bits_inj'.
  intros i Hi. rewrite Z.land_spec, Z.bits_0.
  destruct (Z.lt_ge_cases i n).
  - by rewrite <- (Z.mod_pow2_bits_low a n i), Ha, Z.bits_0 by lia.
  - by rewrite (Z_bound_bits n b i), andb_false_r by lia.
Qed.

Lemma Z_land_low x n m :
  0 <= n -> m = 2 ^ n - 1 -> Z.land x m = x mod 2 ^ n.
Proof.
  intros Hn ->. rewrite Z.sub_1_r, <- Z.ones_equiv. by apply Z.land_ones.
Qed.

(** ** Unsigned 8-bit integers (Go's [uint8], [byte]) *)

#[global] Instance byte_eq_dec : EqDecision byte := Byte.byte_eq_dec.

Module u8.
Definition modulus : Z := 256.

Definition wrap (z : Z) : Z := z mod modulus.

(** The value of a byte, [0 <= unsigned b < 256]. *)
Definition unsigned (b : byte) : Z := Z.of_N (Byte.to_N b).

(** Conversion [uint8(z)]: the low eight bits. *)
Definition of_Z (z : Z) : byte :=
  default Byte.x00 (Byte.of_N (Z.to_N (wrap z))).

Definition xor (a b : byte) : byte := of_Z (Z.lxor (unsigned a) (unsigned b)).
Definition or (a b : byte) : byte := of_Z (Z.lor (unsigned a) (unsigned b)).
Definition and (a b : byte) : byte := of_Z (Z.land (unsigned a) (unsigned b)).
Definition shr (a : byte) (n : Z) : byte := of_Z (Z.shiftr (unsigned a) n).

Lemma u8_wrap_range z : 0 <= wrap z < 256.
Proof. apply Z.mod_pos_bound. done. Qed.

Lemma u8_unsigned_range b : 0 <= unsigned b < 256.
Proof.
  unfold unsigned. pose proof (Byte.to_N_bounded b). lia.
Qed.

Lemma u8_wrap_small z : 0 <= z < 256 -> wrap z = z.
Proof. apply Z.mod_small. Qed.

Lemma u8_unsigned_of_Z z : unsigned (of_Z z) = wrap z.
Proof.
  unfold of_Z, unsigned. pose proof (u8_wrap_range z) as Hr.
  destruct (Byte.of_N (Z.to_N (wrap z))) as [b|] eqn:E; simpl.
  - apply Byte.to_of_N in E. rewrite E. lia.
  - apply Byte.of_N_None_iff in E. lia.
Qed.

Lemma u8_of_Z_unsigned b : of_Z (unsigned b) = b.
Proof.
  unfold of_Z. rewrite u8_wrap_small by apply u8_unsigned_range.
  unfold unsigned. rewrite N2Z.id, Byte.of_to_N. done.
Qed.

Lemma u8_unsigned_inj a b : unsigned a = unsigned b -> a = b.
Proof.
  intros H. rewrite <- (u8_of_Z_unsigned a), <- (u8_of_Z_unsigned b). by rewrite H.
Qed.

#[global] Instance unsigned_inj' : Inj (=) (=) unsigned.
Proof. intros a b. apply u8_unsigned_inj. Qed.

Lemma u8_unsigned_xor a b :
  unsigned (xor a b) = Z.lxor (unsigned a) (unsigned b).
Proof.
  unfold xor. rewrite u8_unsigned_of_Z. apply u8_wrap_small.
  apply (Z_lxor_bound 8); [done|apply u8_unsigned_range..].
Qed.

Lemma u8_unsigned_or a b :
  unsigned (or a b) = Z.lor (unsigned a) (unsigned b).
Proof.
  unfold or. rewrite u8_unsigned_of_Z. apply u8_wrap_small.
  apply (Z_lor_bound 8); [done|apply u8_unsigned_range..].
Qed.

Lemma u8_unsigned_and a b :
  unsigned (and a b) = Z.land (unsigned a) (unsigned b).
Proof.
  unfold and. rewrite u8_unsigned_of_Z. apply u8_wrap_small.
  pose proof (u8_unsigned_range b).
  apply (Z_land_bound 8); [done|apply u8_unsigned_range|lia].
Qed.

Lemma u8_xor_eq_0 a b : xor a b = Byte.x00 <-> a = b.
Proof.
  split; [intros Hx|intros ->].
  - apply u8_unsigned_inj, Z.lxor_eq. rewrite <- u8_unsigned_xor. by rewrite Hx.
  - apply u8_unsigned_inj. by rewrite u8_unsigned_xor, Z.lxor_nilpotent.
Qed.

Lemma u8_or_eq_0 a b : or a b = Byte.x00 <-> a = Byte.x00 /\ b = Byte.x00.
Proof.
  split; [intros Ho|intros [-> ->]; done].
  apply (f_equal unsigned) in Ho. rewrite u8_unsigned_or in Ho.
  apply Z.lor_eq_0_iff in Ho as [Ha Hb].
  split; by apply u8_unsigned_inj.
Qed.

Lemma u8_of_Z_small_inj x y :
  0 <= x < 256 -> 0 <= y < 256 -> of_Z x = of_Z y -> x = y.
Proof.
  intros Hx Hy H. apply (f_equal unsigned) in H.
  by rewrite !u8_unsigned_of_Z, !u8_wrap_small in H.
Qed.
End u8.

#[export] Hint Resolve u8.u8_unsigned_range u8.u8_wrap_range : gobase.
#[export] Hint Rewrite u8.u8_unsigned_of_Z u8.u8_of_Z_unsigned
  u8.u8_unsigned_xor u8.u8_unsigned_or u8.u8_unsigned_and : gosimpl.

(** ** Unsigned 32-bit integers (Go's [uint32])

    A [uint32] is a [Z] in [[0, 2^32)]; the operations below are Go's, with
    the truncation the language performs written as [wrap]. *)

Module u32.
Definition modulus : Z := 2 ^ 32.

Definition wrap (z : Z) : Z := z mod modulus.

Definition add (a b : Z) : Z := wrap (a + b).
Definition sub (a b : Z) : Z := wrap (a - b).
Definition not (a : Z) : Z := wrap (modulus - 1 - a).
Definition shl (a n : Z) : Z := wrap (Z.shiftl a n).
Definition shr (a n : Z) : Z := Z.shiftr a n.

(** [bits.RotateLeft32(x, -n)]: rotation to the right by [n], [0 < n < 32]. *)
Definition rotr (n a : Z) : Z := Z.lor (shr a n) (shl a (32 - n)).

Definition in_range (a : Z) : Prop := 0 <= a < modulus.

Lemma u32_wrap_range z : 0 <= wrap z < 2 ^ 32.
Proof. apply Z.mod_pos_bound. done. Qed.

Lemma u32_wrap_small z : 0 <= z < 2 ^ 32 -> wrap z = z.
Proof. apply Z.mod_small. Qed.

Lemma u32_wrap_wrap z : wrap (wrap z) = wrap z.
Proof. apply u32_wrap_small, u32_wrap_range. Qed.

Lemma u32_add_range a b : 0 <= add a b < 2 ^ 32.
Proof. apply u32_wrap_range. Qed.

Lemma u32_sub_range a b : 0 <= sub a b < 2 ^ 32.
Proof. apply u32_wrap_range. Qed.

End u32.

#[export] Hint Resolve u32.u32_wrap_range u32.u32_add_range u32.u32_sub_range : gobase.
#[export] Hint Rewrite u32.u32_wrap_wrap : gosimpl.

(** ** Signed 8-bit integers (Go's [int8])

    An [int8] is a [Z] in [[-128, 128)]; arithmetic wraps around in two's
    complement, and a conversion [int8(n)] truncates the same way. *)

Module i8.
Definition min : Z := -128.
Definition max : Z := 127.

Definition wrap (z : Z) : Z := (z + 128) mod 256 - 128.

Definition in_range (z : Z) : Prop := min <= z <= max.

(** [x++] on an [int8]. *)
Definition incr (z : Z) : Z := wrap (z + 1).

Lemma i8_wrap_range z : in_range (wrap z).
Proof.
  unfold in_range, wrap, min, max.
  pose proof (Z.mod_pos_bound (z + 128) 256). lia.
Qed.

Lemma i8_wrap_small z : in_range z -> wrap z = z.
Proof.
  unfold in_range, wrap, min, max. intros Hz.
  rewrite Z.mod_small by lia. lia.
Qed.

Lemma i8_incr_small z : min <= z < max -> incr z = z + 1.
Proof. unfold incr, min, max. intros Hz. apply i8_wrap_small. unfold in_range, min, max. lia. Qed.

(** At the largest value the increment wraps to the smallest. *)
Lemma i8_incr_max : incr max = min.
Proof. reflexivity. Qed.

End i8.

#[export] Hint Resolve i8.i8_wrap_range : gobase.

(** ** Strings and byte slices

    [[]byte(s)] and [string(b)] copy the bytes; they are inverse to one
    another. *)

Definition bytes_of_string (s : string) : list byte := list_byte_of_string s.
Definition string_of_bytes (b : list byte) : string := string_of_list_byte b.

(** [len(s)] of a Go string, as a [nat]. *)
Definition len (s : string) : nat := String.length s.

Lemma string_of_bytes_of_string s : string_of_bytes (bytes_of_string s) = s.
Proof. apply string_of_list_byte_of_string. Qed.

Lemma bytes_of_string_of_bytes b : bytes_of_string (string_of_bytes b) = b.
Proof. apply list_byte_of_string_of_list_byte. Qed.

#[global] Instance bytes_of_string_inj : Inj (=) (=) bytes_of_string.
Proof.
  intros s t H. apply (f_equal string_of_bytes) in H.
  by rewrite !string_of_bytes_of_string in H.
Qed.

#[global] Instance string_of_bytes_inj : Inj (=) (=) string_of_bytes.
Proof.
  intros s t H. apply (f_equal bytes_of_string) in H.
  by rewrite !bytes_of_string_of_bytes in H.
Qed.

Lemma bytes_of_string_length s : length (bytes_of_string s) = len s.
Proof.
  unfold bytes_of_string, list_byte_of_string, len.
  rewrite length_map. induction s; simpl; auto.
Qed.

Lemma string_of_bytes_length b : len (string_of_bytes b) = length b.
Proof.
  rewrite <- (bytes_of_string_of_bytes b) at 2.
  by rewrite bytes_of_string_length.
Qed.

Lemma string_app_cons c s t : String c s +:+ t = String c (s +:+ t).
Proof. reflexivity. Qed.

Lemma string_app_nil_l s : "" +:+ s = s.
Proof. reflexivity. Qed.

Lemma string_app_nil_r s : s +:+ "" = s.
Proof. induction s; [done|]. rewrite string_app_cons. by f_equal. Qed.

Lemma string_app_assoc s t u : (s +:+ t) +:+ u = s +:+ (t +:+ u).
Proof. induction s; [done|]. rewrite !string_app_cons. by f_equal. Qed.

Lemma len_app s t : len (s +:+ t) = (len s + len t)%nat.
Proof.
  unfold len. induction s; [done|]. rewrite string_app_cons. simpl. by f_equal.
Qed.

Lemma string_of_bytes_app a b :
  string_of_bytes (a ++ b) = string_of_bytes a +:+ string_of_bytes b.
Proof.
  unfold string_of_bytes, string_of_list_byte. rewrite map_app.
  induction (map ascii_of_byte a) as [|x l IH]; [done|].
  cbn [app string_of_list_ascii]. by rewrite string_app_cons, <- IH.
Qed.

Lemma bytes_of_string_app s t :
  bytes_of_string (s +:+ t) = bytes_of_string s ++ bytes_of_string t.
Proof.
  apply (inj string_of_bytes).
  by rewrite string_of_bytes_app, !string_of_bytes_of_string.
Qed.

#[export] Hint Rewrite string_of_bytes_of_string bytes_of_string_of_bytes
  bytes_of_string_length string_of_bytes_length len_app string_app_nil_r
  : gosimpl.

(** ** The control-flow monad of Go functions

    A Go function body runs statement after statement over the state it can
    reach (the request context, the process).  A statement either falls
    through ([Continue]), leaves the function ([Return], the [return]
    statement) or panics ([Panic], e.g. an index out of range).  [bind]
    sequences two statements: what follows a [return] or a panic is not
    run. *)

Module Go.

Inductive flow (S A : Type) : Type :=
| Continue (a : A) (s : S)
| Return (s : S)
| Panic (msg : string) (s : S).
Arguments Continue {S A} a s.
Arguments Return {S A} s.
Arguments Panic {S A} msg s.

Definition M (S A : Type) : Type := S -> flow S A.

Section Ops.
Context {S : Type}.

Definition ret {A} (a : A) : M S A := fun s => Continue a s.

Definition bind {A B} (m : M S A) (k : A -> M S B) : M S B :=
  fun s =>
    match m s with
    | Continue a s' => k a s'
    | Return s' => Return s'
    | Panic msg s' => Panic msg s'
    end.

(** The [return] statement of a function without results. *)
Definition return_ {A} : M S A := fun s => Return s.

Definition panic {A} (msg : string) : M S A := fun s => Panic msg s.

Definition get : M S S := fun s => Continue s s.
Definition gets {A} (f : S -> A) : M S A := fun s => Continue (f s) s.
Definition modify (f : S -> S) : M S unit := fun s => Continue tt (f s).

(** [l[i]]: indexing a slice panics when [i] is out of range. *)
Definition index {A} (l : list A) (i : nat) : M S A :=
  match l !! i with
  | Some a => ret a
  | None => panic "index out of range"
  end.

(** [defer f(); rest]: [f] runs when the function is left, however it is
    left. *)
Definition defer {A} (f : S -> S) (rest : M S A) : M S A :=
  fun s =>
    match rest s with
    | Continue a s' => Continue a (f s')
    | Return s' => Return (f s')
    | Panic msg s' => Panic msg (f s')
    end.

(** [if cond { body }] for a body without result. *)
Definition when (cond : bool) (body : M S unit) : M S unit :=
  if cond then body else ret tt.

(** [v, ok := m[key]]: the value (the zero value [zero] when the key is
    absent) and whether the key is present. *)
Definition lookup_ok {V} (m : gmap string V) (key : string) (zero : V)
  : V * bool :=
  match m !! key with
  | Some v => (v, true)
  | None => (zero, false)
  end.

(** The state a call leaves behind, and whether it panicked. *)
Definition final {A} (r : flow S A) : S :=
  match r with Continue _ s | Return s | Panic _ s => s end.

Definition panicked {A} (r : flow S A) : bool :=
  match r with Panic _ _ => true | _ => false end.

(** Calling a function: a [return] inside the callee ends the callee only. *)
Definition call (m : M S unit) : M S unit :=
  fun s =>
    match m s with
    | Continue _ s' | Return s' => Continue tt s'
    | Panic msg s' => Panic msg s'
    end.

End Ops.

(** Two computations are equivalent when they agree on every state. *)
#[global] Instance M_equiv {S A} : Equiv (M S A) :=
  fun m1 m2 => forall s, m1 s = m2 s.

#[global] Instance M_equivalence {S A} : Equivalence (≡@{M S A}).
Proof.
  split; [by intros m s|by intros m1 m2 H s|].
  intros m1 m2 m3 H1 H2 s. by rewrite H1.
Qed.

#[global] Instance bind_proper {S A B} :
  Proper ((≡) ==> pointwise_relation A (≡) ==> (≡)) (@bind S A B).
Proof.
  intros m1 m2 Hm k1 k2 Hk s. unfold bind. rewrite Hm.
  destruct (m2 s); auto. apply Hk.
Qed.

End Go.

Declare Scope go_scope.
Delimit Scope go_scope with go.
Notation "x <- m ;; k" := (Go.bind m (fun x => k))
  (at level 20, m at level 99, k at level 200, only parsing) : go_scope.
Notation "' pat <- m ;; k" := (Go.bind m (fun x => match x with pat => k end))
  (at level 20, pat pattern, m at level 99, k at level 200, only parsing)
  : go_scope.
Notation "m ;; k" := (Go.bind m (fun _ => k))
  (at level 100, k at level 200, only parsing, right associativity) : go_scope.

Section GoLaws.
Context {S A B C : Type}.
Implicit Types (m : Go.M S A) (k : A -> Go.M S B) (h : B -> Go.M S C).

Lemma go_bind_ret_l (a : A) k : Go.bind (Go.ret a) k ≡ k a.
Proof. by intros s. Qed.

Lemma go_bind_ret_r m : Go.bind m Go.ret ≡ m.
Proof. intros s. unfold Go.bind. by destruct (m s). Qed.

Lemma go_bind_assoc m k h :
  Go.bind (Go.bind m k) h ≡ Go.bind m (fun a => Go.bind (k a) h).
Proof. intros s. unfold Go.bind. by destruct (m s). Qed.

Lemma go_bind_return k : Go.bind (Go.return_ (A:=A)) k ≡ Go.return_.
Proof. by intros s. Qed.

Lemma go_bind_panic msg k : Go.bind (Go.panic (A:=A) msg) k ≡ Go.panic msg.
Proof. by intros s. Qed.

Lemma go_index_Some (l : list A) i a k (s : S) :
  l !! i = Some a -> Go.bind (Go.index l i) k s = k a s.
Proof. intros H. unfold Go.index. by rewrite H. Qed.

Lemma go_index_None (l : list A) i k (s : S) :
  l !! i = None -> Go.bind (Go.index l i) k s = Go.Panic "index out of range" s.
Proof. intros H. unfold Go.index. by rewrite H. Qed.

Lemma go_call_final (m : Go.M S unit) s :
  Go.panicked (m s) = false -> Go.call m s = Go.Continue tt (Go.final (m s)).
Proof. unfold Go.call. by destruct (m s) as [[]| |]. Qed.

Lemma go_call_panicked (m : Go.M S unit) s :
  Go.panicked (Go.call m s) = Go.panicked (m s).
Proof. unfold Go.call. by destruct (m s). Qed.

Lemma go_call_bind (m : Go.M S unit) (k : Go.M S B) s :
  Go.bind (Go.call m) (fun _ => k) s =
  match m s with
  | Go.Panic msg s' => Go.Panic msg s'
  | r => k (Go.final r)
  end.
Proof. unfold Go.bind, Go.call. by destruct (m s). Qed.

End GoLaws.

(** ** Tactics *)

(** Case analysis on the scrutinee of the first [match] or [if] of the goal,
    keeping the equation. *)
Ltac case_scrutinee :=
  match goal with
  | |- context [match ?x with _ => _ end] =>
      lazymatch x with
      | context [match _ with _ => _ end] => fail
      | _ => destruct x eqn:?
      end
  end.

(** Close an equation whose two sides are the same term.  Unlike
    [reflexivity] it never asks for the conversion of two different terms,
    which for two hash computations on different inputs does not end in
    reasonable time. *)
(** The tests of a definition ([if] on comparisons), decided from the
    bounds at hand: each test is split, its result turned into a
    proposition, and the cases that contradict the hypotheses closed. *)
Ltac bool_hyp H :=
  rewrite ?orb_true_iff, ?orb_false_iff, ?andb_true_iff, ?andb_false_iff,
    ?negb_true_iff, ?negb_false_iff,
    ?Z.ltb_lt, ?Z.ltb_ge, ?Z.leb_le, ?Z.leb_gt, ?Z.eqb_eq, ?Z.eqb_neq,
    ?Nat.ltb_lt, ?Nat.ltb_ge, ?Nat.leb_le, ?Nat.leb_gt in H.
Ltac tests :=
  repeat match goal with
  | |- context [if ?b then _ else _] =>
      let T := fresh "T" in destruct b eqn:T; bool_hyp T; try lia
  end.
Ltac tests_hyp :=
  repeat match goal with
  | H : context [if ?b then _ else _] |- _ =>
      let T := fresh "T" in destruct b eqn:T; bool_hyp T; try lia
  end.

Ltac same_term :=
  lazymatch goal with |- ?a = ?b => constr_eq a b; reflexivity end.

(** Unfold the monad and compute: closes the run of a handler on a state
    whose branches are decided by the hypotheses. *)
Ltac go_unfold :=
  unfold Go.bind, Go.ret, Go.return_, Go.panic, Go.get, Go.gets, Go.modify,
    Go.defer, Go.call, Go.index, Go.when in *.

Ltac go_simpl := go_unfold; simpl in *.
