(* ===== verification/Hex.v ===== *)
(** * encoding/hex: hexadecimal encoding of byte slices

    [verifyRazorpaySignature] (src/main.go:142) turns the MAC into text with
    [hex.EncodeToString].  This file models the encoder the way Go's
    [encoding/hex] writes it (two table lookups per byte, lower-case table)
    and the decoder of the same package as the reference the encoder is
    checked against: decoding an encoding gives the bytes back, so the
    encoder is injective, and its output has twice the length of its input
    and is made of the characters [0-9a-f] only. *)

From S2P Require Import Prelude.

Module hex.

(** [const hextable = "0123456789abcdef"] *)
Definition hextable : string := "0123456789abcdef".

(** [hextable[i]], for [i] a nibble. *)
Definition hextable_at (i : byte) : byte :=
  nth (Z.to_nat (u8.unsigned i)) (bytes_of_string hextable) Byte.x00.

(** [Encode]: for every byte [v] of [src], [hextable[v>>4]] then
    [hextable[v&0x0f]]. *)
Fixpoint Encode (src : list byte) : list byte :=
  match src with
  | [] => []
  | v :: rest =>
      hextable_at (u8.shr v 4) :: hextable_at (u8.and v Byte.x0f) :: Encode rest
  end.

(** [EncodedLen(n) = n * 2] *)
Definition EncodedLen (n : nat) : nat := (n * 2)%nat.

Definition EncodeToString (src : list byte) : string :=
  string_of_bytes (Encode src).

(** [fromHexChar]: the value of a hexadecimal digit, either case. *)
Definition fromHexChar (c : byte) : option byte :=
  let z := u8.unsigned c in
  if (48 <=? z) && (z <=? 57) then Some (u8.of_Z (z - 48))
  else if (97 <=? z) && (z <=? 102) then Some (u8.of_Z (z - 97 + 10))
  else if (65 <=? z) && (z <=? 70) then Some (u8.of_Z (z - 65 + 10))
  else None.

Inductive error : Type :=
| ErrLength
| InvalidByteError (c : byte).

(** [Decode]: pairs of digits to bytes; an invalid digit is reported before
    an odd length. *)
Fixpoint Decode (src : list byte) : error + list byte :=
  match src with
  | [] => inr []
  | [p] =>
      match fromHexChar p with
      | None => inl (InvalidByteError p)
      | Some _ => inl ErrLength
      end
  | p :: q :: rest =>
      match fromHexChar p, fromHexChar q with
      | None, _ => inl (InvalidByteError p)
      | _, None => inl (InvalidByteError q)
      | Some a, Some b =>
          match Decode rest with
          | inl e => inl e
          | inr l => inr (u8.or (u8.of_Z (Z.shiftl (u8.unsigned a) 4)) b :: l)
          end
      end
  end.

Definition DecodeString (s : string) : error + list byte :=
  Decode (bytes_of_string s).

(** A character of the lower-case hexadecimal alphabet. *)
Definition is_lower_hex (c : byte) : bool :=
  let z := u8.unsigned c in
  ((48 <=? z) && (z <=? 57)) || ((97 <=? z) && (z <=? 102)).

(** ** Properties *)

Lemma hex_Encode_length src : length (Encode src) = EncodedLen (length src).
Proof.
  unfold EncodedLen. induction src as [|v src IH]; simpl; [done|].
  rewrite IH. lia.
Qed.

Lemma hex_EncodeToString_len src :
  len (EncodeToString src) = (2 * length src)%nat.
Proof.
  unfold EncodeToString.
  rewrite string_of_bytes_length, hex_Encode_length. unfold EncodedLen. lia.
Qed.

Lemma hex_digits_lower (v : byte) :
  is_lower_hex (hextable_at (u8.shr v 4)) = true /\
  is_lower_hex (hextable_at (u8.and v Byte.x0f)) = true.
Proof. by destruct v; vm_compute. Qed.

Lemma hex_Encode_alphabet src :
  Forall (fun c => is_lower_hex c = true) (Encode src).
Proof.
  induction src as [|v src IH]; simpl; [constructor|].
  destruct (hex_digits_lower v). by repeat constructor.
Qed.

Lemma hex_decode_digits (v : byte) :
  match fromHexChar (hextable_at (u8.shr v 4)),
        fromHexChar (hextable_at (u8.and v Byte.x0f)) with
  | Some a, Some b => u8.or (u8.of_Z (Z.shiftl (u8.unsigned a) 4)) b = v
  | _, _ => False
  end.
Proof. destruct v; vm_compute; reflexivity. Qed.

Lemma hex_Decode_Encode src : Decode (Encode src) = inr src.
Proof.
  induction src as [|v src IH]; [done|].
  pose proof (hex_decode_digits v) as Hv. cbn [Encode Decode].
  destruct (fromHexChar (hextable_at (u8.shr v 4))) as [a|]; [|done].
  destruct (fromHexChar (hextable_at (u8.and v Byte.x0f))) as [b|]; [|done].
  by rewrite IH, Hv.
Qed.

Lemma hex_DecodeString_EncodeToString src :
  DecodeString (EncodeToString src) = inr src.
Proof.
  unfold DecodeString, EncodeToString.
  by rewrite bytes_of_string_of_bytes, hex_Decode_Encode.
Qed.

#[global] Instance EncodeToString_inj : Inj (=) (=) EncodeToString.
Proof.
  intros a b H. apply (f_equal DecodeString) in H.
  rewrite !hex_DecodeString_EncodeToString in H. by simplify_eq.
Qed.

End hex.

#[export] Hint Rewrite hex.hex_Encode_length hex.hex_EncodeToString_len
  hex.hex_Decode_Encode hex.hex_DecodeString_EncodeToString : gosimpl.
