(* ===== verification/Base64.v ===== *)
(** * encoding/base64: the standard encoding with padding

    The client of the gateway sends its credentials in the header
    [Authorization], which [net/http] writes with
    [base64.StdEncoding.EncodeToString].  This file models the encoder the
    way Go's [encoding/base64] writes it (three bytes joined into a number
    of 24 bits by shifts and ors, four table lookups on its sextets, the
    one or two bytes that remain padded with [=]) and, as the reference it
    is checked against, the decoder of RFC 4648: decoding an encoding
    gives the bytes back, so the encoder is injective.  The bit-level
    identities are proved bit by bit with [Z.bitblast] of coqutil. *)

From Stdlib Require Import Btauto.
From coqutil Require Import Z.bitblast.
From S2P Require Import Prelude.

Module base64.

(** [const encodeStd] *)
Definition encodeStd : string :=
  "ABCDEFGHIJKLMNOPQRSTUVWXYZabcdefghijklmnopqrstuvwxyz0123456789+/".

(** [StdPadding] *)
Definition padChar : byte := Byte.x3d.

(** [enc.encode[i]] *)
Definition encode_at (i : Z) : byte :=
  nth (Z.to_nat i) (bytes_of_string encodeStd) Byte.x00.

(** [uint(src[si+0])<<16 | uint(src[si+1])<<8 | uint(src[si+2])] *)
Definition quantum (a b c : Z) : Z :=
  Z.lor (Z.lor (Z.shiftl a 16) (Z.shiftl b 8)) c.

(** [val>>n&0x3F] *)
Definition sextet (val n : Z) : Z := Z.land (Z.shiftr val n) 0x3F.

(** [func (enc *Encoding) Encode(dst, src []byte)] for [StdEncoding]: the
    groups of three bytes, then the one or two bytes that remain, padded. *)
Fixpoint Encode (src : list byte) : list byte :=
  match src with
  | [] => []
  | [a] =>
      let val := Z.shiftl (u8.unsigned a) 16 in
      [encode_at (sextet val 18); encode_at (sextet val 12); padChar; padChar]
  | [a; b] =>
      let val := Z.shiftl (u8.unsigned a) 16 in
      let val := Z.lor val (Z.shiftl (u8.unsigned b) 8) in
      [encode_at (sextet val 18); encode_at (sextet val 12);
       encode_at (sextet val 6); padChar]
  | a :: b :: c :: rest =>
      let val := quantum (u8.unsigned a) (u8.unsigned b) (u8.unsigned c) in
      encode_at (sextet val 18) :: encode_at (sextet val 12) ::
      encode_at (sextet val 6) :: encode_at (sextet val 0) :: Encode rest
  end.

(** [func (enc *Encoding) EncodedLen(n int) int], with padding *)
Definition EncodedLen (n : nat) : nat := ((n + 2) / 3 * 4)%nat.

Definition EncodeToString (src : list byte) : string :=
  string_of_bytes (Encode src).

(** The reference the encoder is checked against: the decoder of RFC 4648,
    section 4.  The value of a character of the alphabet: *)
Definition value (c : byte) : option Z :=
  let z := u8.unsigned c in
  if (0x41 <=? z) && (z <=? 0x5A) then Some (z - 0x41)
  else if (0x61 <=? z) && (z <=? 0x7A) then Some (z - 0x61 + 26)
  else if (0x30 <=? z) && (z <=? 0x39) then Some (z - 0x30 + 52)
  else if z =? 0x2B then Some 62
  else if z =? 0x2F then Some 63
  else None.

(** The three bytes of four sextets. *)
Definition octets (i0 i1 i2 i3 : Z) : list byte :=
  let val := Z.lor (Z.lor (Z.lor (Z.shiftl i0 18) (Z.shiftl i1 12))
                      (Z.shiftl i2 6)) i3 in
  [u8.of_Z (Z.shiftr val 16); u8.of_Z (Z.shiftr val 8); u8.of_Z val].

(** Groups of four characters; padding in the last group only. *)
Fixpoint Decode (s : list byte) : option (list byte) :=
  match s with
  | [] => Some []
  | c0 :: c1 :: c2 :: c3 :: rest =>
      i0 ← value c0;
      i1 ← value c1;
      if bool_decide (c3 = padChar) then
        if bool_decide (rest = []) then
          if bool_decide (c2 = padChar) then Some (take 1 (octets i0 i1 0 0))
          else i2 ← value c2; Some (take 2 (octets i0 i1 i2 0))
        else None
      else
        i2 ← value c2;
        i3 ← value c3;
        tl ← Decode rest;
        Some (octets i0 i1 i2 i3 ++ tl)
  | _ => None
  end.

Definition DecodeString (s : string) : option (list byte) :=
  Decode (bytes_of_string s).

(** Whether a character is of the alphabet. *)
Definition in_alphabet (c : byte) : bool :=
  bool_decide (is_Some (value c)).

(** ** Sextets *)

(** Equalities between expressions of bits: bit by bit, the bits of
    negative index being zero. *)
Ltac bits := Z.bitblast; rewrite ?Z.testbit_neg_r by lia; try btauto.

Lemma base64_sextet_range val n : 0 <= sextet val n < 64.
Proof.
  unfold sextet. change 0x3F with (Z.ones 6). rewrite Z.land_ones by lia.
  apply Z.mod_pos_bound. lia.
Qed.

(** A character of the alphabet has its index for value. *)
Lemma base64_value_encode_at i :
  0 <= i < 64 -> value (encode_at i) = Some i.
Proof.
  intros Hi. rewrite <- (Z2Nat.id i) by lia.
  assert (Z.to_nat i < 64)%nat as Hn by lia. revert Hn.
  generalize (Z.to_nat i). intros n Hn. unfold encode_at.
  rewrite Nat2Z.id.
  do 64 (destruct n as [|n]; [done|]). lia.
Qed.

Lemma base64_encode_at_not_pad i : 0 <= i < 64 -> encode_at i <> padChar.
Proof.
  intros Hi E. pose proof (base64_value_encode_at i Hi) as H.
  by rewrite E in H.
Qed.

Lemma base64_of_Z_eq x y : x mod 2 ^ 8 = y mod 2 ^ 8 -> u8.of_Z x = u8.of_Z y.
Proof.
  intros H. apply u8.u8_unsigned_inj. by rewrite !u8.u8_unsigned_of_Z.
Qed.

(** The four sextets of a number put together are its 24 low bits. *)
Lemma base64_sextets_join v :
  Z.lor (Z.lor (Z.lor (Z.shiftl (sextet v 18) 18) (Z.shiftl (sextet v 12) 12))
           (Z.shiftl (sextet v 6) 6)) (sextet v 0) =
  Z.land v (Z.ones 24).
Proof. unfold sextet. change 0x3F with (Z.ones 6). bits. Qed.

(** The bytes of a quantum. *)
Lemma base64_quantum_bytes a b c :
  0 <= a < 256 -> 0 <= b < 256 -> 0 <= c < 256 ->
  let val := Z.land (quantum a b c) (Z.ones 24) in
  [u8.of_Z (Z.shiftr val 16); u8.of_Z (Z.shiftr val 8); u8.of_Z val] =
  [u8.of_Z a; u8.of_Z b; u8.of_Z c].
Proof.
  intros Ha Hb Hc val. subst val. unfold quantum.
  rewrite <- (Z.mod_small a (2 ^ 8)), <- (Z.mod_small b (2 ^ 8)),
    <- (Z.mod_small c (2 ^ 8)) by lia.
  f_equal; [|f_equal; [|f_equal]]; apply base64_of_Z_eq; bits.
Qed.

(** The four sextets of three bytes hold the bytes. *)
Lemma base64_octets_sextets a b c :
  0 <= a < 256 -> 0 <= b < 256 -> 0 <= c < 256 ->
  let val := quantum a b c in
  octets (sextet val 18) (sextet val 12) (sextet val 6) (sextet val 0) =
  [u8.of_Z a; u8.of_Z b; u8.of_Z c].
Proof.
  intros Ha Hb Hc val. unfold octets. rewrite base64_sextets_join.
  by apply base64_quantum_bytes.
Qed.

(** One byte and two bytes are the first bytes of a quantum whose other
    bytes are zero. *)
Lemma base64_quantum_1 a : Z.shiftl a 16 = quantum a 0 0.
Proof. unfold quantum. by rewrite Z.shiftl_0_l, !Z.lor_0_r. Qed.

Lemma base64_quantum_2 a b :
  Z.lor (Z.shiftl a 16) (Z.shiftl b 8) = quantum a b 0.
Proof. unfold quantum. by rewrite Z.lor_0_r. Qed.

Lemma base64_sextet_0 a b : sextet (quantum a b 0) 0 = 0.
Proof. unfold sextet, quantum. change 0x3F with (Z.ones 6). bits. Qed.

Lemma base64_sextet_6 a : sextet (quantum a 0 0) 6 = 0.
Proof. unfold sextet, quantum. change 0x3F with (Z.ones 6). bits. Qed.

(** ** Lists by groups of three *)

Lemma base64_list_ind3 {A} (P : list A -> Prop) :
  P [] -> (forall a, P [a]) -> (forall a b, P [a; b]) ->
  (forall a b c l, P l -> P (a :: b :: c :: l)) ->
  forall l, P l.
Proof.
  intros H0 H1 H2 H3 l.
  enough (P l /\ (forall a, P (a :: l)) /\ forall a b, P (a :: b :: l))
    by tauto.
  induction l as [|x l (IH0 & IH1 & IH2)]; [done|].
  split_and!; [done..|]. intros a b. by apply H3.
Qed.

(** ** The encoder *)

Lemma base64_Encode_length src :
  length (Encode src) = EncodedLen (length src).
Proof.
  unfold EncodedLen.
  induction src as [|a|a b|a b c l IH] using base64_list_ind3; [done..|].
  cbn [Encode length]. rewrite IH.
  replace (S (S (S (length l))) + 2)%nat with (1 * 3 + (length l + 2))%nat
    by lia.
  rewrite Nat.div_add_l by done. lia.
Qed.

(** The text is made of the alphabet, and of padding at its end only:
    what the decoder of the reference accepts. *)
Lemma base64_Decode_Encode src : Decode (Encode src) = Some src.
Proof.
  induction src as [|a|a b|a b c l IH] using base64_list_ind3; [done|..];
    pose proof (u8.u8_unsigned_range a) as Ha.
  - cbn [Encode Decode]. rewrite base64_quantum_1.
    rewrite !base64_value_encode_at by apply base64_sextet_range.
    cbn [mbind option_bind].
    rewrite !bool_decide_true by done.
    replace (octets _ _ 0 0) with
      (let q := quantum (u8.unsigned a) 0 0 in
       octets (sextet q 18) (sextet q 12) (sextet q 6) (sextet q 0))
      by (cbn zeta; by rewrite base64_sextet_6, base64_sextet_0).
    rewrite base64_octets_sextets by lia. cbn [take].
    by rewrite u8.u8_of_Z_unsigned.
  - pose proof (u8.u8_unsigned_range b) as Hb.
    cbn [Encode Decode]. rewrite base64_quantum_2.
    rewrite !base64_value_encode_at by apply base64_sextet_range.
    cbn [mbind option_bind].
    rewrite (bool_decide_true (padChar = padChar)), bool_decide_true by done.
    rewrite bool_decide_false
      by apply base64_encode_at_not_pad, base64_sextet_range.
    replace (octets _ _ _ 0) with
      (let q := quantum (u8.unsigned a) (u8.unsigned b) 0 in
       octets (sextet q 18) (sextet q 12) (sextet q 6) (sextet q 0))
      by (cbn zeta; by rewrite base64_sextet_0).
    rewrite base64_octets_sextets by lia. cbn [take].
    by rewrite !u8.u8_of_Z_unsigned.
  - pose proof (u8.u8_unsigned_range b) as Hb.
    pose proof (u8.u8_unsigned_range c) as Hc.
    cbn [Encode Decode]. rewrite IH.
    rewrite !base64_value_encode_at by apply base64_sextet_range.
    cbn [mbind option_bind].
    rewrite bool_decide_false
      by apply base64_encode_at_not_pad, base64_sextet_range.
    rewrite base64_octets_sextets by lia.
    by rewrite !u8.u8_of_Z_unsigned.
Qed.

#[global] Instance base64_Encode_inj : Inj (=) (=) Encode.
Proof.
  intros a b H. apply (f_equal Decode) in H.
  rewrite !base64_Decode_Encode in H. by simplify_eq.
Qed.

#[global] Instance base64_EncodeToString_inj : Inj (=) (=) EncodeToString.
Proof. intros a b H. by apply (inj Encode), (inj string_of_bytes). Qed.

Lemma base64_DecodeString_EncodeToString src :
  DecodeString (EncodeToString src) = Some src.
Proof.
  unfold DecodeString, EncodeToString.
  by rewrite bytes_of_string_of_bytes, base64_Decode_Encode.
Qed.

(** RFC 4648, section 10. *)
Example base64_test_vectors :
  map (fun s => EncodeToString (bytes_of_string s))
    [""; "f"; "fo"; "foo"; "foob"; "fooba"; "foobar"] =
  [""; "Zg=="; "Zm8="; "Zm9v"; "Zm9vYg=="; "Zm9vYmE="; "Zm9vYmFy"].
Proof. by vm_compute. Qed.

(** Padding inside the text, a character that is not of the alphabet and
    a text cut short are refused. *)
Example base64_refused :
  Forall (fun s => DecodeString s = None) ["Zg==Zg=="; "Zm9*"; "Zm9"; "Z"; "=g=="].
Proof. repeat (constructor; [by vm_compute|]). constructor. Qed.

End base64.
