(* ===== verification/Hash.v ===== *)
(** * hash.Hash: the interface between a hash function and its clients

    Go's [hash.Hash] is what [hmac.New] is given (src/main.go:140 passes
    [sha256.New]).  The interface is a class: the state of a running hash,
    the operations [Write] and [Sum], the two sizes; and a second class with
    the laws a client may rely on.  [Hmac] is written and proved against
    these classes; [Sha256] provides the instances. *)

From S2P Require Import Prelude.

Module hash.

Class Hash : Type := {
  (** the state of a running hash: what [New()] returns and [Write] updates *)
  state : Type;
  (** [New()], also the state after [Reset()] *)
  New : state;
  (** [h.Write(p)]: absorb [p]; never fails *)
  Write : state -> list byte -> state;
  (** [h.Sum(in)]: append the digest of what was written to [in]; the state
      is not changed *)
  Sum : state -> list byte -> list byte;
  (** [h.Size()]: the length of a digest *)
  Size : nat;
  (** [h.BlockSize()] *)
  BlockSize : nat;
}.

(** What a client relies on.  [valid] is the invariant of the states a
    program can reach; on those, [Write] is a stream: writing in pieces is
    writing the concatenation.  [Sum] appends exactly [Size] bytes. *)
Class HashLaws (H : Hash) : Type := {
  valid : state -> Prop;
  valid_New : valid New;
  valid_Write : forall d p, valid d -> valid (Write d p);
  Sum_app : forall d b, Sum d b = b ++ Sum d [];
  Sum_length : forall d, length (Sum d []) = Size;
  Write_app : forall d p q, valid d -> Write (Write d p) q = Write d (p ++ q);
  Write_nil : forall d, valid d -> Write d [] = d;
  BlockSize_pos : (0 < BlockSize)%nat;
}.

(** The digest of a whole message: [New], one [Write], [Sum(nil)]. *)
Definition digest_of {H : Hash} (msg : list byte) : list byte :=
  Sum (Write New msg) [].

Section Facts.
Context {H : Hash} {HL : HashLaws H}.

Lemma hash_Sum_length (d : state) (b : list byte) :
  length (Sum d b) = (length b + Size)%nat.
Proof. rewrite Sum_app, length_app, Sum_length. done. Qed.

Lemma hash_digest_length (msg : list byte) : length (digest_of msg) = Size.
Proof. apply Sum_length. Qed.

Lemma hash_Write_stream (p q : list byte) :
  Sum (Write (Write New p) q) [] = digest_of (p ++ q).
Proof. unfold digest_of. by rewrite Write_app by apply valid_New. Qed.

Lemma hash_Sum_take (d : state) (b : list byte) :
  take (length b) (Sum d b) = b.
Proof. rewrite Sum_app. by rewrite take_app_length. Qed.

Lemma hash_Sum_drop (d : state) (b : list byte) :
  drop (length b) (Sum d b) = Sum d [].
Proof. rewrite Sum_app. by rewrite drop_app_length. Qed.

End Facts.

End hash.
