(* ===== verification/Sha256.v ===== *)
(** * crypto/sha256: the hash function behind the signature

    [verifyRazorpaySignature] builds its MAC with [hmac.New(sha256.New, _)]
    (src/main.go:140).  This file models Go's SHA-256 the way
    [crypto/sha256] implements it: a [digest] holding the eight chaining
    words, the buffered tail of the input and the number of bytes written;
    [Write] that fills the buffer and runs the block function on whole
    chunks; [checkSum] that pads and serialises.  Words are [Z] values kept
    in [[0, 2^32)] by [u32].

    The loop of the block function runs once per 64-byte chunk; its
    iteration count [length p / 64] is computed, so the definitions need no
    fuel.  The model is checked against the published test vectors, and
    discharges the [Hash] interface for its clients. *)

From S2P Require Import Prelude Hex Hash.

Module sha256.

(** [const Size = 32], [const BlockSize = 64], [const chunk = 64] *)
Definition Size : nat := 32.
Definition BlockSize : nat := 64.
Definition chunk : nat := 64.

(** The chaining value [h [8]uint32], and the working variables [a..h]. *)
Record words8 : Type := W8 {
  w_a : Z; w_b : Z; w_c : Z; w_d : Z; w_e : Z; w_f : Z; w_g : Z; w_h : Z
}.

(** [init0 .. init7] *)
Definition init : words8 :=
  W8 0x6A09E667 0xBB67AE85 0x3C6EF372 0xA54FF53A
     0x510E527F 0x9B05688C 0x1F83D9AB 0x5BE0CD19.

(** [var _K = [...]uint32{...}] *)
Definition _K : list Z := [
  0x428A2F98; 0x71374491; 0xB5C0FBCF; 0xE9B5DBA5;
  0x3956C25B; 0x59F111F1; 0x923F82A4; 0xAB1C5ED5;
  0xD807AA98; 0x12835B01; 0x243185BE; 0x550C7DC3;
  0x72BE5D74; 0x80DEB1FE; 0x9BDC06A7; 0xC19BF174;
  0xE49B69C1; 0xEFBE4786; 0x0FC19DC6; 0x240CA1CC;
  0x2DE92C6F; 0x4A7484AA; 0x5CB0A9DC; 0x76F988DA;
  0x983E5152; 0xA831C66D; 0xB00327C8; 0xBF597FC7;
  0xC6E00BF3; 0xD5A79147; 0x06CA6351; 0x14292967;
  0x27B70A85; 0x2E1B2138; 0x4D2C6DFC; 0x53380D13;
  0x650A7354; 0x766A0ABB; 0x81C2C92E; 0x92722C85;
  0xA2BFE8A1; 0xA81A664B; 0xC24B8B70; 0xC76C51A3;
  0xD192E819; 0xD6990624; 0xF40E3585; 0x106AA070;
  0x19A4C116; 0x1E376C08; 0x2748774C; 0x34B0BCB5;
  0x391C0CB3; 0x4ED8AA4A; 0x5B9CCA4F; 0x682E6FF3;
  0x748F82EE; 0x78A5636F; 0x84C87814; 0x8CC70208;
  0x90BEFFFA; 0xA4506CEB; 0xBEF9A3F7; 0xC67178F2 ].

(** [type digest struct { h [8]uint32; x [chunk]byte; nx int; len uint64 }].
    The buffer [x] is kept as the list of its [nx] valid bytes, so [nx] is
    [length x]. *)
Record digest : Type := Digest {
  h : words8;
  x : list byte;
  len : Z;
}.

Definition nx (d : digest) : nat := length (x d).

(** [New()] and [Reset()] *)
Definition New : digest := {| h := init; x := []; len := 0 |}.

(** [uint32(p[j])<<24 | uint32(p[j+1])<<16 | uint32(p[j+2])<<8 | uint32(p[j+3])]
    for every group of four bytes. *)
Fixpoint be_words (p : list byte) : list Z :=
  match p with
  | b0 :: b1 :: b2 :: b3 :: rest =>
      Z.lor (Z.lor (Z.lor (Z.shiftl (u8.unsigned b0) 24)
                          (Z.shiftl (u8.unsigned b1) 16))
                   (Z.shiftl (u8.unsigned b2) 8))
            (u8.unsigned b3)
      :: be_words rest
  | _ => []
  end.

(** One step of the loop [for i := 16; i < 64; i++] that extends the message
    schedule [w]. *)
Definition schedule_step (w : list Z) (i : nat) : list Z :=
  let v1 := nth (i - 2) w 0 in
  let t1 := Z.lxor (Z.lxor (u32.rotr 17 v1) (u32.rotr 19 v1)) (u32.shr v1 10) in
  let v2 := nth (i - 15) w 0 in
  let t2 := Z.lxor (Z.lxor (u32.rotr 7 v2) (u32.rotr 18 v2)) (u32.shr v2 3) in
  w ++ [u32.add (u32.add (u32.add t1 (nth (i - 7) w 0)) t2) (nth (i - 16) w 0)].

(** The message schedule [w [64]uint32] of one chunk. *)
Definition schedule (p : list byte) : list Z :=
  fold_left schedule_step (seq 16 48) (be_words (take chunk p)).

(** One iteration of the loop [for i := 0; i < 64; i++] of the block
    function, with [k = _K[i]] and [w = w[i]]. *)
Definition round (r : words8) (kw : Z * Z) : words8 :=
  let '(W8 a b c d e f g h) := r in
  let t1 :=
    u32.add (u32.add (u32.add (u32.add h
      (Z.lxor (Z.lxor (u32.rotr 6 e) (u32.rotr 11 e)) (u32.rotr 25 e)))
      (Z.lxor (Z.land e f) (Z.land (u32.not e) g)))
      kw.1) kw.2 in
  let t2 :=
    u32.add (Z.lxor (Z.lxor (u32.rotr 2 a) (u32.rotr 13 a)) (u32.rotr 22 a))
            (Z.lxor (Z.lxor (Z.land a b) (Z.land a c)) (Z.land b c)) in
  W8 (u32.add t1 t2) a b c (u32.add d t1) e f g.

(** [h0 += a; ...; h7 += h] *)
Definition add8 (u v : words8) : words8 :=
  W8 (u32.add (w_a u) (w_a v)) (u32.add (w_b u) (w_b v))
     (u32.add (w_c u) (w_c v)) (u32.add (w_d u) (w_d v))
     (u32.add (w_e u) (w_e v)) (u32.add (w_f u) (w_f v))
     (u32.add (w_g u) (w_g v)) (u32.add (w_h u) (w_h v)).

(** The body of the outer loop of [blockGeneric]: one chunk. *)
Definition block1 (hh : words8) (p : list byte) : words8 :=
  add8 hh (fold_left round (zip _K (schedule p)) hh).

(** [for len(p) >= chunk { ...; p = p[chunk:] }], [n] iterations. *)
Fixpoint blocks (n : nat) (hh : words8) (p : list byte) : words8 :=
  match n with
  | O => hh
  | S n' => blocks n' (block1 hh (take chunk p)) (drop chunk p)
  end.

(** [blockGeneric(dig, p)] *)
Definition block (hh : words8) (p : list byte) : words8 :=
  blocks (length p / chunk) hh p.

(** [binary.BigEndian.PutUint32] and [PutUint64] *)
Definition PutUint32 (v : Z) : list byte :=
  [u8.of_Z (Z.shiftr v 24); u8.of_Z (Z.shiftr v 16); u8.of_Z (Z.shiftr v 8);
   u8.of_Z v].

Definition PutUint64 (v : Z) : list byte :=
  [u8.of_Z (Z.shiftr v 56); u8.of_Z (Z.shiftr v 48); u8.of_Z (Z.shiftr v 40);
   u8.of_Z (Z.shiftr v 32); u8.of_Z (Z.shiftr v 24); u8.of_Z (Z.shiftr v 16);
   u8.of_Z (Z.shiftr v 8); u8.of_Z v].

(** [func (d *digest) Write(p []byte)], its three [if] statements in turn.

    First, [if d.nx > 0]: top up the buffer with [n := copy(d.x[d.nx:], p)];
    when that fills it, hash it and empty it; go on with [p[n:]].  The
    result is the chaining value, the buffer and what is left of [p]. *)
Definition Write_fill (hh : words8) (buf p : list byte)
  : words8 * list byte * list byte :=
  if (0 <? length buf)%nat then
    let n := Nat.min (chunk - length buf) (length p) in
    let buf' := buf ++ take n p in
    if (length buf' =? chunk)%nat then (block hh buf', [], drop n p)
    else (hh, buf', drop n p)
  else (hh, buf, p).

(** Second, [if len(p) >= chunk]: hash the whole chunks of [p], that is its
    first [n := len(p) &^ (chunk - 1)] bytes, and go on with [p[n:]]. *)
Definition Write_bulk (hh : words8) (p : list byte) : words8 * list byte :=
  if (chunk <=? length p)%nat then
    let n := (length p / chunk * chunk)%nat in
    (block hh (take n p), drop n p)
  else (hh, p).

(** Third, [if len(p) > 0 { d.nx = copy(d.x[:], p) }]; and [d.len] has grown
    by [len(p)] (a [uint64]). *)
Definition Write (d : digest) (p : list byte) : digest :=
  let len' := (len d + Z.of_nat (length p)) mod 2 ^ 64 in
  let '(h1, x1, p1) := Write_fill (h d) (x d) p in
  let '(h2, p2) := Write_bulk h1 p1 in
  let x3 := if (0 <? length p2)%nat then p2 else x1 in
  {| h := h2; x := x3; len := len' |}.

(** The padding [checkSum] writes: [0x80], zeros up to 56 bytes modulo 64,
    then the length in bits as a big-endian [uint64]. *)
Definition padding (l : Z) : list byte :=
  let t := if l mod 64 <? 56 then 56 - l mod 64 else 64 + 56 - l mod 64 in
  Byte.x80 :: replicate (Z.to_nat t - 1) Byte.x00
  ++ PutUint64 ((l * 8) mod 2 ^ 64).

(** The eight words of the chaining value, big-endian. *)
Definition digest_bytes (hh : words8) : list byte :=
  PutUint32 (w_a hh) ++ PutUint32 (w_b hh) ++ PutUint32 (w_c hh) ++
  PutUint32 (w_d hh) ++ PutUint32 (w_e hh) ++ PutUint32 (w_f hh) ++
  PutUint32 (w_g hh) ++ PutUint32 (w_h hh).

(** [func (d *digest) checkSum() [Size]byte] *)
Definition checkSum (d : digest) : list byte :=
  digest_bytes (h (Write d (padding (len d)))).

(** [func (d *digest) Sum(in []byte) []byte]: works on a copy of [d]. *)
Definition Sum (d : digest) (b : list byte) : list byte := b ++ checkSum d.

(** [func Sum256(data []byte) [Size]byte] *)
Definition Sum256 (data : list byte) : list byte :=
  checkSum (Write New data).

(** ** Reference definitions

    What [Write] computes, said without the buffer management: the chunks
    of [data] hashed in order and the tail that does not fill a chunk. *)
Definition absorb (hh : words8) (data : list byte) : words8 * list byte :=
  (blocks (length data / chunk) hh data,
   drop (length data / chunk * chunk) data).

(** The invariant of a [digest]: the buffer never holds a whole chunk,
    [len] is a [uint64], and the buffer holds the bytes written since the
    last chunk boundary. *)
Definition valid (d : digest) : Prop :=
  (nx d < chunk)%nat /\ 0 <= len d < 2 ^ 64 /\
  Z.of_nat (nx d) = len d mod 64.

(** SHA-256 of FIPS 180-4: pad the message, hash every chunk. *)
Definition Sum256_ref (data : list byte) : list byte :=
  digest_bytes (absorb init (data ++ padding (Z.of_nat (length data)))).1.

(** ** Test vectors (FIPS 180-4 examples and block-boundary lengths) *)

Example sha256_empty :
  hex.EncodeToString (Sum256 []) =
  "e3b0c44298fc1c149afbf4c8996fb92427ae41e4649b934ca495991b7852b855".
Proof. vm_compute. reflexivity. Qed.

Example sha256_abc :
  hex.EncodeToString (Sum256 (bytes_of_string "abc")) =
  "ba7816bf8f01cfea414140de5dae2223b00361a396177a9cb410ff61f20015ad".
Proof. vm_compute. reflexivity. Qed.

Example sha256_two_blocks :
  hex.EncodeToString (Sum256 (bytes_of_string
    "abcdbcdecdefdefgefghfghighijhijkijkljklmklmnlmnomnopnopq")) =
  "248d6a61d20638b8e5c026930c3e6039a33ce45964ff2167f6ecedd419db06c1".
Proof. vm_compute. reflexivity. Qed.

Example sha256_a64 :
  hex.EncodeToString (Sum256 (replicate 64 Byte.x61)) =
  "ffe054fe7ae0cb6dc65c3af9b61d5209f439851db43d0ba5997337df154668eb".
Proof. vm_compute. reflexivity. Qed.

Example sha256_a119 :
  hex.EncodeToString (Sum256 (replicate 119 Byte.x61)) =
  "31eba51c313a5c08226adf18d4a359cfdfd8d2e816b13f4af952f7ea6584dcfb".
Proof. vm_compute. reflexivity. Qed.

Example sha256_a200 :
  hex.EncodeToString (Sum256 (replicate 200 Byte.x61)) =
  "c2a908d98f5df987ade41b5fce213067efbcc21ef2240212a41e54b5e7c28ae5".
Proof. vm_compute. reflexivity. Qed.

(** Writing in pieces that straddle the buffer gives the same digest. *)
Example sha256_streamed :
  hex.EncodeToString
    (Sum (Write (Write (Write New (replicate 50 Byte.x61))
                       (replicate 100 Byte.x61))
                (replicate 50 Byte.x61)) []) =
  "c2a908d98f5df987ade41b5fce213067efbcc21ef2240212a41e54b5e7c28ae5".
Proof. vm_compute. reflexivity. Qed.

(** ** [Write] implements [absorb] *)

Ltac clia := unfold chunk in *; simpl length in *; lia.

Lemma sha256_block1_take hh p : block1 hh (take chunk p) = block1 hh p.
Proof. unfold block1, schedule. by rewrite take_take, Nat.min_id. Qed.

Lemma sha256_blocks_add n m hh p :
  blocks (n + m) hh p = blocks m (blocks n hh p) (drop (n * chunk) p).
Proof.
  revert hh p. induction n as [|n IH]; intros hh p; simpl; [done|].
  rewrite IH, drop_drop. done.
Qed.

Lemma sha256_blocks_take n k hh p :
  (n * chunk <= k)%nat -> blocks n hh (take k p) = blocks n hh p.
Proof.
  revert k hh p. induction n as [|n IH]; intros k hh p Hk; simpl; [done|].
  assert (chunk + n * chunk <= k)%nat as Hk' by (unfold chunk in *; lia).
  rewrite take_take, Nat.min_l by lia.
  replace (drop chunk (take k p)) with (take (k - chunk) (drop chunk p)).
  - apply IH. clia.
  - rewrite take_drop_commute. do 2 f_equal. clia.
Qed.

Lemma sha256_blocks_app_l n hh a b :
  (n * chunk <= length a)%nat -> blocks n hh (a ++ b) = blocks n hh a.
Proof.
  intros Hn. rewrite <- (sha256_blocks_take n (length a) hh (a ++ b)) by done.
  by rewrite take_app_length.
Qed.

Lemma sha256_absorb_small hh a : (length a < chunk)%nat -> absorb hh a = (hh, a).
Proof.
  intros Ha. unfold absorb. rewrite Nat.div_small by done. done.
Qed.

Lemma sha256_absorb_block hh a r :
  length a = chunk -> absorb hh (a ++ r) = absorb (block1 hh a) r.
Proof.
  intros Ha. unfold absorb. rewrite length_app, Ha.
  replace ((chunk + length r) / chunk)%nat with (S (length r / chunk)).
  2:{ change (chunk + length r)%nat with (1 * chunk + length r)%nat.
      rewrite Nat.div_add_l by done. done. }
  cbn [blocks]. rewrite take_app_length', drop_app_length' by congruence.
  f_equal.
  replace (S (length r / chunk) * chunk)%nat
    with (length a + length r / chunk * chunk)%nat by (rewrite Ha; clia).
  by rewrite <- drop_drop, drop_app_length.
Qed.

Lemma sha256_absorb_app hh a q :
  absorb (absorb hh a).1 ((absorb hh a).2 ++ q) = absorb hh (a ++ q).
Proof.
  unfold absorb at 2 3. cbn [fst snd].
  set (n := (length a / chunk)%nat).
  assert (n * chunk <= length a)%nat as Hn.
  { unfold n. rewrite Nat.mul_comm. apply Nat.Div0.mul_div_le. }
  unfold absorb. rewrite !length_app, length_drop.
  replace ((length a + length q) / chunk)%nat
    with (n + (length a - n * chunk + length q) / chunk)%nat.
  2:{ rewrite <- Nat.div_add_l by done. f_equal. lia. }
  rewrite sha256_blocks_add, (drop_app_le a q (n * chunk)) by done.
  rewrite (sha256_blocks_app_l n) by done. f_equal.
  by rewrite Nat.mul_add_distr_r, <- drop_drop, (drop_app_le a q) by done.
Qed.


Lemma sha256_Write_bulk_spec hh p : Write_bulk hh p = absorb hh p.
Proof.
  unfold Write_bulk, absorb, block.
  destruct (Nat.leb_spec chunk (length p)) as [Hle|Hlt].
  - assert (length p / chunk * chunk <= length p)%nat as Hn.
    { rewrite Nat.mul_comm. apply Nat.Div0.mul_div_le. }
    rewrite length_take, Nat.min_l by done.
    rewrite Nat.div_mul by done. by rewrite sha256_blocks_take.
  - by rewrite Nat.div_small.
Qed.

Lemma sha256_Write_fill_spec hh buf p :
  (length buf < chunk)%nat ->
  let '(h1, x1, p1) := Write_fill hh buf p in
  (x1 = [] /\ absorb h1 p1 = absorb hh (buf ++ p)) \/
  (p1 = [] /\ h1 = hh /\ x1 = buf ++ p /\ (length x1 < chunk)%nat).
Proof.
  intros Hb. unfold Write_fill.
  destruct (Nat.ltb_spec 0 (length buf)) as [Hpos|Hz].
  2:{ left. destruct buf; [done|simpl in Hz; lia]. }
  set (n := Nat.min (chunk - length buf) (length p)).
  destruct (Nat.eqb_spec (length (buf ++ take n p)) chunk) as [Hfull|Hnot].
  - left. split; [done|].
    replace (buf ++ p) with ((buf ++ take n p) ++ drop n p)
      by (by rewrite <- app_assoc, take_drop).
    rewrite sha256_absorb_block by done.
    unfold block. rewrite Hfull. change (chunk / chunk)%nat with 1%nat.
    cbn [blocks]. by rewrite sha256_block1_take.
  - right. rewrite length_app, length_take in Hnot.
    assert (n = length p) as Hn by (unfold n in *; lia).
    rewrite Hn, drop_all, take_ge by done. repeat split; auto.
    rewrite length_app. unfold n in *. lia.
Qed.

Lemma sha256_Write_spec d p :
  (nx d < chunk)%nat ->
  Write d p =
  {| h := (absorb (h d) (x d ++ p)).1;
     x := (absorb (h d) (x d ++ p)).2;
     len := (len d + Z.of_nat (length p)) mod 2 ^ 64 |}.
Proof.
  intros Hnx. unfold Write.
  pose proof (sha256_Write_fill_spec (h d) (x d) p Hnx) as Hfill.
  destruct (Write_fill (h d) (x d) p) as [[h1 x1] p1].
  rewrite sha256_Write_bulk_spec.
  destruct Hfill as [[-> <-]|(-> & -> & -> & Hlt)].
  - destruct (absorb h1 p1) as [h2 p2]. cbn [fst snd]. f_equal.
    by destruct p2.
  - rewrite (sha256_absorb_small _ (x d ++ p)) by done.
    by rewrite sha256_absorb_small by (simpl; clia).
Qed.

Lemma sha256_absorb_length hh a : (length (absorb hh a).2 < chunk)%nat.
Proof.
  unfold absorb. cbn [snd]. rewrite length_drop.
  pose proof (Nat.div_mod_eq (length a) chunk).
  pose proof (Nat.mod_upper_bound (length a) chunk). clia.
Qed.

Lemma sha256_absorb_nx hh a :
  Z.of_nat (length (absorb hh a).2) = Z.of_nat (length a) mod 64.
Proof.
  unfold absorb. cbn [snd]. rewrite length_drop.
  pose proof (Nat.div_mod_eq (length a) chunk) as Hdm.
  replace (length a - length a / chunk * chunk)%nat
    with (length a mod chunk)%nat by lia.
  by rewrite Nat2Z.inj_mod.
Qed.

Lemma sha256_mod_uint64_chunk a : (a mod 2 ^ 64) mod 64 = a mod 64.
Proof. apply Z.mod_mod_divide. by exists (2 ^ 58). Qed.

Lemma sha256_valid_New : valid New.
Proof. unfold valid, nx, chunk. cbn [New x len length]. split_and!; [lia|lia|lia|done]. Qed.

Lemma sha256_Write_valid d p : valid d -> valid (Write d p).
Proof.
  intros (Hnx & Hlen & Hmod). rewrite sha256_Write_spec by done.
  unfold valid, nx. cbn [x len]. split_and!.
  - apply sha256_absorb_length.
  - by apply Z.mod_pos_bound.
  - by apply Z.mod_pos_bound.
  - rewrite sha256_absorb_nx, length_app, Nat2Z.inj_add. fold (nx d).
    by rewrite Hmod, Zplus_mod_idemp_l, sha256_mod_uint64_chunk.
Qed.

Lemma sha256_Write_Write d p q :
  valid d -> Write (Write d p) q = Write d (p ++ q).
Proof.
  intros Hv. pose proof (sha256_Write_valid d p Hv) as (Hnx' & _).
  destruct Hv as (Hnx & Hlen & _).
  rewrite (sha256_Write_spec (Write d p)) by done.
  rewrite !sha256_Write_spec by done. cbn [h x len].
  rewrite sha256_absorb_app, app_assoc. f_equal.
  rewrite length_app, Nat2Z.inj_add, Zplus_mod_idemp_l. f_equal. lia.
Qed.

Lemma sha256_Write_empty d : valid d -> Write d [] = d.
Proof.
  intros (Hnx & Hlen & _). rewrite sha256_Write_spec by done.
  rewrite app_nil_r, sha256_absorb_small by done. destruct d as [hh xx ll].
  cbn [h x len fst snd] in *. f_equal.
  rewrite Z.add_0_r. by apply Z.mod_small.
Qed.

(** ** [checkSum] *)

Lemma sha256_PutUint32_length v : length (PutUint32 v) = 4%nat.
Proof. done. Qed.

Lemma sha256_digest_bytes_length hh : length (digest_bytes hh) = Size.
Proof. done. Qed.

Lemma sha256_checkSum_length d : length (checkSum d) = Size.
Proof. apply sha256_digest_bytes_length. Qed.

Lemma sha256_Sum_length d b : length (Sum d b) = (length b + Size)%nat.
Proof. unfold Sum. by rewrite length_app, sha256_checkSum_length. Qed.

Lemma sha256_padding_length l :
  0 <= l -> (Z.of_nat (length (padding l)) + l) mod 64 = 0.
Proof.
  intros Hl. unfold padding.
  cbn [length]. rewrite length_app, length_replicate.
  change (length (PutUint64 _)) with 8%nat.
  pose proof (Z.mod_pos_bound l 64 eq_refl).
  pose proof (Z.div_mod l 64 ltac:(lia)).
  set (m := l mod 64) in *; set (q := l / 64) in *.
  destruct (Z.ltb_spec m 56).
  - replace (_ + l) with ((q + 1) * 64) by lia. by rewrite Z.mod_mul.
  - replace (_ + l) with ((q + 2) * 64) by lia. by rewrite Z.mod_mul.
Qed.

(** After the padding is written the buffer is empty: the
    [panic("d.nx != 0")] of [checkSum] cannot happen. *)
Lemma sha256_checkSum_nx d : valid d -> nx (Write d (padding (len d))) = 0%nat.
Proof.
  intros Hv. pose proof (sha256_Write_valid d (padding (len d)) Hv) as Hv'.
  destruct Hv as (Hnx & Hlen & Hmod), Hv' as (_ & _ & Hmod').
  rewrite sha256_Write_spec in Hmod' |- * by done. unfold nx in *.
  cbn [x len] in *. apply Nat2Z.inj. rewrite Hmod'.
  rewrite sha256_mod_uint64_chunk.
  rewrite Z.add_comm, sha256_padding_length by lia. done.
Qed.

(** Go's [Sum256] is the SHA-256 of FIPS 180-4 (for messages shorter than
    2^64 bytes, where the length field does not wrap). *)
Lemma sha256_Sum256_ref data :
  Z.of_nat (length data) < 2 ^ 64 -> Sum256 data = Sum256_ref data.
Proof.
  intros Hlen. unfold Sum256, Sum256_ref, checkSum.
  assert (len (Write New data) = Z.of_nat (length data)) as ->.
  { rewrite sha256_Write_spec by (cbn; clia). cbn [len New].
    apply Z.mod_small. lia. }
  rewrite sha256_Write_Write by apply sha256_valid_New.
  by rewrite sha256_Write_spec by (cbn; clia).
Qed.

End sha256.

(** ** SHA-256 as a [hash.Hash] *)

#[export] Instance sha256_Hash : hash.Hash := {|
  hash.state := sha256.digest;
  hash.New := sha256.New;
  hash.Write := sha256.Write;
  hash.Sum := sha256.Sum;
  hash.Size := sha256.Size;
  hash.BlockSize := sha256.BlockSize;
|}.

#[export] Instance sha256_HashLaws : hash.HashLaws sha256_Hash := {|
  hash.valid := sha256.valid;
  hash.valid_New := sha256.sha256_valid_New;
  hash.valid_Write := sha256.sha256_Write_valid;
  hash.Sum_app := fun d b => eq_refl;
  hash.Sum_length := sha256.sha256_checkSum_length;
  hash.Write_app := sha256.sha256_Write_Write;
  hash.Write_nil := sha256.sha256_Write_empty;
  hash.BlockSize_pos := ltac:(cbv; lia);
|}.
