(* ===== verification/Hmac.v ===== *)
(** * crypto/subtle and crypto/hmac

    [verifyRazorpaySignature] computes its MAC with [hmac.New], [Write] and
    [Sum] (src/main.go:140-142) and compares with [hmac.Equal]
    (src/main.go:143), which is [subtle.ConstantTimeCompare(..) == 1].

    - Module [subtle] models the comparison the way Go writes it: a length
      test, one pass that ORs the XOR of every pair of bytes into an
      accumulator, and a branch-free test of the accumulator.  It is proved
      to decide equality of the two slices, and its work is counted to show
      that it does not depend on where the slices differ.
    - Module [hmac] models the [hmac] object over any [hash.Hash]: the two
      pads, the inner and the outer hash.  It is proved to compute the HMAC
      of RFC 2104 from the laws of the interface alone. *)

From S2P Require Import Prelude Hash.

Module subtle.

(** [func ConstantTimeByteEq(x, y uint8) int {
       return int((uint32(x^y) - 1) >> 31) }] *)
Definition ConstantTimeByteEq (x y : byte) : Z :=
  u32.shr (u32.sub (u8.unsigned (u8.xor x y)) 1) 31.

(** The loop [for i := 0; i < len(x); i++ { v |= x[i] ^ y[i] }] of
    [ConstantTimeCompare], from the accumulator [v]; the two slices have
    the same length when it runs. *)
Fixpoint accumulate (v : byte) (x y : list byte) : byte :=
  match x, y with
  | a :: x', b :: y' => accumulate (u8.or v (u8.xor a b)) x' y'
  | _, _ => v
  end.

(** [func ConstantTimeCompare(x, y []byte) int] *)
Definition ConstantTimeCompare (x y : list byte) : Z :=
  if negb (length x =? length y)%nat then 0
  else ConstantTimeByteEq (accumulate Byte.x00 x y) Byte.x00.

(** The work of [ConstantTimeCompare]: the number of iterations of its
    loop. *)
Fixpoint accumulate_steps (x y : list byte) : nat :=
  match x, y with
  | _ :: x', _ :: y' => S (accumulate_steps x' y')
  | _, _ => O
  end.

Definition ConstantTimeCompare_steps (x y : list byte) : nat :=
  if negb (length x =? length y)%nat then O else accumulate_steps x y.

(** For contrast, the comparison that stops at the first difference
    ([bytes.Equal] in its naive form), and its work. *)
Fixpoint short_circuit_steps (x y : list byte) : nat :=
  match x, y with
  | a :: x', b :: y' =>
      if decide (a = b) then S (short_circuit_steps x' y') else 1%nat
  | _, _ => O
  end.

(** ** Properties of the comparison *)

Lemma subtle_ByteEq_spec x y :
  ConstantTimeByteEq x y = if decide (x = y) then 1 else 0.
Proof.
  unfold ConstantTimeByteEq, u32.shr, u32.sub, u32.wrap, u32.modulus.
  destruct (decide (x = y)) as [->|Hne].
  - by rewrite u8.u8_unsigned_xor, Z.lxor_nilpotent.
  - pose proof (u8.u8_unsigned_range (u8.xor x y)) as Hr.
    assert (u8.unsigned (u8.xor x y) <> 0) as Hnz.
    { intros Hz. apply Hne, u8.u8_xor_eq_0, u8.u8_unsigned_inj. by rewrite Hz. }
    rewrite Z.mod_small by lia. rewrite Z.shiftr_div_pow2 by done.
    apply Z.div_small. lia.
Qed.

Lemma subtle_accumulate_zero v x y :
  length x = length y ->
  accumulate v x y = Byte.x00 <-> v = Byte.x00 /\ x = y.
Proof.
  revert v y. induction x as [|a x IH]; intros v [|b y] Hlen; simplify_eq/=.
  - intuition.
  - rewrite IH, u8.u8_or_eq_0, u8.u8_xor_eq_0 by done.
    intuition congruence.
Qed.

Lemma subtle_Compare_spec x y :
  ConstantTimeCompare x y = if decide (x = y) then 1 else 0.
Proof.
  unfold ConstantTimeCompare.
  destruct (Nat.eqb_spec (length x) (length y)) as [Hlen|Hlen]; cbn [negb].
  - rewrite subtle_ByteEq_spec.
    pose proof (subtle_accumulate_zero Byte.x00 x y Hlen).
    repeat case_decide; intuition congruence.
  - case_decide; [by subst|done].
Qed.

Lemma subtle_Compare_steps x y :
  ConstantTimeCompare_steps x y =
  if decide (length x = length y) then length x else 0%nat.
Proof.
  unfold ConstantTimeCompare_steps.
  destruct (Nat.eqb_spec (length x) (length y)) as [Hlen|Hlen]; cbn [negb];
    case_decide; try done.
  clear -Hlen. revert y Hlen.
  induction x as [|a x IH]; intros [|b y] Hlen; simplify_eq/=; auto.
Qed.

End subtle.

Module hmac.
Section WithHash.
Context {H : hash.Hash}.

(** [type hmac struct { opad, ipad []byte; outer, inner hash.Hash }] *)
Record HMAC : Type := mkHMAC {
  opad : list byte;
  ipad : list byte;
  outer : hash.state;
  inner : hash.state;
}.

(** [pad := make([]byte, blocksize); copy(pad, key)] *)
Definition copy_key (key : list byte) : list byte :=
  take hash.BlockSize key ++ replicate (hash.BlockSize - length key) Byte.x00.

(** [func New(h func() hash.Hash, key []byte) hash.Hash] *)
Definition New (key : list byte) : HMAC :=
  let outer0 := hash.New in
  let inner0 := hash.New in
  let blocksize := hash.BlockSize in
  let '(outer1, key1) :=
    if (blocksize <? length key)%nat then
      (* If key is too big, hash it. *)
      let o := hash.Write outer0 key in (o, hash.Sum o [])
    else (outer0, key) in
  let ipad1 := map (fun b => u8.xor b Byte.x36) (copy_key key1) in
  let opad1 := map (fun b => u8.xor b Byte.x5c) (copy_key key1) in
  {| opad := opad1; ipad := ipad1; outer := outer1;
     inner := hash.Write inner0 ipad1 |}.

(** [func (h *hmac) Write(p []byte)] *)
Definition Write (hm : HMAC) (p : list byte) : HMAC :=
  {| opad := opad hm; ipad := ipad hm; outer := outer hm;
     inner := hash.Write (inner hm) p |}.

(** [func (h *hmac) Sum(in []byte) []byte] *)
Definition Sum (hm : HMAC) (b : list byte) : list byte :=
  let origLen := length b in
  let in1 := hash.Sum (inner hm) b in
  let outer1 := hash.New in
  let outer2 := hash.Write outer1 (opad hm) in
  let outer3 := hash.Write outer2 (drop origLen in1) in
  hash.Sum outer3 (take origLen in1).

(** The HMAC of RFC 2104 over the hash [H]: the key is hashed when longer
    than a block and padded with zeros to a block, then
    [H((K xor opad) || H((K xor ipad) || msg))]. *)
Definition HMAC_ref (key msg : list byte) : list byte :=
  let k0 :=
    if (hash.BlockSize <? length key)%nat then hash.digest_of key else key in
  let k := copy_key k0 in
  hash.digest_of
    (map (fun b => u8.xor b Byte.x5c) k ++
     hash.digest_of (map (fun b => u8.xor b Byte.x36) k ++ msg)).

(** ** The object computes the HMAC of RFC 2104 *)

Section Laws.
Context {HL : hash.HashLaws H}.

Lemma hmac_Sum_ref key msg :
  Sum (Write (New key) msg) [] = HMAC_ref key msg.
Proof.
  unfold Sum, Write, New, HMAC_ref.
  destruct (hash.BlockSize <? length key)%nat; cbn [inner opad length take drop].
  all: rewrite !hash.Write_app by apply hash.valid_New; done.
Qed.

Lemma hmac_Sum_length hm b : length (Sum hm b) = (length b + hash.Size)%nat.
Proof.
  unfold Sum. rewrite hash.hash_Sum_take, hash.hash_Sum_drop.
  by rewrite hash.hash_Sum_length.
Qed.
End Laws.

End WithHash.

(** [func Equal(mac1, mac2 []byte) bool {
       return subtle.ConstantTimeCompare(mac1, mac2) == 1 }] *)
Definition Equal (mac1 mac2 : list byte) : bool :=
  subtle.ConstantTimeCompare mac1 mac2 =? 1.

Lemma hmac_Equal_spec x y : Equal x y = bool_decide (x = y).
Proof.
  unfold Equal. rewrite subtle.subtle_Compare_spec.
  by case_decide; case_bool_decide.
Qed.

End hmac.
