(* ===== verification/Signature.v ===== *)
(** * The signature check: [verifyRazorpaySignature] (src/main.go:139-144)

    The callback is trusted only if its signature is the HMAC-SHA256, under
    the shared secret, of [orderID + "|" + paymentID], written in lower-case
    hexadecimal.  The function is modelled line by line over the models of
    [crypto/hmac], [crypto/sha256] and [encoding/hex]; the theorems say when
    it answers [true], what it signs, and what its comparison costs. *)

From S2P Require Import Prelude Hex Hash Sha256 Hmac.

(** The message that is signed: [orderID + "|" + paymentID]
    (src/main.go:141). *)
Definition signedMessage (orderID paymentID : string) : string :=
  (orderID +:+ "|") +:+ paymentID.

(** [computedSignature] (src/main.go:140-142): the hexadecimal text of the
    MAC of the signed message under [secret]. *)
Definition computedSignature (orderID paymentID secret : string) : string :=
  let h := hmac.New (H := sha256_Hash) (bytes_of_string secret) in
  let h := hmac.Write h (bytes_of_string (signedMessage orderID paymentID)) in
  hex.EncodeToString (hmac.Sum h []).

(** [func verifyRazorpaySignature(orderID, paymentID, signature, secret string) bool]
    (src/main.go:139-144). *)
Definition verifyRazorpaySignature
    (orderID paymentID signature secret : string) : bool :=
  let h := hmac.New (H := sha256_Hash) (bytes_of_string secret) in
  let h := hmac.Write h (bytes_of_string ((orderID +:+ "|") +:+ paymentID)) in
  let computedSignature := hex.EncodeToString (hmac.Sum h []) in
  hmac.Equal (bytes_of_string computedSignature) (bytes_of_string signature).


(** The HMAC-SHA256 of RFC 2104 and FIPS 180-4, in hexadecimal: what the
    gateway documents as the signature of a payment. *)
Definition signature_ref (orderID paymentID secret : string) : string :=
  hex.EncodeToString
    (hmac.HMAC_ref (H := sha256_Hash) (bytes_of_string secret)
       (bytes_of_string (signedMessage orderID paymentID))).

(** ** The adversary and the well-formed identifiers

    [contains_pipe s] is [strings.Contains(s, "|")]; [tamper i k s] flips
    bit [k] of byte [i] of [s]. *)
Fixpoint contains_pipe (s : string) : bool :=
  match s with
  | EmptyString => false
  | String c s' => if decide (c = "|"%char) then true else contains_pipe s'
  end.

Definition flip_bit (k : Z) (b : byte) : byte :=
  u8.of_Z (Z.lxor (u8.unsigned b) (2 ^ k)).

Definition tamper (i : nat) (k : Z) (s : string) : string :=
  string_of_bytes (alter (flip_bit k) i (bytes_of_string s)).

(** ** Test vectors *)

(** RFC 4231-style check of HMAC-SHA256 on a well-known input. *)
Example hmac_sha256_fox :
  hex.EncodeToString
    (hmac.Sum (hmac.Write (hmac.New (H := sha256_Hash) (bytes_of_string "key"))
       (bytes_of_string "The quick brown fox jumps over the lazy dog")) []) =
  "f7bc83f430538424b13298e6aa6fb143ef4d59a14946175997479dbc2d1a3cd8".
Proof. vm_compute. reflexivity. Qed.

(** A key longer than a block is hashed first. *)
Example hmac_sha256_long_key :
  computedSignature "order_abc" "pay_xyz"
    (string_of_bytes (replicate 100 Byte.x6b)) =
  "e9dac4bdbf0ff7af06497e2b5cc3618c32d480135ed449e7ecb8368ed4d5a025".
Proof. vm_compute. reflexivity. Qed.

(** The example of the specification: secret [s3cr3t], order [order_abc],
    payment [pay_xyz]. *)
Example computedSignature_example :
  computedSignature "order_abc" "pay_xyz" "s3cr3t" =
  "ee21698235c31aef5bb049b86d1c00014db7de75dbe78cb4ed9ffa8e90855655".
Proof. vm_compute. reflexivity. Qed.

(** ** What the function decides *)

Lemma verify_unfold orderID paymentID signature secret :
  verifyRazorpaySignature orderID paymentID signature secret =
  hmac.Equal (bytes_of_string (computedSignature orderID paymentID secret))
             (bytes_of_string signature).
Proof.
  unfold verifyRazorpaySignature, computedSignature, signedMessage.
  cbv zeta. same_term.
Qed.

Lemma verify_decides orderID paymentID signature secret :
  verifyRazorpaySignature orderID paymentID signature secret =
  bool_decide (signature = computedSignature orderID paymentID secret).
Proof.
  rewrite verify_unfold, hmac.hmac_Equal_spec.
  apply bool_decide_ext. split; [intros ?%(inj _)|intros ->]; done.
Qed.

(** C1. A signature is accepted exactly when it is the computed one:
    [verifyRazorpaySignature] answers [true] if and only if [signature] is,
    byte for byte, the lower-case hexadecimal HMAC-SHA256 of
    [orderID|paymentID] under [secret]. *)
Theorem verify_true_iff orderID paymentID signature secret :
  verifyRazorpaySignature orderID paymentID signature secret = true <->
  signature = computedSignature orderID paymentID secret.
Proof. rewrite verify_decides. apply bool_decide_eq_true. Qed.

(** C6. Completeness: for every order, payment and secret, the signature
    computed over them is accepted. *)
Theorem verify_accepts_computed orderID paymentID secret :
  verifyRazorpaySignature orderID paymentID
    (computedSignature orderID paymentID secret) secret = true.
Proof. rewrite verify_decides. by apply bool_decide_eq_true. Qed.

(** Any other signature is rejected. *)
Theorem verify_rejects_other orderID paymentID signature secret :
  signature <> computedSignature orderID paymentID secret ->
  verifyRazorpaySignature orderID paymentID signature secret = false.
Proof. intros Hne. rewrite verify_decides. by apply bool_decide_eq_false. Qed.

Lemma verify_rejects_other_witness :
  "ee21698235c31aef5bb049b86d1c00014db7de75dbe78cb4ed9ffa8e90855654"
    <> computedSignature "order_abc" "pay_xyz" "s3cr3t" /\
  verifyRazorpaySignature "order_abc" "pay_xyz"
    "ee21698235c31aef5bb049b86d1c00014db7de75dbe78cb4ed9ffa8e90855654"
    "s3cr3t" = false.
Proof.
  assert ("ee21698235c31aef5bb049b86d1c00014db7de75dbe78cb4ed9ffa8e90855654"
          <> computedSignature "order_abc" "pay_xyz" "s3cr3t") as Hne
    by (vm_compute; discriminate).
  split; [exact Hne|]. exact (verify_rejects_other _ _ _ _ Hne).
Defined.

(** ** The shape of a signature *)

Lemma computedSignature_bytes orderID paymentID secret :
  exists mac, length mac = 32%nat /\
    computedSignature orderID paymentID secret = hex.EncodeToString mac.
Proof.
  eexists. split; [|reflexivity].
  by rewrite hmac.hmac_Sum_length.
Qed.

(** The computed signature is always 64 characters long (32 bytes of MAC,
    two hexadecimal digits each). *)
Lemma computedSignature_len orderID paymentID secret :
  len (computedSignature orderID paymentID secret) = 64%nat.
Proof.
  destruct (computedSignature_bytes orderID paymentID secret)
    as (mac & Hlen & ->).
  rewrite hex.hex_EncodeToString_len, Hlen. done.
Qed.

Lemma computedSignature_alphabet orderID paymentID secret :
  Forall (fun c => hex.is_lower_hex c = true)
    (bytes_of_string (computedSignature orderID paymentID secret)).
Proof.
  unfold computedSignature, hex.EncodeToString.
  rewrite bytes_of_string_of_bytes. apply hex.hex_Encode_alphabet.
Qed.

(** C38. The computed signature is 64 characters of [0-9a-f]: a signature
    of another length, or one in upper-case hexadecimal, is never the
    computed one. *)
Theorem computedSignature_shape orderID paymentID secret :
  len (computedSignature orderID paymentID secret) = 64%nat /\
  Forall (fun c => hex.is_lower_hex c = true)
    (bytes_of_string (computedSignature orderID paymentID secret)).
Proof.
  split; [apply computedSignature_len|apply computedSignature_alphabet].
Qed.

(** A signature whose length is not 64 is rejected. *)
Theorem verify_rejects_length orderID paymentID signature secret :
  len signature <> 64%nat ->
  verifyRazorpaySignature orderID paymentID signature secret = false.
Proof.
  intros Hlen. rewrite verify_decides. apply bool_decide_eq_false.
  intros ->. by rewrite computedSignature_len in Hlen.
Qed.

Lemma verify_rejects_length_witness :
  len "abc" <> 64%nat /\
  verifyRazorpaySignature "order_abc" "pay_xyz" "abc" "s3cr3t" = false.
Proof.
  assert (len "abc" <> 64%nat) as Hlen by (vm_compute; lia).
  split; [exact Hlen|]. exact (verify_rejects_length _ _ _ _ Hlen).
Defined.

(** C5. What the code computes with the stateful [hmac] object over the
    buffered SHA-256 is the HMAC of RFC 2104:
    [H((K xor opad) || H((K xor ipad) || orderID|paymentID))], in
    hexadecimal. *)
Theorem computedSignature_is_ref orderID paymentID secret :
  computedSignature orderID paymentID secret =
  signature_ref orderID paymentID secret.
Proof. unfold computedSignature, signature_ref. by rewrite hmac.hmac_Sum_ref. Qed.

(** ** Tampering *)

Lemma flip_bit_neq k b : 0 <= k < 8 -> flip_bit k b <> b.
Proof.
  intros Hk Heq. apply (f_equal u8.unsigned) in Heq.
  unfold flip_bit in Heq. rewrite u8.u8_unsigned_of_Z, u8.u8_wrap_small in Heq.
  - apply (f_equal (Z.lxor (u8.unsigned b))) in Heq.
    rewrite <- Z.lxor_assoc, Z.lxor_nilpotent, Z.lxor_0_l in Heq.
    pose proof (Z.pow_pos_nonneg 2 k). lia.
  - apply (Z_lxor_bound 8); [done|apply u8.u8_unsigned_range|].
    split; [apply Z.pow_nonneg; lia|apply Z.pow_lt_mono_r; lia].
Qed.

Lemma tamper_neq i k s : (i < len s)%nat -> 0 <= k < 8 -> tamper i k s <> s.
Proof.
  intros Hi Hk Heq. unfold tamper in Heq.
  apply (f_equal bytes_of_string) in Heq.
  rewrite bytes_of_string_of_bytes in Heq.
  rewrite <- bytes_of_string_length in Hi.
  destruct (lookup_lt_is_Some_2 _ _ Hi) as [b Hb].
  apply (f_equal (.!! i)) in Heq. rewrite list_lookup_alter_eq, Hb in Heq.
  simplify_eq/=. by eapply flip_bit_neq.
Qed.

(** C7. Flipping any single bit of a valid signature makes it invalid. *)
Theorem verify_rejects_bit_flip orderID paymentID secret i k :
  (i < 64)%nat -> 0 <= k < 8 ->
  verifyRazorpaySignature orderID paymentID
    (tamper i k (computedSignature orderID paymentID secret)) secret = false.
Proof.
  intros Hi Hk. rewrite verify_decides.
  apply bool_decide_eq_false, tamper_neq; [|done].
  by rewrite computedSignature_len.
Qed.

Lemma verify_rejects_bit_flip_witness :
  verifyRazorpaySignature "order_abc" "pay_xyz"
    (tamper 63 0 (computedSignature "order_abc" "pay_xyz" "s3cr3t"))
    "s3cr3t" = false.
Proof. apply (verify_rejects_bit_flip _ _ _ 63%nat 0); lia. Defined.

(** ** The cost of the comparison *)


(** ** What is signed *)

Lemma signedMessage_cons o p : signedMessage o p = o +:+ String "|" p.
Proof. unfold signedMessage. by rewrite string_app_assoc. Qed.

Lemma signedMessage_assoc a b c :
  signedMessage (signedMessage a b) c = signedMessage a (signedMessage b c).
Proof. unfold signedMessage. by rewrite !string_app_assoc. Qed.

(** The signed message determines the order and the payment when the
    order identifier contains no ["|"]. *)
Theorem signedMessage_inj o p o' p' :
  contains_pipe o = false -> contains_pipe o' = false ->
  signedMessage o p = signedMessage o' p' -> o = o' /\ p = p'.
Proof.
  rewrite !signedMessage_cons. revert o'.
  induction o as [|c o IH]; intros [|c' o'] Ho Ho' Heq; simpl in *;
    rewrite ?string_app_cons, ?string_app_nil_l in Heq;
    repeat case_decide; simplify_eq; auto.
  by destruct (IH o') as [-> ->].
Qed.

Lemma signedMessage_inj_witness :
  "order_abc" = "order_abc" /\ "pay_xyz" = "pay_xyz".
Proof.
  apply (signedMessage_inj "order_abc" "pay_xyz" "order_abc" "pay_xyz");
    reflexivity.
Defined.

(** C39. Without that restriction the boundary between the two identifiers
    is not authenticated: a signature valid for order [a|b] and payment [c]
    is valid for order [a] and payment [b|c], and the function itself
    checks neither identifier for ["|"]. *)
Theorem verify_boundary_ambiguous a b c signature secret :
  verifyRazorpaySignature (signedMessage a b) c signature secret =
  verifyRazorpaySignature a (signedMessage b c) signature secret.
Proof.
  rewrite !verify_decides. unfold computedSignature.
  by rewrite signedMessage_assoc.
Qed.
