(* ===== verification/Url.v ===== *)
(** * net/url: parsing a form-encoded body

    [PaymentGatewayCallback] hands the request body to [url.ParseQuery]
    (src/main.go:96) and looks three keys up in the result.  This file
    models [ParseQuery] as Go's [net/url] implements it (Go 1.17 and later,
    where a semicolon in the query is an error): the query is cut at every
    ["&"], each piece at its first ["="], both halves are unescaped
    (["+"] is a space, ["%XX"] a byte), and the value is appended to the
    list of its key.  The first error is kept while the remaining pieces
    are still parsed.

    The loop [for query != ""] of [parseQuery] consumes one piece per
    iteration; it is modelled as a fold over the pieces, in order.

    [QueryEscape], the inverse the sender of a form applies, is modelled as
    the reference [ParseQuery] is checked against. *)

From S2P Require Import Prelude.

Module url.

(** [type Values map[string][]string] *)
Abbreviation Values := (gmap string (list string)).

Inductive error : Type :=
| EscapeError (s : string)        (* "invalid URL escape " + quoted s *)
| SemicolonError.                 (* "invalid semicolon separator in query" *)

#[global] Instance error_eq_dec : EqDecision error.
Proof. solve_decision. Defined.

Definition code (c : ascii) : Z := Z.of_N (N_of_ascii c).
Definition char (z : Z) : ascii := ascii_of_N (Z.to_N (z mod 256)).

(** [func ishex(c byte) bool] *)
Definition ishex (c : ascii) : bool :=
  let z := code c in
  ((48 <=? z) && (z <=? 57)) || ((97 <=? z) && (z <=? 102))
  || ((65 <=? z) && (z <=? 70)).

(** [func unhex(c byte) byte] *)
Definition unhex (c : ascii) : Z :=
  let z := code c in
  if (48 <=? z) && (z <=? 57) then z - 48
  else if (97 <=? z) && (z <=? 102) then z - 97 + 10
  else if (65 <=? z) && (z <=? 70) then z - 65 + 10
  else 0.

(** [s[:3]] when [len(s) > 3], [s] otherwise: the text of an
    [EscapeError]. *)
Definition escape_text (s : string) : string :=
  match s with
  | String a (String b (String c _)) => String a (String b (String c ""))
  | _ => s
  end.

(** The first loop of [unescape]: every ["%"] is followed by two
    hexadecimal digits, or the escape is reported. *)
Fixpoint unescape_check (s : string) : option error :=
  match s with
  | EmptyString => None
  | String c rest =>
      if decide (c = "%"%char) then
        match rest with
        | String a (String b rest') =>
            if ishex a && ishex b then unescape_check rest'
            else Some (EscapeError (escape_text s))
        | _ => Some (EscapeError (escape_text s))
        end
      else unescape_check rest
  end.

(** The second loop of [unescape] in the mode [encodeQueryComponent]:
    ["%XX"] becomes the byte [unhex(X)<<4 | unhex(X)], ["+"] a space. *)
Fixpoint unescape_build (s : string) : string :=
  match s with
  | EmptyString => EmptyString
  | String c rest =>
      if decide (c = "%"%char) then
        match rest with
        | String a (String b rest') =>
            String (char (Z.lor (Z.shiftl (unhex a) 4) (unhex b)))
                   (unescape_build rest')
        | _ => String c (unescape_build rest)
        end
      else if decide (c = "+"%char) then String " "%char (unescape_build rest)
      else String c (unescape_build rest)
  end.

(** [func QueryUnescape(s string) (string, error)] *)
Definition QueryUnescape (s : string) : error + string :=
  match unescape_check s with
  | Some e => inl e
  | None => inr (unescape_build s)
  end.

(** [strings.Cut(s, sep)] for a separator of one character:
    [(before, after, found)]. *)
Fixpoint Cut (sep : ascii) (s : string) : string * string * bool :=
  match s with
  | EmptyString => (EmptyString, EmptyString, false)
  | String c rest =>
      if decide (c = sep) then (EmptyString, rest, true)
      else let '(before, after, found) := Cut sep rest in
           (String c before, after, found)
  end.

(** [strings.Contains(s, sep)] for a separator of one character. *)
Fixpoint Contains (sep : ascii) (s : string) : bool :=
  match s with
  | EmptyString => false
  | String c rest => if decide (c = sep) then true else Contains sep rest
  end.

(** The pieces [key, query, _ = strings.Cut(query, "&")] yields while
    [query != ""], in order. *)
Fixpoint pieces (query : string) : list string :=
  match query with
  | EmptyString => []
  | String c rest =>
      if decide (c = "&"%char) then EmptyString :: pieces rest
      else match pieces rest with
           | [] => [String c EmptyString]
           | p :: ps => String c p :: ps
           end
  end.

(** One iteration of the loop of [parseQuery] on the piece [key]. *)
Definition parse_piece (st : Values * option error) (key : string)
  : Values * option error :=
  let '(m, err) := st in
  if Contains ";"%char key then (m, Some SemicolonError)
  else if decide (key = EmptyString) then (m, err)
  else
    let '(key, value, _) := Cut "="%char key in
    match QueryUnescape key with
    | inl err1 => (m, if err is None then Some err1 else err)
    | inr key =>
        match QueryUnescape value with
        | inl err1 => (m, if err is None then Some err1 else err)
        | inr value => (<[key := default [] (m !! key) ++ [value]]> m, err)
        end
    end.

(** [func parseQuery(m Values, query string) (err error)] *)
Definition parseQuery (m : Values) (query : string) : Values * option error :=
  fold_left parse_piece (pieces query) (m, None).

(** [func ParseQuery(query string) (Values, error)] *)
Definition ParseQuery (query : string) : Values * option error :=
  parseQuery ∅ query.

(** Every key of the map has at least one value. *)
Definition nonempty_values (m : Values) : Prop :=
  map_Forall (fun _ v => v <> []) m.

(** ** The sender's side: [QueryEscape] and a form body

    [const upperhex = "0123456789ABCDEF"] *)
Definition upperhex : string := "0123456789ABCDEF".

Definition upperhex_at (i : Z) : ascii :=
  default "0"%char (String.get (Z.to_nat i) upperhex).

(** [shouldEscape(c, encodeQueryComponent)] *)

Definition shouldEscape (c : ascii) : bool :=
  let z := code c in
  negb (((97 <=? z) && (z <=? 122)) || ((65 <=? z) && (z <=? 90))
        || ((48 <=? z) && (z <=? 57))
        || (z =? 45) || (z =? 95) || (z =? 46) || (z =? 126)).

(** One character of [escape(s, encodeQueryComponent)]: a space is ["+"],
    a character that must be escaped is ["%XX"]. *)
Definition escape_char (c : ascii) : string :=
  if decide (c = " "%char) then "+"
  else if shouldEscape c then
    String "%"%char (String (upperhex_at (Z.shiftr (code c) 4))
      (String (upperhex_at (Z.land (code c) 15)) EmptyString))
  else String c EmptyString.

(** [func QueryEscape(s string) string] *)
Fixpoint QueryEscape (s : string) : string :=
  match s with
  | EmptyString => EmptyString
  | String c rest => escape_char c +:+ QueryEscape rest
  end.

(** [key=value], both escaped; and a body of such pairs joined by ["&"],
    in the order given. *)
Definition encode_pair (kv : string * string) : string :=
  QueryEscape kv.1 +:+ String "="%char (QueryEscape kv.2).

Fixpoint form_encode (kvs : list (string * string)) : string :=
  match kvs with
  | [] => EmptyString
  | kv :: rest =>
      match rest with
      | [] => encode_pair kv
      | _ => encode_pair kv +:+ String "&"%char (form_encode rest)
      end
  end.

(** [m[key] = append(m[key], value)] *)

Definition add_value (m : Values) (kv : string * string) : Values :=
  <[kv.1 := default [] (m !! kv.1) ++ [kv.2]]> m.

(** ** Properties *)



Lemma url_pieces_Cut query :
  query <> EmptyString ->
  pieces query = (Cut "&"%char query).1.1 :: pieces (Cut "&"%char query).1.2.
Proof.
  induction query as [|c rest IH]; [done|intros _]. cbn [pieces Cut].
  case_decide; [done|].
  destruct rest as [|c' rest']; [done|].
  rewrite IH by done. by destruct (Cut _ (String c' rest')) as [[? ?] ?].
Qed.

Lemma url_parse_piece_nonempty m err key :
  nonempty_values m -> nonempty_values (parse_piece (m, err) key).1.
Proof.
  intros Hm. unfold parse_piece.
  repeat (case_match; simplify_eq/=; try done).
  apply map_Forall_insert_2; [|done]. by destruct (default [] _).
Qed.

Lemma url_parseQuery_nonempty m query :
  nonempty_values m -> nonempty_values (parseQuery m query).1.
Proof.
  unfold parseQuery. generalize (@None error).
  revert m. induction (pieces query) as [|p ps IH]; intros m err Hm; [done|].
  cbn [fold_left]. pose proof (url_parse_piece_nonempty m err p Hm) as Hm'.
  destruct (parse_piece (m, err) p) as [m' err']. by apply IH.
Qed.

Lemma url_ParseQuery_nonempty query k v :
  (ParseQuery query).1 !! k = Some v -> v <> [].
Proof.
  intros Hk. eapply (url_parseQuery_nonempty ∅ query); [|exact Hk].
  apply map_Forall_empty.
Qed.



Lemma url_escape_char_check c rest :
  unescape_check (escape_char c +:+ rest) = unescape_check rest.
Proof. destruct c as [[] [] [] [] [] [] [] []]; reflexivity. Qed.

Lemma url_escape_char_build c rest :
  unescape_build (escape_char c +:+ rest) = String c (unescape_build rest).
Proof. destruct c as [[] [] [] [] [] [] [] []]; reflexivity. Qed.

Lemma url_QueryUnescape_QueryEscape s : QueryUnescape (QueryEscape s) = inr s.
Proof.
  unfold QueryUnescape.
  assert (unescape_check (QueryEscape s) = None) as ->.
  { induction s as [|c s IH]; [done|].
    cbn [QueryEscape]. by rewrite url_escape_char_check. }
  f_equal. induction s as [|c s IH]; [done|].
  cbn [QueryEscape]. by rewrite url_escape_char_build, IH.
Qed.

Lemma url_escape_char_Contains sep c rest :
  sep = "&"%char \/ sep = ";"%char \/ sep = "="%char ->
  Contains sep (escape_char c +:+ rest) = Contains sep rest.
Proof.
  intros [->|[->| ->]]; destruct c as [[] [] [] [] [] [] [] []]; reflexivity.
Qed.

Lemma url_QueryEscape_Contains sep s :
  sep = "&"%char \/ sep = ";"%char \/ sep = "="%char ->
  Contains sep (QueryEscape s) = false.
Proof.
  intros Hsep. induction s as [|c s IH]; [done|].
  cbn [QueryEscape]. by rewrite url_escape_char_Contains.
Qed.

Lemma url_Contains_app sep a b :
  Contains sep (a +:+ b) = Contains sep a || Contains sep b.
Proof.
  induction a as [|c a IH]; [done|]. rewrite string_app_cons. cbn [Contains].
  by case_decide.
Qed.

Lemma url_Cut_found sep a b :
  Contains sep a = false -> Cut sep (a +:+ String sep b) = (a, b, true).
Proof.
  induction a as [|c a IH]; cbn [Contains]; intros Ha.
  - rewrite string_app_nil_l. cbn [Cut]. by rewrite decide_True.
  - rewrite string_app_cons. cbn [Cut]. case_decide; [done|]. by rewrite IH.
Qed.

Lemma url_pieces_single a :
  Contains "&"%char a = false -> a <> EmptyString -> pieces a = [a].
Proof.
  induction a as [|c a IH]; [done|]. cbn [Contains pieces]. intros Ha _.
  case_decide; [done|]. destruct a as [|c' a']; [done|].
  by rewrite IH.
Qed.

Lemma url_pieces_app a b :
  Contains "&"%char a = false ->
  pieces (a +:+ String "&"%char b) = a :: pieces b.
Proof.
  induction a as [|c a IH]; cbn [Contains]; intros Ha.
  - rewrite string_app_nil_l. cbn [pieces]. by rewrite decide_True.
  - rewrite string_app_cons. cbn [pieces]. case_decide; [done|]. by rewrite IH.
Qed.

Lemma url_encode_pair_Contains sep kv :
  sep = "&"%char \/ sep = ";"%char -> Contains sep (encode_pair kv) = false.
Proof.
  intros Hsep. unfold encode_pair. rewrite url_Contains_app. cbn [Contains].
  rewrite !url_QueryEscape_Contains by tauto.
  destruct Hsep as [-> | ->]; by rewrite decide_False.
Qed.

Lemma url_encode_pair_nonempty kv : encode_pair kv <> EmptyString.
Proof. unfold encode_pair. by destruct (QueryEscape kv.1). Qed.

Lemma url_parse_piece_encode_pair m err kv :
  parse_piece (m, err) (encode_pair kv) = (add_value m kv, err).
Proof.
  unfold parse_piece.
  rewrite url_encode_pair_Contains by tauto.
  rewrite decide_False by apply url_encode_pair_nonempty.
  unfold encode_pair. rewrite url_Cut_found by (apply url_QueryEscape_Contains; tauto).
  by rewrite !url_QueryUnescape_QueryEscape.
Qed.

Theorem url_parseQuery_form_encode kvs m :
  parseQuery m (form_encode kvs) = (fold_left add_value kvs m, None).
Proof.
  unfold parseQuery. generalize (@None error). revert m.
  induction kvs as [|kv [|kv' rest] IH]; intros m err; [done| |].
  - cbn [form_encode]. rewrite url_pieces_single
      by auto using url_encode_pair_nonempty, url_encode_pair_Contains.
    cbn [fold_left]. by rewrite url_parse_piece_encode_pair.
  - change (form_encode (kv :: kv' :: rest))
      with (encode_pair kv +:+ String "&"%char (form_encode (kv' :: rest))).
    rewrite url_pieces_app by auto using url_encode_pair_Contains.
    cbn [fold_left]. by rewrite url_parse_piece_encode_pair, IH.
Qed.

(** ** Queries joined by ["&"] *)

(** The pieces of two queries joined by ["&"]: those of the first, an
    empty piece when the first is empty or ends in ["&"], those of the
    second. *)
Lemma url_pieces_join a b :
  exists e, (e = [] \/ e = [EmptyString]) /\
    pieces (a +:+ String "&"%char b) = pieces a ++ e ++ pieces b.
Proof.
  induction a as [|c a (e & He & IH)].
  - exists [EmptyString]. split; [by right|].
    rewrite string_app_nil_l. cbn [pieces]. by rewrite decide_True.
  - rewrite string_app_cons. cbn [pieces].
    destruct (decide (c = "&"%char)) as [_|_].
    { exists e. by rewrite IH. }
    destruct a as [|c' a'].
    { exists []. split; [by left|]. rewrite string_app_nil_l. cbn [pieces].
      by rewrite decide_True. }
    exists e. split; [done|]. rewrite IH.
    destruct (pieces (String c' a')) as [|p ps] eqn:Hp; [|done].
    cbn in Hp. by repeat case_match.
Qed.

(** An empty piece is skipped. *)
Lemma url_parse_piece_empty st : parse_piece st EmptyString = st.
Proof. by destruct st. Qed.

(** Parsing two queries joined by ["&"] is parsing the first, then the
    second. *)
Lemma url_parse_join a b st :
  fold_left parse_piece (pieces (a +:+ String "&"%char b)) st =
  fold_left parse_piece (pieces b) (fold_left parse_piece (pieces a) st).
Proof.
  destruct (url_pieces_join a b) as (e & [-> | ->] & ->);
    rewrite !fold_left_app; [done|].
  cbn [fold_left]. by rewrite url_parse_piece_empty.
Qed.

(** The error of a parse does not depend on the map the values are added
    to. *)
Lemma url_parse_error ps m m' err :
  (fold_left parse_piece ps (m, err)).2 = (fold_left parse_piece ps (m', err)).2.
Proof.
  revert m m' err. induction ps as [|p ps IH]; intros m m' err; [done|].
  cbn [fold_left]. unfold parse_piece at 2 4.
  repeat case_match; simplify_eq; eauto.
Qed.

(** A piece leaves the map as it is or adds one value to it. *)
Lemma url_parse_piece_cases m err p :
  (parse_piece (m, err) p).1 = m \/
  exists kv, (parse_piece (m, err) p).1 = add_value m kv.
Proof.
  unfold parse_piece. repeat case_match; simplify_eq/=; auto.
  right. by eexists (_, _).
Qed.

(** A value is added at the end of the list of its key: the first value
    of a key that has one stays. *)
Lemma url_add_value_first m kv k v vs :
  m !! k = Some (v :: vs) -> exists vs', add_value m kv !! k = Some (v :: vs').
Proof.
  intros Hk. unfold add_value. destruct (decide (kv.1 = k)) as [->|Hne].
  - rewrite lookup_insert_eq, Hk. cbn. eauto.
  - rewrite lookup_insert_ne by done. eauto.
Qed.

Lemma url_parse_first ps m err k v vs :
  m !! k = Some (v :: vs) ->
  exists vs', (fold_left parse_piece ps (m, err)).1 !! k = Some (v :: vs').
Proof.
  revert m err vs. induction ps as [|p ps IH]; intros m err vs Hk; [by eauto|].
  cbn [fold_left]. destruct (parse_piece (m, err) p) as [m' err'] eqn:Hp.
  destruct (url_parse_piece_cases m err p) as [Hm|[kv Hm]];
    rewrite Hp in Hm; cbn in Hm; subst m'; [by eapply IH|].
  destruct (url_add_value_first m kv k v vs Hk) as [vs' Hk']. by eapply IH.
Qed.
End url.
