(* ===== verification/Gin.v ===== *)
(** * The HTTP framework and the process: gin, os, io, fmt

    The handlers of src/main.go act on a [*gin.Context] and on the process
    (environment variables, standard output).  This file models what they
    use of them:

    - [json]: the values [c.JSON] is given, as the tree [encoding/json]
      would serialise (an object lists its fields in the order of the
      output: struct fields as declared, the keys of a map sorted, which
      is what [H] does to a [gin.H] or a [map[string]interface{}]);
    - [ResponseWriter], [Request], [Context]: status, headers and body of
      the response, method, path and body of the request, the index of the
      running handler;
    - [State]: a context together with the process it runs in;
    - the operations [c.JSON], [c.Status], [c.AbortWithStatus], [c.Next],
      [c.Writer.Header().Set], [os.Getenv], [io.ReadAll], [fmt.Println],
      each a computation of the monad [Go.M State];
    - [Engine]: the router [gin.Default()] returns, with [Use], [POST] and
      the dispatch of a request: to the chain of its route, to a
      redirection when the path differs from a route by the slash at its
      end ([redirectTrailingSlash], which runs no handler), or to the 404
      of the engine behind the middleware of the group;
    - [Logger] and [Recovery], the middleware of [gin.Default()]: the
      first prints a line for every request on standard output, the
      second answers 500 when a handler after it panics.

    A handler is a function of the computation [c.Next()] stands for when
    it runs, so that a middleware can call the handlers after it.
    [c.Next] is given twice: [Next_loop] is the loop of gin over
    [c.index], with fuel because a middleware enters it again;
    [run_handlers] is the same loop unrolled along the chain.  The engine
    runs the first; the file [Chain] proves them equal. *)

From stdpp Require Import sorting.
From S2P Require Import Prelude.

Module gin.

(** ** JSON values *)

#[local] Set Warnings "-register-all".

Inductive json : Type :=
| JNull
| JNumber (z : Z)
| JString (s : string)
| JObject (fields : list (string * json)).

(** [gin.H{"k": v}], a map of one key. *)
Definition H1 (k : string) (v : json) : json := JObject [(k, v)].

(** The field [k] of an object (the first, if the key is repeated). *)
Fixpoint assoc (k : string) (fields : list (string * json)) : option json :=
  match fields with
  | [] => None
  | (k', v) :: rest => if decide (k' = k) then Some v else assoc k rest
  end.

Definition field (k : string) (j : json) : option json :=
  match j with
  | JObject fields => assoc k fields
  | _ => None
  end.

(** The order of the keys of a map in a JSON object: bytes compared as
    unsigned numbers, the shorter string first. *)
Definition key_le (a b : string * json) : Prop := String.leb a.1 b.1 = true.

#[global] Instance key_le_dec a b : Decision (key_le a b).
Proof. unfold key_le. apply _. Defined.
#[global] Instance key_le_total : Total key_le.
Proof. intros a b. apply String.leb_total. Qed.

(** A value of type [gin.H], that is [map[string]any], as [encoding/json]
    writes it: the members sorted by key. *)
Definition H (m : gmap string json) : json :=
  JObject (merge_sort key_le (map_to_list m)).

Definition members (j : json) : list (string * json) :=
  match j with JObject l => l | _ => [] end.

(** ** Request, response, context *)

(** [c.Request.Body]: what [io.ReadAll] will return (the bytes, and the
    error if reading fails), and whether [Close] was called. *)
Record ReadCloser : Type := mkBody {
  content : string;
  failure : option string;
  closed : bool;
}.

Record Request : Type := mkRequest {
  Method : string;
  Path : string;
  Body : ReadCloser;
}.

(** What is written to the body of a response: a JSON document (by
    [c.JSON]) or plain text. *)
Inductive chunk : Type :=
| Json (j : json)
| Text (s : string).

(** [gin.ResponseWriter]: the status to send, the headers, what was
    written to the body so far, and whether the header was written. *)
Record ResponseWriter : Type := mkWriter {
  status : Z;
  header : gmap string string;
  body : list chunk;
  written : bool;
}.

Record Context : Type := mkContext {
  request : Request;
  writer : ResponseWriter;
  index : Z;
}.

(** A request the process sent to the payment gateway: the credentials of
    the client and the payload. *)
Record Outbound : Type := mkOutbound {
  auth_key : string;
  auth_secret : string;
  payload : gmap string json;
}.

(** What the process writes on standard output: a line the program
    prints, or the line [gin.Logger] prints for a request.  Of the latter
    the model keeps the status, the method and the path; the time stamp,
    the latency and the client address are outside the model. *)
Inductive output : Type :=
| Line (s : string)
| AccessLog (status : Z) (method path : string).

(** The process: environment variables, what was written on standard
    output, and the requests sent to the gateway, oldest first. *)
Record Process : Type := mkProcess {
  environ : gmap string string;
  stdout : list output;
  outbound : list Outbound;
}.

Record State : Type := mkState {
  ctx : Context;
  proc : Process;
}.

Abbreviation M := (Go.M State).

(** [const abortIndex int8 = math.MaxInt8 >> 1] *)
Definition abortIndex : Z := 63.

(** [const defaultStatus = http.StatusOK] *)
Definition defaultStatus : Z := 200.

(** A fresh context for a request: nothing written, no handler run. *)
Definition new_writer : ResponseWriter :=
  {| status := defaultStatus; header := ∅; body := []; written := false |}.

Definition new_context (r : Request) : Context :=
  {| request := r; writer := new_writer; index := -1 |}.

(** ** State updates *)

Definition with_writer (f : ResponseWriter -> ResponseWriter) (s : State)
  : State :=
  {| ctx := {| request := request (ctx s); writer := f (writer (ctx s));
               index := index (ctx s) |};
     proc := proc s |}.

Definition with_index (f : Z -> Z) (s : State) : State :=
  {| ctx := {| request := request (ctx s); writer := writer (ctx s);
               index := f (index (ctx s)) |};
     proc := proc s |}.

Definition with_body (f : ReadCloser -> ReadCloser) (s : State) : State :=
  {| ctx := {| request := {| Method := Method (request (ctx s));
                             Path := Path (request (ctx s));
                             Body := f (Body (request (ctx s))) |};
               writer := writer (ctx s); index := index (ctx s) |};
     proc := proc s |}.

Definition with_path (f : string -> string) (s : State) : State :=
  {| ctx := {| request := {| Method := Method (request (ctx s));
                             Path := f (Path (request (ctx s)));
                             Body := Body (request (ctx s)) |};
               writer := writer (ctx s); index := index (ctx s) |};
     proc := proc s |}.

Definition with_stdout (f : list output -> list output) (s : State) : State :=
  {| ctx := ctx s;
     proc := {| environ := environ (proc s); stdout := f (stdout (proc s));
                outbound := outbound (proc s) |} |}.

Definition with_outbound (f : list Outbound -> list Outbound) (s : State)
  : State :=
  {| ctx := ctx s;
     proc := {| environ := environ (proc s); stdout := stdout (proc s);
                outbound := f (outbound (proc s)) |} |}.

(** ** The response writer *)

(** [func (w *responseWriter) WriteHeader(code int)]: the status can be
    changed until the header is written. *)
Definition WriteHeader (code : Z) (w : ResponseWriter) : ResponseWriter :=
  if (0 <? code) && negb (status w =? code) then
    if written w then w
    else {| status := code; header := header w; body := body w;
            written := written w |}
  else w.

(** [func (w *responseWriter) WriteHeaderNow()] *)
Definition WriteHeaderNow (w : ResponseWriter) : ResponseWriter :=
  {| status := status w; header := header w; body := body w;
     written := true |}.

(** [c.Writer.Header().Set(key, value)] *)
Definition Header_Set (key value : string) : M unit :=
  Go.modify (with_writer (fun w =>
    {| status := status w; header := <[key := value]> (header w);
       body := body w; written := written w |})).

(** [render.JSON.Render]: set the content type unless one is set, write
    the header, write the value. *)
Definition render_JSON (obj : json) (w : ResponseWriter) : ResponseWriter :=
  {| status := status w;
     header :=
       match header w !! "Content-Type" with
       | Some _ => header w
       | None => <["Content-Type" := "application/json; charset=utf-8"]>
                   (header w)
       end;
     body := body w ++ [Json obj];
     written := true |}.

(** [func (c *Context) Status(code int)] *)
Definition Status (code : Z) : M unit :=
  Go.modify (with_writer (WriteHeader code)).

(** [func (c *Context) JSON(code int, obj any)] *)
Definition JSON (code : Z) (obj : json) : M unit :=
  (Status code ;;
   Go.modify (with_writer (render_JSON obj)))%go.

(** [func (c *Context) Abort()] *)
Definition Abort : M unit := Go.modify (with_index (fun _ => abortIndex)).

(** [func (c *Context) AbortWithStatus(code int)] *)
Definition AbortWithStatus (code : Z) : M unit :=
  (Status code ;;
   Go.modify (with_writer WriteHeaderNow) ;;
   Abort)%go.

(** [net/http]'s status codes used by the handlers. *)
Definition StatusOK : Z := 200.
Definition StatusMovedPermanently : Z := 301.
Definition StatusTemporaryRedirect : Z := 307.
Definition StatusBadRequest : Z := 400.
Definition StatusNotFound : Z := 404.
Definition StatusInternalServerError : Z := 500.

(** ** The process *)

(** [os.Getenv(key)]: the value, or [""] when the variable is not set. *)
Definition Getenv (key : string) : M string :=
  Go.gets (fun s => default "" (environ (proc s) !! key)).

(** [io.ReadAll(c.Request.Body)]: the bytes read and the error, if any. *)
Definition ReadAll_Body : M (string * option string) :=
  Go.gets (fun s =>
    let b := Body (request (ctx s)) in (content b, failure b)).

(** [c.Request.Body.Close()] *)
Definition Body_Close (s : State) : State :=
  with_body (fun b =>
    {| content := content b; failure := failure b; closed := true |}) s.

(** [fmt.Println(a, b)]: the operands separated by a space, as one line. *)
Definition Println (a b : string) : M unit :=
  Go.modify (with_stdout (fun out => out ++ [Line (a +:+ " " +:+ b)])).

(** ** Handlers and the chain

    [type HandlerFunc func(c *Context)].  The argument of a handler is the
    computation [c.Next()] runs when the handler calls it: the handlers
    that come after it in the chain. *)
Definition HandlerFunc : Type := M unit -> M unit.

(** A handler that never calls [c.Next()]. *)
Definition handler (h : M unit) : HandlerFunc := fun _ => h.

(** [c.index++]: the index is an [int8]. *)
Definition incr_index : M unit := Go.modify (with_index i8.incr).

(** [c.handlers[c.index]]: indexing panics out of range. *)
Definition handler_at (handlers : list HandlerFunc) (i : Z)
  : M HandlerFunc :=
  if i <? 0 then Go.panic "index out of range"
  else Go.index handlers (Z.to_nat i).

(** The loop of [Next] as gin writes it,
    [for c.index < int8(len(c.handlers)) { c.handlers[c.index](c);
    c.index++ }].  A handler that calls [c.Next()] enters the loop again,
    on the same context: the recursion is not structural, and [fuel]
    bounds the number of loop tests along any path of calls.  Out of fuel
    the loop stops with a panic of its own; [Chain] shows that this never
    happens from [length handlers + 1] on. *)
Fixpoint Next_loop (fuel : nat) (handlers : list HandlerFunc) : M unit :=
  match fuel with
  | O => Go.panic "out of fuel"
  | S fuel' =>
      (i <- Go.gets (fun s => index (ctx s)) ;;
       if i <? i8.wrap (Z.of_nat (length handlers)) then
         h <- handler_at handlers i ;;
         Go.call (h (incr_index ;; Next_loop fuel' handlers)) ;;
         incr_index ;;
         Next_loop fuel' handlers
       else Go.ret tt)%go
  end.

(** [func (c *Context) Next()] with the fuel of its loop. *)
Definition Next_fuel (fuel : nat) (handlers : list HandlerFunc) : M unit :=
  (incr_index ;; Next_loop fuel handlers)%go.

(** [c.Next()] as the engine calls it, with the fuel that is enough for
    any chain. *)
Definition Next (handlers : list HandlerFunc) : M unit :=
  Next_fuel (S (length handlers)) handlers.

(** The loop unrolled along the chain: what it does when the handlers from
    [c.index] on are [rest] and the chain has [n] handlers.  A handler
    that called [c.Next()] or [c.Abort()] leaves [c.index] at [n] or
    beyond, and the loop stops.  This is the form the chains of the
    program are run in; [Chain] proves it equal to the loop. *)
Fixpoint run_handlers (n : Z) (rest : list HandlerFunc) : M unit :=
  match rest with
  | [] => Go.ret tt
  | h :: rest' =>
      (i <- Go.gets (fun s => index (ctx s)) ;;
       if i <? n then
         Go.call (h (incr_index ;; run_handlers n rest')) ;;
         incr_index ;;
         run_handlers n rest'
       else Go.ret tt)%go
  end.

(** [c.Next()] unrolled, from the engine: [c.index] is [-1]. *)
Definition unrolled (handlers : list HandlerFunc) : M unit :=
  (incr_index ;;
   run_handlers (i8.wrap (Z.of_nat (length handlers))) handlers)%go.

(** [gin.Recovery()]: a panic of the handlers after it is answered 500. *)
Definition Recovery : HandlerFunc := fun next s =>
  match next s with
  | Go.Panic _ s' => AbortWithStatus StatusInternalServerError s'
  | r => r
  end.

(** [gin.Logger()]: the path is read before the handlers after it run, the
    status and the method after; the line goes to [gin.DefaultWriter],
    which is standard output.  A panic of [c.Next()] leaves the middleware
    before the line is printed. *)
Definition log_access (path : string) (s : State) : State :=
  with_stdout (fun out => out ++
    [AccessLog (status (writer (ctx s))) (Method (request (ctx s))) path]) s.

Definition Logger : HandlerFunc := fun next =>
  (path <- Go.gets (fun s => Path (request (ctx s))) ;;
   Go.call next ;;
   Go.modify (log_access path))%go.

(** ** The router *)

Record Route : Type := mkRoute {
  route_method : string;
  route_path : string;
  route_handlers : list HandlerFunc;
}.

(** [gin.Engine]: the middleware of the root group, the routes, and
    whether a path that differs from a route by its trailing slash is
    redirected to it. *)
Record Engine : Type := mkEngine {
  RedirectTrailingSlash : bool;
  Handlers : list HandlerFunc;
  routes : list Route;
}.

(** The chains an engine runs: [engine.allNoRoute], which is the
    middleware of the group, and the chain of each route. *)
Definition chains (e : Engine) : list (list HandlerFunc) :=
  Handlers e :: (route_handlers <$> routes e).

(** [gin.New()]: the redirection is on. *)
Definition New : Engine :=
  {| RedirectTrailingSlash := true; Handlers := []; routes := [] |}.

(** [engine.Use(middleware...)]: the middleware is added to the group; the
    routes registered before keep their chain. *)
Definition Use (e : Engine) (middleware : list HandlerFunc) : Engine :=
  {| RedirectTrailingSlash := RedirectTrailingSlash e;
     Handlers := Handlers e ++ middleware; routes := routes e |}.

(** [gin.Default()] *)
Definition Default : Engine := Use New [Logger; Recovery].

(** [router.POST(path, h)]: the chain of the route is the middleware of the
    group at this moment, then [h]. *)
Definition POST (e : Engine) (path : string) (h : HandlerFunc) : Engine :=
  {| RedirectTrailingSlash := RedirectTrailingSlash e;
     Handlers := Handlers e;
     routes := routes e ++
       [{| route_method := "POST"; route_path := path;
           route_handlers := Handlers e ++ [h] |}] |}.

(** The route of a method and a path: the first registered that matches
    both exactly (the routes of the program have no parameters). *)
Fixpoint find_route (rs : list Route) (method path : string) : option Route :=
  match rs with
  | [] => None
  | r :: rs' =>
      if decide (route_method r = method /\ route_path r = path) then Some r
      else find_route rs' method path
  end.

(** [serveError(c, 404, "404 page not found")] with the chain
    [engine.allNoRoute], which is the middleware of the group. *)
Definition serveError (code : Z) (defaultMessage : string)
    (handlers : list HandlerFunc) : M unit :=
  (Go.modify (with_writer (fun w =>
     {| status := code; header := header w; body := body w;
        written := written w |})) ;;
   Next handlers ;;
   w <- Go.gets (fun s => writer (ctx s)) ;;
   if written w then Go.ret tt
   else if status w =? code then
     Go.modify (with_writer (fun w =>
       {| status := status w;
          header := <["Content-Type" := "text/plain"]> (header w);
          body := body w ++ [Text defaultMessage];
          written := true |}))
   else Go.modify (with_writer WriteHeaderNow))%go.

(** ** The trailing slash

    When no route matches, gin looks for a route of the same method whose
    path is the one requested with a slash added at its end, or removed
    from it, and redirects the client there.  No handler runs for such a
    request, the middleware of the group included. *)

Definition slash : byte := Byte.x2f.

(** The path [redirectTrailingSlash] gives the request: [p + "/"], or
    [p[:len(p)-1]] when [p] is longer than one byte and ends in a slash. *)
Definition toggle_slash (p : string) : string :=
  let b := bytes_of_string p in
  if (1 <? length b)%nat && bool_decide (last b = Some slash)
  then string_of_bytes (removelast b) else p +:+ "/".

(** [value.tsr], the recommendation of the tree of the method: the path
    with its trailing slash toggled is a route. *)
Definition tsr (rs : list Route) (method path : string) : bool :=
  bool_decide (is_Some (find_route rs method (toggle_slash path))).

(** [htmlEscape] of [net/http]. *)
Definition htmlEscape (s : string) : string :=
  string_of_bytes (bytes_of_string s ≫= fun b =>
    if decide (b = Byte.x26) then bytes_of_string "&amp;"
    else if decide (b = Byte.x3c) then bytes_of_string "&lt;"
    else if decide (b = Byte.x3e) then bytes_of_string "&gt;"
    else if decide (b = Byte.x22) then bytes_of_string "&#34;"
    else if decide (b = Byte.x27) then bytes_of_string "&#39;"
    else [b]).

(** [http.StatusText] of the two codes of a redirection. *)
Definition StatusText (code : Z) : string :=
  if code =? StatusMovedPermanently then "Moved Permanently"
  else if code =? StatusTemporaryRedirect then "Temporary Redirect"
  else "".

(** [http.Redirect(w, r, url, code)] for a [url] that is an absolute path
    in clean form without query, as the paths of routes are: the header
    [Location], the status, and for a [GET] request a line of HTML. *)
Definition http_Redirect (url : string) (code : Z) : M unit :=
  (r <- Go.gets (fun s => request (ctx s)) ;;
   w <- Go.gets (fun s => writer (ctx s)) ;;
   let hadCT := bool_decide (is_Some (header w !! "Content-Type")) in
   Header_Set "Location" url ;;
   Go.when (negb hadCT && (bool_decide (Method r = "GET") ||
                           bool_decide (Method r = "HEAD")))
     (Header_Set "Content-Type" "text/html; charset=utf-8") ;;
   Go.modify (with_writer (WriteHeader code)) ;;
   Go.when (negb hadCT && bool_decide (Method r = "GET"))
     (Go.modify (with_writer (fun w =>
        {| status := status w; header := header w;
           body := body w ++
             [Text (string_of_bytes
                (bytes_of_string "<a href=" ++ [Byte.x22] ++
                 bytes_of_string (htmlEscape url) ++ [Byte.x22] ++
                 bytes_of_string ">" ++ bytes_of_string (StatusText code) ++
                 bytes_of_string "</a>." ++ [Byte.x0a; Byte.x0a]))];
           written := true |}))))%go.

(** [func redirectRequest(c *Context)]: 301 for a [GET], 307 for any other
    method, so that the client repeats the request with its body. *)
Definition redirectRequest : M unit :=
  (r <- Go.gets (fun s => request (ctx s)) ;;
   let code := if decide (Method r = "GET") then StatusMovedPermanently
               else StatusTemporaryRedirect in
   http_Redirect (Path r) code ;;
   Go.modify (with_writer WriteHeaderNow))%go.

(** [func redirectTrailingSlash(c *Context)], for a request without the
    header [X-Forwarded-Prefix]: the path of the request is changed, then
    the client is sent there. *)
Definition redirectTrailingSlash : M unit :=
  (Go.modify (with_path toggle_slash) ;;
   redirectRequest)%go.

(** [func (engine *Engine) handleHTTPRequest(c *Context)]: the chain of the
    route; or the redirection, when the method is not [CONNECT], the path
    is not the root and the tree recommends it; or the 404 of the
    engine. *)
Definition handleHTTPRequest (e : Engine) : M unit :=
  (r <- Go.gets (fun s => request (ctx s)) ;;
   match find_route (routes e) (Method r) (Path r) with
   | Some route =>
       Next (route_handlers route) ;;
       Go.modify (with_writer WriteHeaderNow)
   | None =>
       if bool_decide (Method r <> "CONNECT") &&
          bool_decide (Path r <> "/") &&
          tsr (routes e) (Method r) (Path r) && RedirectTrailingSlash e
       then redirectTrailingSlash
       else serveError StatusNotFound "404 page not found" (Handlers e)
   end)%go.

(** [func (engine *Engine) ServeHTTP(w, req)]: a fresh context for the
    request, in the process as it is; the result is the state after the
    request. *)
Definition ServeHTTP (e : Engine) (req : Request) (p : Process) : State :=
  Go.final (handleHTTPRequest e {| ctx := new_context req; proc := p |}).

(** ** Observations and facts about the response *)

(** [c.JSON(code, obj)] as a function of the state. *)
Definition respond (a : Z * json) (s : State) : State :=
  with_writer (fun w => render_JSON a.2 (WriteHeader a.1 w)) s.

Definition resp_status (s : State) : Z := status (writer (ctx s)).

(** The JSON documents written to the body, and the plain texts. *)
Definition documents (l : list chunk) : list json :=
  omap (fun p => match p with Json j => Some j | Text _ => None end) l.
Definition texts (l : list chunk) : list string :=
  omap (fun p => match p with Text t => Some t | Json _ => None end) l.

Definition resp_body (s : State) : list json :=
  documents (body (writer (ctx s))).
Definition resp_text (s : State) : list string :=
  texts (body (writer (ctx s))).
Definition resp_header (s : State) : gmap string string :=
  header (writer (ctx s)).

(** What the redirection leaves, for a method other than [GET] and [HEAD]:
    the path of the request toggled, the header [Location] set to it, the
    status 307 written. *)
Definition redirected (s : State) : State :=
  let to := toggle_slash (Path (request (ctx s))) in
  with_writer (fun w =>
    WriteHeaderNow (WriteHeader StatusTemporaryRedirect
      {| status := status w; header := <["Location" := to]> (header w);
         body := body w; written := written w |}))
    (with_path (fun _ => to) s).

(** Nothing was written to the response yet. *)
Definition fresh (s : State) : Prop :=
  written (writer (ctx s)) = false /\ body (writer (ctx s)) = [].

Lemma gin_fresh_body s : fresh s -> resp_body s = [].
Proof. intros [_ Hb]. unfold resp_body. by rewrite Hb. Qed.

Lemma gin_JSON_respond code obj s :
  JSON code obj s = Go.Continue tt (respond (code, obj) s).
Proof. reflexivity. Qed.

Lemma gin_WriteHeader_status code w :
  0 < code -> written w = false -> status (WriteHeader code w) = code.
Proof.
  intros Hc Hw. unfold WriteHeader. rewrite Hw.
  destruct (Z.ltb_spec 0 code); [|lia].
  destruct (Z.eqb_spec (status w) code); done.
Qed.

Lemma gin_WriteHeader_body code w : body (WriteHeader code w) = body w.
Proof. unfold WriteHeader. by repeat case_match. Qed.

Lemma gin_WriteHeader_header code w : header (WriteHeader code w) = header w.
Proof. unfold WriteHeader. by repeat case_match. Qed.

Lemma gin_respond_status a s :
  0 < a.1 -> written (writer (ctx s)) = false ->
  resp_status (respond a s) = a.1.
Proof. intros. unfold resp_status, respond. cbn. by apply gin_WriteHeader_status. Qed.

Lemma gin_respond_body a s : resp_body (respond a s) = resp_body s ++ [a.2].
Proof.
  unfold resp_body, respond, documents. cbn.
  by rewrite gin_WriteHeader_body, omap_app.
Qed.

(** [c.JSON] keeps every header that was set; it adds the content type
    only. *)
Lemma gin_respond_header a s k v :
  resp_header s !! k = Some v -> resp_header (respond a s) !! k = Some v.
Proof.
  unfold resp_header, respond. cbn. rewrite gin_WriteHeader_header.
  intros Hk. case_match; [done|].
  rewrite lookup_insert_ne; [done|congruence].
Qed.

(** ** The loop of [Next] *)

Lemma gin_with_index_ext f g s :
  f (index (ctx s)) = g (index (ctx s)) -> with_index f s = with_index g s.
Proof. unfold with_index. by intros ->. Qed.

(** The loop is over when [c.index] is at the length of the chain or
    beyond, as after [c.Abort()]. *)
Lemma gin_run_handlers_stop n rest s :
  n <= index (ctx s) -> run_handlers n rest s = Go.Continue tt s.
Proof.
  intros Hn. destruct rest as [|h rest]; [done|].
  cbn [run_handlers]. unfold Go.bind, Go.gets.
  by destruct (Z.ltb_spec (index (ctx s)) n); [lia|].
Qed.

(** One turn of the loop: the handler at [c.index] runs; when it leaves
    [c.index] at the last handler or beyond, the loop ends after the
    increment. *)
Lemma gin_run_handlers_turn n h rest s :
  i8.min <= index (ctx s) < n ->
  Go.panicked (h (incr_index ;; run_handlers n rest)%go s) = false ->
  n - 1 <= index (ctx (Go.final (h (incr_index ;; run_handlers n rest)%go s)))
    < i8.max ->
  run_handlers n (h :: rest) s =
  Go.Continue tt (with_index (fun i => i + 1)
    (Go.final (h (incr_index ;; run_handlers n rest)%go s))).
Proof.
  intros Hi Hp Hn. cbn [run_handlers]. unfold Go.bind at 1, Go.gets.
  destruct (Z.ltb_spec (index (ctx s)) n); [|lia].
  unfold Go.bind at 1. rewrite go_call_final by done.
  unfold Go.bind at 1, incr_index at 1, Go.modify.
  rewrite (gin_with_index_ext _ (fun i => i + 1))
    by (apply i8.i8_incr_small; unfold i8.min, i8.max in *; lia).
  apply gin_run_handlers_stop. cbn. lia.
Qed.

(** The first increment of the chain, from the index of a fresh context,
    and the bound of its loop for a chain that fits an [int8]. *)
Lemma gin_unrolled_start handlers s :
  index (ctx s) = -1 -> (length handlers < 128)%nat ->
  unrolled handlers s =
  run_handlers (Z.of_nat (length handlers)) handlers
    (with_index (fun _ => 0) s).
Proof.
  intros Hi Hl. unfold unrolled, Go.bind, incr_index, Go.modify.
  rewrite i8.i8_wrap_small by (unfold i8.in_range, i8.min, i8.max; lia).
  by rewrite (gin_with_index_ext _ (fun _ => 0)) by (by rewrite Hi).
Qed.

(** The rest of the chain, as [c.Next()] runs it from a handler in the
    middle. *)
Lemma gin_after_run n rest s :
  i8.min <= index (ctx s) < i8.max ->
  (incr_index ;; run_handlers n rest)%go s =
  run_handlers n rest (with_index (fun i => i + 1) s).
Proof.
  intros Hi. unfold Go.bind, incr_index, Go.modify.
  by rewrite (gin_with_index_ext _ (fun i => i + 1))
    by (by apply i8.i8_incr_small).
Qed.

(** The logger around a chain that does not panic. *)
Lemma gin_Logger_run next s :
  Go.panicked (next s) = false ->
  Logger next s =
  Go.Continue tt (log_access (Path (request (ctx s))) (Go.final (next s))).
Proof.
  intros Hp. unfold Logger, Go.bind at 1, Go.gets.
  unfold Go.bind at 1. by rewrite go_call_final.
Qed.

(** A handler that panics ends the loop with its panic. *)
Lemma gin_run_handlers_panic n h rest s :
  index (ctx s) < n ->
  Go.panicked (h (incr_index ;; run_handlers n rest)%go s) = true ->
  run_handlers n (h :: rest) s = h (incr_index ;; run_handlers n rest)%go s.
Proof.
  intros Hi Hp. cbn [run_handlers]. unfold Go.bind at 1, Go.gets.
  destruct (Z.ltb_spec (index (ctx s)) n); [|lia].
  unfold Go.bind at 1, Go.call.
  by destruct (h _ s) as [[]| |].
Qed.

Lemma gin_Recovery_quiet next s :
  Go.panicked (next s) = false -> Recovery next s = next s.
Proof. unfold Recovery. by destruct (next s). Qed.

Lemma gin_Recovery_never_panics next s :
  Go.panicked (Recovery next s) = false.
Proof. unfold Recovery. by destruct (next s). Qed.

(** ** Maps as objects *)

(** The members of the object of a map are those of the map, sorted by
    key; a field of the object is the value of the map at that key. *)
Lemma gin_assoc_elem_of k v l :
  NoDup l.*1 -> assoc k l = Some v <-> (k, v) ∈ l.
Proof.
  induction l as [|[k' v'] l IH]; cbn [assoc fmap list_fmap fst].
  - set_solver.
  - rewrite NoDup_cons, elem_of_cons. intros [Hk Hl].
    case_decide as E; [subst k'|rewrite IH by done; naive_solver].
    split; [naive_solver|]. intros [?|Hin]; [naive_solver|].
    destruct Hk. by apply (list_elem_of_fmap_2 fst _ (k, v)).
Qed.

Lemma gin_H_sorted m : Sorted key_le (members (H m)).
Proof. apply Sorted_merge_sort, _. Qed.

Lemma gin_H_members m k v : (k, v) ∈ members (H m) <-> m !! k = Some v.
Proof.
  cbn. by rewrite merge_sort_Permutation, elem_of_map_to_list.
Qed.

Lemma gin_H_field m k : field k (H m) = m !! k.
Proof.
  apply option_eq. intros v. cbn [field H].
  rewrite gin_assoc_elem_of, merge_sort_Permutation, elem_of_map_to_list;
    [done|].
  rewrite merge_sort_Permutation. apply NoDup_fst_map_to_list.
Qed.

Lemma gin_H_singleton k v : H {[ k := v ]} = H1 k v.
Proof. unfold H. by rewrite map_to_list_singleton. Qed.

(** ** The redirection *)

(** The path that toggles to a route without a slash at its end is the
    route with a slash added. *)
Lemma gin_toggle_slash_route p r :
  r <> "" -> last (bytes_of_string r) <> Some slash ->
  toggle_slash p = r <-> p = r +:+ "/".
Proof.
  intros Hr Hl. unfold toggle_slash. split.
  - intros H. apply (inj bytes_of_string). rewrite bytes_of_string_app.
    change (bytes_of_string "/") with [slash].
    destruct (_ && _) eqn:Hc.
    + apply andb_prop in Hc as [_ Hc%bool_decide_eq_true].
      apply last_Some in Hc as [l' Hl']. rewrite Hl', removelast_last in H.
      by rewrite Hl', <- H, bytes_of_string_of_bytes.
    + destruct Hl. rewrite <- H, bytes_of_string_app. apply last_snoc.
  - intros ->. rewrite bytes_of_string_app.
    change (bytes_of_string "/") with [slash].
    rewrite last_snoc, removelast_last, length_app, bool_decide_true by done.
    replace (1 <? _)%nat with true; [apply string_of_bytes_of_string|].
    symmetry. apply Nat.ltb_lt. destruct r; [done|].
    rewrite bytes_of_string_length. cbn. lia.
Qed.

(** The redirection as a function of the state. *)
Lemma gin_redirect_run s :
  Method (request (ctx s)) <> "GET" -> Method (request (ctx s)) <> "HEAD" ->
  redirectTrailingSlash s = Go.Continue tt (redirected s).
Proof.
  intros Hg Hh. unfold redirectTrailingSlash, redirectRequest, http_Redirect.
  unfold Go.bind, Go.modify, Go.gets, Header_Set, Go.when. cbn.
  rewrite !(bool_decide_false (_ = "GET")), !(bool_decide_false (_ = "HEAD"))
    by done.
  rewrite ?decide_False by done.
  by rewrite !orb_false_r, !andb_false_r.
Qed.

End gin.
