(* ===== verification/Chain.v ===== *)
(** * The handler chain: the loop of [c.Next] and its unrolling

    gin runs the handlers of a route with the loop of [c.Next], which reads
    [c.index] at every test and is entered again, on the same context, by
    every middleware that calls [c.Next()].  [gin.Next_loop] is that loop
    with fuel; [gin.run_handlers] is the loop unrolled along the chain, a
    structural recursion that is easier to reason with.  This file shows
    that the two agree, for every chain of handlers that behave as the
    handlers of gin and of the program do:

    - a handler calls [c.Next()] only with the index it was entered with
      ([behaved_local]);
    - a handler leaves [c.index] where it was, or where [c.Next()] or
      [c.Abort()] left it ([behaved_exit]).

    For such a chain of at most 63 handlers (gin refuses a longer one),
    the loop with any fuel above the length of the chain is the unrolled
    chain ([chain_loop_run], [chain_Next_unrolled]): the loop terminates,
    the fuel of [gin.Next] is enough, and [c.index], an [int8], never goes
    past 126, so that its increment never wraps around. *)

From S2P Require Import Prelude Gin.

Module chain.
Import gin.

(** [combineHandlers] asserts [finalSize < int(abortIndex)]. *)
Definition fits (handlers : list HandlerFunc) : Prop :=
  Z.of_nat (length handlers) <= abortIndex.

(** ** Handlers that behave *)

Section Behaved.
Context (n : Z).

(** [next], entered with index [i], ends with the index between the last
    handler and [B], unless it panics. *)
Definition ends_within (B : Z) (next : M unit) (i : Z) : Prop :=
  forall s, index (ctx s) = i -> Go.panicked (next s) = false ->
    n - 1 <= index (ctx (Go.final (next s))) <= B.

Class Behaved (h : HandlerFunc) : Prop := {
  behaved_local next1 next2 s :
    (forall s', index (ctx s') = index (ctx s) -> next1 s' = next2 s') ->
    h next1 s = h next2 s;
  behaved_exit next s B :
    abortIndex <= B ->
    ends_within B next (index (ctx s)) ->
    Go.panicked (h next s) = false ->
    index (ctx (Go.final (h next s))) = index (ctx s) \/
    n - 1 <= index (ctx (Go.final (h next s))) <= B;
}.

Context (Hn : n - 1 <= abortIndex).

(** A handler that never calls [c.Next()] behaves when it leaves the index
    alone. *)
Lemma handler_behaved (h : M unit) :
  (forall s, index (ctx (Go.final (h s))) = index (ctx s)) ->
  Behaved (handler h).
Proof. intros Hh. split; [done|]. intros next s B _ _ _. left. apply Hh. Qed.

#[export] Instance Logger_behaved : Behaved Logger.
Proof.
  split.
  - intros next1 next2 s Hnext. unfold Logger, Go.bind, Go.gets, Go.call.
    by rewrite (Hnext s).
  - intros next s B HB Hnext Hp. right.
    destruct (Go.panicked (next s)) eqn:Hq.
    { unfold Logger, Go.bind, Go.gets, Go.call in Hp.
      by destruct (next s). }
    rewrite gin_Logger_run by done. by apply Hnext.
Qed.

#[export] Instance Recovery_behaved : Behaved Recovery.
Proof.
  split.
  - intros next1 next2 s Hnext. unfold Recovery. by rewrite (Hnext s).
  - intros next s B HB Hnext Hp. right.
    destruct (Go.panicked (next s)) eqn:Hq.
    + unfold Recovery. by destruct (next s).
    + rewrite gin_Recovery_quiet by done. by apply Hnext.
Qed.

End Behaved.

(** ** The loop is the unrolled chain *)

Section Loop.
Context (handlers : list HandlerFunc).
#[local] Abbreviation n := (Z.of_nat (length handlers)).
Context (Hfits : fits handlers).
Context (Hb : Forall (Behaved n) handlers).

(** What follows a handler in either form: the increment, then the rest of
    the loop. *)
#[local] Abbreviation tail_loop fuel :=
  (incr_index ;; Next_loop fuel handlers)%go.
#[local] Abbreviation tail_chain rest :=
  (incr_index ;; run_handlers n rest)%go.

Lemma chain_bound : i8.wrap n = n.
Proof.
  unfold fits, abortIndex in Hfits.
  apply i8.i8_wrap_small. unfold i8.in_range, i8.min, i8.max. lia.
Qed.

(** Past the last handler both forms stop after the increment, which does
    not wrap. *)
Lemma chain_tail_stop fuel rest s :
  n - 1 <= index (ctx s) < i8.max ->
  tail_loop (S fuel) s = Go.Continue tt (with_index (fun i => i + 1) s) /\
  tail_chain rest s = Go.Continue tt (with_index (fun i => i + 1) s).
Proof.
  intros Hi. unfold fits, abortIndex in Hfits.
  assert (i8.min <= index (ctx s) < i8.max) by (unfold i8.min in *; lia).
  rewrite gin_after_run by done.
  rewrite gin_run_handlers_stop by (cbn; lia). split; [|done].
  unfold Go.bind at 1, incr_index, Go.modify.
  rewrite (gin_with_index_ext _ (fun i => i + 1))
    by (by apply i8.i8_incr_small).
  cbn [Next_loop]. unfold Go.bind, Go.gets. rewrite chain_bound.
  cbn [with_index ctx index].
  by destruct (Z.ltb_spec (index (ctx s) + 1) n); [lia|].
Qed.

(** The statement proved by induction on the number [k] of handlers from
    the index on: with more than [k] units of fuel the loop is the
    unrolled chain, and it ends with the index between [n] and
    [64 + k]. *)
Definition agree (k : nat) : Prop :=
  forall i s fuel,
    Z.of_nat k + i = n -> 0 <= i -> index (ctx s) = i -> (k < fuel)%nat ->
    Next_loop fuel handlers s = run_handlers n (drop (Z.to_nat i) handlers) s /\
    (Go.panicked (run_handlers n (drop (Z.to_nat i) handlers) s) = false ->
     n <= index (ctx (Go.final
            (run_handlers n (drop (Z.to_nat i) handlers) s))) <= 64 + Z.of_nat k).

Lemma chain_agree_0 : agree 0.
Proof.
  intros i s [|fuel] Hk Hi Hs Hf; [lia|].
  rewrite drop_ge by lia. cbn [Next_loop run_handlers].
  unfold Go.bind, Go.gets. rewrite chain_bound.
  destruct (Z.ltb_spec (index (ctx s)) n); [lia|].
  split; [done|]. cbn. unfold fits, abortIndex in Hfits. lia.
Qed.

(** One step of either form at an index below the length. *)
Lemma chain_loop_step fuel i h s :
  index (ctx s) = i -> 0 <= i < n -> handlers !! Z.to_nat i = Some h ->
  Next_loop (S fuel) handlers s =
  (Go.call (h (tail_loop fuel)) ;; tail_loop fuel)%go s.
Proof.
  intros Hs Hi Hh. cbn [Next_loop]. unfold Go.bind at 1, Go.gets.
  rewrite chain_bound, Hs.
  destruct (Z.ltb_spec i n); [|lia].
  unfold handler_at. destruct (Z.ltb_spec i 0); [lia|].
  by rewrite go_index_Some with (a := h).
Qed.

Lemma chain_unrolled_step h rest s :
  index (ctx s) < n ->
  run_handlers n (h :: rest) s =
  (Go.call (h (tail_chain rest)) ;; tail_chain rest)%go s.
Proof.
  intros Hi. cbn [run_handlers]. unfold Go.bind at 1, Go.gets.
  by destruct (Z.ltb_spec (index (ctx s)) n); [|lia].
Qed.

Lemma chain_agree_S k : agree k -> agree (S k).
Proof.
  intros IH i s [|fuel] Hk Hi Hs Hf; [lia|].
  unfold fits, abortIndex in Hfits.
  destruct (lookup_lt_is_Some_2 handlers (Z.to_nat i)) as [h Hh]; [lia|].
  pose proof (proj1 (Forall_lookup _ _) Hb _ _ Hh) as Hbh.
  rewrite (drop_S _ _ _ Hh).
  rewrite (chain_loop_step fuel i h), chain_unrolled_step by (done || lia).
  set (rest := drop (S (Z.to_nat i)) handlers).
  (* the two tails agree, and end in range, from the index of the handler *)
  assert (Htail : forall s', index (ctx s') = i ->
            tail_loop fuel s' = tail_chain rest s' /\
            (Go.panicked (tail_chain rest s') = false ->
             n <= index (ctx (Go.final (tail_chain rest s'))) <= 64 + Z.of_nat k)).
  { intros s' Hs'. unfold Go.bind at 1, incr_index, Go.modify.
    rewrite !gin_after_run by (unfold i8.min, i8.max; lia).
    rewrite (gin_with_index_ext _ (fun i => i + 1))
      by (apply i8.i8_incr_small; unfold i8.min, i8.max; lia).
    unfold rest. replace (S (Z.to_nat i)) with (Z.to_nat (i + 1)) by lia.
    apply IH; cbn; lia. }
  assert (Hlocal : h (tail_loop fuel) s = h (tail_chain rest) s).
  { apply (@behaved_local n h Hbh). intros s' Hs'. apply Htail. congruence. }
  rewrite !go_call_bind, Hlocal.
  destruct (h (tail_chain rest) s) as [[] s''|s''|msg s''] eqn:Hr;
    [| |done]; cbn [Go.final].
  all: destruct (@behaved_exit n h Hbh (tail_chain rest) s (64 + Z.of_nat k))
    as [Hx|Hx];
    [unfold abortIndex; lia|intros s' Hs' Hp'; destruct (Htail s') as [_ Hb']; [congruence|];
         specialize (Hb' Hp'); lia|by rewrite Hr|..];
    rewrite Hr in Hx; cbn [Go.final] in Hx.
  all: try (destruct (Htail s'') as [-> Hb'']; [congruence|];
            split; [done|]; intros Hp''; specialize (Hb'' Hp''); lia).
  all: destruct fuel as [|fuel]; [lia|];
    destruct (chain_tail_stop fuel rest s'') as [-> ->];
    [unfold i8.max; lia|split; [done|cbn; lia]].
Qed.

Lemma chain_agree k : agree k.
Proof. induction k; [apply chain_agree_0|by apply chain_agree_S]. Qed.

(** With more fuel than handlers from the index on, the loop is the
    unrolled chain. *)
Lemma chain_loop_run s fuel :
  0 <= index (ctx s) <= n ->
  (length handlers - Z.to_nat (index (ctx s)) < fuel)%nat ->
  Next_loop fuel handlers s =
  run_handlers n (drop (Z.to_nat (index (ctx s))) handlers) s.
Proof.
  intros Hi Hf.
  apply (chain_agree (length handlers - Z.to_nat (index (ctx s))));
    (done || lia).
Qed.

(** [c.Next()] from the engine, with any fuel above the length of the
    chain. *)
Lemma chain_Next_fuel s fuel :
  index (ctx s) = -1 -> (length handlers < fuel)%nat ->
  Next_fuel fuel handlers s = unrolled handlers s.
Proof.
  intros Hi Hf. unfold Next_fuel, unrolled. rewrite chain_bound.
  change (Next_loop fuel handlers (with_index i8.incr s) =
          run_handlers n handlers (with_index i8.incr s)).
  destruct (chain_agree (length handlers) 0 (with_index i8.incr s) fuel)
    as [-> _]; [lia|lia|cbn; by rewrite Hi|lia|done].
Qed.

Lemma chain_Next_unrolled s :
  index (ctx s) = -1 -> Next handlers s = unrolled handlers s.
Proof. intros Hi. apply chain_Next_fuel; [done|lia]. Qed.

(** The index at the end of the chain fits an [int8]. *)
Lemma chain_unrolled_index s :
  index (ctx s) = -1 -> Go.panicked (unrolled handlers s) = false ->
  n <= index (ctx (Go.final (unrolled handlers s))) <= 64 + n.
Proof.
  unfold unrolled. rewrite chain_bound. intros Hi.
  change (Go.bind incr_index _ s)
    with (run_handlers n handlers (with_index i8.incr s)).
  destruct (chain_agree (length handlers) 0
              (with_index i8.incr s) (S (length handlers))) as [_ Hx];
    [lia|lia|cbn; by rewrite Hi|lia|done].
Qed.

End Loop.
End chain.
