(* ===== verification/Utf8.v ===== *)
(** * unicode/utf8: runes and their byte sequences

    [encoding/json] reads the strings it quotes rune by rune.  This file
    models [utf8.DecodeRune] and [utf8.EncodeRune] as Go writes them, with
    the tables [first] and [acceptRanges] and the bit operations on the
    bytes, and relates them to the well-formed byte sequences of the
    Unicode standard ([utf8.sequence]):

    - [DecodeRune] answers the error of one byte, or the scalar value of
      the well-formed sequence its input starts with, whatever follows
      ([utf8_DecodeRune_inv], [utf8_DecodeRune_sequence]);
    - [EncodeRune] writes the sequence of a scalar value back
      ([utf8_EncodeRune_sequence]).

    A rune is an [int32], here a [Z]; the proofs turn the shifts and masks
    on bytes in range into arithmetic ([utf8_pack2] and the like) and
    leave the rest to [lia]. *)

From S2P Require Import Prelude.

Module utf8.

Definition RuneError : Z := 0xFFFD.
Definition RuneSelf : Z := 0x80.
Definition MaxRune : Z := 0x10FFFF.
Definition UTFMax : nat := 4.

Definition surrogateMin : Z := 0xD800.
Definition surrogateMax : Z := 0xDFFF.

Definition tx : Z := 0x80.
Definition t2 : Z := 0xC0.
Definition t3 : Z := 0xE0.
Definition t4 : Z := 0xF0.

Definition maskx : Z := 0x3F.
Definition mask2 : Z := 0x1F.
Definition mask3 : Z := 0x0F.
Definition mask4 : Z := 0x07.

Definition rune1Max : Z := 0x7F.
Definition rune2Max : Z := 0x7FF.
Definition rune3Max : Z := 0xFFFF.

Definition locb : Z := 0x80.
Definition hicb : Z := 0xBF.

(** The entries of [first]: the size of the sequence in the low bits, the
    index into [acceptRanges] in the high ones. *)
Definition xx : Z := 0xF1.
Definition as_ : Z := 0xF0.
Definition s1 : Z := 0x02.
Definition s2 : Z := 0x13.
Definition s3 : Z := 0x03.
Definition s4 : Z := 0x23.
Definition s5 : Z := 0x34.
Definition s6 : Z := 0x04.
Definition s7 : Z := 0x44.

(** [first[b]], the table written by ranges. *)
Definition first (b : byte) : Z :=
  let z := u8.unsigned b in
  if z <? 0x80 then as_
  else if z <? 0xC2 then xx
  else if z <? 0xE0 then s1
  else if z =? 0xE0 then s2
  else if z <? 0xED then s3
  else if z =? 0xED then s4
  else if z <? 0xF0 then s3
  else if z =? 0xF0 then s5
  else if z <? 0xF4 then s6
  else if z =? 0xF4 then s7
  else xx.

(** [acceptRanges[i]], the bounds of the second byte. *)
Definition acceptRanges (i : Z) : Z * Z :=
  match i with
  | 0 => (locb, hicb)
  | 1 => (0xA0, hicb)
  | 2 => (locb, 0x9F)
  | 3 => (0x90, hicb)
  | 4 => (locb, 0x8F)
  | _ => (0, 0)
  end.

(** Conversion to [int32], the type of a rune. *)
Definition int32 (z : Z) : Z := (z + 2 ^ 31) mod 2 ^ 32 - 2 ^ 31.
Definition uint32 (z : Z) : Z := z mod 2 ^ 32.

(** [p[i]], for [i] within the slice. *)
Definition at_ (p : list byte) (i : nat) : Z := u8.unsigned (nth i p Byte.x00).

(** [func DecodeRune(p []byte) (r rune, size int)] *)
Definition DecodeRune (p : list byte) : Z * nat :=
  match p with
  | [] => (RuneError, 0%nat)
  | p0 :: _ =>
      let x := first p0 in
      if as_ <=? x then
        let mask := Z.shiftr (int32 (Z.shiftl x 31)) 31 in
        (Z.lor (Z.land (u8.unsigned p0) (Z.lnot mask)) (Z.land RuneError mask),
         1%nat)
      else
        let sz := Z.to_nat (Z.land x 7) in
        let accept := acceptRanges (Z.shiftr x 4) in
        if (length p <? sz)%nat then (RuneError, 1%nat) else
        let b1 := at_ p 1 in
        if (b1 <? accept.1) || (accept.2 <? b1) then (RuneError, 1%nat) else
        if (sz <=? 2)%nat then
          (Z.lor (Z.shiftl (Z.land (u8.unsigned p0) mask2) 6) (Z.land b1 maskx),
           2%nat)
        else
        let b2 := at_ p 2 in
        if (b2 <? locb) || (hicb <? b2) then (RuneError, 1%nat) else
        if (sz <=? 3)%nat then
          (Z.lor (Z.lor (Z.shiftl (Z.land (u8.unsigned p0) mask3) 12)
                    (Z.shiftl (Z.land b1 maskx) 6)) (Z.land b2 maskx),
           3%nat)
        else
        let b3 := at_ p 3 in
        if (b3 <? locb) || (hicb <? b3) then (RuneError, 1%nat) else
        (Z.lor (Z.lor (Z.lor (Z.shiftl (Z.land (u8.unsigned p0) mask4) 18)
                         (Z.shiftl (Z.land b1 maskx) 12))
                  (Z.shiftl (Z.land b2 maskx) 6)) (Z.land b3 maskx),
         4%nat)
  end.

(** The byte [t | byte(r)&maskx] of a sequence. *)
Definition cont (r : Z) : byte := u8.of_Z (Z.lor tx (Z.land (u8.wrap r) maskx)).

(** [func EncodeRune(p []byte, r rune) int], as the bytes written. *)
Definition EncodeRune (r : Z) : list byte :=
  let i := uint32 r in
  if i <=? rune1Max then [u8.of_Z r]
  else if i <=? rune2Max then
    [u8.of_Z (Z.lor t2 (u8.wrap (Z.shiftr r 6))); cont r]
  else
    let bad := (MaxRune <? i) || ((surrogateMin <=? i) && (i <=? surrogateMax)) in
    let r := if bad then RuneError else r in
    if bad || (i <=? rune3Max) then
      [u8.of_Z (Z.lor t3 (u8.wrap (Z.shiftr r 12))); cont (Z.shiftr r 6); cont r]
    else
      [u8.of_Z (Z.lor t4 (u8.wrap (Z.shiftr r 18))); cont (Z.shiftr r 12);
       cont (Z.shiftr r 6); cont r].

(** The lower and upper bound of the second byte, after each first byte
    of a sequence of three or four bytes. *)
Definition second_lo (z0 : Z) : Z :=
  if z0 =? 0xE0 then 0xA0 else if z0 =? 0xF0 then 0x90 else 0x80.
Definition second_hi (z0 : Z) : Z :=
  if z0 =? 0xED then 0x9F else if z0 =? 0xF4 then 0x8F else 0xBF.

(** The well-formed byte sequences of the Unicode standard (table 3-7)
    and the scalar value of each. *)
Inductive sequence : list byte -> Z -> Prop :=
| sequence1 b0 :
    u8.unsigned b0 < 0x80 -> sequence [b0] (u8.unsigned b0)
| sequence2 b0 b1 :
    0xC2 <= u8.unsigned b0 <= 0xDF ->
    0x80 <= u8.unsigned b1 <= 0xBF ->
    sequence [b0; b1]
      ((u8.unsigned b0 - 0xC0) * 64 + (u8.unsigned b1 - 0x80))
| sequence3 b0 b1 b2 :
    0xE0 <= u8.unsigned b0 <= 0xEF ->
    second_lo (u8.unsigned b0) <= u8.unsigned b1 <= second_hi (u8.unsigned b0) ->
    0x80 <= u8.unsigned b2 <= 0xBF ->
    sequence [b0; b1; b2]
      ((u8.unsigned b0 - 0xE0) * 4096 + (u8.unsigned b1 - 0x80) * 64
       + (u8.unsigned b2 - 0x80))
| sequence4 b0 b1 b2 b3 :
    0xF0 <= u8.unsigned b0 <= 0xF4 ->
    second_lo (u8.unsigned b0) <= u8.unsigned b1 <= second_hi (u8.unsigned b0) ->
    0x80 <= u8.unsigned b2 <= 0xBF ->
    0x80 <= u8.unsigned b3 <= 0xBF ->
    sequence [b0; b1; b2; b3]
      ((u8.unsigned b0 - 0xF0) * 262144 + (u8.unsigned b1 - 0x80) * 4096
       + (u8.unsigned b2 - 0x80) * 64 + (u8.unsigned b3 - 0x80)).

(** The entries of the table. *)
Lemma utf8_first_cases b :
  first b ∈ [as_; xx; s1; s2; s3; s4; s5; s6; s7].
Proof. unfold first. repeat case_match; set_solver. Qed.

(** A rune is decoded from at least one byte, and from no more than there
    are. *)
Lemma utf8_DecodeRune_size p :
  p <> [] -> (1 <= (DecodeRune p).2 <= length p)%nat.
Proof.
  destruct p as [|p0 p]; [done|]. intros _. unfold DecodeRune.
  pose proof (utf8_first_cases p0) as Hx.
  repeat (apply elem_of_cons in Hx as [->|Hx]);
    [..|by apply elem_of_nil in Hx];
    unfold as_, xx, s1, s2, s3, s4, s5, s6, s7;
    try match goal with
        | |- context [Z.to_nat (Z.land ?x 7)] =>
            let v := eval vm_compute in (Z.to_nat (Z.land x 7)) in
            change (Z.to_nat (Z.land x 7)) with v
        end;
    cbn -[length at_ Nat.ltb];
    repeat case_match; cbn [snd length] in *;
    repeat match goal with
           | H : (_ <? _)%nat = false |- _ => apply Nat.ltb_ge in H
           end; cbn [length] in *; lia.
Qed.

(** *** Decoding and encoding are inverse on well-formed sequences *)

(** Bit operations on bytes in range, as arithmetic. *)
Ltac pack_side :=
  change (2 ^ 3) with 8 in *; change (2 ^ 4) with 16 in *;
  change (2 ^ 5) with 32 in *; change (2 ^ 6) with 64 in *;
  change (2 ^ 12) with 4096 in *; change (2 ^ 18) with 262144 in *;
  Z.div_mod_to_equations; lia.

Lemma utf8_pack2 a b :
  0 <= a -> 0 <= b < 64 -> Z.lor (Z.shiftl a 6) b = a * 64 + b.
Proof.
  intros Ha Hb. rewrite Z.shiftl_mul_pow2 by lia.
  by rewrite (Z_lor_disjoint _ _ 6) by pack_side.
Qed.

Lemma utf8_pack3 a b c :
  0 <= a -> 0 <= b < 64 -> 0 <= c < 64 ->
  Z.lor (Z.lor (Z.shiftl a 12) (Z.shiftl b 6)) c = a * 4096 + b * 64 + c.
Proof.
  intros Ha Hb Hc. rewrite !Z.shiftl_mul_pow2 by lia.
  by rewrite (Z_lor_disjoint (a * _) _ 12), (Z_lor_disjoint _ _ 6)
    by pack_side.
Qed.

Lemma utf8_pack4 a b c d :
  0 <= a -> 0 <= b < 64 -> 0 <= c < 64 -> 0 <= d < 64 ->
  Z.lor (Z.lor (Z.lor (Z.shiftl a 18) (Z.shiftl b 12)) (Z.shiftl c 6)) d =
  a * 262144 + b * 4096 + c * 64 + d.
Proof.
  intros Ha Hb Hc Hd. rewrite !Z.shiftl_mul_pow2 by lia.
  by rewrite (Z_lor_disjoint (a * _) _ 18), (Z_lor_disjoint _ (c * _) 12),
    (Z_lor_disjoint _ _ 6) by pack_side.
Qed.


(** The derived entries of the table, for a constant entry. *)
Ltac table x :=
  let sz := eval vm_compute in (Z.to_nat (Z.land x 7)) in
  change (Z.to_nat (Z.land x 7)) with sz;
  let acc := eval vm_compute in (acceptRanges (Z.shiftr x 4)) in
  change (acceptRanges (Z.shiftr x 4)) with acc;
  let t := eval vm_compute in (as_ <=? x) in
  change (as_ <=? x) with t.

Lemma utf8_first_spec b :
  let z := u8.unsigned b in
  (z < 0x80 /\ first b = as_) \/
  ((0x80 <= z < 0xC2 \/ 0xF5 <= z) /\ first b = xx) \/
  (0xC2 <= z <= 0xDF /\ first b = s1) \/
  (0xE0 <= z <= 0xEF /\
   first b = if z =? 0xE0 then s2 else if z =? 0xED then s4 else s3) \/
  (0xF0 <= z <= 0xF4 /\
   first b = if z =? 0xF0 then s5 else if z =? 0xF4 then s7 else s6).
Proof. cbv zeta. unfold first. tests; intuition lia. Qed.

Lemma utf8_mask_low z : Z.land z maskx = z mod 64.
Proof. by apply (Z_land_low z 6). Qed.

Lemma utf8_decode2 z0 z1 :
  0xC0 <= z0 <= 0xDF -> 0x80 <= z1 <= 0xBF ->
  Z.lor (Z.shiftl (Z.land z0 mask2) 6) (Z.land z1 maskx) =
  (z0 - 0xC0) * 64 + (z1 - 0x80).
Proof.
  intros H0 H1. rewrite utf8_mask_low, (Z_land_low z0 5 mask2) by done.
  rewrite utf8_pack2 by pack_side. pack_side.
Qed.

Lemma utf8_decode3 z0 z1 z2 :
  0xE0 <= z0 <= 0xEF -> 0x80 <= z1 <= 0xBF -> 0x80 <= z2 <= 0xBF ->
  Z.lor (Z.lor (Z.shiftl (Z.land z0 mask3) 12) (Z.shiftl (Z.land z1 maskx) 6))
    (Z.land z2 maskx) =
  (z0 - 0xE0) * 4096 + (z1 - 0x80) * 64 + (z2 - 0x80).
Proof.
  intros H0 H1 H2.
  rewrite !utf8_mask_low, (Z_land_low z0 4 mask3) by done.
  rewrite utf8_pack3 by pack_side. pack_side.
Qed.

Lemma utf8_decode4 z0 z1 z2 z3 :
  0xF0 <= z0 <= 0xF7 -> 0x80 <= z1 <= 0xBF -> 0x80 <= z2 <= 0xBF ->
  0x80 <= z3 <= 0xBF ->
  Z.lor (Z.lor (Z.lor (Z.shiftl (Z.land z0 mask4) 18)
                  (Z.shiftl (Z.land z1 maskx) 12))
           (Z.shiftl (Z.land z2 maskx) 6)) (Z.land z3 maskx) =
  (z0 - 0xF0) * 262144 + (z1 - 0x80) * 4096 + (z2 - 0x80) * 64 + (z3 - 0x80).
Proof.
  intros H0 H1 H2 H3.
  rewrite !utf8_mask_low, (Z_land_low z0 3 mask4) by done.
  rewrite utf8_pack4 by pack_side. pack_side.
Qed.


(** The entry of the table for a byte whose range is known. *)
Ltac first_of b :=
  let Hf := fresh "Hf" in
  destruct (utf8_first_spec b) as [[? Hf]|[[? Hf]|[[? Hf]|[[? Hf]|[? Hf]]]]];
  cbv zeta in *; try lia;
  repeat match type of Hf with
         | context [if ?c then _ else _] =>
             let T := fresh "T" in destruct c eqn:T; bool_hyp T; try lia
         end;
  rewrite Hf; cbv zeta;
  match goal with |- context [as_ <=? ?x] => table x end.

Lemma utf8_DecodeRune_sequence q c t :
  sequence q c -> DecodeRune (q ++ t) = (c, length q).
Proof.
  destruct 1 as [b0 H0|b0 b1 H0 H1|b0 b1 b2 H0 H1 H2|b0 b1 b2 b3 H0 H1 H2 H3];
    cbn [app length]; unfold DecodeRune, second_lo, second_hi in *;
    tests_hyp; first_of b0;
    unfold at_, locb, hicb; cbn [fst snd length Nat.ltb Nat.leb nth]; tests;
    f_equal.
  - change (Z.shiftr (int32 (Z.shiftl as_ 31)) 31) with 0.
    by rewrite Z.land_0_r, Z.lor_0_r, Z.land_m1_r.
  - apply utf8_decode2; lia.
  - apply utf8_decode3; lia.
  - apply utf8_decode3; lia.
  - apply utf8_decode3; lia.
  - apply utf8_decode4; lia.
  - apply utf8_decode4; lia.
  - apply utf8_decode4; lia.
Qed.

(** The bytes [EncodeRune] writes, as arithmetic. *)
Lemma utf8_lead_byte t n v b :
  0 <= n -> t mod 2 ^ n = 0 -> 0 <= v < 2 ^ n -> t + v = u8.unsigned b ->
  u8.of_Z (Z.lor t v) = b.
Proof.
  intros Hn Ht Hv Hb. rewrite (Z_lor_disjoint _ _ n), Hb by done.
  apply u8.u8_of_Z_unsigned.
Qed.

Lemma utf8_cont_byte r b :
  0x80 <= u8.unsigned b <= 0xBF -> r mod 64 = u8.unsigned b - 0x80 ->
  cont r = b.
Proof.
  intros Hb Hr. unfold cont, u8.wrap, u8.modulus. rewrite utf8_mask_low.
  apply (utf8_lead_byte _ 6); [lia|done|pack_side|unfold tx; pack_side].
Qed.

Lemma utf8_EncodeRune_sequence q c : sequence q c -> EncodeRune c = q.
Proof.
  destruct 1 as [b0 H0|b0 b1 H0 H1|b0 b1 b2 H0 H1 H2|b0 b1 b2 b3 H0 H1 H2 H3];
    pose proof (u8.u8_unsigned_range b0);
    unfold EncodeRune, uint32, second_lo, second_hi in *; tests_hyp;
    rewrite Z.mod_small by lia;
    unfold rune1Max, rune2Max, rune3Max, MaxRune, surrogateMin, surrogateMax;
    tests; cbn [orb andb]; rewrite ?Z.shiftr_div_pow2 by lia.
  all: repeat apply (f_equal2 cons); try done;
    try apply u8.u8_of_Z_unsigned; try (apply utf8_cont_byte; [lia|pack_side]).
  all: unfold u8.wrap, u8.modulus, t2, t3, t4;
    first [apply (utf8_lead_byte _ 5); [lia|done|pack_side..]
          |apply (utf8_lead_byte _ 4); [lia|done|pack_side..]].
Qed.

(** The rune of a single byte: the mask of [DecodeRune] keeps an ASCII
    byte and replaces any other by the error. *)
Lemma utf8_rune_ascii z :
  Z.lor (Z.land z (Z.lnot (Z.shiftr (int32 (Z.shiftl as_ 31)) 31)))
    (Z.land RuneError (Z.shiftr (int32 (Z.shiftl as_ 31)) 31)) = z.
Proof.
  change (Z.shiftr (int32 (Z.shiftl as_ 31)) 31) with 0.
  by rewrite Z.land_0_r, Z.lor_0_r, Z.land_m1_r.
Qed.

Lemma utf8_rune_invalid z :
  Z.lor (Z.land z (Z.lnot (Z.shiftr (int32 (Z.shiftl xx 31)) 31)))
    (Z.land RuneError (Z.shiftr (int32 (Z.shiftl xx 31)) 31)) = RuneError.
Proof.
  change (Z.shiftr (int32 (Z.shiftl xx 31)) 31) with (-1).
  by rewrite Z.land_m1_r, Z.land_0_r.
Qed.

(** What [DecodeRune] answers: the error of one byte, or the value of the
    well-formed sequence the input starts with. *)
Lemma utf8_DecodeRune_inv p c size :
  p <> [] -> DecodeRune p = (c, size) ->
  (c = RuneError /\ size = 1%nat) \/
  exists q t, p = q ++ t /\ sequence q c /\ size = length q.
Proof.
  destruct p as [|b0 p]; [done|]. intros _. unfold DecodeRune.
  pose proof (u8.u8_unsigned_range b0).
  first_of b0; rewrite ?utf8_rune_ascii, ?utf8_rune_invalid.
  all: destruct p as [|b1 [|b2 [|b3 t]]];
    unfold at_, locb, hicb; cbn [fst snd length Nat.ltb Nat.leb nth]; tests;
    intros [= <- <-]; try (by left); right.
  all: first
    [eexists [_], _; split; [reflexivity|]; split; [|done];
       by apply sequence1
    |eexists [_; _], _; split; [reflexivity|]; split; [|done];
       rewrite utf8_decode2 by lia; apply sequence2; lia
    |eexists [_; _; _], _; split; [reflexivity|]; split; [|done];
       rewrite utf8_decode3 by lia; apply sequence3;
       unfold second_lo, second_hi; tests; lia
    |eexists [_; _; _; _], _; split; [reflexivity|]; split; [|done];
       rewrite utf8_decode4 by lia; apply sequence4;
       unfold second_lo, second_hi; tests; lia].
Qed.

End utf8.

