(* ===== verification/Json.v ===== *)
(** * encoding/json: the bytes of a JSON response

    [c.JSON] writes [json.Marshal(obj)] to the response.  This file models
    the encoder for the values the program writes (objects, strings,
    integers, [null]):

    - [json.appendString], the loop that quotes a string: bytes of
      [htmlSafeSet] are copied, the others are escaped, invalid UTF-8
      becomes the escape of U+FFFD, U+2028 and U+2029 are escaped.  The
      loop walks the string with two indices; it is modelled with fuel,
      and proved equal to [json.quote], which cuts the string into chunks
      by structural recursion;
    - [json.Marshal] on the trees of [gin.json], an object written with
      its fields in the order of the tree;
    - [json.unquote], the decoder of a quoted string, as the reference
      the encoder is checked against: decoding what was encoded gives the
      string with every byte that is not UTF-8 replaced by U+FFFD
      ([json.coerce]), which is the string itself exactly when it is valid
      UTF-8 ([json_round_trip_iff]).

    The short escapes [\b] and [\f] are those of Go 1.22 and later
    (earlier versions write [\u0008] and [\u000c]; both forms decode to
    the same byte).  A number is an integer, written in decimal: this is
    what [strconv] gives an [int], and a [float64] of integral value below
    [1e21]. *)

From stdpp Require Import pretty.
From S2P Require Import Prelude Hex Utf8 Gin.

(** ** Chunks

    A string cut into chunks from left to right: [step] looks at what is
    left and gives the output for the first chunk and its length.  The
    bytes of a chunk after the first are skipped. *)
Section Chunks.
Context {A : Type}.

Fixpoint chunks (step : list A -> list A * nat) (skip : nat) (s : list A)
  : list A :=
  match s with
  | [] => []
  | _ :: rest =>
      match skip with
      | S k => chunks step k rest
      | O => let '(out, n) := step s in out ++ chunks step (pred n) rest
      end
  end.

(** The same with a step that can fail. *)
Fixpoint chunks_opt (step : list A -> option (list A * nat)) (skip : nat)
    (s : list A) : option (list A) :=
  match s with
  | [] => Some []
  | _ :: rest =>
      match skip with
      | S k => chunks_opt step k rest
      | O =>
          match step s with
          | None => None
          | Some (out, n) => (out ++.) <$> chunks_opt step (pred n) rest
          end
      end
  end.

Lemma chunks_skip step k s :
  (k <= length s)%nat -> chunks step k s = chunks step 0 (drop k s).
Proof.
  revert k. induction s as [|a s IH]; intros [|k] Hk; simpl in *;
    try done; try lia.
  apply IH. lia.
Qed.

Lemma chunks_step step s out n :
  s <> [] -> step s = (out, n) -> (1 <= n <= length s)%nat ->
  chunks step 0 s = out ++ chunks step 0 (drop n s).
Proof.
  destruct s as [|a s]; [done|]. intros _ Hs Hn. simpl in *. rewrite Hs.
  destruct n as [|n]; [lia|]. simpl. by rewrite chunks_skip by lia.
Qed.

Lemma chunks_opt_skip step k s :
  (k <= length s)%nat -> chunks_opt step k s = chunks_opt step 0 (drop k s).
Proof.
  revert k. induction s as [|a s IH]; intros [|k] Hk; simpl in *;
    try done; try lia.
  apply IH. lia.
Qed.

Lemma chunks_opt_step step s out n :
  s <> [] -> step s = Some (out, n) -> (1 <= n <= length s)%nat ->
  chunks_opt step 0 s = (out ++.) <$> chunks_opt step 0 (drop n s).
Proof.
  destruct s as [|a s]; [done|]. intros _ Hs Hn. simpl in *. rewrite Hs.
  destruct n as [|n]; [lia|]. simpl. by rewrite chunks_opt_skip by lia.
Qed.

End Chunks.

(** [s[a:b]] *)
Definition slice {A} (s : list A) (a b : nat) : list A :=
  take (b - a) (drop a s).

Lemma slice_nil {A} (s : list A) a : slice s a a = [].
Proof. unfold slice. by rewrite Nat.sub_diag. Qed.

Lemma slice_app {A} (s : list A) a b c :
  (a <= b <= c)%nat -> slice s a b ++ slice s b c = slice s a c.
Proof.
  intros H. unfold slice.
  replace (c - a)%nat with ((b - a) + (c - b))%nat by lia.
  rewrite <- take_take_drop, drop_drop.
  by replace (a + (b - a))%nat with b by lia.
Qed.

Lemma slice_end {A} (s : list A) a : slice s a (length s) = drop a s.
Proof. unfold slice. rewrite take_ge; [done|]. rewrite length_drop. lia. Qed.

(** ** encoding/json *)

Module json.

(** The double quote, and the texts the encoder writes. *)
Definition dq : byte := Byte.x22.
Definition backslash : byte := Byte.x5c.

(** [htmlSafeSet[b]]: the ASCII characters written as they are, which are
    those from the space on but for the quote, the backslash and the three
    characters of HTML. *)
Definition htmlSafeSet (b : byte) : bool :=
  let z := u8.unsigned b in
  (0x20 <=? z) && (z <? 0x80) &&
  negb ((z =? 0x22) || (z =? 0x26) || (z =? 0x3C) || (z =? 0x3E) || (z =? 0x5C)).

(** The [switch] of [appendString] on an ASCII byte that is not safe. *)
Definition escape (b : byte) : list byte :=
  let z := u8.unsigned b in
  if (z =? 0x5C) || (z =? 0x22) then [backslash; b]
  else if z =? 0x08 then bytes_of_string "\b"
  else if z =? 0x0C then bytes_of_string "\f"
  else if z =? 0x0A then bytes_of_string "\n"
  else if z =? 0x0D then bytes_of_string "\r"
  else if z =? 0x09 then bytes_of_string "\t"
  else bytes_of_string "\u00" ++
         [hex.hextable_at (u8.shr b 4); hex.hextable_at (u8.and b Byte.x0f)].

(** What the loop does at index [i], where the byte is [b]: the text to
    write in place of the bytes from [i] on, and how many bytes it stands
    for; [None] when the bytes are to be copied. *)
Definition at_index (src : list byte) (i : nat) (b : byte)
  : option (list byte) * nat :=
  if u8.unsigned b <? utf8.RuneSelf then
    if htmlSafeSet b then (None, 1%nat) else (Some (escape b), 1%nat)
  else
    let n := (length src - i)%nat in
    let n := if (utf8.UTFMax <? n)%nat then utf8.UTFMax else n in
    let '(c, size) := utf8.DecodeRune (slice src i (i + n)) in
    if (c =? utf8.RuneError) && (size =? 1)%nat then
      (Some (bytes_of_string "\ufffd"), size)
    else if (c =? 0x2028) || (c =? 0x2029) then
      (Some (bytes_of_string "\u202" ++
             [hex.hextable_at (u8.of_Z (Z.land c 0xF))]), size)
    else (None, size).

(** The loop of [appendString], [for i := 0; i < len(src); { ... }], with
    the indices [start] and [i]; the bytes from [start] to [i] are still
    to be copied.  [None] is the loop out of fuel, or an index out of
    range. *)
Fixpoint appendString_loop (fuel : nat) (src dst : list byte) (start i : nat)
  : option (list byte) :=
  match fuel with
  | O => None
  | S fuel' =>
      if (i <? length src)%nat then
        b ← src !! i;
        match at_index src i b with
        | (None, size) => appendString_loop fuel' src dst start (i + size)
        | (Some text, size) =>
            let dst := dst ++ slice src start i in
            let dst := dst ++ text in
            appendString_loop fuel' src dst (i + size) (i + size)
        end
      else Some (dst ++ slice src start (length src) ++ [dq])
  end.

(** [func appendString(dst []byte, src string, escapeHTML bool) []byte]
    with [escapeHTML] set, as [Marshal] calls it. *)
Definition appendString (dst src : list byte) : option (list byte) :=
  appendString_loop (S (length src)) src (dst ++ [dq]) 0 0.

(** The reference: the string cut into chunks, each written or copied. *)
Definition quote_step (s : list byte) : list byte * nat :=
  match s with
  | [] => ([], 1%nat)
  | b :: _ =>
      let '(text, size) := at_index (take utf8.UTFMax s) 0 b in
      (default (take size s) text, size)
  end.

Definition quote (s : list byte) : list byte :=
  [dq] ++ chunks quote_step 0 s ++ [dq].

(** [strconv.AppendInt(b, v, 10)] *)
Definition number (z : Z) : list byte := bytes_of_string (pretty z).

(** The members of an object, a comma between two of them. *)
Fixpoint commas (members : list (list byte)) : list byte :=
  match members with
  | [] => []
  | [m] => m
  | m :: rest => m ++ bytes_of_string "," ++ commas rest
  end.

(** [func Marshal(v any) ([]byte, error)] on the values of the program: a
    map or a struct is written as an object, its members in the order of
    the tree, each name through [appendString]; a string through
    [appendString]; an integer in decimal; [nil] as [null]. *)
Fixpoint Marshal (j : gin.json) : option (list byte) :=
  match j with
  | gin.JNull => Some (bytes_of_string "null")
  | gin.JNumber z => Some (number z)
  | gin.JString s => appendString [] (bytes_of_string s)
  | gin.JObject fields =>
      members ← mapM (fun kv =>
        name ← appendString [] (bytes_of_string kv.1);
        value ← Marshal kv.2;
        Some (name ++ bytes_of_string ":" ++ value)) fields;
      Some (bytes_of_string "{" ++ commas members ++ bytes_of_string "}")
  end.

(** The reference: the same document, its strings quoted by [quote]. *)
Fixpoint encode (j : gin.json) : list byte :=
  match j with
  | gin.JNull => bytes_of_string "null"
  | gin.JNumber z => number z
  | gin.JString s => quote (bytes_of_string s)
  | gin.JObject fields =>
      bytes_of_string "{" ++
      commas (map (fun kv =>
        quote (bytes_of_string kv.1) ++ bytes_of_string ":" ++ encode kv.2)
        fields) ++
      bytes_of_string "}"
  end.

(** Induction on a document and on the members of its objects. *)
Section Induction.
Context (P : gin.json -> Prop).
Context (Hnull : P gin.JNull) (Hnumber : forall z, P (gin.JNumber z)).
Context (Hstring : forall s, P (gin.JString s)).
Context (Hobject : forall fields,
  Forall (fun kv => P kv.2) fields -> P (gin.JObject fields)).

Fixpoint json_induction (j : gin.json) : P j :=
  match j with
  | gin.JNull => Hnull
  | gin.JNumber z => Hnumber z
  | gin.JString s => Hstring s
  | gin.JObject fields =>
      Hobject fields
        ((fix members (l : list (string * gin.json))
            : Forall (fun kv => P kv.2) l :=
            match l with
            | [] => List.Forall_nil _
            | kv :: l' =>
                List.Forall_cons _ kv l' (json_induction kv.2) (members l')
            end) fields)
  end.
End Induction.

(** *** The decoder of a quoted string

    [unquote] is the decoder of the package ([unquoteBytes], without its
    first loop, which returns the input when there is nothing to decode):
    the reference the encoder is checked against. *)

(** [func getu4(s []byte) rune]: the four hexadecimal digits after
    [\u]; [None] is [-1]. *)
Definition getu4 (s : list byte) : option Z :=
  match s with
  | b0 :: b1 :: h1 :: h2 :: h3 :: h4 :: _ =>
      if (u8.unsigned b0 =? 0x5C) && (u8.unsigned b1 =? 0x75) then
        d1 ← hex.fromHexChar h1;
        d2 ← hex.fromHexChar h2;
        d3 ← hex.fromHexChar h3;
        d4 ← hex.fromHexChar h4;
        Some (((u8.unsigned d1 * 16 + u8.unsigned d2) * 16
               + u8.unsigned d3) * 16 + u8.unsigned d4)
      else None
  | _ => None
  end.

(** [utf16.IsSurrogate] and [utf16.DecodeRune] *)
Definition IsSurrogate (r : Z) : bool := (0xD800 <=? r) && (r <? 0xE000).

Definition utf16_DecodeRune (r1 r2 : Z) : Z :=
  if (0xD800 <=? r1) && (r1 <? 0xDC00) && (0xDC00 <=? r2) && (r2 <? 0xE000)
  then Z.lor (Z.shiftl (r1 - 0xD800) 10) (r2 - 0xDC00) + 0x10000
  else utf8.RuneError.

(** The character after a backslash, for the escapes of one character. *)
Definition unescape (e : byte) : option byte :=
  let z := u8.unsigned e in
  if (z =? 0x22) || (z =? 0x5C) || (z =? 0x2F) || (z =? 0x27) then Some e
  else if z =? 0x62 then Some Byte.x08
  else if z =? 0x66 then Some Byte.x0c
  else if z =? 0x6E then Some Byte.x0a
  else if z =? 0x72 then Some Byte.x0d
  else if z =? 0x74 then Some Byte.x09
  else None.

(** One turn of the loop of [unquoteBytes]: the bytes written and the
    number of bytes read, or [None] for a string that is not valid. *)
Definition unquote_step (s : list byte) : option (list byte * nat) :=
  match s with
  | [] => None
  | c :: rest =>
      let z := u8.unsigned c in
      if z =? 0x5C then
        match rest with
        | [] => None
        | e :: _ =>
            if u8.unsigned e =? 0x75 then
              rr ← getu4 s;
              if IsSurrogate rr then
                let rr1 := default (-1) (getu4 (drop 6 s)) in
                let dec := utf16_DecodeRune rr rr1 in
                if dec =? utf8.RuneError
                then Some (utf8.EncodeRune utf8.RuneError, 6%nat)
                else Some (utf8.EncodeRune dec, 12%nat)
              else Some (utf8.EncodeRune rr, 6%nat)
            else b ← unescape e; Some ([b], 2%nat)
        end
      else if (z =? 0x22) || (z <? 0x20) then None
      else if z <? utf8.RuneSelf then Some ([c], 1%nat)
      else
        let '(rr, size) := utf8.DecodeRune s in
        Some (utf8.EncodeRune rr, size)
  end.

(** [func unquoteBytes(s []byte) (t []byte, ok bool)] *)
Definition unquote (s : list byte) : option (list byte) :=
  if (length s <? 2)%nat || negb (bool_decide (head s = Some dq))
     || negb (bool_decide (last s = Some dq))
  then None
  else chunks_opt unquote_step 0 (slice s 1 (length s - 1)).

(** What the decoder gives back for a string: the bytes that are not part
    of a well-formed sequence are replaced by U+FFFD, one by one. *)
Definition coerce_step (s : list byte) : list byte * nat :=
  let '(c, size) := utf8.DecodeRune (take utf8.UTFMax s) in
  if (c =? utf8.RuneError) && (size =? 1)%nat
  then (utf8.EncodeRune utf8.RuneError, 1%nat)
  else (take size s, size).

Definition coerce (s : list byte) : list byte := chunks coerce_step 0 s.

(** A string is valid UTF-8 when no byte of it is decoded to the error. *)
Fixpoint valid_from (skip : nat) (s : list byte) : bool :=
  match s with
  | [] => true
  | _ :: rest =>
      match skip with
      | S k => valid_from k rest
      | O =>
          let '(c, size) := utf8.DecodeRune (take utf8.UTFMax s) in
          negb ((c =? utf8.RuneError) && (size =? 1)%nat) &&
          valid_from (pred size) rest
      end
  end.

Definition valid (s : list byte) : bool := valid_from 0 s.

(** A string of safe characters only is written between quotes as it
    is. *)
Definition plain (s : string) : Prop :=
  Forall (fun b => htmlSafeSet b = true) (bytes_of_string s).

#[global] Instance plain_dec s : Decision (plain s) := _.

(** *** The loop is the reference *)

Lemma slice_window (src : list byte) i :
  (i < length src)%nat ->
  slice src i
    (i + (if (utf8.UTFMax <? length src - i)%nat then utf8.UTFMax
          else (length src - i)%nat)) =
  take utf8.UTFMax (drop i src).
Proof.
  intros Hi. unfold slice.
  replace (i + _ - i)%nat
    with (if (utf8.UTFMax <? length src - i)%nat then utf8.UTFMax
          else (length src - i)%nat) by lia.
  case_match; [done|]. apply Nat.ltb_ge in H.
  by rewrite !take_ge by (rewrite length_drop; lia).
Qed.

(** The loop looks at no more than [UTFMax] bytes from its index on. *)
Lemma json_at_index_window src i b :
  (i < length src)%nat ->
  at_index src i b = at_index (take utf8.UTFMax (drop i src)) 0 b.
Proof.
  intros Hi. unfold at_index. case_match; [done|].
  rewrite slice_window by done.
  assert (0 < length (take utf8.UTFMax (drop i src)))%nat as H0
    by (rewrite length_take, length_drop; unfold utf8.UTFMax; lia).
  rewrite (slice_window _ 0) by done.
  by rewrite drop_0, take_take, Nat.min_id.
Qed.

(** The loop moves on, and not past the end. *)
Lemma json_at_index_size src i b :
  (i < length src)%nat ->
  (1 <= (at_index src i b).2 <= length src - i)%nat.
Proof.
  intros Hi. unfold at_index. case_match; [case_match; cbn; lia|].
  rewrite slice_window by done.
  assert (take utf8.UTFMax (drop i src) <> []) as Hne.
  { intros E%(f_equal length). rewrite length_take, length_drop in E.
    unfold utf8.UTFMax in E. cbn [length] in E. lia. }
  pose proof (utf8.utf8_DecodeRune_size _ Hne) as Hs.
  rewrite length_take, length_drop in Hs.
  destruct (utf8.DecodeRune _) as [c size].
  repeat case_match; cbn [snd] in *; lia.
Qed.

(** The chunk of the reference at the index of the loop. *)
Lemma json_quote_step_at src i b :
  src !! i = Some b ->
  quote_step (drop i src) =
  (default (take (at_index src i b).2 (drop i src)) (at_index src i b).1,
   (at_index src i b).2).
Proof.
  intros Hb. pose proof (lookup_lt_Some _ _ _ Hb) as Hi.
  rewrite (drop_S _ _ _ Hb). unfold quote_step.
  rewrite <- (drop_S _ _ _ Hb), <- json_at_index_window by done.
  by destruct (at_index src i b).
Qed.

Lemma json_chunks_at src i b :
  src !! i = Some b ->
  chunks quote_step 0 (drop i src) =
  default (take (at_index src i b).2 (drop i src)) (at_index src i b).1 ++
  chunks quote_step 0 (drop (i + (at_index src i b).2) src).
Proof.
  intros Hb. pose proof (lookup_lt_Some _ _ _ Hb) as Hi.
  pose proof (json_at_index_size src i b Hi).
  rewrite <- drop_drop. apply chunks_step.
  - by rewrite (drop_S _ _ _ Hb).
  - by apply json_quote_step_at.
  - by rewrite length_drop.
Qed.

(** With more fuel than bytes from the index on, the loop writes what is
    still to be copied and the chunks of the rest. *)
Lemma json_loop_run fuel src dst start i :
  (start <= i <= length src)%nat -> (length src - i < fuel)%nat ->
  appendString_loop fuel src dst start i =
  Some (dst ++ slice src start i ++ chunks quote_step 0 (drop i src) ++ [dq]).
Proof.
  revert dst start i.
  induction fuel as [|fuel IH]; intros dst start i Hi Hf; [lia|].
  cbn [appendString_loop]. destruct (Nat.ltb_spec i (length src)) as [Hlt|Hge].
  - destruct (lookup_lt_is_Some_2 src i Hlt) as [b Hb]. rewrite Hb. cbn.
    pose proof (json_at_index_size src i b Hlt).
    rewrite (json_chunks_at src i b Hb).
    destruct (at_index src i b) as [[text|] size]; cbn [fst snd default] in *;
      rewrite IH by lia.
    + by rewrite slice_nil, <- !app_assoc.
    + rewrite <- (slice_app src start i (i + size)) by lia.
      unfold slice at 2. replace (i + size - i)%nat with size by lia.
      by rewrite <- !app_assoc.
  - replace i with (length src) by lia.
    by rewrite drop_all.
Qed.

Lemma json_appendString_quote dst src :
  appendString dst src = Some (dst ++ quote src).
Proof.
  unfold appendString, quote. rewrite json_loop_run by lia.
  by rewrite slice_nil, drop_0, <- !app_assoc.
Qed.

(** The fuel does not matter, from the length of the string on. *)
Lemma json_appendString_fuel fuel dst src :
  (length src < fuel)%nat ->
  appendString_loop fuel src (dst ++ [dq]) 0 0 = appendString dst src.
Proof.
  intros Hf. unfold appendString. by rewrite !json_loop_run by lia.
Qed.

(** The encoder never fails, and writes the reference document. *)
Lemma json_Marshal_encode j : Marshal j = Some (encode j).
Proof.
  induction j as [|z|s|fields IH] using json_induction;
    [done|done|apply (json_appendString_quote [])|].
  cbn [Marshal encode].
  erewrite mapM_Some_2; [done|]. apply Forall2_fmap_r, Forall_Forall2_diag.
  eapply Forall_impl; [exact IH|]. intros [k v] Hv. cbn [fst snd] in *.
  by rewrite (json_appendString_quote []), Hv.
Qed.

Lemma json_chunks_plain (l : list byte) :
  Forall (fun b => htmlSafeSet b = true) l -> chunks quote_step 0 l = l.
Proof.
  induction 1 as [|b l Hb _ IH]; [done|].
  cbn [chunks quote_step]. unfold at_index.
  assert ((u8.unsigned b <? utf8.RuneSelf) = true) as ->.
  { unfold htmlSafeSet in Hb. apply Z.ltb_lt. cbn in Hb.
    unfold utf8.RuneSelf. lia. }
  rewrite Hb. cbn. by rewrite IH.
Qed.

Lemma json_quote_plain s :
  plain s -> quote (bytes_of_string s) = [dq] ++ bytes_of_string s ++ [dq].
Proof. intros H. unfold quote. by rewrite json_chunks_plain. Qed.

(** *** Decoding what was encoded *)

(** The chunk of an ASCII byte, in front of anything, is decoded to the
    byte. *)
Lemma json_unquote_ascii b t :
  u8.unsigned b < utf8.RuneSelf ->
  chunks_opt unquote_step 0
    ((if htmlSafeSet b then [b] else escape b) ++ t) =
  (b ::.) <$> chunks_opt unquote_step 0 t.
Proof.
  destruct b; intros Hb; try (by vm_compute in Hb);
    cbv -[chunks_opt fmap]; cbn [chunks_opt]; cbv -[chunks_opt fmap];
    reflexivity.
Qed.

(** The chunks of a string of ASCII bytes: one for each byte. *)
Lemma json_chunks_ascii (s : list byte) :
  Forall (fun b => u8.unsigned b < utf8.RuneSelf) s ->
  chunks quote_step 0 s =
  s ≫= (fun b => if htmlSafeSet b then [b] else escape b).
Proof.
  induction 1 as [|b s Hb _ IH]; [done|].
  cbn [chunks quote_step]. unfold at_index.
  apply Z.ltb_lt in Hb. rewrite Hb, bind_cons, <- IH.
  by destruct (htmlSafeSet b).
Qed.

Lemma json_unquote_body body :
  unquote ([dq] ++ body ++ [dq]) = chunks_opt unquote_step 0 body.
Proof.
  unfold unquote. rewrite (app_assoc [dq]), last_snoc, length_app.
  cbn [app length head]. rewrite !bool_decide_true by done.
  destruct (Nat.ltb_spec (S (length body) + 1) 2); [lia|]. cbn [negb orb].
  unfold slice. cbn [drop].
  replace (S (length body) + 1 - 1 - 1)%nat with (length body) by lia.
  by rewrite drop_0, take_app_length.
Qed.

(** Round trip: a string of ASCII bytes is read back from its quoted
    form. *)
Lemma json_unquote_quote_ascii (s : list byte) :
  Forall (fun b => u8.unsigned b < utf8.RuneSelf) s ->
  unquote (quote s) = Some s.
Proof.
  intros Hs. unfold quote. rewrite json_unquote_body, json_chunks_ascii by done.
  induction Hs as [|b s Hb _ IH]; [done|].
  by rewrite bind_cons, json_unquote_ascii, IH.
Qed.

(** *** The round trip on all strings *)

Lemma json_coerce_valid_from k s :
  valid_from k s = true -> take k s ++ chunks coerce_step k s = s.
Proof.
  revert k. induction s as [|b s IH]; intros k; [by rewrite take_nil|].
  destruct k as [|k]; cbn [valid_from chunks take app].
  - unfold coerce_step.
    pose proof (utf8.utf8_DecodeRune_size (take utf8.UTFMax (b :: s))
                  ltac:(done)) as [Hs _].
    destruct (utf8.DecodeRune _) as [c size].
    intros [Hc Hv]%andb_true_iff. apply negb_true_iff in Hc. rewrite Hc.
    destruct size as [|size]; [cbn in Hs; lia|].
    cbn [take app pred] in *. by rewrite IH.
  - intros Hv. cbn. by rewrite IH.
Qed.

Lemma json_coerce_valid s : valid s = true -> coerce s = s.
Proof. intros Hv. by apply (json_coerce_valid_from 0). Qed.


(** A well-formed sequence is not the error of one byte, and starts with
    the byte it was decoded from. *)
Lemma json_sequence_not_error q c :
  utf8.sequence q c ->
  (c =? utf8.RuneError) && (length q =? 1)%nat = false.
Proof.
  destruct 1; cbn [length]; unfold utf8.RuneError;
    rewrite ?andb_false_r; [|done..].
  rewrite andb_true_r. apply Z.eqb_neq. lia.
Qed.

(** The decoder on a well-formed sequence that is not ASCII: the
    sequence, whatever follows. *)
Lemma json_unquote_sequence q c b T :
  utf8.sequence q c -> head q = Some b -> utf8.RuneSelf <= u8.unsigned b ->
  chunks_opt unquote_step 0 (q ++ T) =
  (q ++.) <$> chunks_opt unquote_step 0 T.
Proof.
  intros Hq Hb Hc.
  rewrite (chunks_opt_step _ _ q (length q)), drop_app_length; [done| | |].
  - destruct Hq; done.
  - pose proof (utf8.utf8_DecodeRune_sequence q c T Hq) as Hd.
    pose proof (utf8.utf8_EncodeRune_sequence q c Hq) as He.
    unfold utf8.RuneSelf in *.
    destruct Hq as [b0 H0|b0 b1 H0 H1|b0 b1 b2 H0 H1 H2|b0 b1 b2 b3 H0 H1 H2 H3];
      cbn [head] in Hb; simplify_eq;
      [lia|..]; unfold unquote_step; cbn [app] in *; unfold utf8.RuneSelf;
      tests; by rewrite Hd, He.
  - rewrite length_app. destruct Hq; cbn [length]; lia.
Qed.

(** The escapes of the two separators and of the error are decoded to
    their sequences. *)
Lemma json_unquote_escaped c T :
  c = 0x2028 \/ c = 0x2029 \/ c = utf8.RuneError ->
  chunks_opt unquote_step 0
    ((bytes_of_string "\u" ++
      [hex.hextable_at (u8.of_Z (Z.shiftr c 12));
       hex.hextable_at (u8.of_Z (Z.land (Z.shiftr c 8) 0xF));
       hex.hextable_at (u8.of_Z (Z.land (Z.shiftr c 4) 0xF));
       hex.hextable_at (u8.of_Z (Z.land c 0xF))]) ++ T) =
  (utf8.EncodeRune c ++.) <$> chunks_opt unquote_step 0 T.
Proof.
  intros Hc.
  rewrite (chunks_opt_step _ _ (utf8.EncodeRune c) 6);
    [done|done| |rewrite !length_app;
                 change (length (bytes_of_string _)) with 2%nat;
                 cbn [length]; lia].
  by destruct Hc as [->|[->| ->]]; vm_compute.
Qed.

(** One chunk of the encoder, in front of anything, is decoded to the
    chunk of the valid form. *)
Lemma json_step_round_trip b rest T :
  (quote_step (b :: rest)).2 = (coerce_step (b :: rest)).2 /\
  chunks_opt unquote_step 0 ((quote_step (b :: rest)).1 ++ T) =
  ((coerce_step (b :: rest)).1 ++.) <$> chunks_opt unquote_step 0 T.
Proof.
  unfold quote_step, coerce_step, at_index.
  destruct (Z.ltb_spec (u8.unsigned b) utf8.RuneSelf) as [Hb|Hb].
  - change (take utf8.UTFMax (b :: rest)) with ([b] ++ take 3 rest).
    rewrite (utf8.utf8_DecodeRune_sequence [b] (u8.unsigned b))
      by (by constructor).
    pose proof (json_unquote_ascii b T Hb) as Ha.
    unfold utf8.RuneError, utf8.RuneSelf in *. tests;
      cbn [length take app fst snd default]; by split.
  - rewrite slice_window, drop_0, take_take by (cbn; lia).
    change (utf8.UTFMax `min` utf8.UTFMax)%nat with utf8.UTFMax.
    destruct (utf8.DecodeRune _) as [c size] eqn:Hd.
    destruct (utf8.utf8_DecodeRune_inv (take utf8.UTFMax (b :: rest)) _ _
                ltac:(done) Hd)
      as [[-> ->]|(q & t & Hq & Hs & ->)].
    + split; [done|]. apply (json_unquote_escaped utf8.RuneError). tauto.
    + rewrite (json_sequence_not_error q c Hs).
      assert (take (length q) (b :: rest) = q) as Hq'.
      { apply (f_equal (take (length q))) in Hq.
        rewrite take_take, take_app_length in Hq.
        by replace (length q `min` utf8.UTFMax)%nat with (length q) in Hq
          by (destruct Hs; unfold utf8.UTFMax; cbn [length]; lia). }
      assert (head q = Some b) as Hh
        by (destruct Hs; cbn in Hq; by simplify_eq).
      destruct ((c =? 8232) || (c =? 8233)) eqn:Hc; cbn [fst snd default];
        (split; [done|]); rewrite ?Hq'.
      * rewrite <- (utf8.utf8_EncodeRune_sequence q c Hs).
        bool_hyp Hc. destruct Hc as [->| ->].
        -- exact (json_unquote_escaped 0x2028 T (or_introl eq_refl)).
        -- exact (json_unquote_escaped 0x2029 T
                    (or_intror (or_introl eq_refl))).
      * by apply (json_unquote_sequence q c b).
Qed.

Lemma json_quote_step_size b rest :
  (1 <= (quote_step (b :: rest)).2 <= length (b :: rest))%nat.
Proof.
  pose proof (json_at_index_size (take utf8.UTFMax (b :: rest)) 0 b
                ltac:(cbn; lia)) as Hs.
  rewrite length_take in Hs. unfold quote_step.
  destruct (at_index _ 0 b) as [text size]. cbn [snd] in *. lia.
Qed.

(** Round trip: what the decoder reads from a quoted string is the
    string, the bytes that are not UTF-8 replaced by U+FFFD. *)
Lemma json_unquote_chunks n s :
  (length s <= n)%nat ->
  chunks_opt unquote_step 0 (chunks quote_step 0 s) =
  Some (chunks coerce_step 0 s).
Proof.
  revert s. induction n as [|n IH]; intros [|b rest] Hn; try done;
    [cbn in Hn; lia|].
  destruct (json_step_round_trip b rest
              (chunks quote_step 0 (drop (quote_step (b :: rest)).2 (b :: rest))))
    as [Hsize Hstep].
  pose proof (json_quote_step_size b rest) as Hs.
  rewrite (chunks_step quote_step _ (quote_step (b :: rest)).1
             (quote_step (b :: rest)).2),
    (chunks_step coerce_step _ (coerce_step (b :: rest)).1
       (coerce_step (b :: rest)).2);
    [|done|by destruct (coerce_step _)|by rewrite <- Hsize
     |done|by destruct (quote_step _)|done].
  rewrite Hstep, <- Hsize, IH; [done|].
  rewrite length_drop. cbn [length] in *. lia.
Qed.

Lemma json_unquote_quote s : unquote (quote s) = Some (coerce s).
Proof.
  unfold quote, coerce. rewrite json_unquote_body.
  by apply (json_unquote_chunks (length s)).
Qed.

Lemma json_unquote_quote_valid s :
  valid s = true -> unquote (quote s) = Some s.
Proof. intros Hv. by rewrite json_unquote_quote, json_coerce_valid. Qed.

(** The valid form is never shorter than the string, and it is longer
    when a byte was replaced. *)
Lemma json_coerce_length k s :
  (k <= length s)%nat ->
  (length s <= k + length (chunks coerce_step k s))%nat /\
  (valid_from k s = false ->
   (length s < k + length (chunks coerce_step k s))%nat).
Proof.
  revert k. induction s as [|b s IH]; intros k Hk; [cbn in *; split; [lia|done]|].
  destruct k as [|k]; cbn [valid_from chunks length] in *;
    [|destruct (IH k) as [? ?]; [lia|split; [lia|intros Hv; specialize (H0 Hv); lia]]].
  unfold coerce_step.
  pose proof (utf8.utf8_DecodeRune_size (take utf8.UTFMax (b :: s))
                ltac:(done)) as [Hs1 Hs2].
  rewrite length_take in Hs2. cbn [length] in Hs2.
  destruct (utf8.DecodeRune _) as [c size]. cbn [snd] in *.
  fold coerce_step.
  destruct ((c =? utf8.RuneError) && (size =? 1)%nat) eqn:Hc;
    cbn [negb andb pred]; rewrite length_app.
  - destruct (IH 0%nat) as [? _]; [lia|].
    change (length (utf8.EncodeRune utf8.RuneError)) with 3%nat.
    split; [lia|intros _; lia].
  - destruct (IH (pred size)) as [? Hlt]; [lia|].
    rewrite length_take. cbn [length].
    split; [lia|intros Hv; specialize (Hlt Hv); lia].
Qed.

Lemma json_coerce_valid_iff s : coerce s = s <-> valid s = true.
Proof.
  split; [|apply json_coerce_valid]. intros Hs.
  destruct (valid s) eqn:Hv; [done|].
  destruct (json_coerce_length 0 s) as [_ Hlt]; [lia|].
  specialize (Hlt Hv). unfold coerce in Hs. rewrite Hs in Hlt. lia.
Qed.

(** The round trip holds for the valid strings, and for no other. *)
Lemma json_round_trip_iff s : unquote (quote s) = Some s <-> valid s = true.
Proof.
  rewrite json_unquote_quote, <- json_coerce_valid_iff.
  split; [by intros [= ->]|by intros ->].
Qed.

(** A string of ASCII bytes is valid. *)
Lemma json_valid_ascii s :
  Forall (fun b => u8.unsigned b < utf8.RuneSelf) s -> valid s = true.
Proof.
  intros Hs. apply json_round_trip_iff. by apply json_unquote_quote_ascii.
Qed.

(** The characters of a hexadecimal text are safe. *)
Lemma json_hex_safe (b : byte) : hex.is_lower_hex b = true -> htmlSafeSet b = true.
Proof. destruct b; by vm_compute. Qed.

End json.
