(* ===== verification/Decode.v ===== *)
(** * Reading the responses back

    The clients of the server read the bodies [c.JSON] wrote.  This file
    holds a reader of JSON documents after RFC 8259, for the values of
    [Gin] (objects, strings, integers, [null]): white space between the
    tokens, integers without a leading zero, strings up to the first
    quote that no backslash precedes and decoded by [json.unquote],
    objects with their members in the order of the text.  Fractions,
    exponents, arrays and booleans are refused, as the encoder of the
    model does not write them.

    The recursion on nested objects is not structural and is written
    with fuel; [decode.document] gives the length of the input.  The
    theorems:
    - round trip: what [json.encode] writes is read back, its strings in
      their valid form ([decode.decode_document_encode]), which is the
      document itself exactly when its strings are valid UTF-8
      ([decode.decode_round_trip_iff]);
    - fuel: every value takes a byte, so with the length of the input
      or more the reader gives the same result
      ([decode.decode_value_fuel]): no input is refused for want of
      fuel. *)

From stdpp Require Import pretty.
From S2P Require Import Prelude Hex Utf8 Gin Json.

Module decode.

(** ** The reader *)

(** White space between the tokens of a document. *)
Definition ws (b : byte) : bool :=
  let z := u8.unsigned b in
  (z =? 0x20) || (z =? 0x09) || (z =? 0x0A) || (z =? 0x0D).

Fixpoint skip (s : list byte) : list byte :=
  match s with
  | b :: t => if ws b then skip t else s
  | [] => []
  end.

(** A decimal digit and its value. *)
Definition digit (b : byte) : option Z :=
  let z := u8.unsigned b in
  if (0x30 <=? z) && (z <=? 0x39) then Some (z - 0x30) else None.

(** The digits at the head of the input, after those of value [acc]. *)
Fixpoint digits (acc : Z) (s : list byte) : Z * list byte :=
  match s with
  | b :: t =>
      match digit b with
      | Some d => digits (10 * acc + d) t
      | None => (acc, s)
      end
  | [] => (acc, [])
  end.

(** [int = zero / ( digit1-9 *DIGIT )]: a zero stands alone. *)
Definition natural (s : list byte) : option (Z * list byte) :=
  match s with
  | b :: t => d ← digit b; if d =? 0 then Some (0, t) else Some (digits d t)
  | [] => None
  end.

(** What may follow an integer: no digit, and neither a fraction nor an
    exponent, which the reader does not read. *)
Definition ends_number (s : list byte) : bool :=
  match s with
  | b :: _ =>
      let z := u8.unsigned b in
      negb (bool_decide (is_Some (digit b)) ||
            (z =? 0x2E) || (z =? 0x65) || (z =? 0x45))
  | [] => true
  end.

(** [number = [ minus ] int], with what follows it. *)
Definition integer (s : list byte) : option (Z * list byte) :=
  let '(sign, s) :=
    match s with
    | b :: t => if u8.unsigned b =? 0x2D then (-1, t) else (1, s)
    | [] => (1, s)
    end in
  '(n, rest) ← natural s;
  if ends_number rest then Some (sign * n, rest) else None.

(** The index of the quote that closes a string: the first one that no
    backslash precedes. *)
Fixpoint closing (esc : bool) (s : list byte) : option nat :=
  match s with
  | [] => None
  | b :: t =>
      if esc then S <$> closing false t
      else if u8.unsigned b =? 0x22 then Some 0%nat
      else S <$> closing (u8.unsigned b =? 0x5C) t
  end.

(** A string: from its opening quote to the closing one, decoded by
    [json.unquote]. *)
Definition text (s : list byte) : option (string * list byte) :=
  match s with
  | b :: t =>
      if u8.unsigned b =? 0x22 then
        n ← closing false t;
        str ← json.unquote (take (S (S n)) s);
        Some (string_of_bytes str, drop (S (S n)) s)
      else None
  | [] => None
  end.

Section Members.
Context (value : list byte -> option (gin.json * list byte)).

(** [member = string name-separator value] *)
Definition member (s : list byte) : option ((string * gin.json) * list byte) :=
  '(name, s) ← text (skip s);
  match skip s with
  | b :: s =>
      if u8.unsigned b =? 0x3A then
        '(v, s) ← value s; Some ((name, v), s)
      else None
  | [] => None
  end.

(** The members of an object after its brace, up to the closing one; at
    most [n] of them are read. *)
Fixpoint members (n : nat) (s : list byte)
  : option (list (string * gin.json) * list byte) :=
  match n with
  | O => None
  | S n =>
      '(m, s) ← member s;
      match skip s with
      | b :: s =>
          if u8.unsigned b =? 0x2C then
            '(ms, s) ← members n s; Some (m :: ms, s)
          else if u8.unsigned b =? 0x7D then Some ([m], s)
          else None
      | [] => None
      end
  end.
End Members.

(** A value; [fuel] bounds the depth of the objects and the number of
    members of each. *)
Fixpoint value (fuel : nat) (s : list byte) : option (gin.json * list byte) :=
  match fuel with
  | O => None
  | S fuel =>
      match skip s with
      | [] => None
      | b :: t =>
          let z := u8.unsigned b in
          if z =? 0x22 then
            '(str, rest) ← text (b :: t); Some (gin.JString str, rest)
          else if z =? 0x7B then
            match skip t with
            | c :: t' =>
                if u8.unsigned c =? 0x7D then Some (gin.JObject [], t')
                else
                  '(ms, rest) ← members (value fuel) fuel (c :: t');
                  Some (gin.JObject ms, rest)
            | [] => None
            end
          else if z =? 0x6E then
            if bool_decide (take 4 (b :: t) = bytes_of_string "null")
            then Some (gin.JNull, drop 4 (b :: t))
            else None
          else '(n, rest) ← integer (b :: t); Some (gin.JNumber n, rest)
      end
  end.

(** A document: one value and nothing after it but white space.  Every
    value takes a byte at least, so the length of the input is fuel
    enough. *)
Definition document (s : list byte) : option gin.json :=
  '(j, rest) ← value (length s) s;
  if bool_decide (skip rest = []) then Some j else None.

(** What a reader gets for a document the encoder wrote: the strings are
    in their valid form ([json.coerce]), names included. *)
Definition valid_form (s : string) : string :=
  string_of_bytes (json.coerce (bytes_of_string s)).

Fixpoint read_back (j : gin.json) : gin.json :=
  match j with
  | gin.JString s => gin.JString (valid_form s)
  | gin.JObject fields =>
      gin.JObject (map (fun kv => (valid_form kv.1, read_back kv.2)) fields)
  | j => j
  end.

(** A document is well formed when its strings are valid UTF-8. *)
Fixpoint well_formed (j : gin.json) : bool :=
  match j with
  | gin.JString s => json.valid (bytes_of_string s)
  | gin.JObject fields =>
      forallb (fun kv => json.valid (bytes_of_string kv.1) && well_formed kv.2)
        fields
  | _ => true
  end.

(** The number of values of a document. *)
Fixpoint size (j : gin.json) : nat :=
  match j with
  | gin.JObject fields => S (list_sum (map (fun kv => size kv.2) fields))
  | _ => 1%nat
  end.

(** ** What the proofs speak of *)

(** Scanning a text that is inside a string: the state it ends in,
    [None] when a quote of the text closes the string. *)
Fixpoint inside (esc : bool) (s : list byte) : option bool :=
  match s with
  | [] => Some esc
  | b :: t =>
      if esc then inside false t
      else if u8.unsigned b =? 0x22 then None
      else inside (u8.unsigned b =? 0x5C) t
  end.

(** A text is sealed when it can stand inside a string: its quotes follow
    a backslash and no backslash is left alone at its end. *)
Definition sealed (s : list byte) : Prop := inside false s = Some false.

Definition plain_byte (b : byte) : Prop :=
  u8.unsigned b <> 0x22 /\ u8.unsigned b <> 0x5C.

(** The text of a member, as the encoder writes it. *)
Definition member_text (kv : string * gin.json) : list byte :=
  json.quote (bytes_of_string kv.1) ++ bytes_of_string ":" ++ json.encode kv.2.

Definition read_member (kv : string * gin.json) : string * gin.json :=
  (valid_form kv.1, read_back kv.2).

(** The reader reads back the value [j], whatever follows it that cannot
    be taken for a part of it. *)
Definition reads (value : list byte -> option (gin.json * list byte))
    (j : gin.json) : Prop :=
  forall rest, ends_number rest = true ->
    value (json.encode j ++ rest) = Some (read_back j, rest).

(** What a reader [value'] must do for the values inside an input [s],
    where [value] reads them: read the same, and each of them takes a
    byte. *)
Definition follows (value value' : list byte -> option (gin.json * list byte))
    (s : list byte) : Prop :=
  forall s2 r, (length s2 < length s)%nat -> value s2 = Some r ->
    (length r.2 < length s2)%nat /\ value' s2 = Some r.

(** ** Numbers *)

Lemma decode_digit_char d :
  (d < 10)%N ->
  digit (byte_of_ascii (pretty_N_char d)) = Some (Z.of_N d).
Proof.
  intros Hd. rewrite <- (N2Nat.id d).
  assert (N.to_nat d < 10)%nat as Hn by lia. revert Hn.
  generalize (N.to_nat d). intros n Hn.
  do 10 (destruct n as [|n]; [done|]). lia.
Qed.

(** The digits of [x] written in front of [s] are read as [x] in front of
    what [s] is read as. *)
Lemma decode_digits_pretty x s rest :
  digits 0 (bytes_of_string (pretty_N_go x s) ++ rest) =
  digits (Z.of_N x) (bytes_of_string s ++ rest).
Proof.
  revert s. induction (N.lt_wf_0 x) as [x _ IH]; intros s.
  destruct (decide (x = 0)%N) as [->|Hx]; [by rewrite pretty_N_go_0|].
  rewrite pretty_N_go_step, IH by (try apply N.div_lt; lia).
  change (bytes_of_string (String ?c s)) with (byte_of_ascii c :: bytes_of_string s).
  cbn [app digits].
  rewrite decode_digit_char by (apply N.mod_lt; lia). f_equal.
  rewrite (N.div_mod x 10) at 3 by lia. lia.
Qed.

(** The first character of a positive number is a digit that is not
    zero. *)
Lemma decode_pretty_head x s :
  (0 < x)%N ->
  exists d t, (0 < d < 10)%N /\ pretty_N_go x s = String (pretty_N_char d) t.
Proof.
  revert s. induction (N.lt_wf_0 x) as [x _ IH]; intros s Hx.
  rewrite pretty_N_go_step by done.
  destruct (decide (x `div` 10 = 0)%N) as [Hq|Hq].
  - rewrite Hq, pretty_N_go_0. exists (x `mod` 10)%N, s. split; [|done].
    pose proof (N.div_mod x 10 ltac:(done)). pose proof (N.mod_lt x 10 ltac:(done)). lia.
  - apply IH; [apply N.div_lt; lia|by apply N.neq_0_lt_0].
Qed.

Lemma decode_digits_end acc rest :
  ends_number rest = true -> digits acc rest = (acc, rest).
Proof.
  destruct rest as [|b t]; [done|]. cbn [ends_number digits].
  destruct (digit b); [|done]. by rewrite bool_decide_true by done.
Qed.

Lemma decode_natural_pretty (p : positive) rest :
  ends_number rest = true ->
  natural (bytes_of_string (pretty (N.pos p)) ++ rest) =
  Some (Z.pos p, rest).
Proof.
  intros Hr. unfold pretty, pretty_N. rewrite decide_False by done.
  pose proof (decode_digits_pretty (N.pos p) "" rest) as Hd.
  destruct (decode_pretty_head (N.pos p) "") as (d & t & Hd0 & Ht); [done|].
  rewrite Ht in *.
  change (bytes_of_string (String ?c t)) with (byte_of_ascii c :: bytes_of_string t) in *.
  cbn [app digits natural] in *. rewrite decode_digit_char in * by lia.
  cbn [mbind option_bind]. rewrite (proj2 (Z.eqb_neq _ _)) by lia.
  replace (10 * 0 + Z.of_N d) with (Z.of_N d) in Hd by lia.
  rewrite Hd. f_equal. by apply decode_digits_end.
Qed.

(** An integer is a natural number, or a minus sign and one. *)
Lemma decode_integer_natural b t n rest :
  (u8.unsigned b =? 0x2D) = false ->
  natural (b :: t) = Some (n, rest) -> ends_number rest = true ->
  integer (b :: t) = Some (n, rest).
Proof.
  intros Hb Hn Hr. unfold integer. rewrite Hb, Hn. cbn [mbind option_bind].
  by rewrite Hr, Z.mul_1_l.
Qed.

Lemma decode_integer_minus t n rest :
  natural t = Some (n, rest) -> ends_number rest = true ->
  integer (Byte.x2d :: t) = Some (- n, rest).
Proof.
  intros Hn Hr. unfold integer. change (u8.unsigned Byte.x2d =? 45) with true.
  cbn iota. rewrite Hn. cbn [mbind option_bind]. rewrite Hr. by destruct n.
Qed.

(** Round trip of the integers. *)
Lemma decode_integer_number z rest :
  ends_number rest = true ->
  integer (json.number z ++ rest) = Some (z, rest).
Proof.
  intros Hr. unfold json.number, pretty. destruct z as [|p|p]; cbn [pretty_Z].
  - by apply decode_integer_natural.
  - pose proof (decode_natural_pretty p rest Hr) as Hn.
    unfold pretty_positive. unfold pretty, pretty_N in *.
    rewrite decide_False in * by done.
    destruct (decode_pretty_head (N.pos p) "") as (d & t & Hd0 & Ht); [done|].
    rewrite Ht in *.
    change (bytes_of_string (String ?c t))
      with (byte_of_ascii c :: bytes_of_string t) in *.
    apply decode_integer_natural; [|done..].
    pose proof (decode_digit_char d ltac:(lia)) as Hc. unfold digit in Hc.
    tests_hyp; by tests.
  - change (bytes_of_string ("-" +:+ ?s)) with (Byte.x2d :: bytes_of_string s).
    apply (decode_integer_minus _ (Z.pos p)); [|done].
    by apply decode_natural_pretty.
Qed.

(** ** Strings *)

Lemma decode_closing_app esc c T e :
  inside esc c = Some e ->
  closing esc (c ++ T) = (fun n => length c + n)%nat <$> closing e T.
Proof.
  revert esc. induction c as [|b c IH]; intros esc; cbn [inside closing app].
  - intros [= ->]. by destruct (closing e T).
  - intros H. destruct esc; [|destruct (_ =? 34); [done|]];
      rewrite (IH _ H); by destruct (closing e T).
Qed.

Lemma decode_inside_app esc a b e :
  inside esc a = Some e -> inside esc (a ++ b) = inside e b.
Proof.
  revert esc. induction a as [|x a IH]; intros esc; cbn [inside app].
  - by intros [= ->].
  - destruct esc; [|destruct (_ =? 34); [done|]]; apply IH.
Qed.

Lemma decode_sealed_app a b : sealed a -> sealed b -> sealed (a ++ b).
Proof. unfold sealed. intros Ha Hb. by rewrite (decode_inside_app _ _ _ _ Ha). Qed.

Lemma decode_sealed_plain b t : plain_byte b -> sealed t -> sealed (b :: t).
Proof.
  intros [Hq Hb]. unfold sealed. cbn [inside].
  by rewrite (proj2 (Z.eqb_neq _ _) Hq), (proj2 (Z.eqb_neq _ _) Hb).
Qed.

Lemma decode_sealed_escape b t : sealed t -> sealed (json.backslash :: b :: t).
Proof. done. Qed.

Lemma decode_sealed_nil : sealed [].
Proof. done. Qed.

Lemma decode_plain_hex b : hex.is_lower_hex b = true -> plain_byte b.
Proof. unfold hex.is_lower_hex, plain_byte. intros H. bool_hyp H. lia. Qed.

Lemma decode_plain_high b : 0x80 <= u8.unsigned b -> plain_byte b.
Proof. unfold plain_byte. lia. Qed.

(** A well-formed sequence that is not ASCII is sealed. *)
Lemma decode_sealed_sequence q c b :
  utf8.sequence q c -> head q = Some b -> utf8.RuneSelf <= u8.unsigned b ->
  sealed q.
Proof.
  unfold utf8.RuneSelf.
  destruct 1; cbn [head]; intros [= <-] Hb; unfold utf8.second_lo in *;
    [lia|..];
    repeat (apply decode_sealed_plain; [apply decode_plain_high|]);
    try done; tests_hyp; lia.
Qed.

(** Every chunk the encoder writes is sealed. *)
Lemma decode_sealed_step b rest : sealed (json.quote_step (b :: rest)).1.
Proof.
  unfold json.quote_step, json.at_index.
  destruct (Z.ltb_spec (u8.unsigned b) utf8.RuneSelf) as [Hb|Hb].
  - destruct (json.htmlSafeSet b) eqn:Hs; cbn [fst snd default take].
    + apply decode_sealed_plain; [|done]. unfold json.htmlSafeSet in Hs.
      unfold plain_byte. bool_hyp Hs. lia.
    + destruct (hex.hex_digits_lower b). unfold json.escape.
      tests; try done.
      apply (decode_sealed_escape Byte.x75).
      repeat apply decode_sealed_plain; by try apply decode_plain_hex.
  - rewrite json.slice_window, drop_0, take_take by (cbn; lia).
    destruct (utf8.DecodeRune _) as [c size] eqn:Hd.
    destruct (utf8.utf8_DecodeRune_inv (take utf8.UTFMax (b :: rest)) _ _
                ltac:(done) Hd)
      as [[-> ->]|(q & t & Hq & Hs & ->)]; [done|].
    rewrite (json.json_sequence_not_error q c Hs).
    destruct ((c =? 8232) || (c =? 8233)) eqn:Hc; cbn [fst snd default].
    + bool_hyp Hc. by destruct Hc as [->| ->].
    + assert (take (length q) (b :: rest) = q) as ->.
      { apply (f_equal (take (length q))) in Hq.
        rewrite take_take, take_app_length in Hq.
        by replace (length q `min` utf8.UTFMax)%nat with (length q) in Hq
          by (destruct Hs; unfold utf8.UTFMax; cbn [length]; lia). }
      apply (decode_sealed_sequence q c b Hs); [|done].
      destruct Hs; cbn in Hq; by simplify_eq.
Qed.

Lemma decode_sealed_chunks n s :
  (length s <= n)%nat -> sealed (chunks json.quote_step 0 s).
Proof.
  revert s. induction n as [|n IH]; intros [|b rest] Hn; try done;
    [cbn in Hn; lia|].
  pose proof (json.json_quote_step_size b rest) as Hs.
  rewrite (chunks_step json.quote_step _ (json.quote_step (b :: rest)).1
             (json.quote_step (b :: rest)).2);
    [|done|by destruct (json.quote_step _)|done].
  apply decode_sealed_app; [apply decode_sealed_step|]. apply IH.
  rewrite length_drop. cbn [length] in *. lia.
Qed.

(** A sealed text between quotes is read as one string, whatever
    follows. *)
Lemma decode_text_token body rest :
  sealed body ->
  text ([json.dq] ++ body ++ [json.dq] ++ rest) =
  str ← json.unquote ([json.dq] ++ body ++ [json.dq]);
  Some (string_of_bytes str, rest).
Proof.
  intros Hb. unfold text. cbn [app].
  change (u8.unsigned json.dq =? 34) with true. cbn iota.
  rewrite (decode_closing_app false _ _ false Hb). cbn [closing].
  change (u8.unsigned json.dq =? 34) with true.
  cbn [fmap option_fmap option_map mbind option_bind].
  assert (json.dq :: body ++ json.dq :: rest =
          (json.dq :: body ++ [json.dq]) ++ rest) as ->
    by (cbn [app]; by rewrite <- app_assoc).
  replace (S (S (length body + 0))) with (length (json.dq :: body ++ [json.dq]))
    by (cbn [length]; rewrite length_app; cbn [length]; lia).
  by rewrite take_app_length, drop_app_length.
Qed.

(** Round trip of the strings: a quoted string is read up to its closing
    quote and decoded to its valid form. *)
Lemma decode_text_quote s rest :
  text (json.quote (bytes_of_string s) ++ rest) = Some (valid_form s, rest).
Proof.
  pose proof (json.json_unquote_quote (bytes_of_string s)) as Hq.
  unfold json.quote in *. rewrite <- !app_assoc.
  rewrite decode_text_token, Hq; [done|].
  by apply (decode_sealed_chunks (length (bytes_of_string s))).
Qed.

(** ** Documents *)

(** No token starts with white space. *)
Lemma decode_skip_token b t : 0x20 < u8.unsigned b -> skip (b :: t) = b :: t.
Proof.
  intros H. cbn [skip]. unfold ws.
  by rewrite !(proj2 (Z.eqb_neq _ _)) by lia.
Qed.

Lemma decode_skip_quote s rest :
  skip (json.quote s ++ rest) = json.quote s ++ rest.
Proof. done. Qed.

(** A value that starts as an integer or as a string is that integer or
    that string. *)
Lemma decode_value_integer fuel s z rest :
  integer s = Some (z, rest) -> value (S fuel) s = Some (gin.JNumber z, rest).
Proof.
  destruct s as [|b t]; [done|]. intros H.
  assert (u8.unsigned b = 0x2D \/ 0x30 <= u8.unsigned b <= 0x39) as Hb.
  { unfold integer, natural, digit in H.
    destruct (Z.eqb_spec (u8.unsigned b) 45); [by left|right].
    by tests_hyp. }
  cbn [value]. rewrite decode_skip_token by lia.
  cbn zeta. rewrite H. by tests.
Qed.

Lemma decode_value_text fuel s str rest :
  text s = Some (str, rest) -> value (S fuel) s = Some (gin.JString str, rest).
Proof.
  destruct s as [|b t]; [done|]. intros H.
  assert (u8.unsigned b = 0x22) as Hb
    by (unfold text in H; by tests_hyp).
  cbn [value]. rewrite decode_skip_token by lia.
  cbn zeta. rewrite H. by tests.
Qed.

Section Object.
Context (value : list byte -> option (gin.json * list byte)).

Lemma decode_member_text kv rest :
  reads value kv.2 -> ends_number rest = true ->
  member value (member_text kv ++ rest) = Some (read_member kv, rest).
Proof.
  intros Hv Hr. unfold member, member_text. rewrite <- !app_assoc.
  rewrite decode_skip_quote, decode_text_quote.
  cbn [mbind option_bind]. change (bytes_of_string ":") with [Byte.x3a].
  cbn [app]. rewrite decode_skip_token by done.
  change (u8.unsigned Byte.x3a =? 58) with true. cbn iota.
  by rewrite (Hv rest Hr).
Qed.

Lemma decode_members_text fields n rest :
  fields <> [] -> (length fields <= n)%nat ->
  Forall (fun kv => reads value kv.2) fields ->
  members value n
    (json.commas (map member_text fields) ++ Byte.x7d :: rest) =
  Some (map read_member fields, rest).
Proof.
  intros Hne Hn Hf. revert n Hn.
  induction Hf as [|kv fields Hkv Hf IH]; [done|]. clear Hne.
  intros [|n] Hn; cbn [length] in Hn; [lia|]. cbn [members map].
  destruct fields as [|kv' fields]; cbn [json.commas map].
  - rewrite decode_member_text by done. cbn [mbind option_bind].
    by rewrite decode_skip_token by done.
  - rewrite <- !app_assoc. change (bytes_of_string ",") with [Byte.x2c].
    cbn [app]. rewrite decode_member_text by done. cbn [mbind option_bind].
    rewrite decode_skip_token by done.
    change (u8.unsigned Byte.x2c =? 44) with true. cbn iota.
    change (json.commas (member_text kv' :: map member_text fields))
      with (json.commas (map member_text (kv' :: fields))).
    rewrite IH by (done || cbn [length] in *; lia). done.
Qed.
End Object.

(** The members of an object that has some start with the quote of a
    name. *)
Lemma decode_commas_head kv fields rest :
  exists t,
    json.commas (map member_text (kv :: fields)) ++ rest = json.dq :: t.
Proof.
  cbn [map json.commas]. destruct (map member_text fields);
    unfold member_text, json.quote; cbn [app]; eauto.
Qed.

Lemma decode_size_pos j : (1 <= size j)%nat.
Proof. destruct j; cbn [size]; lia. Qed.

Lemma decode_size_members (fields : list (string * gin.json)) :
  (length fields <= list_sum (map (fun kv => size kv.2) fields))%nat /\
  Forall (fun kv => (size kv.2 <=
                     list_sum (map (fun kv => size kv.2) fields))%nat) fields.
Proof.
  induction fields as [|kv fields [IH1 IH2]]; cbn [length map];
    [by split|].
  change (list_sum (?x :: ?l)) with (x + list_sum l)%nat.
  pose proof (decode_size_pos kv.2). split; [lia|].
  constructor; [lia|]. eapply Forall_impl; [exact IH2|]. cbn beta. lia.
Qed.

(** Round trip of the values: with fuel for its size, a value the
    encoder wrote is read back in its valid form. *)
Lemma decode_value_encode j fuel :
  (size j <= fuel)%nat -> reads (value fuel) j.
Proof.
  revert fuel. induction j as [|z|s|fields IH] using json.json_induction;
    intros [|fuel] Hf rest Hr; cbn [size] in Hf; try lia.
  - done.
  - by apply decode_value_integer, decode_integer_number.
  - by apply decode_value_text, decode_text_quote.
  - destruct (decode_size_members fields) as [Hlen Hsize].
    cbn [json.encode read_back]. change (bytes_of_string "{") with [Byte.x7b].
    change (bytes_of_string "}") with [Byte.x7d]. rewrite <- !app_assoc.
    cbn [app value]. rewrite decode_skip_token by done. cbn zeta.
    change (u8.unsigned Byte.x7b =? 34) with false.
    change (u8.unsigned Byte.x7b =? 123) with true. cbn iota.
    destruct fields as [|kv fields]; [done|].
    change (fun kv : string * gin.json =>
              json.quote (bytes_of_string kv.1) ++
                      bytes_of_string ":" ++ json.encode kv.2)
      with member_text.
    change (fun kv : string * gin.json => (valid_form kv.1, read_back kv.2))
      with read_member.
    pose proof (decode_members_text (value fuel) (kv :: fields) fuel rest
                  ltac:(done) ltac:(lia)) as Hm.
    rewrite Forall_forall in IH, Hsize.
    specialize (Hm ltac:(apply Forall_forall; intros x Hx;
                          apply IH; [done|specialize (Hsize x Hx); lia])).
    destruct (decode_commas_head kv fields (Byte.x7d :: rest)) as [t Ht].
    rewrite Ht in *. rewrite decode_skip_token by done.
    change (u8.unsigned json.dq =? 125) with false. cbn iota.
    by rewrite Hm.
Qed.

(** *** The fuel of a document *)

Lemma decode_number_length z : (1 <= length (json.number z))%nat.
Proof.
  pose proof (decode_integer_number z [] eq_refl) as H.
  destruct (json.number z); [done|cbn [length]; lia].
Qed.

Lemma decode_size_commas (fields : list (string * gin.json)) :
  Forall (fun kv => (size kv.2 <= length (json.encode kv.2))%nat) fields ->
  (list_sum (map (fun kv => size kv.2) fields) <=
   length (json.commas (map member_text fields)))%nat.
Proof.
  induction 1 as [|kv fields Hkv _ IH]; [done|]. cbn [map].
  change (list_sum (?x :: ?l)) with (x + list_sum l)%nat.
  assert (size kv.2 <= length (member_text kv))%nat
    by (unfold member_text; rewrite !length_app; lia).
  destruct fields as [|kv' fields]; cbn [json.commas map] in *;
    rewrite ?length_app; cbn [list_sum foldr] in *; lia.
Qed.

(** A document has no more values than its text has bytes. *)
Lemma decode_size_encode j : (size j <= length (json.encode j))%nat.
Proof.
  induction j as [|z|s|fields IH] using json.json_induction;
    cbn [size json.encode].
  - vm_compute. lia.
  - apply decode_number_length.
  - unfold json.quote. rewrite !length_app. cbn [length]. lia.
  - pose proof (decode_size_commas fields IH).
    change (bytes_of_string "{") with [Byte.x7b].
    change (bytes_of_string "}") with [Byte.x7d].
    rewrite !length_app. cbn [length]. unfold member_text in *. lia.
Qed.

(** Round trip of the documents: what the encoder writes is read back in
    its valid form. *)
Lemma decode_document_encode j :
  document (json.encode j) = Some (read_back j).
Proof.
  unfold document.
  pose proof (decode_value_encode j _ (decode_size_encode j) [] eq_refl) as H.
  rewrite app_nil_r in H. by rewrite H.
Qed.

(** *** Documents that are read back as they were *)

Lemma decode_valid_form s :
  valid_form s = s <-> json.valid (bytes_of_string s) = true.
Proof.
  rewrite <- json.json_coerce_valid_iff. unfold valid_form. split.
  - intros H. apply (f_equal bytes_of_string) in H.
    by rewrite bytes_of_string_of_bytes in H.
  - intros ->. apply string_of_bytes_of_string.
Qed.

Lemma decode_read_back_iff j : read_back j = j <-> well_formed j = true.
Proof.
  induction j as [|z|s|fields IH] using json.json_induction;
    cbn [read_back well_formed]; [done..| |].
  - rewrite <- decode_valid_form. split; [by intros [= ->]|by intros ->].
  - induction IH as [|[k v] fields Hv _ IHf]; cbn [map forallb fst snd] in *;
      [done|].
    rewrite !andb_true_iff, <- IHf, <- Hv, <- decode_valid_form. split.
    + intros [= Hk Hv' Hf]. by rewrite Hf.
    + intros [[Hk Hv'] [= Hf]]. by rewrite Hk, Hv', Hf.
Qed.

(** A document is read back as it was written exactly when its strings
    are valid UTF-8. *)
Lemma decode_round_trip_iff j :
  document (json.encode j) = Some j <-> well_formed j = true.
Proof.
  rewrite decode_document_encode, <- decode_read_back_iff.
  split; [by intros [= ->]|by intros ->].
Qed.

(** ** The fuel of the reader

    Every token takes a byte at least, so a value is read within as many
    calls as the input has bytes: with that much fuel or more, the result
    is the same. *)

Lemma decode_skip_length s : (length (skip s) <= length s)%nat.
Proof.
  induction s as [|b s IH]; cbn [skip length]; [done|].
  destruct (ws b); cbn [length]; lia.
Qed.

Lemma decode_text_length s str rest :
  text s = Some (str, rest) -> (length rest < length s)%nat.
Proof.
  destruct s as [|b t]; [done|]. unfold text. intros H.
  destruct (_ =? 34); [|done]. simplify_option_eq.
  rewrite length_drop. cbn [length]. lia.
Qed.

Lemma decode_digits_length acc s :
  (length (digits acc s).2 <= length s)%nat.
Proof.
  revert acc. induction s as [|b s IH]; intros acc; cbn [digits]; [done|].
  destruct (digit b); cbn [snd length]; [|done].
  specialize (IH (10 * acc + z)). lia.
Qed.

Lemma decode_natural_length s n rest :
  natural s = Some (n, rest) -> (length rest < length s)%nat.
Proof.
  destruct s as [|b t]; [done|]. unfold natural.
  destruct (digit b) as [d|]; [|done]. cbn [mbind option_bind].
  pose proof (decode_digits_length d t) as Hd.
  destruct (d =? 0); intros [= H]; [subst; cbn [length]; lia|].
  rewrite H in Hd. cbn [snd length] in *. lia.
Qed.

Lemma decode_integer_length s z rest :
  integer s = Some (z, rest) -> (length rest < length s)%nat.
Proof.
  destruct s as [|b t]; [done|]. unfold integer.
  destruct (_ =? 45); destruct (natural _) as [[n r]|] eqn:Hn;
    cbn [mbind option_bind]; try done;
    destruct (ends_number r); intros [= <- <-];
    apply decode_natural_length in Hn; cbn [length] in *; lia.
Qed.

Section Transfer.
Context (value value' : list byte -> option (gin.json * list byte)).

Lemma decode_member_transfer s m rest :
  member value s = Some (m, rest) -> follows value value' s ->
  (length rest < length s)%nat /\ member value' s = Some (m, rest).
Proof.
  unfold member. intros H Hval.
  destruct (text (skip s)) as [[name s1]|] eqn:Ht; [|done].
  cbn [mbind option_bind] in *. apply decode_text_length in Ht.
  pose proof (decode_skip_length s). pose proof (decode_skip_length s1).
  destruct (skip s1) as [|b s2]; [done|]. cbn [length] in *.
  destruct (_ =? 58); [|done].
  destruct (value s2) as [[v s3]|] eqn:Hv; [|done].
  destruct (Hval s2 _ ltac:(lia) Hv) as [Hl ->].
  cbn [mbind option_bind snd] in *. injection H as <- <-. split; [lia|done].
Qed.

Lemma decode_members_transfer n k s ms rest :
  members value n s = Some (ms, rest) -> (length s <= k)%nat ->
  follows value value' s ->
  (length rest < length s)%nat /\ members value' k s = Some (ms, rest).
Proof.
  revert k s ms rest. induction n as [|n IH]; [done|].
  intros k s ms rest H Hk Hval. cbn [members] in H.
  destruct (member value s) as [[m s1]|] eqn:Hm; [|done].
  destruct (decode_member_transfer _ _ _ Hm Hval) as [Hl Hm'].
  destruct k as [|k]; [lia|]. cbn [members]. rewrite Hm'.
  cbn [mbind option_bind] in *. pose proof (decode_skip_length s1).
  destruct (skip s1) as [|b s2]; [done|]. cbn [length] in *.
  destruct (_ =? 44).
  - destruct (members value n s2) as [[ms' s3]|] eqn:Hms; [|done].
    destruct (IH k s2 _ _ Hms ltac:(lia)) as [Hl' ->].
    { intros s4 r Hs4. apply Hval. lia. }
    cbn [mbind option_bind] in *. injection H as <- <-. split; [lia|done].
  - destruct (_ =? 125); [|done]. injection H as <- <-. split; [lia|done].
Qed.
End Transfer.

(** A value that is read with some fuel takes a byte at least and is
    read with any fuel from the length of the input on. *)
Lemma decode_value_transfer fuel s r :
  value fuel s = Some r ->
  (length r.2 < length s)%nat /\
  forall k, (length s <= k)%nat -> value k s = Some r.
Proof.
  revert s r. induction fuel as [|fuel IH]; [done|]. intros s r H.
  cbn [value] in H. pose proof (decode_skip_length s) as Hl.
  destruct (skip s) as [|b t] eqn:Hs; [done|]. cbn [length] in Hl.
  enough ((length r.2 < length s)%nat /\
          forall k, (length s <= S k)%nat -> value (S k) s = Some r) as [? Hk].
  { split; [done|]. intros [|k] ?; [lia|]. by apply Hk. }
  cbn [value]. rewrite Hs. cbn zeta in *.
  destruct (_ =? 34).
  { destruct (text (b :: t)) as [[str rest]|] eqn:Ht; [|done].
    injection H as <-. apply decode_text_length in Ht.
    cbn [length snd] in *. split; [lia|done]. }
  destruct (_ =? 123).
  { pose proof (decode_skip_length t) as Hl'.
    destruct (skip t) as [|c t']; [done|]. cbn [length] in Hl'.
    destruct (_ =? 125).
    { injection H as <-. cbn [snd]. split; [lia|done]. }
    destruct (members _ _ _) as [[ms rest]|] eqn:Hm; [|done].
    injection H as <-. cbn [snd].
    assert (forall k, (length s <= S k)%nat ->
              follows (value fuel) (value k) (c :: t')) as Hf.
    { intros k Hk s2 r2 Hs2 Hv. destruct (IH _ _ Hv) as [? Hv'].
      split; [done|]. apply Hv'. cbn [length] in *. lia. }
    split.
    - destruct (decode_members_transfer _ _ _ (length s) _ _ _ Hm
                  ltac:(cbn [length]; lia) (Hf (length s) ltac:(lia))).
      cbn [length] in *. lia.
    - intros k Hk.
      destruct (decode_members_transfer _ _ _ k _ _ _ Hm
                  ltac:(cbn [length]; lia) (Hf k Hk)) as [_ ->].
      done. }
  destruct (_ =? 110).
  { destruct (bool_decide _); [|done]. injection H as <-. cbn [snd drop].
    rewrite length_drop. split; [lia|done]. }
  destruct (integer (b :: t)) as [[n rest]|] eqn:Hn; [|done].
  injection H as <-. apply decode_integer_length in Hn.
  cbn [length snd] in *. split; [lia|done].
Qed.

(** The fuel of [document] is enough: with more, the result is the
    same, and no input is refused for want of fuel. *)
Lemma decode_value_fuel s fuel :
  (length s <= fuel)%nat -> value fuel s = value (length s) s.
Proof.
  intros Hf. destruct (value fuel s) as [r|] eqn:H1.
  - destruct (decode_value_transfer _ _ _ H1) as [_ H]. by rewrite H.
  - destruct (value (length s) s) as [r|] eqn:H2; [|done].
    destruct (decode_value_transfer _ _ _ H2) as [_ H].
    by rewrite H in H1.
Qed.

(** ** Examples *)

(** White space between the tokens is skipped. *)
Example decode_example_spaces :
  document (bytes_of_string " { " ++ json.quote (bytes_of_string "id") ++
            bytes_of_string " : -12 , " ++
            json.quote (bytes_of_string "key") ++
            bytes_of_string ":null } ") =
  Some (gin.JObject [("id", gin.JNumber (-12)); ("key", gin.JNull)]).
Proof. by vm_compute. Qed.

(** A quote after a backslash does not close the string. *)
Example decode_example_escaped_quote :
  document [json.dq; json.backslash; json.dq; json.dq] =
  Some (gin.JString (string_of_bytes [json.dq])) /\
  document [json.dq; json.backslash; json.dq] = None.
Proof. by vm_compute. Qed.

(** What is not a document of the model: a leading zero, a fraction, an
    exponent, a sign alone, a word cut short, text after the value, an
    object left open, two values, nothing. *)
Example decode_example_refused :
  Forall (fun s => document (bytes_of_string s) = None)
    ["01"; "1.5"; "1e3"; "-"; "nul"; "{}x"; "{"; "1 2"; ""].
Proof. repeat (constructor; [by vm_compute|]). constructor. Qed.

End decode.
