(* ===== verification/Callback.v ===== *)
(** * The payment callback: [PaymentGatewayCallback] (src/main.go:78-137)

    The handler reads the body of the request, parses it as a form, checks
    that the three fields are present and not empty, in the order payment,
    order, signature, verifies the signature and answers.  It is modelled
    statement by statement in the monad of Go functions: every [return]
    is a [Go.return_], the indexing [x[0]] can panic, and the deferred
    [Close] of the body runs on every way out that comes after line 93.

    The theorems give the answer on every path, show that the handler
    implements the decision procedure of the specification
    ([callback_outcome]), and that the panic is not reachable. *)

From S2P Require Import Prelude Url Gin Signature.

(** [type Payment struct] (src/main.go:78-82) *)
Record Payment : Type := mkPayment {
  PaymentID : string;
  OrderID : string;
  Signature : string;
}.

(** The JSON form of a [Payment], by the tags of its fields
    (src/main.go:79-81). *)
Definition Payment_json (p : Payment) : gin.json :=
  gin.JObject [
    ("razorpay_payment_id", gin.JString (PaymentID p));
    ("razorpay_order_id", gin.JString (OrderID p));
    ("razorpay_signature", gin.JString (Signature p)) ].

(** [gin.H{"error": msg}] (src/main.go:89, 98, 105, 111, 117, 128-130) *)
Definition error_body (msg : string) : gin.json :=
  gin.H1 "error" (gin.JString msg).

(** [gin.H{"paymentData": Payment}] (src/main.go:134-136) *)
Definition payment_body (p : Payment) : gin.json :=
  gin.H1 "paymentData" (Payment_json p).

(** The condition [!exists || len(v[0]) == 0] (src/main.go:104, 110, 116):
    the second operand is evaluated only when the key exists, and indexes
    the slice. *)
Definition missing (v : list string) (exists_ : bool) : gin.M bool :=
  if negb exists_ then Go.ret true
  else (v0 <- Go.index v 0 ;; Go.ret (len v0 =? 0)%nat)%go.

(** [func PaymentGatewayCallback(c *gin.Context)] (src/main.go:84-137) *)
Definition PaymentGatewayCallback : gin.M unit :=
  ('(body, err) <- gin.ReadAll_Body ;;
   Go.when (bool_decide (is_Some err))
     (gin.JSON gin.StatusInternalServerError
        (error_body "Unable to read request body") ;;
      Go.return_) ;;
   gin.Println "Received request body:" body ;;
   Go.defer gin.Body_Close
     (let '(parsedQuery, err) := url.ParseQuery body in
      Go.when (bool_decide (is_Some err))
        (gin.JSON gin.StatusInternalServerError
           (error_body "Failed to parse query parameters") ;;
         Go.return_) ;;
      let '(paymentID, exists_) :=
        Go.lookup_ok parsedQuery "razorpay_payment_id" [] in
      absent <- missing paymentID exists_ ;;
      Go.when absent
        (gin.JSON gin.StatusBadRequest
           (error_body "Missing payment_id parameter") ;;
         Go.return_) ;;
      let '(orderID, exists_) :=
        Go.lookup_ok parsedQuery "razorpay_order_id" [] in
      absent <- missing orderID exists_ ;;
      Go.when absent
        (gin.JSON gin.StatusBadRequest
           (error_body "Missing order_id parameter") ;;
         Go.return_) ;;
      let '(signature, exists_) :=
        Go.lookup_ok parsedQuery "razorpay_signature" [] in
      absent <- missing signature exists_ ;;
      Go.when absent
        (gin.JSON gin.StatusBadRequest
           (error_body "Missing signature parameter") ;;
         Go.return_) ;;
      paymentID0 <- Go.index paymentID 0 ;;
      orderID0 <- Go.index orderID 0 ;;
      signature0 <- Go.index signature 0 ;;
      let Payment :=
        {| PaymentID := paymentID0; OrderID := orderID0;
           Signature := signature0 |} in
      secret <- gin.Getenv "RAZORPAY_KEY_SECRET" ;;
      Go.when
        (negb (verifyRazorpaySignature (OrderID Payment) (PaymentID Payment)
                 (Signature Payment) secret))
        (gin.JSON gin.StatusBadRequest (error_body "failed to verify") ;;
         Go.return_) ;;
      gin.JSON gin.StatusOK (payment_body Payment)))%go.

(** ** The specification of the handler

    What the callback decides, as the specification states it: the first
    check that fails names the answer. *)
Inductive outcome : Type :=
| ReadFailed
| ParseFailed
| Missing (name : string)
| VerifyFailed
| Verified (p : Payment).

(** The value of the field [k] of a parsed form: the first value of the
    key, if it is there and not empty. *)
Definition first_value (m : url.Values) (k : string) : option string :=
  match m !! k with
  | Some (v :: _) => if decide (v = EmptyString) then None else Some v
  | _ => None
  end.

(** The decision, from the body of the request and the secret. *)
Definition callback_outcome (b : gin.ReadCloser) (secret : string) : outcome :=
  if gin.failure b is Some _ then ReadFailed else
  let '(m, err) := url.ParseQuery (gin.content b) in
  if err is Some _ then ParseFailed else
  match first_value m "razorpay_payment_id" with
  | None => Missing "payment_id"
  | Some p =>
  match first_value m "razorpay_order_id" with
  | None => Missing "order_id"
  | Some o =>
  match first_value m "razorpay_signature" with
  | None => Missing "signature"
  | Some sg =>
      if decide (sg = computedSignature o p secret)
      then Verified {| PaymentID := p; OrderID := o; Signature := sg |}
      else VerifyFailed
  end end end.

(** The status and the JSON body of each answer. *)
Definition answer (o : outcome) : Z * gin.json :=
  match o with
  | ReadFailed => (500, error_body "Unable to read request body")
  | ParseFailed => (500, error_body "Failed to parse query parameters")
  | Missing name => (400, error_body ("Missing " +:+ name +:+ " parameter"))
  | VerifyFailed => (400, error_body "failed to verify")
  | Verified p => (200, payment_body p)
  end.

(** The state the handler leaves: the answer written, and, unless the body
    could not be read, the body printed and closed. *)
Definition callback_post (s : gin.State) : gin.State :=
  let b := gin.Body (gin.request (gin.ctx s)) in
  let secret := default "" (gin.environ (gin.proc s) !! "RAZORPAY_KEY_SECRET") in
  let o := callback_outcome b secret in
  match o with
  | ReadFailed => gin.respond (answer o) s
  | _ =>
      gin.Body_Close (gin.respond (answer o)
        (gin.with_stdout
           (fun out => out ++ [gin.Line ("Received request body: " +:+ gin.content b)]) s))
  end.

(** The handler as a function: how it is left, and in which state. *)
Definition callback_flow (s : gin.State) : Go.flow gin.State unit :=
  let b := gin.Body (gin.request (gin.ctx s)) in
  let secret := default "" (gin.environ (gin.proc s) !! "RAZORPAY_KEY_SECRET") in
  match callback_outcome b secret with
  | Verified _ => Go.Continue tt (callback_post s)
  | _ => Go.Return (callback_post s)
  end.

(** ** Observations of a state *)

Definition secret_of (s : gin.State) : string :=
  default "" (gin.environ (gin.proc s) !! "RAZORPAY_KEY_SECRET").
Definition outcome_of (s : gin.State) : outcome :=
  callback_outcome (gin.Body (gin.request (gin.ctx s))) (secret_of s).
Definition req_body (s : gin.State) : gin.ReadCloser := gin.Body (gin.request (gin.ctx s)).
Definition form (s : gin.State) : url.Values := (url.ParseQuery (gin.content (req_body s))).1.
Definition parse_error (s : gin.State) : option url.error :=
  (url.ParseQuery (gin.content (req_body s))).2.

(** The body a browser posts for a payment: the three fields, escaped. *)
Definition callback_form (p o sg : string) : string :=
  url.form_encode [("razorpay_payment_id", p); ("razorpay_order_id", o);
                   ("razorpay_signature", sg)].

(** The three fields were there: the decision was on the signature. *)
Definition complete (o : outcome) : Prop :=
  match o with Verified _ | VerifyFailed => True | _ => False end.

#[global] Instance complete_dec o : Decision (complete o).
Proof. destruct o; apply _. Defined.

(** A body that was read, as [io.ReadAll] returns it. *)
Definition body_of (content : string) : gin.ReadCloser :=
  {| gin.content := content; gin.failure := None; gin.closed := false |}.

(** A request for the callback: its body (and the error of reading it) in a
    process with the given environment, nothing written yet. *)
Definition callback_state (body : string) (failure : option string)
    (env : gmap string string) : gin.State :=
  {| gin.ctx := gin.new_context
       {| gin.Method := "POST"; gin.Path := "/payment-callback";
          gin.Body := {| gin.content := body; gin.failure := failure;
                         gin.closed := false |} |};
     gin.proc := {| gin.environ := env; gin.stdout := [];
                  gin.outbound := [] |} |}.

Definition example_env : gmap string string :=
  {[ "RAZORPAY_KEY_ID" := "rzp_test_1"; "RAZORPAY_KEY_SECRET" := "s3cr3t" ]}.

Definition example_signature : string :=
  "ee21698235c31aef5bb049b86d1c00014db7de75dbe78cb4ed9ffa8e90855655".

(** ** The handler implements its specification *)

Lemma len_zero s : (len s =? 0)%nat = bool_decide (s = EmptyString).
Proof. by destruct s. Qed.

Lemma missing_lookup m k v ok (s : gin.State) :
  url.nonempty_values m -> Go.lookup_ok m k [] = (v, ok) ->
  missing v ok s = Go.Continue (bool_decide (first_value m k = None)) s.
Proof.
  intros Hm. unfold Go.lookup_ok, first_value, missing.
  destruct (m !! k) as [[|x l]|] eqn:E; intros; simplify_eq/=; try done.
  - by apply Hm in E.
  - go_simpl. rewrite len_zero. by repeat case_decide; repeat case_bool_decide.
Qed.

Lemma index_lookup m k v ok x (s : gin.State) :
  Go.lookup_ok m k [] = (v, ok) -> first_value m k = Some x ->
  Go.index v 0 s = Go.Continue x s.
Proof.
  unfold Go.lookup_ok, first_value.
  destruct (m !! k) as [[|y l]|]; intros; simplify_eq/=.
  by case_decide; simplify_eq.
Qed.

(** Run the statements at the head of a handler on the state at hand,
    leaving the library calls that the lemmas above describe. *)
Ltac go_run :=
  unfold Go.bind, Go.when, Go.ret, Go.return_, Go.gets, Go.modify, Go.defer,
    gin.JSON, gin.Status, gin.Println, gin.Getenv, gin.ReadAll_Body;
  cbn -[missing Go.index verifyRazorpaySignature url.ParseQuery Go.lookup_ok
        computedSignature String.app].

(** The run of the handler on a state, check by check. *)
Lemma callback_run s : PaymentGatewayCallback s = callback_flow s.
Proof.
  unfold PaymentGatewayCallback, callback_flow, callback_post, callback_outcome.
  destruct s as [[[mth pth [cnt fl cl]] w i] [env out sent]].
  destruct fl as [e|]; [reflexivity|]. go_run.
  pose proof (url.url_parseQuery_nonempty ∅ cnt (map_Forall_empty _)) as Hne.
  fold (url.ParseQuery cnt) in Hne.
  destruct (url.ParseQuery cnt) as [m [e|]] eqn:HP; [reflexivity|].
  cbn [fst] in Hne. go_run.
  destruct (Go.lookup_ok m "razorpay_payment_id" []) as [v1 ok1] eqn:E1.
  destruct (Go.lookup_ok m "razorpay_order_id" []) as [v2 ok2] eqn:E2.
  destruct (Go.lookup_ok m "razorpay_signature" []) as [v3 ok3] eqn:E3.
  rewrite (missing_lookup m _ _ _ _ Hne E1).
  destruct (first_value m "razorpay_payment_id") as [p|] eqn:F1; [|reflexivity].
  go_run. rewrite (missing_lookup m _ _ _ _ Hne E2).
  destruct (first_value m "razorpay_order_id") as [o|] eqn:F2; [|reflexivity].
  go_run. rewrite (missing_lookup m _ _ _ _ Hne E3).
  destruct (first_value m "razorpay_signature") as [sg|] eqn:F3; [|reflexivity].
  go_run.
  rewrite (index_lookup m _ _ _ _ _ E1 F1), (index_lookup m _ _ _ _ _ E2 F2),
    (index_lookup m _ _ _ _ _ E3 F3).
  rewrite verify_decides. by case_bool_decide; case_decide.
Qed.

(** C2. Refinement: the handler is the computation of the specification.
    On every state it is left the way the specification says (by [return]
    on every error, by falling off its end after a verified payment), in
    the state the specification gives: the answer of the first failing
    check written with [c.JSON], the body printed and closed unless it
    could not be read. *)
Theorem callback_refines : PaymentGatewayCallback ≡ callback_flow.
Proof. intros s. apply callback_run. Qed.

(** The handler never panics: the indexings [paymentID[0]], [orderID[0]]
    and [signature[0]] are always in range, because a key that
    [url.ParseQuery] stored has at least one value. *)
Lemma callback_never_panics s :
  Go.panicked (PaymentGatewayCallback s) = false.
Proof. rewrite callback_run. unfold callback_flow. by case_match. Qed.

Section Response.
Implicit Types (s : gin.State) (w : gin.ResponseWriter).

Lemma callback_final s : Go.final (PaymentGatewayCallback s) = callback_post s.
Proof. rewrite callback_run. unfold callback_flow. by case_match. Qed.

Lemma callback_post_status s :
  gin.written (gin.writer (gin.ctx s)) = false ->
  gin.resp_status (callback_post s) = (answer (outcome_of s)).1.
Proof.
  intros Hw. unfold callback_post. fold (secret_of s) (outcome_of s).
  destruct (outcome_of s); cbn; by rewrite gin.gin_WriteHeader_status.
Qed.

Lemma callback_post_body s :
  gin.resp_body (callback_post s) = gin.resp_body s ++ [(answer (outcome_of s)).2].
Proof.
  unfold callback_post. fold (secret_of s) (outcome_of s).
  destruct (outcome_of s);
    apply (gin.gin_respond_body _ s) ||
    apply (gin.gin_respond_body _ (gin.with_stdout _ s)).
Qed.

Lemma callback_response s :
  gin.fresh s ->
  gin.resp_status (Go.final (PaymentGatewayCallback s))
    = (answer (outcome_of s)).1 /\
  gin.resp_body (Go.final (PaymentGatewayCallback s))
    = [(answer (outcome_of s)).2].
Proof.
  intros Hs. pose proof (gin.gin_fresh_body s Hs) as Hb. destruct Hs as [Hw _].
  rewrite callback_final, callback_post_status, callback_post_body by done.
  by rewrite Hb.
Qed.

Lemma outcome_of_unfold s :
  outcome_of s =
  if gin.failure (req_body s) is Some _ then ReadFailed else
  if parse_error s is Some _ then ParseFailed else
  match first_value (form s) "razorpay_payment_id" with
  | None => Missing "payment_id"
  | Some p =>
  match first_value (form s) "razorpay_order_id" with
  | None => Missing "order_id"
  | Some o =>
  match first_value (form s) "razorpay_signature" with
  | None => Missing "signature"
  | Some sg =>
      if decide (sg = computedSignature o p (secret_of s))
      then Verified {| PaymentID := p; OrderID := o; Signature := sg |}
      else VerifyFailed
  end end end.
Proof.
  unfold outcome_of, callback_outcome, form, parse_error. fold (req_body s).
  destruct (gin.failure (req_body s)); [done|].
  by destruct (url.ParseQuery _) as [m [e|]].
Qed.

Lemma callback_form_parse p o sg :
  url.ParseQuery (callback_form p o sg) =
  ({["razorpay_payment_id" := [p]; "razorpay_order_id" := [o];
     "razorpay_signature" := [sg]]}, None).
Proof.
  unfold url.ParseQuery, callback_form. rewrite url.url_parseQuery_form_encode.
  reflexivity.
Qed.

Lemma first_value_singleton (m : url.Values) k v :
  m !! k = Some [v] -> v <> EmptyString -> first_value m k = Some v.
Proof. intros Hk Hv. unfold first_value. by rewrite Hk, decide_False. Qed.

(** The decision on the form of a payment whose fields are not empty. *)
Lemma outcome_of_form s p o sg :
  gin.failure (req_body s) = None ->
  p <> EmptyString -> o <> EmptyString -> sg <> EmptyString ->
  gin.content (req_body s) = callback_form p o sg ->
  outcome_of s =
  if decide (sg = computedSignature o p (secret_of s))
  then Verified {| PaymentID := p; OrderID := o; Signature := sg |}
  else VerifyFailed.
Proof.
  intros Hf Hp Ho Hsg Hc. rewrite outcome_of_unfold, Hf.
  unfold parse_error, form. rewrite Hc, callback_form_parse. cbn [fst snd].
  by rewrite (first_value_singleton _ _ p), (first_value_singleton _ _ o),
    (first_value_singleton _ _ sg).
Qed.

Lemma computedSignature_nonempty o p secret :
  computedSignature o p secret <> EmptyString.
Proof.
  intros Heq. pose proof (computedSignature_len o p secret) as Hl.
  by rewrite Heq in Hl.
Qed.

Lemma callback_state_fresh body failure env :
  gin.fresh (callback_state body failure env).
Proof. by split. Qed.

(** What the handler leaves alone: the index of the chain, the
    environment, the headers already set; and its answer depends on the
    context and the environment only. *)
Lemma callback_post_index s :
  gin.index (gin.ctx (callback_post s)) = gin.index (gin.ctx s).
Proof. unfold callback_post. by case_match. Qed.

Lemma callback_post_environ s :
  gin.environ (gin.proc (callback_post s)) = gin.environ (gin.proc s).
Proof. unfold callback_post. by case_match. Qed.

Lemma callback_post_outbound s :
  gin.outbound (gin.proc (callback_post s)) = gin.outbound (gin.proc s).
Proof. unfold callback_post. by case_match. Qed.

Lemma callback_post_stdout s :
  gin.stdout (gin.proc (callback_post s)) =
  gin.stdout (gin.proc s) ++
    if gin.failure (req_body s) is Some _ then []
    else [gin.Line ("Received request body: " +:+ gin.content (req_body s))].
Proof.
  unfold callback_post. fold (secret_of s) (outcome_of s) (req_body s).
  pose proof (outcome_of_unfold s) as Ho.
  destruct (gin.failure (req_body s)).
  - rewrite Ho. cbn. by rewrite app_nil_r.
  - destruct (outcome_of s); try done; by repeat case_match.
Qed.

Lemma callback_post_header s k v :
  gin.resp_header s !! k = Some v ->
  gin.resp_header (callback_post s) !! k = Some v.
Proof.
  intros Hk. unfold callback_post.
  case_match; by apply (gin.gin_respond_header _ _ k v).
Qed.

Lemma callback_post_writer s s' :
  gin.ctx s = gin.ctx s' ->
  gin.environ (gin.proc s) = gin.environ (gin.proc s') ->
  gin.writer (gin.ctx (callback_post s)) =
  gin.writer (gin.ctx (callback_post s')).
Proof.
  intros Hc He. unfold callback_post. rewrite Hc, He.
  by case_match; cbn; rewrite Hc.
Qed.

End Response.

(** ** The answer on every path *)

(** On a fresh response the handler writes exactly one body, and the
    status is one of 200, 400 and 500. *)
Theorem callback_status_codes s :
  gin.fresh s ->
  gin.resp_status (Go.final (PaymentGatewayCallback s)) ∈ [200; 400; 500] /\
  length (gin.resp_body (Go.final (PaymentGatewayCallback s))) = 1%nat.
Proof.
  intros Hs. destruct (callback_response s Hs) as [-> ->]. split; [|done].
  destruct (outcome_of s); cbn; set_solver.
Qed.

Lemma callback_status_codes_witness :
  gin.resp_status (Go.final (PaymentGatewayCallback
    (callback_state "a=b" None example_env))) ∈ [200; 400; 500] /\
  length (gin.resp_body (Go.final (PaymentGatewayCallback
    (callback_state "a=b" None example_env)))) = 1%nat.
Proof. apply callback_status_codes, callback_state_fresh. Defined.

(** C13. A body that cannot be read is answered 500 "Unable to read request
    body"; nothing is printed. *)
Theorem callback_read_failure s e :
  gin.fresh s -> gin.failure (req_body s) = Some e ->
  gin.resp_status (Go.final (PaymentGatewayCallback s)) = 500 /\
  gin.resp_body (Go.final (PaymentGatewayCallback s)) =
    [error_body "Unable to read request body"] /\
  gin.stdout (gin.proc (Go.final (PaymentGatewayCallback s))) =
    gin.stdout (gin.proc s).
Proof.
  intros Hs He. destruct (callback_response s Hs) as [-> ->].
  rewrite callback_final. unfold callback_post.
  fold (secret_of s) (outcome_of s).
  rewrite outcome_of_unfold, He. done.
Qed.

Lemma callback_read_failure_witness :
  let s := callback_state "razorpay_payment_id=pay_xyz"
             (Some "unexpected EOF") example_env in
  gin.resp_status (Go.final (PaymentGatewayCallback s)) = 500 /\
  gin.resp_body (Go.final (PaymentGatewayCallback s)) =
    [error_body "Unable to read request body"] /\
  gin.stdout (gin.proc (Go.final (PaymentGatewayCallback s))) =
    gin.stdout (gin.proc s).
Proof.
  apply (callback_read_failure _ "unexpected EOF");
    [apply callback_state_fresh|reflexivity].
Defined.

(** C12. A body that does not parse as a form is answered 500 "Failed to
    parse query parameters", never 400, whatever fields it holds. *)
Theorem callback_unparseable s e :
  gin.fresh s -> gin.failure (req_body s) = None -> parse_error s = Some e ->
  gin.resp_status (Go.final (PaymentGatewayCallback s)) = 500 /\
  gin.resp_body (Go.final (PaymentGatewayCallback s)) =
    [error_body "Failed to parse query parameters"].
Proof.
  intros Hs Hf He. destruct (callback_response s Hs) as [-> ->].
  rewrite outcome_of_unfold, Hf, He. done.
Qed.

Lemma callback_unparseable_witness :
  let s := callback_state
    ("razorpay_payment_id=pay_xyz&razorpay_order_id=order_abc" +:+
     "&razorpay_signature=" +:+ example_signature +:+ "&note=100%")
    None example_env in
  gin.resp_status (Go.final (PaymentGatewayCallback s)) = 500 /\
  gin.resp_body (Go.final (PaymentGatewayCallback s)) =
    [error_body "Failed to parse query parameters"].
Proof.
  apply (callback_unparseable _ (url.EscapeError "%"));
    [apply callback_state_fresh|reflexivity|vm_compute; reflexivity].
Defined.

(** C9. When the payment identifier is missing or empty the answer is 400
    "Missing payment_id parameter", whatever the other two fields are. *)
Theorem callback_missing_payment_id s :
  gin.fresh s -> gin.failure (req_body s) = None -> parse_error s = None ->
  first_value (form s) "razorpay_payment_id" = None ->
  gin.resp_status (Go.final (PaymentGatewayCallback s)) = 400 /\
  gin.resp_body (Go.final (PaymentGatewayCallback s)) =
    [error_body "Missing payment_id parameter"].
Proof.
  intros Hs Hf He H1. destruct (callback_response s Hs) as [-> ->].
  rewrite outcome_of_unfold, Hf, He, H1. done.
Qed.

Lemma callback_missing_payment_id_witness :
  let s := callback_state
    "razorpay_payment_id=&razorpay_order_id=order_abc&razorpay_signature=00"
    None example_env in
  gin.resp_status (Go.final (PaymentGatewayCallback s)) = 400 /\
  gin.resp_body (Go.final (PaymentGatewayCallback s)) =
    [error_body "Missing payment_id parameter"].
Proof.
  apply callback_missing_payment_id;
    [apply callback_state_fresh|reflexivity|vm_compute; reflexivity..].
Defined.

(** C10. With a payment identifier, a missing or empty order identifier is
    answered 400 "Missing order_id parameter", whatever the signature. *)
Theorem callback_missing_order_id s p :
  gin.fresh s -> gin.failure (req_body s) = None -> parse_error s = None ->
  first_value (form s) "razorpay_payment_id" = Some p ->
  first_value (form s) "razorpay_order_id" = None ->
  gin.resp_status (Go.final (PaymentGatewayCallback s)) = 400 /\
  gin.resp_body (Go.final (PaymentGatewayCallback s)) =
    [error_body "Missing order_id parameter"].
Proof.
  intros Hs Hf He H1 H2. destruct (callback_response s Hs) as [-> ->].
  rewrite outcome_of_unfold, Hf, He, H1, H2. done.
Qed.

Lemma callback_missing_order_id_witness :
  let s := callback_state "razorpay_payment_id=pay_xyz&razorpay_signature=00"
             None example_env in
  gin.resp_status (Go.final (PaymentGatewayCallback s)) = 400 /\
  gin.resp_body (Go.final (PaymentGatewayCallback s)) =
    [error_body "Missing order_id parameter"].
Proof.
  apply (callback_missing_order_id _ "pay_xyz");
    [apply callback_state_fresh|reflexivity|vm_compute; reflexivity..].
Defined.

(** C11. With a payment and an order identifier, a missing or empty
    signature is answered 400 "Missing signature parameter". *)
Theorem callback_missing_signature s p o :
  gin.fresh s -> gin.failure (req_body s) = None -> parse_error s = None ->
  first_value (form s) "razorpay_payment_id" = Some p ->
  first_value (form s) "razorpay_order_id" = Some o ->
  first_value (form s) "razorpay_signature" = None ->
  gin.resp_status (Go.final (PaymentGatewayCallback s)) = 400 /\
  gin.resp_body (Go.final (PaymentGatewayCallback s)) =
    [error_body "Missing signature parameter"].
Proof.
  intros Hs Hf He H1 H2 H3. destruct (callback_response s Hs) as [-> ->].
  rewrite outcome_of_unfold, Hf, He, H1, H2, H3. done.
Qed.

Lemma callback_missing_signature_witness :
  let s := callback_state
    "razorpay_payment_id=pay_xyz&razorpay_order_id=order_abc"
    None example_env in
  gin.resp_status (Go.final (PaymentGatewayCallback s)) = 400 /\
  gin.resp_body (Go.final (PaymentGatewayCallback s)) =
    [error_body "Missing signature parameter"].
Proof.
  apply (callback_missing_signature _ "pay_xyz" "order_abc");
    [apply callback_state_fresh|reflexivity|vm_compute; reflexivity..].
Defined.

(** C14. With the three fields present, a signature that is not the computed
    one is answered 400 "failed to verify". *)
Theorem callback_bad_signature s p o sg :
  gin.fresh s -> gin.failure (req_body s) = None -> parse_error s = None ->
  first_value (form s) "razorpay_payment_id" = Some p ->
  first_value (form s) "razorpay_order_id" = Some o ->
  first_value (form s) "razorpay_signature" = Some sg ->
  sg <> computedSignature o p (secret_of s) ->
  gin.resp_status (Go.final (PaymentGatewayCallback s)) = 400 /\
  gin.resp_body (Go.final (PaymentGatewayCallback s)) =
    [error_body "failed to verify"].
Proof.
  intros Hs Hf He H1 H2 H3 Hsg. destruct (callback_response s Hs) as [-> ->].
  rewrite outcome_of_unfold, Hf, He, H1, H2, H3, decide_False by done. done.
Qed.

Lemma callback_bad_signature_witness :
  let s := callback_state
    ("razorpay_payment_id=pay_xyz&razorpay_order_id=order_abc" +:+
     "&razorpay_signature=" +:+
     "ee21698235c31aef5bb049b86d1c00014db7de75dbe78cb4ed9ffa8e90855654")
    None example_env in
  gin.resp_status (Go.final (PaymentGatewayCallback s)) = 400 /\
  gin.resp_body (Go.final (PaymentGatewayCallback s)) =
    [error_body "failed to verify"].
Proof.
  apply (callback_bad_signature _ "pay_xyz" "order_abc"
    "ee21698235c31aef5bb049b86d1c00014db7de75dbe78cb4ed9ffa8e90855654");
    [apply callback_state_fresh|reflexivity|vm_compute; reflexivity..|
     vm_compute; discriminate].
Defined.

(** C15. With the three fields present and the signature the computed one,
    the answer is 200 and echoes the three fields under ["paymentData"]. *)
Theorem callback_verified s p o :
  gin.fresh s -> gin.failure (req_body s) = None -> parse_error s = None ->
  first_value (form s) "razorpay_payment_id" = Some p ->
  first_value (form s) "razorpay_order_id" = Some o ->
  first_value (form s) "razorpay_signature" =
    Some (computedSignature o p (secret_of s)) ->
  gin.resp_status (Go.final (PaymentGatewayCallback s)) = 200 /\
  gin.resp_body (Go.final (PaymentGatewayCallback s)) =
    [gin.H1 "paymentData" (Payment_json
       {| PaymentID := p; OrderID := o;
          Signature := computedSignature o p (secret_of s) |})].
Proof.
  intros Hs Hf He H1 H2 H3. destruct (callback_response s Hs) as [-> ->].
  rewrite outcome_of_unfold, Hf, He, H1, H2, H3, decide_True by done. done.
Qed.

Lemma callback_verified_witness :
  let s := callback_state
    ("razorpay_payment_id=pay_xyz&razorpay_order_id=order_abc" +:+
     "&razorpay_signature=" +:+ example_signature)
    None example_env in
  gin.resp_status (Go.final (PaymentGatewayCallback s)) = 200 /\
  gin.resp_body (Go.final (PaymentGatewayCallback s)) =
    [gin.H1 "paymentData" (Payment_json
       {| PaymentID := "pay_xyz"; OrderID := "order_abc";
          Signature := computedSignature "order_abc" "pay_xyz" (secret_of s) |})].
Proof.
  apply (callback_verified _ "pay_xyz" "order_abc");
    [apply callback_state_fresh|reflexivity|vm_compute; reflexivity..].
Defined.

(** C8. The answer is 200 only for a readable, well-formed body whose three
    fields are present, not empty, and whose signature is the computed
    one. *)
Theorem callback_ok_iff s :
  gin.fresh s ->
  gin.resp_status (Go.final (PaymentGatewayCallback s)) = 200 <->
  exists p o,
    gin.failure (req_body s) = None /\ parse_error s = None /\
    first_value (form s) "razorpay_payment_id" = Some p /\
    first_value (form s) "razorpay_order_id" = Some o /\
    first_value (form s) "razorpay_signature" =
      Some (computedSignature o p (secret_of s)).
Proof.
  intros Hs. destruct (callback_response s Hs) as [-> _].
  rewrite outcome_of_unfold. split.
  - repeat (case_match; simplify_eq/=; try done). eauto 10.
  - intros (p & o & -> & -> & -> & -> & ->). by rewrite decide_True.
Qed.

Lemma callback_ok_iff_witness :
  let s := callback_state "razorpay_payment_id=pay_xyz" None example_env in
  gin.resp_status (Go.final (PaymentGatewayCallback s)) = 200 <->
  exists p o,
    gin.failure (req_body s) = None /\ parse_error s = None /\
    first_value (form s) "razorpay_payment_id" = Some p /\
    first_value (form s) "razorpay_order_id" = Some o /\
    first_value (form s) "razorpay_signature" =
      Some (computedSignature o p (secret_of s)).
Proof. apply callback_ok_iff, callback_state_fresh. Defined.

(** ** From the sender's form to the answer *)

(** C33. End to end: the form of a payment, as a browser posts it (the three
    fields escaped and joined by ["&"]), with identifiers that are not
    empty and the signature computed under the configured secret, is
    answered 200 with the three fields echoed. *)
Theorem callback_accepts_form s p o :
  gin.fresh s -> gin.failure (req_body s) = None ->
  p <> EmptyString -> o <> EmptyString ->
  gin.content (req_body s) =
    callback_form p o (computedSignature o p (secret_of s)) ->
  gin.resp_status (Go.final (PaymentGatewayCallback s)) = 200 /\
  gin.resp_body (Go.final (PaymentGatewayCallback s)) =
    [gin.H1 "paymentData" (Payment_json
       {| PaymentID := p; OrderID := o;
          Signature := computedSignature o p (secret_of s) |})].
Proof.
  intros Hs Hf Hp Ho Hc. destruct (callback_response s Hs) as [-> ->].
  rewrite (outcome_of_form s p o _ Hf Hp Ho
             (computedSignature_nonempty _ _ _) Hc).
  by rewrite decide_True.
Qed.

Lemma callback_accepts_form_witness :
  let s := callback_state
    (callback_form "pay xyz&1" "order/abc"
       (computedSignature "order/abc" "pay xyz&1" "s3cr3t"))
    None example_env in
  gin.resp_status (Go.final (PaymentGatewayCallback s)) = 200 /\
  gin.resp_body (Go.final (PaymentGatewayCallback s)) =
    [gin.H1 "paymentData" (Payment_json
       {| PaymentID := "pay xyz&1"; OrderID := "order/abc";
          Signature := computedSignature "order/abc" "pay xyz&1" (secret_of s) |})].
Proof.
  apply (callback_accepts_form _ "pay xyz&1" "order/abc");
    [apply callback_state_fresh|reflexivity|discriminate|discriminate|
     reflexivity].
Defined.

(** The same form with any other signature that is not empty is
    answered 400 "failed to verify". *)
Theorem callback_rejects_forged_form s p o sg :
  gin.fresh s -> gin.failure (req_body s) = None ->
  p <> EmptyString -> o <> EmptyString -> sg <> EmptyString ->
  sg <> computedSignature o p (secret_of s) ->
  gin.content (req_body s) = callback_form p o sg ->
  gin.resp_status (Go.final (PaymentGatewayCallback s)) = 400 /\
  gin.resp_body (Go.final (PaymentGatewayCallback s)) =
    [error_body "failed to verify"].
Proof.
  intros Hs Hf Hp Ho Hsg Hne Hc. destruct (callback_response s Hs) as [-> ->].
  rewrite (outcome_of_form s p o sg Hf Hp Ho Hsg Hc).
  by rewrite decide_False.
Qed.

Lemma callback_rejects_forged_form_witness :
  let s := callback_state (callback_form "pay_xyz" "order_abc" "deadbeef")
             None example_env in
  gin.resp_status (Go.final (PaymentGatewayCallback s)) = 400 /\
  gin.resp_body (Go.final (PaymentGatewayCallback s)) =
    [error_body "failed to verify"].
Proof.
  apply (callback_rejects_forged_form _ "pay_xyz" "order_abc" "deadbeef");
    [apply callback_state_fresh|reflexivity|discriminate|discriminate|
     discriminate|vm_compute; discriminate|reflexivity].
Defined.

(** ** What the handler does besides answering *)

(** Whenever the body could be read, the handler prints it verbatim on
    standard output, signature and identifiers included, before any check;
    and it closes the body. *)
Theorem callback_logs_body s :
  gin.failure (req_body s) = None ->
  gin.stdout (gin.proc (Go.final (PaymentGatewayCallback s))) =
    gin.stdout (gin.proc s) ++
      [gin.Line ("Received request body: " +:+ gin.content (req_body s))] /\
  gin.closed (req_body (Go.final (PaymentGatewayCallback s))) = true.
Proof.
  intros Hf. rewrite callback_final. unfold callback_post.
  fold (secret_of s) (outcome_of s) (req_body s).
  pose proof (outcome_of_unfold s) as Ho. rewrite Hf in Ho.
  destruct (outcome_of s); try done;
    by repeat case_match.
Qed.

Lemma callback_logs_body_witness :
  let s := callback_state "razorpay_signature=secret-looking" None example_env in
  gin.stdout (gin.proc (Go.final (PaymentGatewayCallback s))) =
    gin.stdout (gin.proc s) ++
      [gin.Line ("Received request body: " +:+ gin.content (req_body s))] /\
  gin.closed (req_body (Go.final (PaymentGatewayCallback s))) = true.
Proof. apply callback_logs_body. reflexivity. Defined.

(** C40. When [RAZORPAY_KEY_SECRET] is not set, [os.Getenv] gives the empty
    string and the handler verifies against the empty key: a signature
    that anyone can compute is answered 200. *)
Theorem callback_unset_secret s p o :
  gin.fresh s -> gin.failure (req_body s) = None ->
  gin.environ (gin.proc s) !! "RAZORPAY_KEY_SECRET" = None ->
  p <> EmptyString -> o <> EmptyString ->
  gin.content (req_body s) = callback_form p o (computedSignature o p "") ->
  gin.resp_status (Go.final (PaymentGatewayCallback s)) = 200.
Proof.
  intros Hs Hf Henv Hp Ho Hc. destruct (callback_response s Hs) as [-> _].
  assert (secret_of s = "") as Hsec by (unfold secret_of; by rewrite Henv).
  rewrite (outcome_of_form s p o _ Hf Hp Ho
             (computedSignature_nonempty _ _ "") Hc).
  by rewrite Hsec, decide_True.
Qed.

Lemma callback_unset_secret_witness :
  gin.resp_status (Go.final (PaymentGatewayCallback
    (callback_state
       (callback_form "pay_xyz" "order_abc"
          (computedSignature "order_abc" "pay_xyz" ""))
       None ∅))) = 200.
Proof.
  apply (callback_unset_secret _ "pay_xyz" "order_abc");
    [apply callback_state_fresh|reflexivity|reflexivity|discriminate|
     discriminate|reflexivity].
Defined.

(** ** Repeated fields

    [parsedQuery[key][0]] is the first value of a field.  A body that
    repeats a field is answered on the first occurrence: values that
    follow cannot replace the identifiers the signature was computed on,
    and an empty first value counts as a missing field whatever
    follows. *)
Example callback_repeated_field :
  let reply body :=
    let s := Go.final (PaymentGatewayCallback
                         (callback_state body None example_env)) in
    (gin.resp_status s, gin.resp_body s) in
  reply ("razorpay_payment_id=pay_xyz&razorpay_order_id=order_abc" +:+
         "&razorpay_signature=" +:+ example_signature +:+
         "&razorpay_payment_id=pay_other&razorpay_order_id=order_other") =
    (200, [payment_body (mkPayment "pay_xyz" "order_abc" example_signature)]) /\
  reply ("razorpay_payment_id=pay_other&razorpay_payment_id=pay_xyz" +:+
         "&razorpay_order_id=order_abc" +:+
         "&razorpay_signature=" +:+ example_signature) =
    (400, [error_body "failed to verify"]) /\
  reply ("razorpay_payment_id=&razorpay_payment_id=pay_xyz" +:+
         "&razorpay_order_id=order_abc" +:+
         "&razorpay_signature=" +:+ example_signature) =
    (400, [error_body "Missing payment_id parameter"]).
Proof. by vm_compute. Qed.

(** ** Fields that follow

    What follows the three fields in the body cannot change the answer:
    the handler decides on the first value of each field. *)

(** The first value of a field stays the first when pieces follow. *)
Lemma first_value_kept ps m err k v :
  first_value m k = Some v ->
  first_value (fold_left url.parse_piece ps (m, err)).1 k = Some v.
Proof.
  unfold first_value. destruct (m !! k) as [[|v' vs]|] eqn:Hk; try done.
  intros Hv. destruct (url.url_parse_first ps m err k v' vs Hk) as [vs' ->].
  done.
Qed.

Lemma callback_outcome_extra a b secret :
  complete (callback_outcome (body_of a) secret) ->
  callback_outcome (body_of (a +:+ String "&"%char b)) secret =
  if (url.ParseQuery b).2 is Some _ then ParseFailed
  else callback_outcome (body_of a) secret.
Proof.
  unfold callback_outcome, url.ParseQuery, url.parseQuery. cbn [gin.failure body_of gin.content].
  rewrite url.url_parse_join.
  destruct (fold_left _ (url.pieces a) _) as [m [e|]] eqn:Ha; [done|].
  rewrite (url.url_parse_error _ ∅ m).
  destruct (first_value m "razorpay_payment_id") as [p|] eqn:Hp; [|done].
  destruct (first_value m "razorpay_order_id") as [o|] eqn:Ho; [|done].
  destruct (first_value m "razorpay_signature") as [sg|] eqn:Hs; [|done].
  intros _.
  pose proof (first_value_kept (url.pieces b) m None _ _ Hp) as Hp'.
  pose proof (first_value_kept (url.pieces b) m None _ _ Ho) as Ho'.
  pose proof (first_value_kept (url.pieces b) m None _ _ Hs) as Hs'.
  destruct (fold_left _ (url.pieces b) _) as [m' [e|]]; [done|].
  cbn in Hp', Ho', Hs'. by rewrite Hp', Ho', Hs'.
Qed.

(** C34. When the three fields of a body are there, so that the answer is
    200 or [failed to verify], any text added to the body after an ["&"]
    leaves the answer as it is, fields that repeat the three included,
    unless that text cannot be parsed, which is answered 500. *)
Theorem callback_extra_fields s a b :
  gin.fresh s -> req_body s = body_of (a +:+ String "&"%char b) ->
  complete (callback_outcome (body_of a) (secret_of s)) ->
  let o := if (url.ParseQuery b).2 is Some _ then ParseFailed
           else callback_outcome (body_of a) (secret_of s) in
  gin.resp_status (Go.final (PaymentGatewayCallback s)) = (answer o).1 /\
  gin.resp_body (Go.final (PaymentGatewayCallback s)) = [(answer o).2].
Proof.
  intros Hs Hb Hc o. destruct (callback_response s Hs) as [-> ->].
  unfold outcome_of. unfold req_body in Hb.
  by rewrite Hb, callback_outcome_extra.
Qed.

Lemma callback_extra_fields_witness :
  let a := callback_form "pay_xyz" "order_abc" example_signature in
  let b := "razorpay_payment_id=pay_other&razorpay_signature=00" in
  let s := callback_state (a +:+ String "&"%char b) None example_env in
  let o := if (url.ParseQuery b).2 is Some _ then ParseFailed
           else callback_outcome (body_of a) (secret_of s) in
  gin.resp_status (Go.final (PaymentGatewayCallback s)) = (answer o).1 /\
  gin.resp_body (Go.final (PaymentGatewayCallback s)) = [(answer o).2].
Proof.
  apply callback_extra_fields;
    [apply callback_state_fresh|reflexivity|by vm_compute].
Defined.

(** The answer of the example with fields added is the one without
    them. *)
Example callback_extra_fields_example :
  let a := callback_form "pay_xyz" "order_abc" example_signature in
  let b := "razorpay_payment_id=pay_other&razorpay_signature=00" in
  answer (callback_outcome (body_of (a +:+ String "&"%char b)) "s3cr3t") =
    (200, payment_body (mkPayment "pay_xyz" "order_abc" example_signature)).
Proof. by vm_compute. Qed.

(** The handler parses whatever body it is sent as a query: a body in
    JSON is one key without value, and is answered as a form without
    payment id, not as a body that cannot be parsed. *)
Example callback_json_body :
  let body := string_of_bytes
    (bytes_of_string "{" ++ [Byte.x22] ++
     bytes_of_string "razorpay_payment_id" ++ [Byte.x22] ++
     bytes_of_string ":" ++ [Byte.x22] ++ bytes_of_string "pay_xyz" ++
     [Byte.x22] ++ bytes_of_string "}") in
  (url.ParseQuery body).2 = None /\
  callback_outcome (body_of body) "s3cr3t" = Missing "payment_id".
Proof. by vm_compute. Qed.
