(* ===== verification/Order.v ===== *)
(** * Order creation: [createRazorpayOrder] (src/main.go:52-76)

    The handler builds a gateway client from the two environment
    variables, asks the gateway to create an order for a fixed amount,
    currency and receipt, and answers with the identifier and the amount
    the gateway returned together with the public key.

    The gateway is outside the program.  It is an interface, the class
    [razorpay.Gateway]: what [client.Order.Create] answers to a client and
    a payload, an error text or the order as a map.  The handler is
    modelled against the interface, and every request it sends is recorded
    in the process ([gin.outbound]), so that the theorems can say what was
    sent and how often. *)

From S2P Require Import Prelude Gin.

Module razorpay.

(** [razorpay.NewClient(key, secret)] *)
Record Client : Type := NewClient {
  key : string;
  secret : string;
}.

(** [client.Order.Create(data, extraHeaders)]: the answer of the gateway,
    [(order, err)] with exactly one of the two set. *)
Class Gateway : Type := {
  Order_Create : Client -> gmap string gin.json -> string + gmap string gin.json;
}.

(** The call, as a statement of a handler: the request is sent (recorded),
    and the answer is the gateway's. *)
Definition Create `{Gateway} (client : Client) (data : gmap string gin.json)
  : gin.M (string + gmap string gin.json) :=
  (Go.modify (gin.with_outbound (fun l =>
     l ++ [{| gin.auth_key := key client; gin.auth_secret := secret client;
              gin.payload := data |}])) ;;
   Go.ret (Order_Create client data))%go.

End razorpay.

(** The payload of the order (src/main.go:56-61). *)
Definition order_data : gmap string gin.json :=
  {[ "amount" := gin.JNumber 5000;
     "currency" := gin.JString "INR";
     "receipt" := gin.JString "receipt#1";
     "payment_capture" := gin.JNumber 1 ]}.

(** [gin.H{"error": err.Error()}] (src/main.go:65) *)
Definition failure_body (err : string) : gin.json :=
  gin.H1 "error" (gin.JString err).

(** [order[k]] for an order of type [map[string]interface{}]: [nil], which
    is serialised as [null], when the key is absent. *)
Definition order_field (order : gmap string gin.json) (k : string)
  : gin.json :=
  default gin.JNull (order !! k).

(** [responseData] (src/main.go:69-73), a map. *)
Definition responseData (order : gmap string gin.json) (key_id : string)
  : gmap string gin.json :=
  {[ "id" := order_field order "id";
     "amount" := order_field order "amount";
     "key" := gin.JString key_id ]}.

Section WithGateway.
Context {G : razorpay.Gateway}.

(** [func createRazorpayOrder(c *gin.Context)] (src/main.go:52-76) *)
Definition createRazorpayOrder : gin.M unit :=
  (key_id <- gin.Getenv "RAZORPAY_KEY_ID" ;;
   key_secret <- gin.Getenv "RAZORPAY_KEY_SECRET" ;;
   let client := razorpay.NewClient key_id key_secret in
   let data := order_data in
   res <- razorpay.Create client data ;;
   match res with
   | inl err =>
       gin.JSON gin.StatusInternalServerError (failure_body err) ;;
       Go.return_
   | inr order =>
       key_id <- gin.Getenv "RAZORPAY_KEY_ID" ;;
       gin.JSON gin.StatusOK (gin.H (responseData order key_id))
   end)%go.

End WithGateway.

(** ** The specification of the handler *)

Section Spec.
Context {G : razorpay.Gateway}.
Implicit Types (s : gin.State).

(** The credentials the handler reads from the environment. *)
Definition key_id_of s : string :=
  default "" (gin.environ (gin.proc s) !! "RAZORPAY_KEY_ID").
Definition key_secret_of s : string :=
  default "" (gin.environ (gin.proc s) !! "RAZORPAY_KEY_SECRET").

(** The one request the handler sends. *)
Definition order_request s : gin.Outbound :=
  {| gin.auth_key := key_id_of s; gin.auth_secret := key_secret_of s;
     gin.payload := order_data |}.

(** What the gateway answers to it. *)
Definition gateway_answer s : string + gmap string gin.json :=
  razorpay.Order_Create
    (razorpay.NewClient (key_id_of s) (key_secret_of s)) order_data.

(** The status and body of the answer of the handler. *)
Definition order_answer s : Z * gin.json :=
  match gateway_answer s with
  | inl err => (500, failure_body err)
  | inr order => (200, gin.H (responseData order (key_id_of s)))
  end.

(** The state the handler leaves: the request recorded, the answer
    written. *)
Definition order_post s : gin.State :=
  gin.respond (order_answer s)
    (gin.with_outbound (fun l => l ++ [order_request s]) s).

Definition order_flow s : Go.flow gin.State unit :=
  match gateway_answer s with
  | inl _ => Go.Return (order_post s)
  | inr _ => Go.Continue tt (order_post s)
  end.

(** A request for an order, in a process with the given environment. *)
Definition order_state (env : gmap string string) : gin.State :=
  {| gin.ctx := gin.new_context
       {| gin.Method := "POST"; gin.Path := "/create-order";
          gin.Body := {| gin.content := ""; gin.failure := None;
                         gin.closed := false |} |};
     gin.proc := {| gin.environ := env; gin.stdout := [];
                    gin.outbound := [] |} |}.

(** ** The handler implements its specification *)

(** The run of the handler on a state. *)
Lemma order_run s : createRazorpayOrder s = order_flow s.
Proof.
  unfold createRazorpayOrder, order_flow, order_post, order_answer,
    order_request, gateway_answer, razorpay.Create, gin.Getenv, key_id_of,
    key_secret_of.
  destruct s as [c [env out sent]].
  unfold Go.bind, Go.gets, Go.modify, Go.ret.
  cbn [gin.proc gin.environ gin.with_outbound gin.ctx razorpay.key
       razorpay.secret].
  by destruct (razorpay.Order_Create _ _).
Qed.

(** C4. Refinement: the handler is the computation of the specification.
    On every state [createRazorpayOrder] sends one request to the gateway
    and writes the answer the specification gives; it returns early
    exactly when the gateway answered with an error. *)
Theorem order_refines : createRazorpayOrder ≡ order_flow.
Proof. intros s. apply order_run. Qed.

Lemma order_final s : Go.final (createRazorpayOrder s) = order_post s.
Proof. rewrite order_run. unfold order_flow. by case_match. Qed.

Lemma order_answer_pos s : 0 < (order_answer s).1.
Proof. unfold order_answer. by case_match. Qed.

Lemma order_response s :
  gin.fresh s ->
  gin.resp_status (Go.final (createRazorpayOrder s)) = (order_answer s).1 /\
  gin.resp_body (Go.final (createRazorpayOrder s)) = [(order_answer s).2].
Proof.
  intros Hs. pose proof (gin.gin_fresh_body s Hs) as Hb. destruct Hs as [Hw _].
  rewrite order_final. unfold order_post.
  rewrite gin.gin_respond_status, gin.gin_respond_body
    by (done || apply order_answer_pos).
  split; [done|]. unfold gin.resp_body in *. cbn. by rewrite Hb.
Qed.

(** What the handler leaves alone, and what its answer depends on. *)
Lemma order_post_index s :
  gin.index (gin.ctx (order_post s)) = gin.index (gin.ctx s).
Proof. reflexivity. Qed.

Lemma order_post_environ s :
  gin.environ (gin.proc (order_post s)) = gin.environ (gin.proc s).
Proof. reflexivity. Qed.

Lemma order_post_stdout s :
  gin.stdout (gin.proc (order_post s)) = gin.stdout (gin.proc s).
Proof. reflexivity. Qed.

Lemma order_post_header s k v :
  gin.resp_header s !! k = Some v ->
  gin.resp_header (order_post s) !! k = Some v.
Proof. intros Hk. by apply (gin.gin_respond_header _ _ k v). Qed.

Lemma order_post_writer s s' :
  gin.ctx s = gin.ctx s' ->
  gin.environ (gin.proc s) = gin.environ (gin.proc s') ->
  gin.writer (gin.ctx (order_post s)) = gin.writer (gin.ctx (order_post s')).
Proof.
  intros Hc He.
  unfold order_post, order_answer, gateway_answer, key_id_of, key_secret_of.
  rewrite He. cbn. by rewrite Hc.
Qed.

(** The answer when the gateway returned an order. *)
Lemma order_response_ok s order :
  gin.fresh s -> gateway_answer s = inr order ->
  gin.resp_status (Go.final (createRazorpayOrder s)) = 200 /\
  gin.resp_body (Go.final (createRazorpayOrder s)) =
    [gin.H (responseData order (key_id_of s))].
Proof.
  intros Hs Hg. destruct (order_response s Hs) as [-> ->].
  unfold order_answer. by rewrite Hg.
Qed.

(** The object of [responseData]: the encoder writes the keys of the map
    sorted, [amount] before [id] before [key]. *)
Lemma order_body_sorted order key_id :
  gin.H (responseData order key_id) =
  gin.JObject [ ("amount", order_field order "amount");
                ("id", order_field order "id");
                ("key", gin.JString key_id) ].
Proof. reflexivity. Qed.

(** The handler never panics. *)
Lemma order_never_panics s : Go.panicked (createRazorpayOrder s) = false.
Proof. rewrite order_run. unfold order_flow. by case_match. Qed.

(** When the gateway returns an order, the answer is 200 with the
    amount and the identifier of that order and the configured key, in
    this order: the one of the keys of the map, sorted. *)
Theorem order_success s order :
  gin.fresh s -> gateway_answer s = inr order ->
  gin.resp_status (Go.final (createRazorpayOrder s)) = 200 /\
  gin.resp_body (Go.final (createRazorpayOrder s)) =
    [gin.JObject [ ("amount", order_field order "amount");
                   ("id", order_field order "id");
                   ("key", gin.JString (key_id_of s)) ]].
Proof.
  intros Hs Hg. by destruct (order_response_ok s order Hs Hg) as [-> ->].
Qed.

(** When the gateway call fails, the answer is 500 with the text of the
    error, unchanged. *)
Theorem order_failure s err :
  gin.fresh s -> gateway_answer s = inl err ->
  gin.resp_status (Go.final (createRazorpayOrder s)) = 500 /\
  gin.resp_body (Go.final (createRazorpayOrder s)) =
    [gin.H1 "error" (gin.JString err)].
Proof.
  intros Hs Hg. destruct (order_response s Hs) as [-> ->].
  unfold order_answer. by rewrite Hg.
Qed.

(** Whatever the request and whatever the gateway answers, the handler
    sends exactly one request to the gateway: the fixed payload (amount
    5000, currency INR, receipt receipt#1, capture 1) under the credentials
    of the environment.  There is no retry. *)
Theorem order_sends_once s :
  gin.outbound (gin.proc (Go.final (createRazorpayOrder s))) =
  gin.outbound (gin.proc s) ++
    [{| gin.auth_key := key_id_of s; gin.auth_secret := key_secret_of s;
        gin.payload :=
          {[ "amount" := gin.JNumber 5000; "currency" := gin.JString "INR";
             "receipt" := gin.JString "receipt#1";
             "payment_capture" := gin.JNumber 1 ]} |}].
Proof. by rewrite order_final. Qed.

(** C17. A successful answer always carries the configured public key
    verbatim under ["key"], whatever the order of the gateway contains,
    a ["key"] of its own included. *)
Theorem order_key_verbatim s order :
  gin.fresh s -> gateway_answer s = inr order ->
  exists obj,
    gin.resp_body (Go.final (createRazorpayOrder s)) = [obj] /\
    gin.field "key" obj = Some (gin.JString (key_id_of s)).
Proof.
  intros Hs Hg. destruct (order_response_ok s order Hs Hg) as [_ ->].
  eexists. split; [done|]. reflexivity.
Qed.

(** The handler does not check that the order has an identifier: when
    the gateway's order lacks ["id"], the answer is still 200, with
    ["id": null]. *)
Theorem order_missing_id s order :
  gin.fresh s -> gateway_answer s = inr order -> order !! "id" = None ->
  exists obj,
    gin.resp_status (Go.final (createRazorpayOrder s)) = 200 /\
    gin.resp_body (Go.final (createRazorpayOrder s)) = [obj] /\
    gin.field "id" obj = Some gin.JNull.
Proof.
  intros Hs Hg Hid. destruct (order_response_ok s order Hs Hg) as [-> ->].
  eexists. split_and!; [done..|].
  rewrite gin.gin_H_field. unfold responseData, order_field.
  by rewrite Hid.
Qed.

End Spec.

(** ** Example gateways *)

(** A gateway that creates the order; its answer carries a ["key"] of its
    own. *)
Definition gateway_up : razorpay.Gateway :=
  {| razorpay.Order_Create := fun _ data =>
       inr {[ "id" := gin.JString "order_abc";
              "amount" := default gin.JNull (data !! "amount");
              "key" := gin.JString "not-the-configured-key" ]} |}.

(** A gateway that cannot be reached. *)
Definition gateway_down : razorpay.Gateway :=
  {| razorpay.Order_Create := fun _ _ => inl "connection refused" |}.

(** A gateway whose answer has no identifier. *)
Definition gateway_no_id : razorpay.Gateway :=
  {| razorpay.Order_Create := fun _ _ => inr {[ "amount" := gin.JNumber 5000 ]} |}.

Definition order_env : gmap string string :=
  {[ "RAZORPAY_KEY_ID" := "rzp_test_1"; "RAZORPAY_KEY_SECRET" := "s3cr3t" ]}.

Lemma order_state_fresh env : gin.fresh (order_state env).
Proof. by split. Qed.

Definition example_order : gmap string gin.json :=
  {[ "id" := gin.JString "order_abc"; "amount" := gin.JNumber 5000;
     "key" := gin.JString "not-the-configured-key" ]}.

Lemma order_success_witness :
  let s := order_state order_env in
  gin.resp_status (Go.final (createRazorpayOrder (G := gateway_up) s)) = 200 /\
  gin.resp_body (Go.final (createRazorpayOrder (G := gateway_up) s)) =
    [gin.JObject [ ("amount", order_field example_order "amount");
                   ("id", order_field example_order "id");
                   ("key", gin.JString (key_id_of s)) ]].
Proof.
  apply (order_success (G := gateway_up) (order_state order_env)
           example_order);
    [apply order_state_fresh|reflexivity].
Defined.

Lemma order_failure_witness :
  let s := order_state order_env in
  gin.resp_status (Go.final (createRazorpayOrder (G := gateway_down) s)) = 500 /\
  gin.resp_body (Go.final (createRazorpayOrder (G := gateway_down) s)) =
    [gin.H1 "error" (gin.JString "connection refused")].
Proof.
  apply (order_failure (G := gateway_down) (order_state order_env));
    [apply order_state_fresh|reflexivity].
Defined.

Lemma order_key_verbatim_witness :
  let s := order_state order_env in
  exists obj,
    gin.resp_body (Go.final (createRazorpayOrder (G := gateway_up) s)) = [obj] /\
    gin.field "key" obj = Some (gin.JString (key_id_of s)).
Proof.
  apply (order_key_verbatim (G := gateway_up) (order_state order_env)
           example_order);
    [apply order_state_fresh|reflexivity].
Defined.

Lemma order_missing_id_witness :
  let s := order_state order_env in
  exists obj,
    gin.resp_status (Go.final (createRazorpayOrder (G := gateway_no_id) s)) = 200 /\
    gin.resp_body (Go.final (createRazorpayOrder (G := gateway_no_id) s)) = [obj] /\
    gin.field "id" obj = Some gin.JNull.
Proof.
  apply (order_missing_id (G := gateway_no_id) (order_state order_env)
           {[ "amount" := gin.JNumber 5000 ]});
    [apply order_state_fresh|reflexivity|reflexivity].
Defined.

(** The key of the example is the configured one, not the gateway's. *)
Example order_key_example :
  gin.resp_body (Go.final (createRazorpayOrder (G := gateway_up)
                   (order_state order_env))) =
  [gin.JObject [ ("amount", gin.JNumber 5000);
                 ("id", gin.JString "order_abc");
                 ("key", gin.JString "rzp_test_1") ]].
Proof. vm_compute. reflexivity. Qed.
