(* ===== verification/Server.v ===== *)
(** * The server: [corsMiddleware] and [main] (src/main.go:19-50)

    [main] loads the environment file, builds the router of
    [gin.Default()], installs the CORS middleware, registers the two
    routes and listens on port 8080.  [corsMiddleware] sets three headers
    on every response and answers an [OPTIONS] request itself.

    The router is the engine [gin] builds from these calls, in their
    order; a request is served by [gin.ServeHTTP], which runs the chain of
    its route on a fresh context.  The theorems are about whole requests:
    which handler answers, which headers every response carries, what a
    preflight request gets, which requests the engine redirects without
    running the middleware, that the chain of every route terminates and
    every request is answered, what happens when a handler panics, and
    that nothing of one request reaches the next but what the process
    accumulates (the lines printed by the handlers and by the logger, the
    requests sent), and that the order in which requests are served
    changes nothing but the order of the lines printed. *)

From S2P Require Import Prelude Gin Chain Callback Order.

(** The three headers of the middleware (src/main.go:39-41). *)
Definition cors_headers : list (string * string) :=
  [ ("Access-Control-Allow-Origin", "*");
    ("Access-Control-Allow-Methods", "GET, POST, PUT, DELETE, OPTIONS");
    ("Access-Control-Allow-Headers",
     "Content-Type, Content-Length, Accept-Encoding, X-CSRF-Token, Authorization") ].

(** [func corsMiddleware() gin.HandlerFunc] (src/main.go:37-50); [next] is
    [c.Next()]. *)
Definition corsMiddleware : gin.HandlerFunc := fun next =>
  (gin.Header_Set "Access-Control-Allow-Origin" "*" ;;
   gin.Header_Set "Access-Control-Allow-Methods"
     "GET, POST, PUT, DELETE, OPTIONS" ;;
   gin.Header_Set "Access-Control-Allow-Headers"
     "Content-Type, Content-Length, Accept-Encoding, X-CSRF-Token, Authorization" ;;
   method <- Go.gets (fun s => gin.Method (gin.request (gin.ctx s))) ;;
   Go.when (bool_decide (method = "OPTIONS"))
     (gin.AbortWithStatus 200 ;;
      Go.return_) ;;
   next)%go.

(** [godotenv.Load()]: the variables of the file [.env] are added to the
    environment, those already set keeping their value; [None] is the
    error of a file that cannot be read or parsed.  [dotenv] is the content
    of the file. *)
Definition godotenv_Load (dotenv : option (gmap string string))
    (env : gmap string string) : option (gmap string string) :=
  match dotenv with
  | None => None
  | Some vars => Some (env ∪ vars)
  end.

(** ** The states of a request

    The state in which a request starts, and the states the middleware and
    the router leave, as functions: the refinement theorem says that
    [gin.ServeHTTP] computes them. *)

(** A fresh context for the request, in the process as it is. *)
Definition start (req : gin.Request) (p : gin.Process) : gin.State :=
  {| gin.ctx := gin.new_context req; gin.proc := p |}.

(** The three headers set, in the order of the source. *)
Definition cors_set (s : gin.State) : gin.State :=
  gin.with_writer (fun w =>
    {| gin.status := gin.status w;
       gin.header :=
         foldl (fun h kv => <[kv.1 := kv.2]> h) (gin.header w) cors_headers;
       gin.body := gin.body w; gin.written := gin.written w |}) s.

(** The answer to a preflight request: the headers, status 200 written,
    the chain aborted. *)
Definition preflight (s : gin.State) : gin.State :=
  gin.with_index (fun _ => gin.abortIndex)
    (gin.with_writer gin.WriteHeaderNow
       (gin.with_writer (gin.WriteHeader 200) (cors_set s))).

(** The state in which the handler of a route starts: the headers set, the
    index at the fourth handler of the chain. *)
Definition entered (s : gin.State) : gin.State :=
  gin.with_index (fun _ => 3) (cors_set s).

(** The chain of a route registered after [router.Use(corsMiddleware())]
    on the default engine. *)
Definition chain (h : gin.M unit) : list gin.HandlerFunc :=
  [gin.Logger; gin.Recovery; corsMiddleware; gin.handler h].

(** The line of the logger for the request of a state, with the status
    the state has. *)
Definition access (s : gin.State) : gin.State :=
  gin.log_access (gin.Path (gin.request (gin.ctx s))) s.

(** The state a route leaves when its handler leaves [post]: every handler
    of the chain returned, the request is logged, the header is written. *)
Definition routed (post : gin.State -> gin.State) (s : gin.State)
  : gin.State :=
  gin.with_writer gin.WriteHeaderNow
    (gin.with_index (fun _ => 7)
       (gin.log_access (gin.Path (gin.request (gin.ctx s)))
          (post (entered s)))).

(** The answer of the engine to a request that has no route. *)
Definition not_found (s : gin.State) : gin.State :=
  gin.with_writer (fun w =>
    {| gin.status := 404;
       gin.header := <["Content-Type" := "text/plain"]> (gin.header w);
       gin.body := gin.body w ++ [gin.Text "404 page not found"];
       gin.written := true |}) s.

(** The requests the order route counts: [POST /create-order]. *)
Definition is_order (req : gin.Request) : Prop :=
  gin.Method req = "POST" /\ gin.Path req = "/create-order".

Definition is_callback (req : gin.Request) : Prop :=
  gin.Method req = "POST" /\ gin.Path req = "/payment-callback".

(** The requests the engine redirects, with the path it sends the client
    to: a [POST] to the path of a route followed by a slash. *)
Definition redirect_of (req : gin.Request) : option string :=
  if decide (gin.Method req = "POST") then
    if decide (gin.Path req = "/create-order/") then Some "/create-order"
    else if decide (gin.Path req = "/payment-callback/")
    then Some "/payment-callback" else None
  else None.

(** The answer of the engine to such a request: status 307 and the header
    [Location], written; the request of the context has the new path. *)
Definition moved (to : string) (s : gin.State) : gin.State :=
  gin.with_writer (fun w =>
    {| gin.status := 307;
       gin.header := <["Location" := to]> (gin.header w);
       gin.body := gin.body w; gin.written := true |})
    (gin.with_path (fun _ => to) s).

(** The callbacks whose body can be read, and the line the handler prints
    for them (src/main.go:92). *)
Definition logged (req : gin.Request) : Prop :=
  is_callback req /\ gin.failure (gin.Body req) = None.

Definition log_line (req : gin.Request) : gin.output :=
  gin.Line ("Received request body: " +:+ gin.content (gin.Body req)).

(** The request the order handler sends in a process with environment
    [env] (src/main.go:54-63). *)
Definition gateway_call (env : gmap string string) : gin.Outbound :=
  {| gin.auth_key := default "" (env !! "RAZORPAY_KEY_ID");
     gin.auth_secret := default "" (env !! "RAZORPAY_KEY_SECRET");
     gin.payload := order_data |}.

#[global] Instance is_order_dec req : Decision (is_order req) := _.
#[global] Instance is_callback_dec req : Decision (is_callback req) := _.
#[global] Instance logged_dec req : Decision (logged req) := _.

(** How [main] ends up: stopped by [log.Fatal], serving, or at its end
    because [router.Run] came back with an error. *)
Inductive startup : Type :=
| Fatal (msg : string)
| Serving (addr : string) (router : gin.Engine) (p : gin.Process)
| Returned.

(** The exit status of the process, when it ends: [log.Fatal] calls
    [os.Exit(1)], and a [main] that returns ends the process with
    status 0. *)
Definition exit_status (st : startup) : option Z :=
  match st with
  | Fatal _ => Some 1
  | Serving _ _ _ => None
  | Returned => Some 0
  end.

Section WithGateway.
Context {G : razorpay.Gateway}.

(** The router [main] builds (src/main.go:26-31). *)
Definition router : gin.Engine :=
  let router := gin.Default in
  let router := gin.Use router [corsMiddleware] in
  let router :=
    gin.POST router "/create-order" (gin.handler createRazorpayOrder) in
  let router :=
    gin.POST router "/payment-callback" (gin.handler PaymentGatewayCallback) in
  router.

(** The address of [router.Run(":8080")] (src/main.go:33). *)
Definition addr : string := ":8080".

(** [func main()] (src/main.go:19-34), from the content of [.env], the
    error [router.Run] returns when it cannot listen ([None] when it
    listens), and the environment of the process.  The error of
    [router.Run] is not looked at: [main] is at its end. *)
Definition main (dotenv : option (gmap string string))
    (listen : option string) (env : gmap string string) : startup :=
  match godotenv_Load dotenv env with
  | None => Fatal "Error loading .env file"
  | Some env' =>
      match listen with
      | None =>
          Serving addr router
            {| gin.environ := env'; gin.stdout := []; gin.outbound := [] |}
      | Some _ => Returned
      end
  end.

(** The server at work: from a process, serving a request gives the next
    process.  [served p reqs p'] says that the requests [reqs], in order,
    lead from [p] to [p']. *)
Inductive served : gin.Process -> list gin.Request -> gin.Process -> Prop :=
| served_nil p : served p [] p
| served_cons p req reqs p' :
    served (gin.proc (gin.ServeHTTP router req p)) reqs p' ->
    served p (req :: reqs) p'.

(** What the server does with a request, case by case. *)
Definition serve_spec (req : gin.Request) (p : gin.Process) : gin.State :=
  let s := start req p in
  if decide (is_order req) then routed order_post s
  else if decide (is_callback req) then routed callback_post s
  else match redirect_of req with
  | Some to => moved to s
  | None =>
      if decide (gin.Method req = "OPTIONS") then
        gin.with_index (fun _ => 66) (access (preflight s))
      else gin.with_index (fun _ => 6) (access (not_found (cors_set s)))
  end.

End WithGateway.

(** ** The middleware and the chain *)

#[local] Abbreviation at_ i := (gin.with_index (fun _ => i)).
#[local] Abbreviation after n rest :=
  (gin.incr_index ;; gin.run_handlers n rest)%go.

(** Bounds on [c.index], and equality of states that differ by the way
    their index is written. *)
Ltac idx :=
  unfold i8.min, i8.max, access, entered, cors_set, preflight,
    gin.abortIndex, gin.log_access in *;
  cbn [Go.final gin.with_index gin.with_stdout gin.with_writer gin.index
       gin.ctx] in *;
  lia.
Ltac idx_eq :=
  cbn [Go.final]; unfold access, gin.log_access, gin.with_stdout, gin.with_index;
  cbn [gin.ctx gin.index gin.request gin.writer gin.proc]; do 3 f_equal; lia.

(** The middleware as a function: a preflight request is answered and the
    handler left; any other request goes on with the headers set. *)
Lemma cors_run next s :
  corsMiddleware next s =
  if bool_decide (gin.Method (gin.request (gin.ctx s)) = "OPTIONS")
  then Go.Return (preflight s)
  else next (cors_set s).
Proof.
  unfold corsMiddleware, gin.Header_Set, gin.AbortWithStatus, gin.Status,
    gin.Abort.
  go_unfold.
  cbn [gin.with_writer gin.ctx gin.request gin.writer gin.header gin.status
       gin.body gin.written gin.proc gin.index gin.Method].
  by case_bool_decide.
Qed.

(** The middleware behaves as [Chain] asks of a handler: it calls
    [c.Next()] with the index it was entered with, and it leaves the index
    where [c.Next()] or [c.AbortWithStatus] left it. *)
Lemma cors_behaved n :
  n - 1 <= gin.abortIndex -> chain.Behaved n corsMiddleware.
Proof.
  intros Hn. split.
  - intros next1 next2 s Hnext. rewrite !cors_run.
    case_bool_decide; [done|]. by apply Hnext.
  - intros next s B HB Hnext. rewrite cors_run. right.
    case_bool_decide; [idx|]. by apply Hnext.
Qed.

(** The chains of the router are made of such handlers, and short enough:
    for them the loop of [c.Next()] is the unrolled chain. *)
Lemma group_behaved n :
  n - 1 <= gin.abortIndex ->
  Forall (chain.Behaved n) [gin.Logger; gin.Recovery; corsMiddleware].
Proof.
  intros Hn. repeat apply Forall_cons_2;
    [by apply chain.Logger_behaved|by apply chain.Recovery_behaved
    |by apply cors_behaved
    |apply Forall_nil_2].
Qed.

Lemma group_next s fuel :
  gin.index (gin.ctx s) = -1 -> (3 < fuel)%nat ->
  gin.Next_fuel fuel [gin.Logger; gin.Recovery; corsMiddleware] s =
  gin.unrolled [gin.Logger; gin.Recovery; corsMiddleware] s.
Proof.
  intros Hi Hf. apply chain.chain_Next_fuel; [by vm_compute| |done..].
  by apply group_behaved.
Qed.

Lemma route_next h s fuel :
  (forall s', gin.index (gin.ctx (Go.final (h s'))) = gin.index (gin.ctx s')) ->
  gin.index (gin.ctx s) = -1 -> (4 < fuel)%nat ->
  gin.Next_fuel fuel (chain h) s = gin.unrolled (chain h) s.
Proof.
  intros Hh Hi Hf. apply chain.chain_Next_fuel; [by vm_compute| |done..].
  apply Forall_app with (l1 := [_; _; _]). split; [by apply group_behaved|].
  apply Forall_singleton. by apply chain.handler_behaved.
Qed.

(** The three handlers every chain starts with, around whatever the
    middleware does with the rest of the chain. *)
Section Stack.
Context (rest : list gin.HandlerFunc) (n : Z) (s : gin.State).
Context (Hn : 3 <= n).
#[local] Abbreviation x := (corsMiddleware (after n rest) (at_ 2 s)).
Context (Hp : Go.panicked x = false).
Context (Hf : n - 1 <= gin.index (gin.ctx (Go.final x)) < 125).

Lemma stack_cors :
  gin.run_handlers n (corsMiddleware :: rest) (at_ 2 s) =
  Go.Continue tt (gin.with_index (fun i => i + 1) (Go.final x)).
Proof. by rewrite gin.gin_run_handlers_turn; [|idx|done|idx]. Qed.

Lemma stack_recovery :
  gin.run_handlers n (gin.Recovery :: corsMiddleware :: rest) (at_ 1 s) =
  Go.Continue tt (gin.with_index (fun i => i + 2) (Go.final x)).
Proof.
  assert (E : gin.Recovery (after n (corsMiddleware :: rest)) (at_ 1 s)
              = Go.Continue tt (gin.with_index (fun i => i + 1) (Go.final x))).
  { rewrite gin.gin_Recovery_quiet; rewrite gin.gin_after_run by idx;
      change (gin.with_index _ (at_ 1 s)) with (at_ 2 s);
      by rewrite stack_cors. }
  rewrite gin.gin_run_handlers_turn; rewrite ?E; [|idx|done|idx].
  idx_eq.
Qed.

Lemma stack_run :
  gin.run_handlers n (gin.Logger :: gin.Recovery :: corsMiddleware :: rest)
    (at_ 0 s) =
  Go.Continue tt (gin.with_index (fun i => i + 3)
    (gin.log_access (gin.Path (gin.request (gin.ctx s))) (Go.final x))).
Proof.
  assert (E : gin.Logger (after n (gin.Recovery :: corsMiddleware :: rest))
                (at_ 0 s)
              = Go.Continue tt
                  (gin.log_access (gin.Path (gin.request (gin.ctx s)))
                     (gin.with_index (fun i => i + 2) (Go.final x)))).
  { rewrite gin.gin_Logger_run; rewrite gin.gin_after_run by idx;
      change (gin.with_index _ (at_ 0 s)) with (at_ 1 s);
      by rewrite stack_recovery. }
  rewrite gin.gin_run_handlers_turn; rewrite ?E; [|idx|done|idx].
  idx_eq.
Qed.
End Stack.

(** The chain of a route, for a handler that does not panic and leaves
    [c.index] alone. *)
Lemma route_run h s :
  gin.index (gin.ctx s) = -1 ->
  gin.Method (gin.request (gin.ctx s)) <> "OPTIONS" ->
  Go.panicked (h (entered s)) = false ->
  gin.index (gin.ctx (Go.final (h (entered s)))) = 3 ->
  gin.unrolled (chain h) s =
  Go.Continue tt (at_ 7 (gin.log_access (gin.Path (gin.request (gin.ctx s)))
                    (Go.final (h (entered s))))).
Proof.
  intros Hi Hm Hp Hf.
  assert (E : corsMiddleware (after 4 [gin.handler h]) (at_ 2 s)
              = Go.Continue tt (at_ 4 (Go.final (h (entered s))))).
  { rewrite cors_run, bool_decide_false by done.
    change (gin.run_handlers 4 [gin.handler h] (entered s) =
            Go.Continue tt (at_ 4 (Go.final (h (entered s))))).
    rewrite gin.gin_run_handlers_turn; unfold gin.handler;
      [|idx|done|idx].
    idx_eq. }
  rewrite gin.gin_unrolled_start by (done || (unfold chain; simpl; lia)).
  unfold chain. change (Z.of_nat (length _)) with 4.
  rewrite stack_run; rewrite ?E; [|done|done|idx].
  idx_eq.
Qed.

(** A preflight request in any chain that starts with the middleware of
    the group: the handlers after the middleware do not run. *)
Lemma preflight_run rest s :
  (length rest <= 60)%nat ->
  gin.index (gin.ctx s) = -1 ->
  gin.Method (gin.request (gin.ctx s)) = "OPTIONS" ->
  gin.unrolled (gin.Logger :: gin.Recovery :: corsMiddleware :: rest) s =
  Go.Continue tt (at_ 66 (access (preflight s))).
Proof.
  intros Hl Hi Hm.
  assert (E : forall n, corsMiddleware (after n rest) (at_ 2 s)
                        = Go.Return (preflight s))
    by (intros n; by rewrite cors_run, bool_decide_true).
  rewrite gin.gin_unrolled_start by (done || (cbn [length]; lia)).
  rewrite stack_run; rewrite ?E; [done|cbn [length]; lia|done|].
  cbn [length] in *. idx.
Qed.

(** The middleware of the group alone, as for a request without route. *)
Lemma no_route_run s :
  gin.index (gin.ctx s) = -1 ->
  gin.Method (gin.request (gin.ctx s)) <> "OPTIONS" ->
  gin.unrolled [gin.Logger; gin.Recovery; corsMiddleware] s =
  Go.Continue tt (at_ 6 (access (cors_set s))).
Proof.
  intros Hi Hm.
  assert (E : corsMiddleware (after 3 []) (at_ 2 s) =
              Go.Continue tt (at_ 3 (cors_set s)))
    by (by rewrite cors_run, bool_decide_false).
  rewrite gin.gin_unrolled_start by (done || (simpl; lia)).
  change (Z.of_nat (length _)) with 3.
  rewrite stack_run; rewrite ?E; [done|done|done|idx].
Qed.

(** The state [gin.Recovery] leaves after a panic in state [s']. *)
Definition recovered (s' : gin.State) : gin.State :=
  Go.final (gin.AbortWithStatus gin.StatusInternalServerError s').

Lemma recovered_index s' : gin.index (gin.ctx (recovered s')) = 63.
Proof. reflexivity. Qed.

(** A handler that panics: the panic passes the middleware of the program,
    [gin.Recovery] answers in its place and aborts the chain, the logger
    prints its line. *)
Lemma route_panic_run h s msg s' :
  gin.index (gin.ctx s) = -1 ->
  gin.Method (gin.request (gin.ctx s)) <> "OPTIONS" ->
  h (entered s) = Go.Panic msg s' ->
  gin.unrolled (chain h) s =
  Go.Continue tt
    (at_ 65 (gin.log_access (gin.Path (gin.request (gin.ctx s))) (recovered s'))).
Proof.
  intros Hi Hm Hh. pose proof (recovered_index s') as Hr.
  assert (E0 : corsMiddleware (after 4 [gin.handler h]) (at_ 2 s)
               = Go.Panic msg s').
  { rewrite cors_run, bool_decide_false by done.
    change (gin.run_handlers 4 [gin.handler h] (entered s) = Go.Panic msg s').
    rewrite gin.gin_run_handlers_panic; unfold gin.handler; rewrite ?Hh;
      (done || idx). }
  assert (E1 : gin.run_handlers 4 [corsMiddleware; gin.handler h] (at_ 2 s)
               = Go.Panic msg s')
    by (rewrite gin.gin_run_handlers_panic; rewrite ?E0; (done || idx)).
  assert (E2 : gin.Recovery (after 4 [corsMiddleware; gin.handler h]) (at_ 1 s)
               = Go.Continue tt (recovered s')).
  { unfold gin.Recovery. rewrite gin.gin_after_run by idx.
    change (gin.with_index _ (at_ 1 s)) with (at_ 2 s). by rewrite E1. }
  assert (E3 : gin.Logger
                 (after 4 [gin.Recovery; corsMiddleware; gin.handler h])
                 (at_ 0 s)
               = Go.Continue tt
                   (gin.log_access (gin.Path (gin.request (gin.ctx s)))
                      (gin.with_index (fun i => i + 1) (recovered s')))).
  { rewrite gin.gin_Logger_run; rewrite gin.gin_after_run by idx;
      change (gin.with_index _ (at_ 0 s)) with (at_ 1 s);
      rewrite gin.gin_run_handlers_turn; rewrite ?E2; (done || idx). }
  rewrite gin.gin_unrolled_start by (done || (unfold chain; simpl; lia)).
  unfold chain. change (Z.of_nat (length _)) with 4.
  rewrite gin.gin_run_handlers_turn; rewrite ?E3; [|idx|done|idx].
  idx_eq.
Qed.

(** C31. A handler behind the middleware of the router that panics before
    it has written the header does not take the server down: the chain
    returns, the response is 500 with what the handler had set, and the
    logger prints the request with that status. *)
Theorem route_recovers h req p msg s' :
  gin.Method req <> "OPTIONS" ->
  (forall s, gin.index (gin.ctx (Go.final (h s))) = gin.index (gin.ctx s)) ->
  h (entered (start req p)) = Go.Panic msg s' ->
  gin.written (gin.writer (gin.ctx s')) = false ->
  Go.panicked (gin.Next (chain h) (start req p)) = false /\
  gin.writer (gin.ctx (Go.final (gin.Next (chain h) (start req p)))) =
    {| gin.status := 500; gin.header := gin.header (gin.writer (gin.ctx s'));
       gin.body := gin.body (gin.writer (gin.ctx s')); gin.written := true |} /\
  gin.stdout (gin.proc (Go.final (gin.Next (chain h) (start req p)))) =
    gin.stdout (gin.proc s') ++
      [gin.AccessLog 500 (gin.Method (gin.request (gin.ctx s'))) (gin.Path req)].
Proof.
  intros Hm Hh Hp Hw. unfold gin.Next.
  rewrite route_next, (route_panic_run h _ msg s')
    by (done || cbn; lia).
  split; [done|]. cbn. unfold gin.WriteHeader, gin.WriteHeaderNow.
  rewrite Hw. cbn.
  by destruct (Z.eqb_spec (gin.status (gin.writer (gin.ctx s')))
                 gin.StatusInternalServerError) as [E|_]; cbn; rewrite ?E.
Qed.

(** ** The server implements its specification *)

Section Serve.
Context {G : razorpay.Gateway}.
Implicit Types (req : gin.Request) (p : gin.Process).

(** The chains [main] registers: the default middleware, the CORS
    middleware, the handler. *)
Lemma router_chain :
  gin.Handlers router = [gin.Logger; gin.Recovery; corsMiddleware] /\
  gin.routes router =
    [gin.mkRoute "POST" "/create-order" (chain createRazorpayOrder);
     gin.mkRoute "POST" "/payment-callback" (chain PaymentGatewayCallback)].
Proof. done. Qed.

(** The recommendation of the tree for the two routes: the path of one of
    them followed by a slash, for the method [POST]. *)
Lemma router_tsr req :
  bool_decide (gin.Method req <> "CONNECT") &&
  bool_decide (gin.Path req <> "/") &&
  gin.tsr (gin.routes router) (gin.Method req) (gin.Path req) &&
  gin.RedirectTrailingSlash router =
  bool_decide (is_Some (redirect_of req)).
Proof.
  destruct router_chain as [_ ->]. unfold gin.tsr, redirect_of.
  cbn [gin.find_route gin.route_method gin.route_path gin.RedirectTrailingSlash
       router gin.POST gin.Use gin.Default gin.New].
  assert (forall r, r = "/create-order" \/ r = "/payment-callback" ->
            r = gin.toggle_slash (gin.Path req) <-> gin.Path req = r +:+ "/")
    as Hr.
  { intros r Hr. rewrite <- gin.gin_toggle_slash_route;
      [done|by destruct Hr as [->| ->]..]. }
  pose proof (Hr "/create-order" (or_introl eq_refl)) as H1.
  pose proof (Hr "/payment-callback" (or_intror eq_refl)) as H2. clear Hr.
  rewrite andb_true_r.
  destruct (decide (gin.Method req = "POST")) as [Hm|Hm]; cycle 1.
  { rewrite !decide_False, (bool_decide_false (is_Some None)), andb_false_r
      by (intros [? ?]; congruence); done. }
  rewrite Hm, bool_decide_true, andb_true_l by done.
  destruct (decide (gin.Path req = "/create-order/")) as [Hp|Hp1].
  { rewrite decide_True by (by rewrite H1). by rewrite Hp. }
  rewrite decide_False by (rewrite H1; by intros [_ ?]).
  destruct (decide (gin.Path req = "/payment-callback/")) as [Hp|Hp2].
  { rewrite decide_True by (by rewrite H2). by rewrite Hp. }
  rewrite decide_False by (rewrite H2; by intros [_ ?]).
  by rewrite (bool_decide_false (is_Some None)), andb_false_r by (by intros []).
Qed.

(** A redirected request is a [POST], and is sent to its path without
    the slash. *)
Lemma redirect_of_toggle req to :
  redirect_of req = Some to ->
  gin.Method req = "POST" /\ gin.toggle_slash (gin.Path req) = to /\
  (to = "/create-order" \/ to = "/payment-callback").
Proof.
  unfold redirect_of. repeat case_decide; intros [= <-];
    match goal with H : gin.Path req = _ |- _ => rewrite H end; auto.
Qed.

(** The redirection of a request of the router. *)
Lemma redirect_run req p to :
  redirect_of req = Some to ->
  gin.redirectTrailingSlash (start req p) =
  Go.Continue tt (moved to (start req p)).
Proof.
  intros (Hm & Ht & _)%redirect_of_toggle.
  rewrite gin.gin_redirect_run by (cbn; by rewrite Hm).
  unfold gin.redirected, moved, start. cbn. by rewrite Ht.
Qed.

(** The engine on a request: it returns normally, in the state of the
    specification. *)
Lemma handle_run req p :
  gin.handleHTTPRequest router
    {| gin.ctx := gin.new_context req; gin.proc := p |} =
  Go.Continue tt (serve_spec req p).
Proof.
  unfold gin.handleHTTPRequest, serve_spec, is_order, is_callback.
  fold (start req p). destruct router_chain as [-> ->].
  unfold gin.Next, Go.bind at 1, Go.gets at 1.
  cbn [gin.find_route gin.route_method gin.route_path start gin.ctx
       gin.new_context gin.request].
  fold (start req p).
  destruct (decide (gin.Method req = "POST" /\ _)) as [[Hm Hp]|H1].
  { rewrite decide_True by done. cbn [gin.route_handlers]. unfold Go.bind.
    rewrite route_next, route_run, order_final;
      [done|done|cbn; by rewrite Hm|apply order_never_panics
      |by rewrite order_final|intros; by rewrite order_final|done
      |cbn; lia]. }
  rewrite decide_False by (intros []; by apply H1).
  destruct (decide (gin.Method req = "POST" /\ _)) as [[Hm Hp]|H2].
  { rewrite decide_True by done. cbn [gin.route_handlers]. unfold Go.bind.
    rewrite route_next, route_run, callback_final;
      [done|done|cbn; by rewrite Hm|apply callback_never_panics
      |by rewrite callback_final, callback_post_index
      |intros; by rewrite callback_final, callback_post_index|done
      |cbn; lia]. }
  rewrite decide_False by (intros []; by apply H2).
  pose proof (router_tsr req) as Ht. destruct router_chain as [_ Hr].
  rewrite Hr in Ht. rewrite Ht. clear Ht Hr.
  destruct (redirect_of req) as [to|] eqn:Hto.
  { rewrite bool_decide_true by done. by apply redirect_run. }
  rewrite bool_decide_false by (by intros []).
  unfold gin.serveError, gin.Next, Go.bind at 1, Go.modify at 1.
  case_decide as H3; unfold Go.bind at 1.
  - by rewrite group_next, preflight_run by (done || cbn; lia).
  - by rewrite group_next, no_route_run by (done || cbn; lia).
Qed.

(** Serving a request is running the engine on it. *)
Ltac serve_run := unfold gin.ServeHTTP; rewrite !handle_run; cbn [Go.final].

(** C3. Refinement: the router [main] builds serves every request as the
    specification says: a [POST] to one of the two paths runs its handler
    after the middleware, a [POST] to one of them followed by a slash is
    redirected by the engine, an [OPTIONS] request is answered by the
    middleware, anything else is answered 404 by the engine. *)
Theorem serve_refines req p : gin.ServeHTTP router req p = serve_spec req p.
Proof. unfold gin.ServeHTTP. by rewrite handle_run. Qed.

(** The cases of the specification. *)
Lemma serve_spec_order req p :
  is_order req -> serve_spec req p = routed order_post (start req p).
Proof. intros H. unfold serve_spec. by rewrite decide_True. Qed.

Lemma serve_spec_callback req p :
  is_callback req -> serve_spec req p = routed callback_post (start req p).
Proof.
  intros [Hm Hp]. unfold serve_spec.
  rewrite decide_False, decide_True; [done..|].
  intros [_ Hp']. by rewrite Hp in Hp'.
Qed.

Lemma serve_spec_moved req p to :
  redirect_of req = Some to -> serve_spec req p = moved to (start req p).
Proof.
  intros H. unfold serve_spec. rewrite H. unfold redirect_of in H.
  rewrite !decide_False;
    [done|intros [_ E]; rewrite E in H; by repeat case_decide..].
Qed.

(** The requests that have a route, and the preflight requests, are not
    redirected. *)
Lemma redirect_of_routed req :
  is_order req \/ is_callback req \/ gin.Method req = "OPTIONS" ->
  redirect_of req = None.
Proof.
  unfold redirect_of. intros [[Hm Hp]|[[Hm Hp]|Hm]];
    repeat case_decide; congruence.
Qed.

Lemma serve_spec_cases req p :
  redirect_of req = None /\
    (serve_spec req p = routed order_post (start req p) \/
     serve_spec req p = routed callback_post (start req p) \/
     serve_spec req p = at_ 66 (access (preflight (start req p))) /\
       gin.Method req = "OPTIONS" \/
     serve_spec req p = at_ 6 (access (not_found (cors_set (start req p)))) /\
       ~ is_order req /\ ~ is_callback req /\ gin.Method req <> "OPTIONS") \/
  exists to, redirect_of req = Some to /\
    serve_spec req p = moved to (start req p).
Proof.
  destruct (redirect_of req) as [to|] eqn:Hr.
  { right. exists to. split; [done|by apply serve_spec_moved]. }
  left. split; [done|]. unfold serve_spec. rewrite Hr.
  repeat case_decide; auto 10.
Qed.

(** The headers of the middleware are on the response once set. *)
Lemma cors_set_header s k v :
  (k, v) ∈ cors_headers -> gin.resp_header (cors_set s) !! k = Some v.
Proof.
  unfold cors_headers. rewrite !elem_of_cons, elem_of_nil.
  intros [?|[?|[?|[]]]]; simplify_eq; unfold gin.resp_header; cbn;
    by simplify_map_eq.
Qed.

Lemma cors_key_not_content_type k v :
  (k, v) ∈ cors_headers -> k <> "Content-Type".
Proof.
  unfold cors_headers. rewrite !elem_of_cons, elem_of_nil.
  by intros [?|[?|[?|[]]]]; simplify_eq.
Qed.

(** What a route leaves is what its handler leaves, the header written. *)
Lemma routed_status post s :
  gin.resp_status (routed post s) = gin.resp_status (post (entered s)).
Proof. reflexivity. Qed.

Lemma routed_body post s :
  gin.resp_body (routed post s) = gin.resp_body (post (entered s)).
Proof. reflexivity. Qed.

Lemma routed_header post s :
  gin.resp_header (routed post s) = gin.resp_header (post (entered s)).
Proof. reflexivity. Qed.

Lemma routed_environ post s :
  gin.environ (gin.proc (routed post s)) =
  gin.environ (gin.proc (post (entered s))).
Proof. reflexivity. Qed.

Lemma routed_outbound post s :
  gin.outbound (gin.proc (routed post s)) =
  gin.outbound (gin.proc (post (entered s))).
Proof. reflexivity. Qed.

Lemma routed_stdout post s :
  gin.stdout (gin.proc (routed post s)) =
  gin.stdout (gin.proc (post (entered s))) ++
    [gin.AccessLog (gin.resp_status (post (entered s)))
       (gin.Method (gin.request (gin.ctx (post (entered s)))))
       (gin.Path (gin.request (gin.ctx s)))].
Proof. reflexivity. Qed.

(** ** Every response *)

(** C24. Every response of the middleware carries the three CORS headers
    with their values: the answer of a handler, the answer to a preflight
    request, and the 404 of the engine alike.  The one response without
    them is the redirection of the engine, which runs no middleware. *)
Theorem serve_cors_headers req p k v :
  (k, v) ∈ cors_headers ->
  gin.resp_header (gin.ServeHTTP router req p) !! k =
    if redirect_of req is Some _ then None else Some v.
Proof.
  intros Hk. serve_run.
  pose proof (cors_set_header (start req p) k v Hk) as Hs.
  pose proof (cors_key_not_content_type k v Hk) as Hc.
  destruct (serve_spec_cases req p)
    as [[-> [->|[->|[[-> _]|[-> _]]]]]|(to & -> & ->)].
  - rewrite routed_header. by apply order_post_header.
  - rewrite routed_header. by apply callback_post_header.
  - exact Hs.
  - unfold gin.resp_header in *. cbn in *. by rewrite lookup_insert_ne.
  - unfold gin.resp_header. cbn. rewrite lookup_insert_ne; [done|].
    intros <-. revert Hk. unfold cors_headers. set_solver.
Qed.

(** The environment of the process is the same after any request. *)
Lemma serve_environ req p :
  gin.environ (gin.proc (gin.ServeHTTP router req p)) = gin.environ p.
Proof.
  serve_run.
  destruct (serve_spec_cases req p)
    as [[_ [->|[->|[[-> _]|[-> _]]]]]|(to & _ & ->)];
    rewrite ?routed_environ, ?order_post_environ, ?callback_post_environ; done.
Qed.

(** The response of the specification depends on the process through
    its environment only. *)
Lemma serve_spec_writer req p p' :
  gin.environ p = gin.environ p' ->
  gin.writer (gin.ctx (serve_spec req p)) =
  gin.writer (gin.ctx (serve_spec req p')).
Proof.
  intros He. unfold serve_spec.
  repeat case_decide; [| |by case_match..]; unfold routed, gin.log_access;
    cbn [gin.with_writer gin.with_index gin.with_stdout gin.ctx gin.writer];
    f_equal.
  - by apply order_post_writer.
  - by apply callback_post_writer.
Qed.

(** No request sees what an earlier one left: the response to a
    request is the same in two processes with the same environment,
    whatever was printed and sent before. *)
Theorem serve_stateless req p p' :
  gin.environ p = gin.environ p' ->
  gin.writer (gin.ctx (gin.ServeHTTP router req p)) =
  gin.writer (gin.ctx (gin.ServeHTTP router req p')).
Proof. intros He. serve_run. by apply serve_spec_writer. Qed.

(** ** Each kind of request *)

(** C25. A preflight request ([OPTIONS], any path) is answered 200 with an
    empty body by the middleware; no handler runs: nothing is sent to the
    gateway, and nothing reaches standard output but the line of the
    logger. *)
Theorem serve_preflight req p :
  gin.Method req = "OPTIONS" ->
  gin.resp_status (gin.ServeHTTP router req p) = 200 /\
  gin.body (gin.writer (gin.ctx (gin.ServeHTTP router req p))) = [] /\
  gin.proc (gin.ServeHTTP router req p) =
    {| gin.environ := gin.environ p;
       gin.stdout := gin.stdout p ++
         [gin.AccessLog 200 "OPTIONS" (gin.Path req)];
       gin.outbound := gin.outbound p |}.
Proof.
  intros Hm. serve_run. unfold serve_spec.
  rewrite redirect_of_routed by auto.
  rewrite !decide_False, decide_True
    by (done || (intros [H _]; by rewrite Hm in H)).
  split_and!; [done..|]. cbn. by rewrite Hm.
Qed.

(** C35. A request that is neither a [POST] to one of the two paths, with
    or without a slash at its end, nor a preflight request is answered
    404 with the text of the engine; no handler runs, and the logger
    records the 404. *)
Theorem serve_not_found req p :
  ~ is_order req -> ~ is_callback req -> redirect_of req = None ->
  gin.Method req <> "OPTIONS" ->
  gin.resp_status (gin.ServeHTTP router req p) = 404 /\
  gin.resp_text (gin.ServeHTTP router req p) = ["404 page not found"] /\
  gin.resp_body (gin.ServeHTTP router req p) = [] /\
  gin.proc (gin.ServeHTTP router req p) =
    {| gin.environ := gin.environ p;
       gin.stdout := gin.stdout p ++
         [gin.AccessLog 404 (gin.Method req) (gin.Path req)];
       gin.outbound := gin.outbound p |}.
Proof.
  intros H1 H2 Hr H3. serve_run. unfold serve_spec.
  by rewrite Hr, !decide_False.
Qed.

(** C26. A [POST] to the path of a route followed by a slash is answered
    by the engine before any middleware runs: status 307, the header
    [Location] with the path of the route and no other header, the CORS
    headers included, an empty body; nothing is printed, the logger
    included, and nothing is sent to the gateway. *)
Theorem serve_redirect req p to :
  redirect_of req = Some to ->
  gin.resp_status (gin.ServeHTTP router req p) = 307 /\
  gin.resp_header (gin.ServeHTTP router req p) = {[ "Location" := to ]} /\
  gin.body (gin.writer (gin.ctx (gin.ServeHTTP router req p))) = [] /\
  gin.proc (gin.ServeHTTP router req p) = p.
Proof. intros Hr. serve_run. by rewrite (serve_spec_moved _ _ to). Qed.


(** A [POST] to [/payment-callback] is answered by the callback
    handler: the status and the body are the answer to the decision on the
    body of the request under the secret of the environment. *)
Theorem serve_callback req p :
  is_callback req ->
  let o := callback_outcome (gin.Body req)
             (default "" (gin.environ p !! "RAZORPAY_KEY_SECRET")) in
  gin.resp_status (gin.ServeHTTP router req p) = (answer o).1 /\
  gin.resp_body (gin.ServeHTTP router req p) = [(answer o).2].
Proof.
  intros Hr. serve_run. rewrite serve_spec_callback by done.
  rewrite routed_status, routed_body, callback_post_status, callback_post_body
    by done.
  done.
Qed.

(** A [POST] to [/create-order] is answered by the order handler, which
    sends its one request to the gateway. *)
Theorem serve_order req p :
  is_order req ->
  gin.resp_status (gin.ServeHTTP router req p) = (order_answer (start req p)).1 /\
  gin.resp_body (gin.ServeHTTP router req p) = [(order_answer (start req p)).2] /\
  gin.outbound (gin.proc (gin.ServeHTTP router req p)) =
    gin.outbound p ++ [order_request (start req p)].
Proof.
  intros Hr. serve_run. rewrite serve_spec_order by done.
  rewrite routed_status, routed_body, routed_outbound. unfold order_post.
  rewrite gin.gin_respond_status, gin.gin_respond_body
    by (done || apply order_answer_pos).
  done.
Qed.

(** ** Termination, and an answer to every request *)

Lemma router_chains :
  gin.chains router =
  [[gin.Logger; gin.Recovery; corsMiddleware];
   chain createRazorpayOrder; chain PaymentGatewayCallback].
Proof. done. Qed.

(** No chain of the router panics: every handler returns, or the
    middleware answers in its place. *)
Lemma group_quiet s :
  gin.index (gin.ctx s) = -1 ->
  Go.panicked (gin.unrolled [gin.Logger; gin.Recovery; corsMiddleware] s) =
  false.
Proof.
  intros Hi.
  destruct (decide (gin.Method (gin.request (gin.ctx s)) = "OPTIONS")).
  - by rewrite preflight_run by (done || cbn; lia).
  - by rewrite no_route_run.
Qed.

Lemma route_quiet h s :
  (forall s', Go.panicked (h s') = false) ->
  (forall s', gin.index (gin.ctx (Go.final (h s'))) = gin.index (gin.ctx s')) ->
  gin.index (gin.ctx s) = -1 ->
  Go.panicked (gin.unrolled (chain h) s) = false.
Proof.
  intros Hp Hh Hi.
  destruct (decide (gin.Method (gin.request (gin.ctx s)) = "OPTIONS")).
  - unfold chain. by rewrite preflight_run by (done || cbn; lia).
  - by rewrite route_run by (done || by rewrite Hh).
Qed.

(** What [Chain] asks of the two handlers of the program. *)
Lemma order_keeps_index s :
  gin.index (gin.ctx (Go.final (createRazorpayOrder s))) = gin.index (gin.ctx s).
Proof. by rewrite order_final. Qed.

Lemma callback_keeps_index s :
  gin.index (gin.ctx (Go.final (PaymentGatewayCallback s))) =
  gin.index (gin.ctx s).
Proof. by rewrite callback_final, callback_post_index. Qed.

(** C27. Termination: on every chain the router registers (the chain of
    each route and the chain of the requests without route), and for every
    request, the loop of [c.Next()] comes to its end: with any fuel above
    the length of the chain it gives the result it gives with the fuel of
    the engine, and that result is not a panic, the one of an exhausted
    loop included. *)
Theorem serve_terminates req p fuel hs :
  hs ∈ gin.chains router -> (length hs < fuel)%nat ->
  gin.Next_fuel fuel hs (start req p) = gin.Next hs (start req p) /\
  Go.panicked (gin.Next hs (start req p)) = false.
Proof.
  rewrite router_chains. unfold gin.Next. intros Hin Hf.
  repeat (apply elem_of_cons in Hin as [->|Hin]);
    [| | |by apply elem_of_nil in Hin].
  - rewrite !group_next by (done || cbn in *; lia).
    split; [done|by apply group_quiet].
  - rewrite !(route_next _ _ _ order_keeps_index) by (done || cbn in *; lia).
    split; [done|].
    by apply route_quiet; [apply order_never_panics|apply order_keeps_index|].
  - rewrite !(route_next _ _ _ callback_keeps_index)
      by (done || cbn in *; lia).
    split; [done|].
    by apply route_quiet;
      [apply callback_never_panics|apply callback_keeps_index|].
Qed.

(** C28. Every request is answered: the engine returns without a panic,
    the header of the response is written, and the status is one of 200,
    307, 400, 404 and 500. *)
Theorem serve_answers req p :
  Go.panicked (gin.handleHTTPRequest router (start req p)) = false /\
  gin.written (gin.writer (gin.ctx (gin.ServeHTTP router req p))) = true /\
  gin.resp_status (gin.ServeHTTP router req p) ∈ [200; 307; 400; 404; 500].
Proof.
  unfold start. serve_run. split; [done|]. unfold serve_spec.
  repeat case_decide; [| |case_match..]; (split; [done|]).
  - rewrite routed_status. unfold order_post.
    rewrite gin.gin_respond_status by (done || apply order_answer_pos).
    unfold order_answer. case_match; set_solver.
  - rewrite routed_status, callback_post_status by done.
    destruct (outcome_of _); cbn; set_solver.
  - cbn. set_solver.
  - cbn. set_solver.
  - cbn. set_solver.
  - cbn. set_solver.
Qed.

(** ** Sequences of requests *)

(** What one request adds to the process. *)
Lemma serve_outbound req p :
  gin.outbound (gin.proc (gin.ServeHTTP router req p)) =
  gin.outbound p ++
    if decide (is_order req) then [gateway_call (gin.environ p)] else [].
Proof.
  serve_run. unfold serve_spec.
  repeat case_decide; try case_match; try case_decide;
    rewrite ?routed_outbound, ?callback_post_outbound;
    by rewrite ?app_nil_r.
Qed.

(** What the server writes on standard output for a request: the body of
    a callback that could be read, then the line of the logger with the
    status of the answer; nothing for a request the engine redirects. *)
Definition serve_output (env : gmap string string) (req : gin.Request)
  : list gin.output :=
  if redirect_of req is Some _ then []
  else
    (if decide (logged req) then [log_line req] else []) ++
    [gin.AccessLog
       (gin.resp_status (serve_spec req
          {| gin.environ := env; gin.stdout := []; gin.outbound := [] |}))
       (gin.Method req) (gin.Path req)].

Lemma serve_spec_status req p :
  gin.resp_status (serve_spec req p) =
  gin.resp_status (serve_spec req
    {| gin.environ := gin.environ p; gin.stdout := []; gin.outbound := [] |}).
Proof.
  unfold gin.resp_status.
  by rewrite (serve_spec_writer req p
    {| gin.environ := gin.environ p; gin.stdout := []; gin.outbound := [] |}).
Qed.

Lemma callback_post_method s :
  gin.Method (gin.request (gin.ctx (callback_post s))) =
  gin.Method (gin.request (gin.ctx s)).
Proof. unfold callback_post. by case_match. Qed.

Lemma serve_stdout req p :
  gin.stdout (gin.proc (gin.ServeHTTP router req p)) =
  gin.stdout p ++ serve_output (gin.environ p) req.
Proof.
  serve_run. unfold serve_output. rewrite <- serve_spec_status.
  destruct (redirect_of req) as [to|] eqn:Hr.
  { rewrite (serve_spec_moved _ _ to) by done. cbn. by rewrite app_nil_r. }
  unfold serve_spec. rewrite Hr.
  destruct (decide (is_order req)) as [[_ Ho]|_].
  { rewrite routed_stdout, routed_status, order_post_stdout, decide_False;
      [done|].
    intros [[_ Hc] _]. by rewrite Ho in Hc. }
  destruct (decide (is_callback req)) as [Hc|Hc].
  { rewrite routed_stdout, routed_status, callback_post_stdout,
      callback_post_method, <- app_assoc.
    unfold req_body. f_equal.
    case_decide as Hl; [destruct Hl as [_ Hf]; cbn; by rewrite Hf|].
    cbn. destruct (gin.failure (gin.Body req)) eqn:Hf; [done|].
    destruct Hl. by split. }
  rewrite (decide_False (P := logged req)) by (by intros [? _]).
  by case_decide.
Qed.

(** Any sequence of requests is served, and the process it leaves is
    determined. *)
Lemma served_total p reqs : exists p', served p reqs p'.
Proof.
  revert p. induction reqs as [|req reqs IH]; intros p.
  - eexists. constructor.
  - destruct (IH (gin.proc (gin.ServeHTTP router req p))) as [p' Hp'].
    exists p'. by constructor.
Qed.

Lemma served_functional p reqs p1 p2 :
  served p reqs p1 -> served p reqs p2 -> p1 = p2.
Proof.
  intros H1. revert p2.
  induction H1 as [|p req reqs p' _ IH]; inversion 1; subst; auto.
Qed.

(** Invariant: the environment the process started with is the
    environment of every request, however many were served. *)
Theorem served_environ p reqs p' :
  served p reqs p' -> gin.environ p' = gin.environ p.
Proof.
  induction 1 as [|p req reqs p' _ IH]; [done|].
  by rewrite IH, serve_environ.
Qed.

(** The gateway is called once for each [POST /create-order], each
    time with the same payload and the credentials of the environment, and
    by nothing else: there is no retry and no call from the callback. *)
Theorem served_gateway_calls p reqs p' :
  served p reqs p' ->
  gin.outbound p' =
  gin.outbound p ++
    replicate (length (filter is_order reqs)) (gateway_call (gin.environ p)).
Proof.
  induction 1 as [|p req reqs p' _ IH]; [by rewrite app_nil_r|].
  rewrite IH, serve_outbound, serve_environ, filter_cons, <- app_assoc.
  by case_decide.
Qed.

(** C36. Standard output holds, for each request in turn that the engine
    does not redirect, the body of a callback that could be read,
    verbatim, then the line of the logger with the status of the answer,
    and nothing else. *)
Theorem served_log p reqs p' :
  served p reqs p' ->
  gin.stdout p' = gin.stdout p ++ (reqs ≫= serve_output (gin.environ p)).
Proof.
  induction 1 as [|p req reqs p' _ IH]; [by rewrite app_nil_r|].
  by rewrite IH, serve_stdout, serve_environ, bind_cons, <- app_assoc.
Qed.

(** The process a sequence of requests leaves, in closed form. *)
Lemma served_process p reqs p' :
  served p reqs p' ->
  p' = {| gin.environ := gin.environ p;
          gin.stdout := gin.stdout p ++ (reqs ≫= serve_output (gin.environ p));
          gin.outbound := gin.outbound p ++
            replicate (length (filter is_order reqs))
              (gateway_call (gin.environ p)) |}.
Proof.
  induction 1 as [p|p req reqs p' _ IH];
    [destruct p; cbn; by rewrite !app_nil_r|].
  rewrite IH, serve_environ, serve_stdout, serve_outbound, filter_cons,
    bind_cons, <- !app_assoc.
  by case_decide.
Qed.

(** The order in which requests are served does not matter: two
    orders of the same requests leave the same environment, the same
    requests sent to the gateway, and the same lines on standard output
    up to their order. *)
Theorem served_any_order p reqs reqs' p1 p2 :
  reqs ≡ₚ reqs' -> served p reqs p1 -> served p reqs' p2 ->
  gin.environ p1 = gin.environ p2 /\
  gin.outbound p1 = gin.outbound p2 /\
  gin.stdout p1 ≡ₚ gin.stdout p2.
Proof.
  intros Hp H1%served_process H2%served_process. subst p1 p2. cbn.
  by rewrite Hp.
Qed.

(** ** Startup *)

(** C37. [main] stops with [log.Fatal] and status 1 when the environment
    file cannot be loaded.  Otherwise, when the server cannot listen,
    [main] drops the error and ends with status 0; when it listens, it
    serves the router on port 8080 in a process whose environment is the
    one it started with, completed by the variables of the file: a
    variable that was already set keeps its value. *)
Theorem main_startup dotenv listen env :
  match dotenv, listen with
  | None, _ =>
      main dotenv listen env = Fatal "Error loading .env file" /\
      exit_status (main dotenv listen env) = Some 1
  | Some _, Some _ =>
      main dotenv listen env = Returned /\
      exit_status (main dotenv listen env) = Some 0
  | Some vars, None =>
      exists p, main dotenv listen env = Serving ":8080" router p /\
        gin.stdout p = [] /\ gin.outbound p = [] /\
        forall k, gin.environ p !! k =
                  match env !! k with Some v => Some v | None => vars !! k end
  end.
Proof.
  destruct dotenv as [vars|], listen as [err|]; try done.
  eexists. split; [reflexivity|]. do 2 (split; [done|]).
  intros k. cbn. rewrite lookup_union. by destruct (env !! k), (vars !! k).
Qed.

End Serve.

(** ** Examples

    The server of the example: the gateway that creates the order, the
    environment of the specification's example, nothing printed or sent
    yet. *)

Definition example_proc : gin.Process :=
  {| gin.environ := example_env; gin.stdout := []; gin.outbound := [] |}.

Definition request (method path body : string) : gin.Request :=
  {| gin.Method := method; gin.Path := path;
     gin.Body := {| gin.content := body; gin.failure := None;
                    gin.closed := false |} |}.

Definition example_callback : gin.Request :=
  request "POST" "/payment-callback"
    ("razorpay_payment_id=pay_xyz&razorpay_order_id=order_abc" +:+
     "&razorpay_signature=" +:+ example_signature).

Definition example_create : gin.Request := request "POST" "/create-order" "".

#[local] Abbreviation serve := (gin.ServeHTTP (router (G := gateway_up))).

(** The example of the specification, through the whole server: the valid
    triple is answered 200 with the fields echoed, and the same triple
    with the last character of the signature changed is answered 400. *)
Example serve_example_valid :
  gin.resp_status (serve example_callback example_proc) = 200 /\
  gin.resp_body (serve example_callback example_proc) =
    [gin.H1 "paymentData" (gin.JObject
       [("razorpay_payment_id", gin.JString "pay_xyz");
        ("razorpay_order_id", gin.JString "order_abc");
        ("razorpay_signature", gin.JString example_signature)])].
Proof. vm_compute. done. Qed.

Example serve_example_tampered :
  let req := request "POST" "/payment-callback"
    ("razorpay_payment_id=pay_xyz&razorpay_order_id=order_abc" +:+
     "&razorpay_signature=" +:+
     "ee21698235c31aef5bb049b86d1c00014db7de75dbe78cb4ed9ffa8e90855654") in
  gin.resp_status (serve req example_proc) = 400 /\
  gin.resp_body (serve req example_proc) = [error_body "failed to verify"].
Proof. vm_compute. done. Qed.

Lemma serve_cors_headers_witness :
  gin.resp_header (serve (request "DELETE" "/nowhere" "") example_proc)
    !! "Access-Control-Allow-Origin" = Some "*" /\
  gin.resp_header (serve (request "POST" "/create-order/" "") example_proc)
    !! "Access-Control-Allow-Origin" = None.
Proof.
  split.
  - exact (serve_cors_headers (G := gateway_up)
             (request "DELETE" "/nowhere" "") example_proc _ _
             (list_elem_of_here _ _)).
  - exact (serve_cors_headers (G := gateway_up)
             (request "POST" "/create-order/" "") example_proc _ _
             (list_elem_of_here _ _)).
Defined.

Lemma serve_stateless_witness :
  gin.writer (gin.ctx (serve example_callback example_proc)) =
  gin.writer (gin.ctx (serve example_callback
    {| gin.environ := example_env; gin.stdout := [gin.Line "an earlier line"];
       gin.outbound := [gateway_call example_env] |})).
Proof. apply (serve_stateless (G := gateway_up)). reflexivity. Defined.

Lemma serve_preflight_witness :
  let req := request "OPTIONS" "/payment-callback" "razorpay_payment_id=x" in
  gin.resp_status (serve req example_proc) = 200 /\
  gin.body (gin.writer (gin.ctx (serve req example_proc))) = [] /\
  gin.proc (serve req example_proc) =
    {| gin.environ := gin.environ example_proc;
       gin.stdout := gin.stdout example_proc ++
         [gin.AccessLog 200 "OPTIONS" (gin.Path req)];
       gin.outbound := gin.outbound example_proc |}.
Proof. apply (serve_preflight (G := gateway_up)). reflexivity. Defined.

Lemma serve_not_found_witness :
  let req := request "GET" "/create-order" "" in
  gin.resp_status (serve req example_proc) = 404 /\
  gin.resp_text (serve req example_proc) = ["404 page not found"] /\
  gin.resp_body (serve req example_proc) = [] /\
  gin.proc (serve req example_proc) =
    {| gin.environ := gin.environ example_proc;
       gin.stdout := gin.stdout example_proc ++
         [gin.AccessLog 404 (gin.Method req) (gin.Path req)];
       gin.outbound := gin.outbound example_proc |}.
Proof.
  apply (serve_not_found (G := gateway_up));
    [intros [H _]; discriminate H|intros [H _]; discriminate H|reflexivity
    |discriminate].
Defined.

Lemma serve_redirect_witness :
  let req := request "POST" "/create-order/" "" in
  gin.resp_status (serve req example_proc) = 307 /\
  gin.resp_header (serve req example_proc) =
    {[ "Location" := "/create-order" ]} /\
  gin.body (gin.writer (gin.ctx (serve req example_proc))) = [] /\
  gin.proc (serve req example_proc) = example_proc.
Proof. apply (serve_redirect (G := gateway_up)). reflexivity. Defined.

Lemma route_recovers_witness :
  let s := start example_create example_proc in
  Go.panicked (gin.Next (chain (Go.panic "nil map")) s) = false /\
  gin.writer (gin.ctx (Go.final (gin.Next (chain (Go.panic "nil map")) s))) =
    {| gin.status := 500;
       gin.header := gin.header (gin.writer (gin.ctx (entered s)));
       gin.body := gin.body (gin.writer (gin.ctx (entered s)));
       gin.written := true |} /\
  gin.stdout (gin.proc (Go.final (gin.Next (chain (Go.panic "nil map")) s))) =
    gin.stdout (gin.proc (entered s)) ++
      [gin.AccessLog 500 (gin.Method (gin.request (gin.ctx (entered s))))
         (gin.Path example_create)].
Proof.
  apply (route_recovers (Go.panic "nil map") example_create example_proc
           "nil map"); [discriminate|reflexivity..].
Defined.

Lemma serve_terminates_witness :
  gin.Next_fuel 9 (chain PaymentGatewayCallback)
    (start example_callback example_proc) =
  gin.Next (chain PaymentGatewayCallback)
    (start example_callback example_proc) /\
  Go.panicked (gin.Next (chain PaymentGatewayCallback)
    (start example_callback example_proc)) = false.
Proof.
  apply (serve_terminates (G := gateway_up)); [|cbn; lia].
  unfold gin.chains. cbn. do 2 constructor 2. constructor 1.
Defined.

Lemma serve_callback_witness :
  let o := callback_outcome (gin.Body example_callback)
             (default "" (gin.environ example_proc !! "RAZORPAY_KEY_SECRET")) in
  gin.resp_status (serve example_callback example_proc) = (answer o).1 /\
  gin.resp_body (serve example_callback example_proc) = [(answer o).2].
Proof. apply (serve_callback (G := gateway_up)). by split. Defined.

Lemma serve_order_witness :
  gin.resp_status (serve example_create example_proc) =
    (order_answer (G := gateway_up) (start example_create example_proc)).1 /\
  gin.resp_body (serve example_create example_proc) =
    [(order_answer (G := gateway_up) (start example_create example_proc)).2] /\
  gin.outbound (gin.proc (serve example_create example_proc)) =
    gin.outbound example_proc ++
      [order_request (start example_create example_proc)].
Proof. apply (serve_order (G := gateway_up)). by split. Defined.

(** Three requests in a row: an order, a callback, an order. *)
Definition example_session : list gin.Request :=
  [example_create; example_callback; example_create].

Definition example_end : gin.Process :=
  gin.proc (serve example_create
    (gin.proc (serve example_callback
       (gin.proc (serve example_create example_proc))))).

Lemma example_served :
  served (G := gateway_up) example_proc example_session example_end.
Proof.
  unfold example_end, example_session. do 3 apply served_cons.
  apply served_nil.
Qed.

Lemma served_environ_witness :
  gin.environ example_end = gin.environ example_proc.
Proof.
  apply (served_environ (G := gateway_up) _ example_session), example_served.
Defined.

Lemma served_gateway_calls_witness :
  gin.outbound example_end =
  gin.outbound example_proc ++
    replicate (length (filter is_order example_session))
      (gateway_call (gin.environ example_proc)).
Proof.
  apply (served_gateway_calls (G := gateway_up) _ example_session),
    example_served.
Defined.

Lemma served_log_witness :
  gin.stdout example_end =
  gin.stdout example_proc ++
    (example_session ≫=
       serve_output (G := gateway_up) (gin.environ example_proc)).
Proof.
  apply (served_log (G := gateway_up) _ example_session), example_served.
Defined.

Lemma served_any_order_witness :
  let p2 :=
    gin.proc (serve example_create
      (gin.proc (serve example_create
         (gin.proc (serve example_callback example_proc))))) in
  gin.environ example_end = gin.environ p2 /\
  gin.outbound example_end = gin.outbound p2 /\
  gin.stdout example_end ≡ₚ gin.stdout p2.
Proof.
  apply (served_any_order (G := gateway_up) example_proc example_session
           [example_callback; example_create; example_create]);
    [apply perm_swap|apply example_served|].
  do 3 apply served_cons. apply served_nil.
Defined.

(** The session of the example called the gateway twice; standard output
    holds the three lines of the logger and the body of the callback. *)
Example example_session_output :
  length (gin.outbound example_end) = 2%nat /\
  gin.stdout example_end =
    [gin.AccessLog 200 "POST" "/create-order";
     log_line example_callback;
     gin.AccessLog 200 "POST" "/payment-callback";
     gin.AccessLog 200 "POST" "/create-order"].
Proof. vm_compute. done. Qed.
