(* ===== verification/Concurrent.v ===== *)
(** * net/http: a goroutine for each request

    [router.Run(":8080")] (src/main.go:33) hands the engine to
    [http.ListenAndServe], whose server accepts connections and serves
    each in a goroutine of its own.  The handlers of several requests run
    at the same time on one process: they read its environment, print on
    its standard output and send requests to the gateway.

    This file models that server for any handler ([http.Handler]).  A
    goroutine is the request it serves and how far it has come in the
    lines and the requests its handler writes; a step of the server
    accepts a request or lets one goroutine write once ([http.step]); a
    schedule is a list of such steps ([http.run]).  The model is sound for
    a handler that is reentrant ([http.Reentrant]): it leaves the
    environment as it is, it only adds to what was printed and sent, and
    what it adds and answers depends on the request and the environment
    only.  The engine of the program is such a handler
    ([router_reentrant]).

    The theorems hold for every schedule:
    - the invariant [http.inv]: standard output and the requests sent are
      merges of what the goroutines have written so far
      ([http_run_inv]), so that once the goroutines have returned they
      are merges of what the handler writes for each request
      ([http_run_merged]) and a permutation of what serving the requests
      one after the other leaves ([http_run_serve_all]);
    - serving one after the other is one of the schedules
      ([http_sequential]);
    - no goroutine is ever blocked, every schedule of writes is as long
      as the backlog it takes away, and every goroutine can be run to its
      end ([http_progress], [http_run_backlog], [http_completes]).

    The order between a line printed and a request sent by the same
    goroutine is not kept by the process and is left open by the model,
    which therefore has every behaviour of the server and more. *)

From S2P Require Import Prelude Gin Callback Order Server.

(** ** Merges of lists *)

Section Merged.
Context {A : Type}.
Implicit Types (l xs : list A) (ls : list (list A)).

(** [merged ls xs]: [xs] is made of the elements of the lists [ls], those
    of each list in their order. *)
Inductive merged : list (list A) -> list A -> Prop :=
| merged_nil ls : Forall (fun l => l = []) ls -> merged ls []
| merged_cons i x l ls xs :
    ls !! i = Some (x :: l) -> merged (<[i := l]> ls) xs ->
    merged ls (x :: xs).

Lemma lookup_insert_same {B} (k : list B) i (b b' : B) :
  k !! i = Some b -> <[i := b']> k !! i = Some b'.
Proof. intros Hi. apply list_lookup_insert_eq. by eapply lookup_lt_Some. Qed.

(** The same, from the end: the last element of a merge is the last
    element of one of the lists. *)
Lemma merged_snoc ls xs i l x :
  merged ls xs -> ls !! i = Some l ->
  merged (<[i := l ++ [x]]> ls) (xs ++ [x]).
Proof.
  intros Hm. revert i l. induction Hm as [ls Hn|j y k ls xs Hj _ IH];
    intros i l Hi.
  - rewrite Forall_lookup in Hn. rewrite (Hn _ _ Hi). cbn.
    apply (merged_cons i x []); [by eapply lookup_insert_same|].
    rewrite list_insert_insert_eq, list_insert_id by (by rewrite <- (Hn _ _ Hi)).
    by constructor; apply Forall_lookup.
  - cbn. destruct (decide (i = j)) as [->|Hij].
    + simplify_eq. apply (merged_cons j y (k ++ [x])).
      { by eapply lookup_insert_same. }
      rewrite list_insert_insert_eq.
      rewrite <- (list_insert_insert_eq ls j (k ++ [x]) k).
      apply IH. by eapply lookup_insert_same.
    + apply (merged_cons j y k).
      { by rewrite list_lookup_insert_ne. }
      rewrite list_insert_insert_ne by done.
      apply IH. by rewrite list_lookup_insert_ne.
Qed.

(** A goroutine that has not started adds nothing. *)
Lemma merged_app_nil ls xs : merged ls xs -> merged (ls ++ [[]]) xs.
Proof.
  induction 1 as [ls Hn|j y k ls xs Hj _ IH].
  - constructor. apply Forall_app. split; [done|by constructor].
  - apply (merged_cons j y k); [by apply lookup_app_l_Some|].
    by rewrite insert_app_l by (by eapply lookup_lt_Some).
Qed.

(** A merge has the elements of the lists, as often as they have them. *)
Lemma merged_Permutation ls xs : merged ls xs -> xs ≡ₚ concat ls.
Proof.
  induction 1 as [ls Hn|j y k ls xs Hj _ IH].
  - induction Hn as [|l ls -> _ IHn]; [done|by cbn].
  - rewrite IH. rewrite insert_take_drop by (by eapply lookup_lt_Some).
    rewrite <- (take_drop_middle ls j (y :: k)) at 3 by done.
    rewrite !concat_app. cbn. by rewrite Permutation_middle.
Qed.

(** The elements of each list keep their order in a merge. *)
Lemma merged_sublist ls xs i l :
  merged ls xs -> ls !! i = Some l -> sublist l xs.
Proof.
  intros Hm. revert i l. induction Hm as [ls Hn|j y k ls xs Hj _ IH];
    intros i l Hi.
  - rewrite Forall_lookup in Hn. rewrite (Hn _ _ Hi). constructor.
  - destruct (decide (i = j)) as [->|Hij].
    + simplify_eq. constructor. apply (IH j). by eapply lookup_insert_same.
    + constructor. apply (IH i). by rewrite list_lookup_insert_ne.
Qed.


End Merged.

Module http.

(** [type Handler interface { ServeHTTP(ResponseWriter, *Request) }]: what
    the server runs for a request, here on the process the goroutine
    finds. *)
Class Handler : Type := { ServeHTTP : gin.Request -> gin.Process -> gin.State }.

Section Server.
Context {handler : Handler}.
Implicit Types (req : gin.Request) (p : gin.Process)
  (env : gmap string string).

(** A process with the given environment that has printed and sent
    nothing. *)
Definition idle env : gin.Process :=
  {| gin.environ := env; gin.stdout := []; gin.outbound := [] |}.

(** What the handler does for a request in such a process: the lines it
    prints, the requests it sends, the response it writes. *)
Definition printed env req : list gin.output :=
  gin.stdout (gin.proc (ServeHTTP req (idle env))).
Definition sent env req : list gin.Outbound :=
  gin.outbound (gin.proc (ServeHTTP req (idle env))).
Definition response env req : gin.ResponseWriter :=
  gin.writer (gin.ctx (ServeHTTP req (idle env))).

(** What the server asks of a handler it runs in several goroutines at
    once: the handler reads the environment and leaves it as it is, it
    adds to standard output and to the requests sent without reading
    them, and what it adds and what it answers depend on the request and
    the environment only. *)
Class Reentrant : Prop := {
  reentrant_environ req p :
    gin.environ (gin.proc (ServeHTTP req p)) = gin.environ p;
  reentrant_stdout req p :
    gin.stdout (gin.proc (ServeHTTP req p)) =
    gin.stdout p ++ printed (gin.environ p) req;
  reentrant_outbound req p :
    gin.outbound (gin.proc (ServeHTTP req p)) =
    gin.outbound p ++ sent (gin.environ p) req;
  reentrant_writer req p :
    gin.writer (gin.ctx (ServeHTTP req p)) = response (gin.environ p) req;
}.

(** One goroutine of [func (c *conn) serve]: the request it serves, and
    how many of the lines and of the requests of its handler it has
    written so far. *)
Record goroutine : Type := mkGoroutine {
  request : gin.Request;
  printed_n : nat;
  sent_n : nat;
}.

(** The server: the process, and the goroutines in the order in which
    their requests were accepted. *)
Record server : Type := mkServer {
  process : gin.Process;
  goroutines : list goroutine;
}.

(** What happens next: a request is accepted and a goroutine started for
    it, or goroutine [i] writes its next line, or sends its next
    request. *)
Inductive event : Type :=
| Accept (req : gin.Request)
| Print (i : nat)
| Send (i : nat).

(** [func (srv *Server) Serve(l net.Listener)] starts with no goroutine. *)
Definition boot p : server := {| process := p; goroutines := [] |}.

Definition step (e : event) (s : server) : option server :=
  let env := gin.environ (process s) in
  match e with
  | Accept req =>
      Some {| process := process s;
              goroutines := goroutines s ++
                [{| request := req; printed_n := 0; sent_n := 0 |}] |}
  | Print i =>
      g ← goroutines s !! i;
      o ← printed env (request g) !! printed_n g;
      Some {| process :=
                {| gin.environ := env;
                   gin.stdout := gin.stdout (process s) ++ [o];
                   gin.outbound := gin.outbound (process s) |};
              goroutines :=
                <[i := {| request := request g; printed_n := S (printed_n g);
                          sent_n := sent_n g |}]> (goroutines s) |}
  | Send i =>
      g ← goroutines s !! i;
      o ← sent env (request g) !! sent_n g;
      Some {| process :=
                {| gin.environ := env;
                   gin.stdout := gin.stdout (process s);
                   gin.outbound := gin.outbound (process s) ++ [o] |};
              goroutines :=
                <[i := {| request := request g; printed_n := printed_n g;
                          sent_n := S (sent_n g) |}]> (goroutines s) |}
  end.

(** A schedule: the events in the order in which they happen. *)
Fixpoint run (es : list event) (s : server) : option server :=
  match es with
  | [] => Some s
  | e :: es' => s' ← step e s; run es' s'
  end.

(** What goroutine [g] has still to write. *)
Definition pending env (g : goroutine) : nat :=
  (length (printed env (request g)) - printed_n g) +
  (length (sent env (request g)) - sent_n g).

(** Every goroutine has returned. *)
Definition quiescent (s : server) : Prop :=
  Forall (fun g => pending (gin.environ (process s)) g = 0%nat) (goroutines s).

#[global] Instance quiescent_dec s : Decision (quiescent s).
Proof. unfold quiescent. apply _. Defined.

(** The requests accepted, oldest first. *)
Definition accepted (s : server) : list gin.Request :=
  request <$> goroutines s.

(** Serving the requests one after the other. *)
Definition serve_all (reqs : list gin.Request) p : gin.Process :=
  foldl (fun p req => gin.proc (ServeHTTP req p)) p reqs.

(** What the goroutines have printed and sent so far, each for itself. *)
Definition printed_so_far env (gs : list goroutine) : list (list gin.output) :=
  (fun g => take (printed_n g) (printed env (request g))) <$> gs.
Definition sent_so_far env (gs : list goroutine) : list (list gin.Outbound) :=
  (fun g => take (sent_n g) (sent env (request g))) <$> gs.

(** The invariant of the server started in process [p0]: the environment
    is the one of [p0]; standard output is what [p0] had printed followed
    by a merge of what the goroutines have printed, and likewise for the
    requests sent. *)
Record inv (p0 : gin.Process) (s : server) : Prop := {
  inv_environ : gin.environ (process s) = gin.environ p0;
  inv_stdout : exists d,
    gin.stdout (process s) = gin.stdout p0 ++ d /\
    merged (printed_so_far (gin.environ p0) (goroutines s)) d;
  inv_outbound : exists d,
    gin.outbound (process s) = gin.outbound p0 ++ d /\
    merged (sent_so_far (gin.environ p0) (goroutines s)) d;
}.

End Server.

Section Invariant.
Context {handler : Handler}.
Implicit Types (req : gin.Request) (p : gin.Process) (s : server).

Lemma http_boot_inv p : inv p (boot p).
Proof.
  split; [done|exists []..]; (split; [by rewrite app_nil_r|by constructor]).
Qed.

(** A step of one goroutine leaves what the others have written. *)
Lemma http_so_far_insert {A} (f : goroutine -> list A)
    (gs : list goroutine) (i : nat) g g' :
  gs !! i = Some g -> f g' = f g -> f <$> <[i := g']> gs = f <$> gs.
Proof.
  intros Hi Hf. rewrite list_fmap_insert, Hf. apply list_insert_id.
  by rewrite list_lookup_fmap, Hi.
Qed.

(** The step of a goroutine that writes [o] as element [n] of its list
    [l]. *)
Lemma http_so_far_step {A} (f : goroutine -> list A)
    (gs : list goroutine) (i : nat) g g' n l o d :
  gs !! i = Some g -> f g = take n l -> f g' = take (S n) l ->
  l !! n = Some o -> merged (f <$> gs) d ->
  merged (f <$> <[i := g']> gs) (d ++ [o]).
Proof.
  intros Hi Hg Hg' Ho Hm. rewrite list_fmap_insert, Hg'.
  rewrite (take_S_r _ _ _ Ho), <- Hg. apply merged_snoc; [done|].
  by rewrite list_lookup_fmap, Hi.
Qed.

Lemma http_step_inv p0 e s s' : inv p0 s -> step e s = Some s' -> inv p0 s'.
Proof.
  intros [He (d & Hd & Hm) (c & Hc & Hs)] Hstep.
  destruct e as [req|i|i]; cbn in Hstep; rewrite ?He in Hstep.
  - injection Hstep as <-.
    split; [done|exists d|exists c]; (split; [done|]);
      unfold printed_so_far, sent_so_far; cbn; rewrite fmap_app;
      by apply merged_app_nil.
  - destruct (goroutines s !! i) as [g|] eqn:Hg; [|done]. cbn in Hstep.
    destruct (printed _ _ !! _) as [o|] eqn:Ho; [|done].
    injection Hstep as <-.
    split; [done|exists (d ++ [o])|exists c]; cbn.
    + split; [by rewrite Hd, app_assoc|]. by eapply http_so_far_step.
    + split; [done|]. unfold sent_so_far. by erewrite http_so_far_insert.
  - destruct (goroutines s !! i) as [g|] eqn:Hg; [|done]. cbn in Hstep.
    destruct (sent _ _ !! _) as [o|] eqn:Ho; [|done].
    injection Hstep as <-.
    split; [done|exists d|exists (c ++ [o])]; cbn.
    + split; [done|]. unfold printed_so_far. by erewrite http_so_far_insert.
    + split; [by rewrite Hc, app_assoc|]. by eapply http_so_far_step.
Qed.

Lemma http_run_inv p0 es s s' : inv p0 s -> run es s = Some s' -> inv p0 s'.
Proof.
  revert s. induction es as [|e es IH]; intros s Hi Hr; cbn in Hr;
    simplify_option_eq; [done|].
  eapply IH; [|done]. by eapply http_step_inv.
Qed.

(** When every goroutine has returned, what each has written is what its
    handler writes. *)
Lemma http_quiescent_so_far s :
  quiescent s ->
  let env := gin.environ (process s) in
  printed_so_far env (goroutines s) = printed env <$> accepted s /\
  sent_so_far env (goroutines s) = sent env <$> accepted s.
Proof.
  intros Hq env. unfold printed_so_far, sent_so_far, accepted.
  rewrite <- !list_fmap_compose.
  split; apply Forall_fmap_ext; (eapply Forall_impl; [exact Hq|]);
    intros g Hg; unfold pending in Hg; cbn; apply take_ge; subst env; lia.
Qed.

(** Whatever the schedule, once every goroutine has returned the
    environment is the one the server started with, and standard output
    and the requests sent are merges of what the handler writes for each
    of the requests accepted. *)
Lemma http_run_merged p es s :
  run es (boot p) = Some s -> quiescent s ->
  gin.environ (process s) = gin.environ p /\
  exists out calls,
    gin.stdout (process s) = gin.stdout p ++ out /\
    merged (printed (gin.environ p) <$> accepted s) out /\
    gin.outbound (process s) = gin.outbound p ++ calls /\
    merged (sent (gin.environ p) <$> accepted s) calls.
Proof.
  intros Hr Hq.
  destruct (http_run_inv p _ _ _ (http_boot_inv p) Hr)
    as [He (d & Hd & Hm) (c & Hc & Hs)].
  destruct (http_quiescent_so_far s Hq) as [Hp Ht]. rewrite He in Hp, Ht.
  split; [done|]. exists d, c. by rewrite <- Hp, <- Ht.
Qed.

End Invariant.

Section Sequential.
Context {handler : Handler} {reentrant : Reentrant}.
Implicit Types (req : gin.Request) (p : gin.Process) (s : server).

(** Serving requests one after the other, in closed form. *)
Lemma http_serve_all reqs p :
  serve_all reqs p =
  {| gin.environ := gin.environ p;
     gin.stdout := gin.stdout p ++ concat (printed (gin.environ p) <$> reqs);
     gin.outbound :=
       gin.outbound p ++ concat (sent (gin.environ p) <$> reqs) |}.
Proof.
  revert p. induction reqs as [|req reqs IH]; intros p.
  - destruct p. cbn. by rewrite !app_nil_r.
  - change (serve_all (req :: reqs) p)
      with (serve_all reqs (gin.proc (ServeHTTP req p))).
    rewrite IH, reentrant_environ, reentrant_stdout, reentrant_outbound.
    cbn. by rewrite <- !app_assoc.
Qed.

(** Every schedule gives what serving the requests one after the other
    gives, up to the order of the lines printed and of the requests
    sent; the lines and the requests of each request keep their
    order. *)
Lemma http_run_serve_all p es s :
  run es (boot p) = Some s -> quiescent s ->
  let p' := serve_all (accepted s) p in
  gin.environ (process s) = gin.environ p' /\
  gin.stdout (process s) ≡ₚ gin.stdout p' /\
  gin.outbound (process s) ≡ₚ gin.outbound p'.
Proof.
  intros Hr Hq.
  destruct (http_run_merged p es s Hr Hq)
    as (He & out & calls & -> & Ho%merged_Permutation
           & -> & Hc%merged_Permutation).
  rewrite http_serve_all. cbn. by rewrite Ho, Hc.
Qed.

End Sequential.

Section Schedules.
Context {handler : Handler}.
Implicit Types (req : gin.Request) (p : gin.Process) (s : server)
  (g : goroutine).

Lemma http_run_app es1 es2 s : run (es1 ++ es2) s = run es1 s ≫= run es2.
Proof.
  revert s. induction es1 as [|e es1 IH]; intros s; cbn; [done|].
  destruct (step e s); cbn; auto.
Qed.

(** Goroutine [i] writes [k] times in a row: the proof of the two lemmas
    below. *)
Ltac write_run IH Hg Hk l n g' :=
  cbn [step process goroutines gin.environ gin.stdout gin.outbound];
  rewrite Hg; cbn [mbind option_bind request printed_n sent_n];
  let o := fresh "o" in let Ho := fresh "Ho" in
  assert (is_Some (l !! n)) as [o Ho]
    by (apply lookup_lt_is_Some_2; clear -Hk; lia);
  rewrite Ho; cbn [mbind option_bind];
  rewrite (IH _ g');
  cbn [process goroutines request printed_n sent_n gin.environ gin.stdout
       gin.outbound]; [|by eapply lookup_insert_same|clear -Hk; lia];
  rewrite list_insert_insert_eq, <- app_assoc, (drop_S _ _ _ Ho);
  by rewrite Nat.add_succ_r.

Lemma http_run_prints k i s g :
  goroutines s !! i = Some g ->
  (printed_n g + k <= length (printed (gin.environ (process s)) (request g)))%nat ->
  run (replicate k (Print i)) s =
  Some {| process :=
            {| gin.environ := gin.environ (process s);
               gin.stdout := gin.stdout (process s) ++
                 take k (drop (printed_n g)
                           (printed (gin.environ (process s)) (request g)));
               gin.outbound := gin.outbound (process s) |};
          goroutines :=
            <[i := {| request := request g; printed_n := printed_n g + k;
                      sent_n := sent_n g |}]> (goroutines s) |}.
Proof.
  revert s g. induction k as [|k IH]; intros [[env out calls] gs] [r n m];
    cbn [process goroutines request printed_n sent_n gin.environ gin.stdout
         gin.outbound replicate run]; intros Hg Hk.
  - by rewrite app_nil_r, Nat.add_0_r, list_insert_id.
  - write_run IH Hg Hk (printed env r) n
      {| request := r; printed_n := S n; sent_n := m |}.
Qed.

Lemma http_run_sends k i s g :
  goroutines s !! i = Some g ->
  (sent_n g + k <= length (sent (gin.environ (process s)) (request g)))%nat ->
  run (replicate k (Send i)) s =
  Some {| process :=
            {| gin.environ := gin.environ (process s);
               gin.stdout := gin.stdout (process s);
               gin.outbound := gin.outbound (process s) ++
                 take k (drop (sent_n g)
                           (sent (gin.environ (process s)) (request g))) |};
          goroutines :=
            <[i := {| request := request g; printed_n := printed_n g;
                      sent_n := sent_n g + k |}]> (goroutines s) |}.
Proof.
  revert s g. induction k as [|k IH]; intros [[env out calls] gs] [r n m];
    cbn [process goroutines request printed_n sent_n gin.environ gin.stdout
         gin.outbound replicate run]; intros Hg Hk.
  - by rewrite app_nil_r, Nat.add_0_r, list_insert_id.
  - write_run IH Hg Hk (sent env r) m
      {| request := r; printed_n := n; sent_n := S m |}.
Qed.

(** The schedule that serves one request from its arrival to the end
    before anything else happens, and the schedule that serves requests
    one after the other; [i] is the number of goroutines started
    before. *)
Definition turn env (i : nat) req : list event :=
  Accept req :: replicate (length (sent env req)) (Send i) ++
  replicate (length (printed env req)) (Print i).

Fixpoint sequential env (i : nat) (reqs : list gin.Request) : list event :=
  match reqs with
  | [] => []
  | req :: reqs' => turn env i req ++ sequential env (S i) reqs'
  end.

(** The goroutine of a request, returned. *)
Definition returned env req : goroutine :=
  {| request := req; printed_n := length (printed env req);
     sent_n := length (sent env req) |}.

Lemma http_run_turn s req :
  let env := gin.environ (process s) in
  run (turn env (length (goroutines s)) req) s =
  Some {| process :=
            {| gin.environ := env;
               gin.stdout := gin.stdout (process s) ++ printed env req;
               gin.outbound := gin.outbound (process s) ++ sent env req |};
          goroutines := goroutines s ++ [returned env req] |}.
Proof.
  intros env. unfold turn. cbn [run step mbind option_bind].
  rewrite http_run_app.
  rewrite (http_run_sends _ _ _ {| request := req; printed_n := 0; sent_n := 0 |});
    cbn [process goroutines request printed_n sent_n gin.environ gin.stdout
         gin.outbound mbind option_bind]; fold env;
    [|by apply list_lookup_middle|done].
  rewrite (http_run_prints _ _ _ {| request := req; printed_n := 0;
                                    sent_n := length (sent env req) |});
    cbn [process goroutines request printed_n sent_n gin.environ gin.stdout
         gin.outbound plus]; fold env;
    [|apply list_lookup_insert_eq; rewrite length_app; cbn; lia|done].
  rewrite !firstn_all, list_insert_insert_eq.
  by rewrite insert_app_r_alt, Nat.sub_diag by done.
Qed.

End Schedules.

Section Refinement.
Context {handler : Handler} {reentrant : Reentrant}.
Implicit Types (req : gin.Request) (p : gin.Process) (s : server).

(** The handler as a function of the process. *)
Lemma http_serve_one req p :
  gin.proc (ServeHTTP req p) =
  {| gin.environ := gin.environ p;
     gin.stdout := gin.stdout p ++ printed (gin.environ p) req;
     gin.outbound := gin.outbound p ++ sent (gin.environ p) req |}.
Proof.
  pose proof (reentrant_environ req p) as He.
  pose proof (reentrant_stdout req p) as Ho.
  pose proof (reentrant_outbound req p) as Hc.
  destruct (gin.proc (ServeHTTP req p)). cbn in *. by subst.
Qed.

Lemma http_run_sequential reqs s :
  let env := gin.environ (process s) in
  run (sequential env (length (goroutines s)) reqs) s =
  Some {| process := serve_all reqs (process s);
          goroutines := goroutines s ++ (returned env <$> reqs) |}.
Proof.
  revert s. induction reqs as [|req reqs IH]; intros s env; subst env.
  - cbn. rewrite app_nil_r. by destruct s.
  - cbn [sequential]. rewrite http_run_app, http_run_turn.
    cbn [mbind option_bind]. rewrite <- http_serve_one.
    set (s1 := {| process := _; goroutines := _ |}).
    replace (S (length (goroutines s))) with (length (goroutines s1))
      by (cbn; rewrite length_app; cbn; lia).
    replace (gin.environ (process s)) with (gin.environ (process s1))
      by apply reentrant_environ.
    rewrite IH. cbn. by rewrite reentrant_environ, <- app_assoc.
Qed.

(** Serving the requests one after the other is one of the schedules. *)
Lemma http_sequential p reqs :
  exists s,
    run (sequential (gin.environ p) 0 reqs) (boot p) = Some s /\
    quiescent s /\ accepted s = reqs /\ process s = serve_all reqs p.
Proof.
  eexists. split; [apply (http_run_sequential reqs (boot p))|].
  unfold quiescent, accepted. cbn. split_and!; [|..|done].
  - rewrite http_serve_all. cbn.
    apply Forall_fmap, Forall_forall. intros req _. unfold pending.
    cbn. lia.
  - by rewrite <- list_fmap_compose, list_fmap_id.
Qed.

End Refinement.

Section Progress.
Context {handler : Handler}.
Implicit Types (req : gin.Request) (p : gin.Process) (s : server)
  (g : goroutine).

(** What the goroutines of the server have still to write. *)
Definition backlog s : nat :=
  sum_list (pending (gin.environ (process s)) <$> goroutines s).

(** The steps of goroutines, as opposed to the arrival of a request. *)
Definition is_write (e : event) : bool :=
  match e with Accept _ => false | _ => true end.

Lemma sum_list_insert (l : list nat) i x y :
  l !! i = Some x -> (sum_list (<[i := y]> l) + x = sum_list l + y)%nat.
Proof.
  revert i. induction l as [|z l IH]; intros [|i] Hi; simplify_eq/=; [lia|].
  specialize (IH i Hi). lia.
Qed.

Lemma http_quiescent_backlog s : quiescent s <-> backlog s = 0%nat.
Proof.
  unfold quiescent, backlog.
  induction (goroutines s) as [|g gs IH]; cbn; [done|].
  rewrite Forall_cons, IH. lia.
Qed.

(** A write takes one from the backlog. *)
Lemma http_step_backlog e s s' :
  is_write e = true -> step e s = Some s' -> backlog s = S (backlog s').
Proof.
  intros He Hstep. unfold backlog.
  destruct e as [req|i|i]; [done|..]; cbn in Hstep;
    destruct (goroutines s !! i) as [g|] eqn:Hg; try done; cbn in Hstep;
    [destruct (printed _ _ !! _) as [o|] eqn:Ho
    |destruct (sent _ _ !! _) as [o|] eqn:Ho]; try done;
    injection Hstep as <-; cbn; apply lookup_lt_Some in Ho;
    rewrite list_fmap_insert;
    match goal with |- context [<[i := ?y]> ?l] =>
      pose proof (sum_list_insert l i (pending (gin.environ (process s)) g) y)
        as Hs
    end;
    rewrite list_lookup_fmap, Hg in Hs; specialize (Hs eq_refl);
    unfold pending in *; cbn in *; lia.
Qed.

(** A schedule of writes is as long as the backlog it takes away: no
    goroutine runs for ever, whatever the schedule. *)
Lemma http_run_backlog es s s' :
  forallb is_write es = true -> run es s = Some s' ->
  (length es + backlog s' = backlog s)%nat.
Proof.
  revert s. induction es as [|e es IH]; intros s Hw Hr; cbn in *;
    [by simplify_eq|].
  apply andb_prop in Hw as [He Hw].
  destruct (step e s) as [s1|] eqn:Hs; [|done]. cbn in Hr.
  rewrite (http_step_backlog e s s1 He Hs), <- (IH s1 Hw Hr). lia.
Qed.

(** A goroutine that has not returned can take a step: nothing blocks
    it. *)
Lemma http_progress s :
  ~ quiescent s -> exists e, is_write e = true /\ is_Some (step e s).
Proof.
  intros Hq. apply not_Forall_Exists in Hq; [|apply _].
  apply Exists_exists in Hq as (g & [i Hi]%list_elem_of_lookup & Hg).
  unfold pending, compose in Hg.
  destruct (decide (printed_n g <
                    length (printed (gin.environ (process s)) (request g)))%nat)
    as [Hp|Hp].
  - exists (Print i). split; [done|]. cbn. rewrite Hi. cbn.
    destruct (lookup_lt_is_Some_2 _ _ Hp) as [o ->]. by eexists.
  - assert (sent_n g < length (sent (gin.environ (process s)) (request g)))%nat
      as Hs by lia.
    exists (Send i). split; [done|]. cbn. rewrite Hi. cbn.
    destruct (lookup_lt_is_Some_2 _ _ Hs) as [o ->]. by eexists.
Qed.

(** Every goroutine can be run to its end: from any state of the server
    there is a schedule of writes after which every goroutine has
    returned. *)
Lemma http_completes s :
  exists es s', forallb is_write es = true /\ run es s = Some s' /\
    quiescent s'.
Proof.
  remember (backlog s) as n eqn:Hn. revert s Hn.
  induction n as [|n IH]; intros s Hn.
  - exists [], s. split_and!; [done..|]. by apply http_quiescent_backlog.
  - destruct (http_progress s) as (e & He & [s1 Hs]).
    { rewrite http_quiescent_backlog. lia. }
    destruct (IH s1) as (es & s' & Hw & Hr & Hq).
    { rewrite (http_step_backlog e s s1 He Hs) in Hn. lia. }
    exists (e :: es), s'. split_and!; [|cbn; by rewrite Hs|done].
    cbn. by rewrite He.
Qed.

End Progress.
End http.

(** ** The router of the program under the server *)

Section Router.
Context {G : razorpay.Gateway}.
Implicit Types (req : gin.Request) (p : gin.Process).

(** [router.Run(":8080")] (src/main.go:33): the engine is the handler of
    the server. *)
#[export] Instance router_handler : http.Handler :=
  {| http.ServeHTTP := gin.ServeHTTP router |}.

Lemma router_serve req p :
  http.ServeHTTP req p = serve_spec req p.
Proof. cbn. unfold gin.ServeHTTP. by rewrite handle_run. Qed.

(** What the engine prints and sends for a request. *)
Lemma router_printed env req : http.printed env req = serve_output env req.
Proof. unfold http.printed. cbn [http.ServeHTTP router_handler]. by rewrite serve_stdout. Qed.

Lemma router_sent env req :
  http.sent env req = if decide (is_order req) then [gateway_call env] else [].
Proof. unfold http.sent. cbn [http.ServeHTTP router_handler]. by rewrite serve_outbound. Qed.

#[export] Instance router_reentrant : http.Reentrant.
Proof.
  split; intros req p.
  - apply serve_environ.
  - by rewrite router_printed; apply serve_stdout.
  - by rewrite router_sent; apply serve_outbound.
  - unfold http.response. rewrite !router_serve. by apply serve_spec_writer.
Qed.

(** Serving in sequence, as the relation [served] has it. *)
Lemma served_serve_all p reqs p' :
  served p reqs p' <-> p' = http.serve_all reqs p.
Proof.
  split.
  - induction 1 as [|p req reqs p' _ IH]; [done|by rewrite IH].
  - intros ->. revert p. induction reqs as [|req reqs IH]; intros p;
      by constructor.
Qed.



(** C30. Serving requests one after the other is one of the schedules of
    the server: the schedule in which each goroutine takes all its steps
    as soon as its request is accepted leaves the process that [served]
    describes. *)
Theorem serve_in_sequence p reqs p' :
  served p reqs p' ->
  exists s,
    http.run (http.sequential (gin.environ p) 0 reqs) (http.boot p) = Some s /\
    http.quiescent s /\ http.accepted s = reqs /\ http.process s = p'.
Proof.
  intros ->%served_serve_all. apply http.http_sequential.
Qed.

End Router.

(** ** Examples *)


Definition example_interleaved : http.server :=
  {| http.process :=
       {| gin.environ := example_env;
          gin.stdout :=
            [log_line example_callback;
             gin.AccessLog 200 "POST" "/create-order";
             gin.AccessLog 200 "POST" "/payment-callback"];
          gin.outbound := [gateway_call example_env] |};
     http.goroutines :=
       [{| http.request := example_callback; http.printed_n := 2;
           http.sent_n := 0 |};
        {| http.request := example_create; http.printed_n := 1;
           http.sent_n := 1 |}] |}.



(** A goroutine cannot write more than its handler does: the order has
    one line, and a second [Print] of its goroutine is no step. *)
Example example_no_step :
  http.step (handler := router_handler (G := gateway_up)) (http.Print 1)
    example_interleaved = None.
Proof. by vm_compute. Qed.


Lemma serve_in_sequence_witness :
  exists s,
    http.run (handler := router_handler (G := gateway_up))
      (http.sequential (handler := router_handler (G := gateway_up))
         (gin.environ example_proc) 0 example_session)
      (http.boot example_proc) = Some s /\
    http.quiescent (handler := router_handler (G := gateway_up)) s /\
    http.accepted s = example_session /\ http.process s = example_end.
Proof. apply (serve_in_sequence (G := gateway_up)), example_served. Defined.
