(* ===== verification/Wire.v ===== *)
(** * The bytes of the responses

    The handlers answer with [c.JSON], which writes [json.Marshal(obj)] to
    the body; the engine answers a request without route with a text.
    This file gives the response as the client receives it: the status and
    the body byte by byte ([resp_bytes] runs the encoder of [Json] on what
    the handlers wrote), and the document the client reads from the body
    ([read_body], with the reader of [Decode]).  The theorems state the
    text of every answer of the two handlers, that the message of the
    gateway, which the program passes on, is read back unchanged exactly
    when it is valid UTF-8, that the client reads the document the
    handler wrote, unchanged exactly when its strings are valid UTF-8,
    and, through the router, what the client receives for every request
    ([serve_wire]). *)

From S2P Require Import Prelude Hex Utf8 Gin Json Decode.
From S2P Require Import Signature Callback Order Server.

(** ** What the client reads *)

(** [render.JSON] writes the encoding of the document; a text is written
    as it is. *)
Definition chunk_bytes (c : gin.chunk) : option (list byte) :=
  match c with
  | gin.Json j => json.Marshal j
  | gin.Text t => Some (bytes_of_string t)
  end.

(** The body of the response; [None] when the encoder fails. *)
Definition resp_bytes (s : gin.State) : option string :=
  (fun l => string_of_bytes (concat l)) <$>
    mapM chunk_bytes (gin.body (gin.writer (gin.ctx s))).

(** A text between double quotes, and the texts of the documents the
    handlers write. *)
Definition quoted (s : string) : string :=
  string_of_bytes ([json.dq] ++ bytes_of_string s ++ [json.dq]).

Definition error_text (msg : string) : string :=
  "{" +:+ quoted "error" +:+ ":" +:+ quoted msg +:+ "}".

Definition payment_text (p : Payment) : string :=
  "{" +:+ quoted "paymentData" +:+ ":{" +:+
  quoted "razorpay_payment_id" +:+ ":" +:+ quoted (PaymentID p) +:+ "," +:+
  quoted "razorpay_order_id" +:+ ":" +:+ quoted (OrderID p) +:+ "," +:+
  quoted "razorpay_signature" +:+ ":" +:+ quoted (Signature p) +:+ "}}".

(** The body of the answer of the callback, for each outcome. *)
Definition callback_text (o : outcome) : string :=
  match o with
  | ReadFailed => error_text "Unable to read request body"
  | ParseFailed => error_text "Failed to parse query parameters"
  | Missing name => error_text ("Missing " +:+ name +:+ " parameter")
  | VerifyFailed => error_text "failed to verify"
  | Verified p => payment_text p
  end.

(** The identifiers of a verified payment are made of characters the
    encoder writes as they are. *)
Definition plain_payment (o : outcome) : Prop :=
  match o with
  | Verified p => json.plain (PaymentID p) /\ json.plain (OrderID p)
  | _ => True
  end.

#[global] Instance plain_payment_dec o : Decision (plain_payment o).
Proof. destruct o; apply _. Defined.

(** The body of the answer of the order handler. *)
Definition encoded (j : gin.json) : string := string_of_bytes (json.encode j).

Definition order_text (order : gmap string gin.json) (key_id : string)
  : string :=
  "{" +:+ quoted "amount" +:+ ":" +:+ encoded (order_field order "amount") +:+
  "," +:+ quoted "id" +:+ ":" +:+ encoded (order_field order "id") +:+
  "," +:+ quoted "key" +:+ ":" +:+ encoded (gin.JString key_id) +:+ "}".

(** The document a client reads from the body, with the reader of
    [Decode]. *)
Definition read_body (s : gin.State) : option gin.json :=
  body ← resp_bytes s; decode.document (bytes_of_string body).

(** A text that is valid UTF-8; the answers whose texts are. *)
Definition utf8_text (s : string) : Prop :=
  json.valid (bytes_of_string s) = true.

Definition utf8_payment (o : outcome) : Prop :=
  match o with
  | Verified p => utf8_text (PaymentID p) /\ utf8_text (OrderID p)
  | _ => True
  end.

Definition utf8_order (a : string + gmap string gin.json) (key_id : string)
  : Prop :=
  match a with
  | inl err => utf8_text err
  | inr order =>
      decode.well_formed (order_field order "amount") = true /\
      decode.well_formed (order_field order "id") = true /\
      utf8_text key_id
  end.

(** ** The body of a response *)

(** The content type [c.JSON] declares. *)
Definition json_type : string := "application/json; charset=utf-8".

Lemma resp_bytes_document s j :
  gin.body (gin.writer (gin.ctx s)) = [gin.Json j] ->
  resp_bytes s = Some (encoded j).
Proof.
  intros Hb. unfold resp_bytes, encoded. rewrite Hb. cbn.
  rewrite json.json_Marshal_encode. cbn. by rewrite app_nil_r.
Qed.

Lemma read_body_document s j :
  gin.body (gin.writer (gin.ctx s)) = [gin.Json j] ->
  read_body s = Some (decode.read_back j) /\
  (read_body s = Some j <-> decode.well_formed j = true).
Proof.
  intros Hb. unfold read_body.
  rewrite (resp_bytes_document s j Hb). cbn [mbind option_bind].
  unfold encoded. rewrite bytes_of_string_of_bytes.
  split; [apply decode.decode_document_encode|].
  apply decode.decode_round_trip_iff.
Qed.

Lemma respond_chunks a s :
  gin.body (gin.writer (gin.ctx (gin.respond a s))) =
  gin.body (gin.writer (gin.ctx s)) ++ [gin.Json a.2].
Proof. unfold gin.respond. cbn. by rewrite gin.gin_WriteHeader_body. Qed.

Lemma callback_chunks s :
  gin.body (gin.writer (gin.ctx (Go.final (PaymentGatewayCallback s)))) =
  gin.body (gin.writer (gin.ctx s)) ++ [gin.Json (answer (outcome_of s)).2].
Proof.
  rewrite callback_final. unfold callback_post.
  fold (secret_of s) (outcome_of s).
  destruct (outcome_of s); cbn [gin.Body_Close gin.with_body gin.ctx gin.writer];
    apply (respond_chunks _ s) || apply (respond_chunks _ (gin.with_stdout _ s)).
Qed.

Lemma order_chunks `{razorpay.Gateway} s :
  gin.body (gin.writer (gin.ctx (Go.final (createRazorpayOrder s)))) =
  gin.body (gin.writer (gin.ctx s)) ++ [gin.Json (order_answer s).2].
Proof. rewrite order_final. unfold order_post. by rewrite respond_chunks. Qed.

(** ** The documents as texts *)

(** A text is [plain] by hypothesis or by evaluation; the text of a
    document is put together from the texts of its parts. *)
Ltac plain :=
  assumption || (apply (bool_decide_unpack _); by vm_compute).
Ltac texts :=
  rewrite ?string_of_bytes_app, ?string_of_bytes_of_string,
    ?string_app_assoc.

Lemma quoted_plain s :
  json.plain s -> string_of_bytes (json.quote (bytes_of_string s)) = quoted s.
Proof. intros Hs. unfold quoted. by rewrite json.json_quote_plain. Qed.

Lemma encoded_object fields :
  encoded (gin.JObject fields) =
  "{" +:+
  string_of_bytes (json.commas (map (fun kv =>
    json.quote (bytes_of_string kv.1) ++ bytes_of_string ":" ++
    json.encode kv.2) fields)) +:+ "}".
Proof.
  unfold encoded. cbn [json.encode]. by rewrite !string_of_bytes_app.
Qed.

Lemma encoded_error msg :
  json.plain msg -> encoded (error_body msg) = error_text msg.
Proof.
  intros Hm. unfold error_body, gin.H1, error_text.
  rewrite encoded_object. cbn [map json.commas fst snd json.encode]. texts.
  by rewrite !quoted_plain by plain.
Qed.

(** The signature of a verified payment is the computed one, which is
    made of hexadecimal digits. *)
Lemma verified_signature s p :
  outcome_of s = Verified p ->
  Signature p = computedSignature (OrderID p) (PaymentID p) (secret_of s).
Proof.
  rewrite outcome_of_unfold.
  repeat (case_match; simplify_eq/=; try done). by intros [= <-].
Qed.

Lemma computedSignature_plain o p secret :
  json.plain (computedSignature o p secret).
Proof.
  eapply Forall_impl; [apply computedSignature_alphabet|].
  apply json.json_hex_safe.
Qed.

Lemma plain_utf8 s : json.plain s -> utf8_text s.
Proof.
  intros Hs. apply json.json_valid_ascii.
  eapply Forall_impl; [exact Hs|]. intros b Hb. unfold json.htmlSafeSet in Hb.
  unfold utf8.RuneSelf. bool_hyp Hb. lia.
Qed.

Lemma missing_name s name :
  outcome_of s = Missing name ->
  name ∈ ["payment_id"; "order_id"; "signature"].
Proof.
  rewrite outcome_of_unfold.
  repeat (case_match; simplify_eq/=; try done); intros [= <-]; set_solver.
Qed.

Lemma encoded_payment p :
  json.plain (PaymentID p) -> json.plain (OrderID p) ->
  json.plain (Signature p) ->
  encoded (payment_body p) = payment_text p.
Proof.
  intros Hp Ho Hs. unfold payment_body, gin.H1, Payment_json, payment_text.
  rewrite encoded_object. cbn [map json.commas fst snd json.encode]. texts.
  by rewrite !quoted_plain by plain.
Qed.

(** C16. The answer of the callback as the client receives it: the status
    of the outcome and the body, byte by byte: for each failure the
    object with the one member ["error"] and the fixed message; for a
    verified payment whose identifiers are made of characters that need
    no escape, the three fields under ["paymentData"], in the order
    payment, order, signature. *)
Theorem callback_wire s :
  gin.fresh s -> plain_payment (outcome_of s) ->
  gin.resp_status (Go.final (PaymentGatewayCallback s)) =
    (answer (outcome_of s)).1 /\
  resp_bytes (Go.final (PaymentGatewayCallback s)) =
    Some (callback_text (outcome_of s)).
Proof.
  intros Hs Hp. split; [by apply callback_response|].
  destruct Hs as [_ Hb].
  rewrite (resp_bytes_document _ (answer (outcome_of s)).2)
    by (by rewrite callback_chunks, Hb).
  destruct (outcome_of s) as [| |name| |p] eqn:Ho; cbn [answer snd callback_text];
    try (by rewrite encoded_error by plain).
  - apply missing_name in Ho.
    rewrite encoded_error; [done|].
    by repeat (apply elem_of_cons in Ho as [->|Ho]; [plain|]);
      apply elem_of_nil in Ho.
  - destruct Hp as [Hp1 Hp2]. rewrite encoded_payment; [done..|].
    rewrite (verified_signature s p Ho). apply computedSignature_plain.
Qed.

(** The strings of the answer of the callback are valid UTF-8 when the
    identifiers of the payment are: the messages and the signature
    always are. *)
Lemma callback_well_formed s :
  decode.well_formed (answer (outcome_of s)).2 = true <->
  utf8_payment (outcome_of s).
Proof.
  destruct (outcome_of s) as [| |name| |p] eqn:Ho; cbn [answer snd utf8_payment];
    [by vm_compute..| |by vm_compute|].
  - apply missing_name in Ho.
    repeat (apply elem_of_cons in Ho as [->|Ho]; [by vm_compute|]).
    by apply elem_of_nil in Ho.
  - pose proof (plain_utf8 _ (computedSignature_plain (OrderID p) (PaymentID p)
                                (secret_of s))) as Hsig.
    rewrite <- (verified_signature s p Ho) in Hsig.
    unfold payment_body, Payment_json, gin.H1, utf8_text in *.
    cbn [decode.well_formed forallb fst snd]. rewrite Hsig.
    rewrite (plain_utf8 "paymentData"), (plain_utf8 "razorpay_payment_id"),
      (plain_utf8 "razorpay_order_id"), (plain_utf8 "razorpay_signature")
      by plain.
    cbn [andb]. rewrite !andb_true_r, andb_true_iff. done.
Qed.

(** C20. The client reads back what the callback answered: the body is a
    document of JSON, which the reader reads as the answer of the outcome
    with its strings in their valid form; that is the answer itself
    exactly when the identifiers of a verified payment are valid UTF-8
    (the messages of the failures and the signature always are). *)
Theorem callback_read_back s :
  gin.fresh s ->
  read_body (Go.final (PaymentGatewayCallback s)) =
    Some (decode.read_back (answer (outcome_of s)).2) /\
  (read_body (Go.final (PaymentGatewayCallback s)) =
     Some (answer (outcome_of s)).2 <->
   utf8_payment (outcome_of s)).
Proof.
  intros [_ Hb]. rewrite <- callback_well_formed.
  apply read_body_document. by rewrite callback_chunks, Hb.
Qed.

Section WithGateway.
Context {G : razorpay.Gateway}.

(** C18. The message of a failed gateway call reaches the client: the
    status is 500, the body is the object with the one member ["error"]
    whose value is the message quoted by the encoder, and decoding that
    value gives the message back exactly when the message is valid
    UTF-8. *)
Theorem order_failure_wire s err :
  gin.fresh s -> gateway_answer s = inl err ->
  gin.resp_status (Go.final (createRazorpayOrder s)) = 500 /\
  resp_bytes (Go.final (createRazorpayOrder s)) =
    Some ("{" +:+ quoted "error" +:+ ":" +:+ encoded (gin.JString err) +:+ "}") /\
  (json.unquote (bytes_of_string (encoded (gin.JString err))) =
     Some (bytes_of_string err) <->
   json.valid (bytes_of_string err) = true).
Proof.
  intros Hs Hg. split.
  { destruct (order_response s Hs) as [-> _]. unfold order_answer.
    by rewrite Hg. }
  destruct Hs as [_ Hb]. split.
  - rewrite (resp_bytes_document _ (order_answer s).2)
      by (by rewrite order_chunks, Hb).
    unfold order_answer. rewrite Hg. cbn [snd]. unfold failure_body, gin.H1.
    rewrite encoded_object. cbn [map json.commas fst snd]. texts.
    by rewrite !quoted_plain by plain.
  - unfold encoded. cbn [json.encode]. rewrite bytes_of_string_of_bytes.
    apply json.json_round_trip_iff.
Qed.

(** C19. The answer to a created order: status 200, and in the body the
    three members in the order in which the encoder writes the keys of a
    map, the amount and the identifier as the gateway gave them ([null]
    when it gave none), the key of the environment. *)
Theorem order_success_wire s order :
  gin.fresh s -> gateway_answer s = inr order ->
  gin.resp_status (Go.final (createRazorpayOrder s)) = 200 /\
  resp_bytes (Go.final (createRazorpayOrder s)) =
    Some (order_text order (key_id_of s)).
Proof.
  intros Hs Hg. split.
  { destruct (order_response s Hs) as [-> _]. unfold order_answer.
    by rewrite Hg. }
  destruct Hs as [_ Hb].
  rewrite (resp_bytes_document _ (order_answer s).2)
    by (by rewrite order_chunks, Hb).
  unfold order_answer. rewrite Hg. cbn [snd].
  rewrite order_body_sorted. unfold order_text.
  rewrite encoded_object. cbn [map json.commas fst snd]. texts.
  by rewrite !quoted_plain by plain.
Qed.

Lemma order_well_formed s :
  decode.well_formed (order_answer s).2 = true <->
  utf8_order (gateway_answer s) (key_id_of s).
Proof.
  unfold order_answer, utf8_order.
  destruct (gateway_answer s) as [err|order]; cbn [snd].
  - unfold failure_body, gin.H1, utf8_text.
    cbn [decode.well_formed forallb fst snd].
    by rewrite (plain_utf8 "error") by plain; rewrite !andb_true_r.
  - rewrite order_body_sorted. unfold utf8_text.
    cbn [decode.well_formed forallb fst snd].
    rewrite (plain_utf8 "amount"), (plain_utf8 "id"), (plain_utf8 "key")
      by plain.
    cbn [andb]. rewrite !andb_true_r, !andb_true_iff. tauto.
Qed.

(** C21. The client reads back what the order handler answered: the body
    is a document of JSON, read as the answer with its strings in their
    valid form; that is the answer itself exactly when the message of the
    gateway, or the amount and the id of its order and the configured
    key, are valid UTF-8. *)
Theorem order_read_back s :
  gin.fresh s ->
  read_body (Go.final (createRazorpayOrder s)) =
    Some (decode.read_back (order_answer s).2) /\
  (read_body (Go.final (createRazorpayOrder s)) = Some (order_answer s).2 <->
   utf8_order (gateway_answer s) (key_id_of s)).
Proof.
  intros [_ Hb]. rewrite <- order_well_formed.
  apply read_body_document. by rewrite order_chunks, Hb.
Qed.
(** *** Through the server *)

(** What the router answers a request with: the document of a handler, or
    a text of the engine or nothing. *)
Definition serve_document (req : gin.Request) (p : gin.Process)
  : option gin.json :=
  if decide (is_order req) then Some (order_answer (start req p)).2
  else if decide (is_callback req) then
    Some (answer (callback_outcome (gin.Body req)
                    (default "" (gin.environ p !! "RAZORPAY_KEY_SECRET")))).2
  else None.

Definition serve_plain (req : gin.Request) : string :=
  match redirect_of req with
  | Some _ => ""
  | None =>
      if decide (gin.Method req = "OPTIONS") then ""
      else "404 page not found"
  end.

Lemma respond_content_type a s :
  gin.resp_header s !! "Content-Type" = None ->
  gin.resp_header (gin.respond a s) !! "Content-Type" = Some json_type.
Proof.
  unfold gin.resp_header, gin.respond. cbn.
  rewrite gin.gin_WriteHeader_header. intros ->. by rewrite lookup_insert_eq.
Qed.

Lemma routed_document post req p j :
  gin.body (gin.writer (gin.ctx (post (entered (start req p))))) =
    [gin.Json j] ->
  gin.resp_header (post (entered (start req p))) !! "Content-Type" =
    Some json_type ->
  let s := routed post (start req p) in
  gin.resp_header s !! "Content-Type" = Some json_type /\
  resp_bytes s = Some (encoded j) /\
  read_body s = Some (decode.read_back j).
Proof.
  intros Hb Hh s. split; [done|].
  assert (gin.body (gin.writer (gin.ctx s)) = [gin.Json j]) as Hs by done.
  split; [by apply resp_bytes_document|by apply (read_body_document s j)].
Qed.

Lemma plain_response s t :
  gin.body (gin.writer (gin.ctx s)) = (if decide (t = "") then []
                                       else [gin.Text t]) ->
  resp_bytes s = Some t.
Proof.
  intros Hb. unfold resp_bytes. rewrite Hb.
  case_decide as Ht; [by subst|].
  cbn [mapM chunk_bytes mbind option_bind mret option_ret fmap option_fmap
       option_map concat].
  by rewrite app_nil_r, string_of_bytes_of_string.
Qed.

(** C23. What a client receives from the server, for every request: a
    [POST] to one of the two routes is answered with the content type of
    JSON and a body that is the encoding of the document of the handler,
    which a reader of JSON reads back with its strings in their valid
    form; every other request is answered with a body that is no
    document: empty for a redirection and for a preflight request,
    without content type, and the text [404 page not found] as
    [text/plain] otherwise. *)
Theorem serve_wire req p :
  let s := gin.ServeHTTP router req p in
  match serve_document req p with
  | Some j =>
      gin.resp_header s !! "Content-Type" = Some json_type /\
      resp_bytes s = Some (encoded j) /\
      read_body s = Some (decode.read_back j)
  | None =>
      gin.resp_header s !! "Content-Type" =
        (if decide (serve_plain req = "") then None else Some "text/plain") /\
      resp_bytes s = Some (serve_plain req) /\
      read_body s = None
  end.
Proof.
  cbn zeta. unfold gin.ServeHTTP. rewrite handle_run. cbn [Go.final].
  unfold serve_document, serve_spec.
  destruct (decide (is_order req)) as [Ho|Ho].
  { apply routed_document.
    - by rewrite <- order_final, order_chunks.
    - unfold order_post. by apply respond_content_type. }
  destruct (decide (is_callback req)) as [Hc|Hc].
  { apply (routed_document callback_post).
    - by rewrite <- callback_final, callback_chunks.
    - unfold callback_post. set (s0 := entered (start req p)).
      fold (secret_of s0) (outcome_of s0).
      destruct (outcome_of s0);
        (apply (respond_content_type _ s0) ||
         apply (respond_content_type _ (gin.with_stdout _ s0))); done. }
  unfold serve_plain, read_body.
  destruct (redirect_of req) as [to|]; [|case_decide];
    [rewrite (plain_response _ "") by done..
    |rewrite (plain_response _ "404 page not found") by done];
    by vm_compute.
Qed.

End WithGateway.

(** ** Examples *)

Lemma callback_wire_witness :
  let s := callback_state
    ("razorpay_payment_id=pay_xyz&razorpay_order_id=order_abc" +:+
     "&razorpay_signature=" +:+ example_signature)
    None example_env in
  gin.resp_status (Go.final (PaymentGatewayCallback s)) =
    (answer (outcome_of s)).1 /\
  resp_bytes (Go.final (PaymentGatewayCallback s)) =
    Some (callback_text (outcome_of s)).
Proof.
  apply callback_wire; [apply callback_state_fresh|].
  apply (bool_decide_unpack _). by vm_compute.
Defined.

Lemma order_failure_wire_witness :
  let s := order_state order_env in
  gin.resp_status (Go.final (createRazorpayOrder (G := gateway_down) s)) = 500 /\
  resp_bytes (Go.final (createRazorpayOrder (G := gateway_down) s)) =
    Some ("{" +:+ quoted "error" +:+ ":" +:+
          encoded (gin.JString "connection refused") +:+ "}") /\
  (json.unquote (bytes_of_string (encoded (gin.JString "connection refused"))) =
     Some (bytes_of_string "connection refused") <->
   json.valid (bytes_of_string "connection refused") = true).
Proof.
  apply (order_failure_wire (G := gateway_down) (order_state order_env));
    [apply order_state_fresh|reflexivity].
Defined.

Lemma order_success_wire_witness :
  let s := order_state order_env in
  gin.resp_status (Go.final (createRazorpayOrder (G := gateway_up) s)) = 200 /\
  resp_bytes (Go.final (createRazorpayOrder (G := gateway_up) s)) =
    Some (order_text example_order (key_id_of s)).
Proof.
  apply (order_success_wire (G := gateway_up) (order_state order_env)
           example_order);
    [apply order_state_fresh|reflexivity].
Defined.

Lemma callback_read_back_witness :
  let s := callback_state
    ("razorpay_payment_id=pay_xyz&razorpay_order_id=order_abc" +:+
     "&razorpay_signature=" +:+ example_signature)
    None example_env in
  read_body (Go.final (PaymentGatewayCallback s)) =
    Some (decode.read_back (answer (outcome_of s)).2) /\
  (read_body (Go.final (PaymentGatewayCallback s)) =
     Some (answer (outcome_of s)).2 <->
   utf8_payment (outcome_of s)).
Proof. apply callback_read_back, callback_state_fresh. Defined.

Lemma order_read_back_witness :
  let s := order_state order_env in
  read_body (Go.final (createRazorpayOrder (G := gateway_up) s)) =
    Some (decode.read_back (order_answer (G := gateway_up) s).2) /\
  (read_body (Go.final (createRazorpayOrder (G := gateway_up) s)) =
     Some (order_answer (G := gateway_up) s).2 <->
   utf8_order (gateway_answer (G := gateway_up) s) (key_id_of s)).
Proof.
  apply (order_read_back (G := gateway_up) (order_state order_env)),
    order_state_fresh.
Defined.

(** The answers of the two handlers in the examples, as the client reads
    them. *)
Example example_verified_text :
  callback_text (outcome_of (callback_state
    ("razorpay_payment_id=pay_xyz&razorpay_order_id=order_abc" +:+
     "&razorpay_signature=" +:+ example_signature)
    None example_env)) =
  "{" +:+ quoted "paymentData" +:+ ":{" +:+
  quoted "razorpay_payment_id" +:+ ":" +:+ quoted "pay_xyz" +:+ "," +:+
  quoted "razorpay_order_id" +:+ ":" +:+ quoted "order_abc" +:+ "," +:+
  quoted "razorpay_signature" +:+ ":" +:+ quoted example_signature +:+ "}}".
Proof. by vm_compute. Qed.

Example example_order_text :
  order_text example_order "rzp_test_1" =
  "{" +:+ quoted "amount" +:+ ":5000," +:+ quoted "id" +:+ ":" +:+
  quoted "order_abc" +:+ "," +:+ quoted "key" +:+ ":" +:+
  quoted "rzp_test_1" +:+ "}".
Proof. by vm_compute. Qed.

(** A message with a quote, a line break and an HTML character is
    escaped, and is read back all the same. *)
Example example_escaped_message :
  let newline := String (ascii_of_byte Byte.x0a) "" in
  let backslash := String (ascii_of_byte Byte.x5c) "" in
  let msg := "a<b" +:+ quoted "x" +:+ newline in
  encoded (gin.JString msg) =
    quoted ("a\u003cb" +:+ backslash +:+ quoted ("x" +:+ backslash) +:+ "\n") /\
  json.unquote (bytes_of_string (encoded (gin.JString msg))) =
    Some (bytes_of_string msg).
Proof. by vm_compute. Qed.

(** A byte that is not UTF-8 does not come back: the encoder writes the
    escape of U+FFFD in its place. *)
Example example_invalid_utf8 :
  json.valid [Byte.xff] = false /\
  json.unquote (json.quote [Byte.xff]) = Some [Byte.xef; Byte.xbf; Byte.xbd].
Proof. by vm_compute. Qed.

(** The client of the examples reads the documents the handlers wrote. *)
Example example_read_back :
  read_body (Go.final (PaymentGatewayCallback (callback_state
    ("razorpay_payment_id=pay_xyz&razorpay_order_id=order_abc" +:+
     "&razorpay_signature=" +:+ example_signature)
    None example_env))) =
  Some (payment_body
          {| PaymentID := "pay_xyz"; OrderID := "order_abc";
             Signature := example_signature |}) /\
  read_body (Go.final (createRazorpayOrder (G := gateway_up)
                         (order_state order_env))) =
  Some (gin.JObject [("amount", gin.JNumber 5000);
                     ("id", gin.JString "order_abc");
                     ("key", gin.JString "rzp_test_1")]).
Proof. by vm_compute. Qed.

(** A payment whose identifier is not UTF-8 is verified and answered
    200, and the client reads another identifier than the one that was
    signed: U+FFFD in place of the byte. *)
Example example_read_back_invalid :
  let p := string_of_bytes [Byte.xff] in
  let s := callback_state
    (callback_form p "order_abc" (computedSignature "order_abc" p "s3cr3t"))
    None example_env in
  gin.resp_status (Go.final (PaymentGatewayCallback s)) = 200 /\
  read_body (Go.final (PaymentGatewayCallback s)) =
  Some (payment_body
          {| PaymentID := string_of_bytes [Byte.xef; Byte.xbf; Byte.xbd];
             OrderID := "order_abc";
             Signature := computedSignature "order_abc" p "s3cr3t" |}).
Proof. by vm_compute. Qed.

(** The payload of the order as it is sent to the gateway, the keys of
    the map sorted, and read back. *)
Example example_gateway_payload :
  encoded (gin.H order_data) =
    "{" +:+ quoted "amount" +:+ ":5000," +:+ quoted "currency" +:+ ":" +:+
    quoted "INR" +:+ "," +:+ quoted "payment_capture" +:+ ":1," +:+
    quoted "receipt" +:+ ":" +:+ quoted "receipt#1" +:+ "}" /\
  decode.document (json.encode (gin.H order_data)) = Some (gin.H order_data).
Proof. by vm_compute. Qed.

(** The bodies the engine writes are not documents. *)
Example example_serve_plain :
  serve_plain (request "GET" "/" "") = "404 page not found" /\
  serve_plain (request "OPTIONS" "/create-order" "") = "" /\
  serve_plain (request "POST" "/create-order/" "") = "" /\
  decode.document (bytes_of_string "404 page not found") = None.
Proof. by vm_compute. Qed.
