(* ===== verification/Gateway.v ===== *)
(** * The order on its way to the gateway

    [client.Order.Create] (src/main.go:63) is a call of the client library
    [razorpay-go], which posts the payload to the gateway over HTTP: the
    key and the secret the client was made with go into the header
    [Authorization] by [SetBasicAuth] of [net/http], and the payload goes
    into the body as [json.Marshal] writes it.  This file gives the
    request the handler records ([gin.Outbound]) its form on the wire
    ([request.Post]) and, as the reference, what a server reads from the
    header after RFC 7617 ([request.credentials]).  The theorems: the
    gateway reads the credentials of the environment, provided the key has
    no colon, and the payload of the source. *)

From S2P Require Import Prelude Base64 Gin Json Decode Order.

Module request.

(** [strings.Cut(s, sep)] for a separator of one character: what is
    before its first occurrence and what is after; [None] without one. *)
Fixpoint cut (sep : ascii) (s : string) : option (string * string) :=
  match s with
  | EmptyString => None
  | String c t =>
      if decide (c = sep) then Some (EmptyString, t)
      else '(a, b) ← cut sep t; Some (String c a, b)
  end.

(** [strings.CutPrefix(s, prefix)] *)
Fixpoint cut_prefix (prefix s : string) : option string :=
  match prefix, s with
  | EmptyString, _ => Some s
  | String p prefix, String c s =>
      if decide (p = c) then cut_prefix prefix s else None
  | _, _ => None
  end.

(** Whether a character occurs in a string. *)
Fixpoint occurs (c : ascii) (s : string) : bool :=
  match s with
  | EmptyString => false
  | String d t => bool_decide (d = c) || occurs c t
  end.

(** [net/http]: [func basicAuth(username, password string) string] *)
Definition basicAuth (username password : string) : string :=
  let auth := username +:+ ":" +:+ password in
  base64.EncodeToString (bytes_of_string auth).

(** [func (r *Request) SetBasicAuth(username, password string)]: the
    value it gives the header [Authorization]. *)
Definition SetBasicAuth (username password : string) : string :=
  "Basic " +:+ basicAuth username password.

(** What the client of [razorpay-go] puts on the wire for a request: the
    credentials of the client in the header [Authorization], and the
    payload as [json.Marshal] writes it; [None] when it cannot. *)
Record wire : Type := mkWire {
  Authorization : string;
  Body : option (list byte);
}.

Definition Post (o : gin.Outbound) : wire :=
  {| Authorization := SetBasicAuth (gin.auth_key o) (gin.auth_secret o);
     Body := json.Marshal (gin.H (gin.payload o)) |}.

(** The reference, on the side of the gateway: the credentials of a
    header after RFC 7617, the user up to the first colon. *)
Definition credentials (header : string) : option (string * string) :=
  text ← cut_prefix "Basic " header;
  auth ← base64.DecodeString text;
  cut ":" (string_of_bytes auth).

(** ** Cutting *)

Lemma request_cut_app sep a b :
  occurs sep a = false -> cut sep (a +:+ String sep b) = Some (a, b).
Proof.
  induction a as [|c a IH]; cbn [occurs cut]; rewrite ?string_app_nil_l,
    ?string_app_cons; cbn [cut].
  - intros _. by rewrite decide_True.
  - intros H. apply orb_false_iff in H as [Hc Ha].
    apply bool_decide_eq_false in Hc. rewrite decide_False by done.
    by rewrite IH.
Qed.

Lemma request_cut_prefix_app p s : cut_prefix p (p +:+ s) = Some s.
Proof.
  induction p as [|c p IH]; rewrite ?string_app_nil_l, ?string_app_cons;
    cbn [cut_prefix]; [by destruct s|].
  by rewrite decide_True.
Qed.

(** ** Credentials *)

(** The gateway reads the credentials the client was made with, when the
    key has no colon. *)
Lemma request_credentials username password :
  occurs ":" username = false ->
  credentials (SetBasicAuth username password) = Some (username, password).
Proof.
  intros Hu. unfold credentials, SetBasicAuth, basicAuth.
  rewrite request_cut_prefix_app. cbn [mbind option_bind].
  rewrite base64.base64_DecodeString_EncodeToString. cbn [mbind option_bind].
  rewrite string_of_bytes_of_string. by apply request_cut_app.
Qed.

(** A colon in the key moves the boundary: the header does not tell the
    key [a:b] with secret [c] from the key [a] with secret [b:c]. *)
Lemma request_credentials_ambiguous a b c :
  SetBasicAuth (a +:+ ":" +:+ b) c = SetBasicAuth a (b +:+ ":" +:+ c).
Proof. unfold SetBasicAuth, basicAuth. by rewrite !string_app_assoc. Qed.

End request.

(** ** The order on the wire *)

Section WithGateway.
Context {G : razorpay.Gateway}.

(** C22. What the order handler has sent when it returns, whatever the
    gateway answers: one request more, with the key and the secret of the
    environment joined by a colon and encoded in base64 in the header
    [Authorization], and the payload of the source in the body.  The
    gateway reads the configured key and secret back from the header
    when the key has no colon, and the payload from the body. *)
Theorem order_on_the_wire s :
  let o := order_request s in
  gin.outbound (gin.proc (Go.final (createRazorpayOrder s))) =
    gin.outbound (gin.proc s) ++ [o] /\
  request.Authorization (request.Post o) =
    "Basic " +:+ base64.EncodeToString
      (bytes_of_string (key_id_of s +:+ ":" +:+ key_secret_of s)) /\
  (request.occurs ":" (key_id_of s) = false ->
   request.credentials (request.Authorization (request.Post o)) =
     Some (key_id_of s, key_secret_of s)) /\
  request.Body (request.Post o) ≫= decode.document = Some (gin.H order_data).
Proof.
  cbn zeta. split; [by rewrite order_final|]. split; [done|]. split.
  - apply request.request_credentials.
  - cbn [request.Post request.Body gin.payload order_request].
    rewrite json.json_Marshal_encode. cbn [mbind option_bind].
    by vm_compute.
Qed.

End WithGateway.

(** ** Examples *)

(** The header of the examples, and the one of a process whose
    environment has neither variable: the handler does not check that they
    are set, and calls the gateway with empty credentials. *)
Example example_authorization :
  request.Authorization (request.Post (order_request (order_state order_env))) =
    "Basic cnpwX3Rlc3RfMTpzM2NyM3Q=" /\
  request.Authorization (request.Post (order_request (order_state ∅))) =
    "Basic Og==" /\
  request.credentials "Basic Og==" = Some ("", "").
Proof. by vm_compute. Qed.

(** A key with a colon is read as another key. *)
Example example_colon_in_key :
  request.credentials (request.SetBasicAuth "rzp:test" "s3cr3t") =
  Some ("rzp", "test:s3cr3t").
Proof. by vm_compute. Qed.
